(** * RedbrickStreet: the requirements validator of config/validate_requirements.py

    A shallow embedding of the validator that checks [characters.json] against
    [houses.json]: decoded JSON values, the issue sink, the scan for disallowed
    quotes, the validators of the two files, the street-geometry walk, the
    relationship indexes, the cross-file checks, the report order and the
    control flow of [main].  Python values are modelled as the interpreter has
    them: dictionaries keep insertion order (association lists), sets of
    integers are duplicate-free insertion sequences whose iteration order is a
    parameter of the runtime, floats are binary64, strings are their UTF-8 bytes
    (byte order and code-point order agree), and an uncaught exception is an
    explicit [Raise]. *)

From Stdlib Require Import ZArith List String Ascii Bool Lia Permutation Sorted.
From Stdlib Require Import Floats DecimalString DecimalZ DecimalPos Relations.
Import ListNotations.
Open Scope string_scope.
Open Scope Z_scope.
Open Scope list_scope.
Set Warnings "-register-all".

(* ------------------------------------------------------------------------- *)
(** ** Exceptions and fallible results *)

(** The exceptions the validation phase can leave uncaught.  [FuelExhausted] is
    not a Python exception: it marks a breadth-first loop of the model stopped
    by its step bound, and [bfs_terminates] shows the bound is never reached. *)
Inductive PyExn : Type :=
| AttributeError
| TypeError
| KeyError
| OverflowError
| OSError
| FuelExhausted.

Inductive result (A : Type) : Type :=
| Ok (a : A)
| Raise (e : PyExn).
Arguments Ok {A} a.
Arguments Raise {A} e.

Definition bind {A B : Type} (m : result A) (k : A -> result B) : result B :=
  match m with
  | Ok a => k a
  | Raise e => Raise e
  end.

Notation "x <- m ;; k" := (bind m (fun x => k))
  (at level 61, m at next level, right associativity).
Notation "' p <- m ;; k" := (bind m (fun p => k))
  (at level 61, p pattern, m at next level, right associativity).

(** A [for] loop whose body may raise: the state is threaded left to right. *)
Fixpoint for_each {A S : Type} (body : S -> A -> result S) (xs : list A) (s : S)
  : result S :=
  match xs with
  | [] => Ok s
  | x :: rest => s' <- body s x ;; for_each body rest s'
  end.

(* ------------------------------------------------------------------------- *)
(** ** Decoded JSON values *)

(** What [json.loads] returns: [None], [bool], [int], [float], [str], [list]
    and [dict] with string keys in insertion order. *)
Inductive PyVal : Type :=
| PNone
| PBool (b : bool)
| PInt (z : Z)
| PFloat (f : float)
| PStr (s : string)
| PList (l : list PyVal)
| PDict (d : list (string * PyVal)).

Definition pydict : Type := list (string * PyVal).

(** [isinstance(x, int) and not isinstance(x, bool)] *)
Definition is_int (x : PyVal) : bool :=
  match x with
  | PInt _ => true
  | _ => false
  end.

(** [isinstance(x, (int, float)) and not isinstance(x, bool)] *)
Definition is_number (x : PyVal) : bool :=
  match x with
  | PInt _ | PFloat _ => true
  | _ => false
  end.

(** [is_int(v) and v < bound] *)
Definition int_below (v : PyVal) (bound : Z) : bool :=
  match v with
  | PInt n => n <? bound
  | _ => false
  end.

(** [is_int(v) and v == n] *)
Definition is_int_eq (v : PyVal) (n : Z) : bool :=
  match v with
  | PInt m => m =? n
  | _ => false
  end.

(** [[o for o in l if is_int(o)]] *)
Definition int_items (l : list PyVal) : list Z :=
  flat_map (fun o => match o with PInt n => [n] | _ => [] end) l.

(** The keys of a decoded dictionary are distinct ([json.loads] keeps the last
    value of a repeated key), so a lookup meets at most one entry. *)
Fixpoint dict_lookup (d : pydict) (k : string) : option PyVal :=
  match d with
  | [] => None
  | (k', v) :: rest => if String.eqb k k' then Some v else dict_lookup rest k
  end.

(** [d.get(k)] *)
Definition dict_get (d : pydict) (k : string) : PyVal :=
  match dict_lookup d k with
  | Some v => v
  | None => PNone
  end.

(** [d.get(k, default)] *)
Definition dict_get_or (d : pydict) (k : string) (default : PyVal) : PyVal :=
  match dict_lookup d k with
  | Some v => v
  | None => default
  end.

(** [x.get(k)] on a value that need not be a dictionary. *)
Definition attr_get (x : PyVal) (k : string) : result PyVal :=
  match x with
  | PDict d => Ok (dict_get d k)
  | _ => Raise AttributeError
  end.

(** Dictionaries keyed by integers ([chars_by_id], [houses_by_number],
    [spouse_of], ...), in insertion order. *)
Definition idict (V : Type) : Type := list (Z * V).

Fixpoint idict_get {V : Type} (d : idict V) (k : Z) : option V :=
  match d with
  | [] => None
  | (k', v) :: rest => if Z.eqb k k' then Some v else idict_get rest k
  end.

Definition idict_has {V : Type} (d : idict V) (k : Z) : bool :=
  match idict_get d k with
  | Some _ => true
  | None => false
  end.

(** [d[k] = v]: an existing key keeps its position, a new key goes last. *)
Fixpoint idict_set {V : Type} (d : idict V) (k : Z) (v : V) : idict V :=
  match d with
  | [] => [(k, v)]
  | (k', v') :: rest =>
      if Z.eqb k k' then (k', v) :: rest else (k', v') :: idict_set rest k v
  end.

(** [d[k]] on a plain dictionary. *)
Definition idict_item {V : Type} (d : idict V) (k : Z) : result V :=
  match idict_get d k with
  | Some v => Ok v
  | None => Raise KeyError
  end.

(** Sets of integers, by insertion sequence. *)
Definition pyset : Type := list Z.

Definition set_mem (x : Z) (s : pyset) : bool := existsb (Z.eqb x) s.

Definition set_add (x : Z) (s : pyset) : pyset :=
  if set_mem x s then s else s ++ [x].

(** [set(xs)] *)
Definition set_of_list (xs : list Z) : pyset :=
  fold_left (fun s x => set_add x s) xs [].

(** [d.get(k, set())] and [defaultdict(set)[k].add(x)] *)
Definition dd_get (d : idict pyset) (k : Z) : pyset :=
  match idict_get d k with
  | Some s => s
  | None => []
  end.

Definition dd_add (d : idict pyset) (k x : Z) : idict pyset :=
  idict_set d k (set_add x (dd_get d k)).

(** [defaultdict(list)[k].append(x)] *)
Definition dl_get (d : idict (list Z)) (k : Z) : list Z :=
  match idict_get d k with
  | Some l => l
  | None => []
  end.

Definition dl_append (d : idict (list Z)) (k x : Z) : idict (list Z) :=
  idict_set d k (dl_get d k ++ [x]).

(* ------------------------------------------------------------------------- *)
(** ** sorted() *)

(** [sorted] is stable: an element goes before the first one it is not
    greater than. *)
Fixpoint insert_sorted {A : Type} (leb : A -> A -> bool) (x : A) (l : list A)
  : list A :=
  match l with
  | [] => [x]
  | y :: rest => if leb x y then x :: y :: rest else y :: insert_sorted leb x rest
  end.

Fixpoint py_sorted {A : Type} (leb : A -> A -> bool) (l : list A) : list A :=
  match l with
  | [] => []
  | x :: rest => insert_sorted leb x (py_sorted leb rest)
  end.

Definition sorted_ints (l : list Z) : list Z := py_sorted Z.leb l.

(* ------------------------------------------------------------------------- *)
(** ** Text *)

(** [str(n)] for an integer. *)
Definition str_Z (z : Z) : string := NilZero.string_of_int (Z.to_int z).

(** An f-string: its pieces, concatenated. *)
Definition fmt (parts : list string) : string := String.concat "" parts.

(** [sep.join(parts)] *)
Definition join (sep : string) (parts : list string) : string :=
  String.concat sep parts.

(** [repr] of a list, given the [repr] of its elements. *)
Definition repr_list {A : Type} (r : A -> string) (l : list A) : string :=
  fmt ["["; join ", " (map r l); "]"].

Definition repr_ints (l : list Z) : string := repr_list str_Z l.

(** A UTF-8 continuation byte, 0x80 to 0xBF. *)
Definition is_continuation (c : ascii) : bool :=
  let n := N_of_ascii c in (N.leb 128 n && N.leb n 191)%bool.

(** The characters of a text: each lead byte with its continuation bytes.
    The first component collects continuation bytes that precede any lead
    byte; decoded text has none. *)
Fixpoint utf8_split (s : string) : string * list string :=
  match s with
  | EmptyString => (EmptyString, [])
  | String c rest =>
      let '(k, cs) := utf8_split rest in
      if is_continuation c then (String c k, cs) else (EmptyString, String c k :: cs)
  end.

Definition utf8_chars (s : string) : list string := snd (utf8_split s).

Definition bytes (l : list N) : string :=
  string_of_list_ascii (map ascii_of_N l).

Definition newline : string := bytes [10%N].
Definition double_quote : string := bytes [34%N].

(** The characters [str.strip] removes: U+0009..U+000D, U+001C..U+0020, U+0085,
    U+00A0, U+1680, U+2000..U+200A, U+2028, U+2029, U+202F, U+205F, U+3000. *)
Definition whitespace_chars : list string :=
  map bytes
    [ [9]; [10]; [11]; [12]; [13]; [28]; [29]; [30]; [31]; [32];
      [194; 133]; [194; 160]; [225; 154; 128];
      [226; 128; 128]; [226; 128; 129]; [226; 128; 130]; [226; 128; 131];
      [226; 128; 132]; [226; 128; 133]; [226; 128; 134]; [226; 128; 135];
      [226; 128; 136]; [226; 128; 137]; [226; 128; 138];
      [226; 128; 168]; [226; 128; 169]; [226; 128; 175]; [226; 129; 159];
      [227; 128; 128] ]%N.

Definition is_whitespace (ch : string) : bool :=
  existsb (String.eqb ch) whitespace_chars.

Fixpoint drop_while {A : Type} (p : A -> bool) (l : list A) : list A :=
  match l with
  | [] => []
  | x :: rest => if p x then drop_while p rest else l
  end.

(** [s.strip()] *)
Definition str_strip (s : string) : string :=
  let chars := drop_while is_whitespace (utf8_chars s) in
  String.concat "" (rev (drop_while is_whitespace (rev chars))).

(** [isinstance(v, str) and v.strip()]: the stripped text when it is not empty. *)
Definition nonblank_str (v : PyVal) : option string :=
  match v with
  | PStr s => if String.eqb (str_strip s) "" then None else Some (str_strip s)
  | _ => None
  end.

(* ------------------------------------------------------------------------- *)
(** ** The runtime *)

Inductive JsonOutcome : Type :=
| JsonValue (v : PyVal)
| JSONDecodeError (lineno colno : Z) (msg : string).

(** What the interpreter and its library decide and the validator only uses:
    [repr] of a string, [str] of a float, [==] on decoded values,
    [str.casefold], the order in which a set of integers is iterated (a
    function of its insertion sequence) and [json.loads]. *)
Class PyRuntime : Type := {
  repr_str : string -> string;
  float_str : float -> string;
  py_eq : PyVal -> PyVal -> bool;
  casefold : string -> string;
  set_iter : pyset -> list Z;
  set_iter_perm : forall s, Permutation (set_iter s) s;
  json_loads : string -> JsonOutcome
}.

(** What changes from one process to the next: the hashes of strings are
    salted anew at every start of the interpreter, so the order in which a set
    of strings is iterated is fixed within a run only.  (The hashes of
    integers are not salted: [set_iter] belongs to [PyRuntime].) *)
Class HashSeed : Type := {
  str_set_iter : list string -> list string;
  str_set_iter_perm : forall s, Permutation (str_set_iter s) s
}.

(** [repr(v)] *)
Fixpoint py_repr `{PyRuntime} (v : PyVal) : string :=
  match v with
  | PNone => "None"
  | PBool true => "True"
  | PBool false => "False"
  | PInt z => str_Z z
  | PFloat f => float_str f
  | PStr s => repr_str s
  | PList l => fmt ["["; join ", " (map py_repr l); "]"]
  | PDict d =>
      fmt ["{";
           join ", " (map (fun kv => fmt [repr_str (fst kv); ": "; py_repr (snd kv)]) d);
           "}"]
  end.

(* ------------------------------------------------------------------------- *)
(** ** Issues *)

Inductive Level : Type := ERROR | WARN.

Record Issue : Type := mkIssue {
  level : Level;
  requirement : string;
  message : string
}.

Definition level_str (l : Level) : string :=
  match l with
  | ERROR => "ERROR"
  | WARN => "WARN"
  end.

(** The line [print] writes for an issue. *)
Definition issue_line (i : Issue) : string :=
  fmt [level_str (level i); " [Req "; requirement i; "] "; message i].

(** [0 if i.level == "ERROR" else 1] *)
Definition level_rank (i : Issue) : Z :=
  match level i with
  | ERROR => 0
  | WARN => 1
  end.

(** [sort_key]: the tuple [(level_rank, requirement, message)]. *)
Definition sort_key (i : Issue) : Z * string * string :=
  (level_rank i, requirement i, message i).

(** Tuple comparison, component by component. *)
Definition key_compare (a b : Z * string * string) : comparison :=
  let '(ra, qa, ma) := a in
  let '(rb, qb, mb) := b in
  match Z.compare ra rb with
  | Eq => match String.compare qa qb with
          | Eq => String.compare ma mb
          | c => c
          end
  | c => c
  end.

Definition key_leb (a b : Issue) : bool :=
  match key_compare (sort_key a) (sort_key b) with
  | Gt => false
  | _ => true
  end.

(** [sorted(all_issues, key=sort_key)] *)
Definition sort_issues (l : list Issue) : list Issue := py_sorted key_leb l.

(* ------------------------------------------------------------------------- *)
(** ** Floats *)

(** [EPS = 1e-9], the binary64 value nearest to it. *)
Definition EPS : float := 0x1.12e0be826d695p-30%float.

(** [abs(a - b) <= eps] *)
Definition approx_equal (a b : float) : bool :=
  PrimFloat.leb (PrimFloat.abs (PrimFloat.sub a b)) EPS.

(** [float(n)] for an integer: the nearest binary64 value, [OverflowError]
    when that is not finite. *)
Definition float_of_Z (z : Z) : result float :=
  match binary_normalize 53 1024 z 0 false with
  | S754_infinity _ | S754_nan => Raise OverflowError
  | sf => Ok (SF2Prim sf)
  end.

(** [float(x)] *)
Definition py_float (x : PyVal) : result float :=
  match x with
  | PFloat f => Ok f
  | PInt z => float_of_Z z
  | PBool b => Ok (if b then 1%float else 0%float)
  | _ => Raise TypeError
  end.

(* ------------------------------------------------------------------------- *)
(** ** Patterns *)

Definition is_ascii_letter (ch : string) : bool :=
  match ch with
  | String c EmptyString =>
      let n := N_of_ascii c in
      ((N.leb 65 n && N.leb n 90) || (N.leb 97 n && N.leb n 122))%bool
  | _ => false
  end.

(** [re.match] of [^C+$] for a class [C] of characters that leaves out the
    newline: one or more characters of the class up to the end of the text,
    or up to a newline that ends it. *)
Definition match_class_plus (cls : string -> bool) (s : string) : bool :=
  let chars := utf8_chars s in
  let body :=
    match rev chars with
    | last :: before => if String.eqb last newline then rev before else chars
    | [] => chars
    end in
  match body with
  | [] => false
  | _ => forallb cls body
  end.

(** [NAME_RE = re.compile(r"^[A-Za-z]+$")] *)
Definition NAME_RE_match (s : string) : bool := match_class_plus is_ascii_letter s.

(** [RELIGION_RE = re.compile(r"^\S+$")] *)
Definition RELIGION_RE_match (s : string) : bool :=
  match_class_plus (fun ch => negb (is_whitespace ch)) s.

(* ------------------------------------------------------------------------- *)
(** ** _validate_bounds_for_house *)

(** [k in d] *)
Definition dict_has (d : pydict) (k : string) : bool :=
  match dict_lookup d k with
  | Some _ => true
  | None => false
  end.

(** [str(v)]: a string prints as itself. *)
Definition py_str `{PyRuntime} (v : PyVal) : string :=
  match v with
  | PStr s => s
  | _ => py_repr v
  end.

Definition bounds_issue (requirement : string) (hn : Z) (detail : list string) : Issue :=
  mkIssue ERROR requirement (fmt (["houses.json: house "; str_Z hn; " "] ++ detail)).

Definition side_x_issue `{PyRuntime} (requirement parity : string) (hn : Z)
  (field expected : string) (got : PyVal) : Issue :=
  mkIssue ERROR requirement
    (fmt ["houses.json: "; parity; " house "; str_Z hn; " must have bounds."; field; "=";
          expected; ", got "; py_repr got; "."]).

(** Req 2.3.5.* + 2.3.6.* (per-house parts) *)
Definition _validate_bounds_for_house `{PyRuntime} (hn : Z) (h : pydict)
  : result (list Issue) :=
  match dict_get h "bounds" with
  | PDict b =>
      let missing_keys := filter (fun k => negb (dict_has b k)) ["x"; "z"; "xsize"; "zsize"] in
      match missing_keys with
      | _ :: _ =>
          Ok [bounds_issue "2.3.5.2" hn
                ["bounds missing key(s): "; repr_list repr_str missing_keys; "."]]
      | [] =>
          let x := dict_get b "x" in
          let z := dict_get b "z" in
          let xsize := dict_get b "xsize" in
          let zsize := dict_get b "zsize" in
          if (negb (is_number x) || negb (is_number z) || negb (is_number xsize)
              || negb (is_int zsize))%bool then
            Ok [bounds_issue "2.3.5.2" hn
                  ["bounds must have numeric x/z/xsize and integer zsize; got ";
                   "x="; py_repr x; ", z="; py_repr z; ", xsize="; py_repr xsize;
                   ", zsize="; py_repr zsize; "."]]
          else
            x_f <- py_float x ;;
            z_f <- py_float z ;;
            xsize_f <- py_float xsize ;;
            let zsize_i := match zsize with PInt n => n | _ => 0 end in
            let issues : list Issue := [] in
            (* Domain constraints *)
            let issues :=
              if (PrimFloat.ltb x_f (PrimFloat.opp EPS)
                  || PrimFloat.ltb (PrimFloat.add 70%float EPS) x_f)%bool
              then issues ++ [bounds_issue "2.3.5.2.1" hn
                                ["bounds.x="; py_str x; " out of range [0,70]."]]
              else issues in
            let issues :=
              if (PrimFloat.ltb z_f (PrimFloat.opp EPS)
                  || PrimFloat.ltb (PrimFloat.add 200%float EPS) z_f)%bool
              then issues ++ [bounds_issue "2.3.5.2.2" hn
                                ["bounds.z="; py_str z; " out of range [0,200]."]]
              else issues in
            (* Size constraints *)
            let issues :=
              if approx_equal xsize_f 30%float then issues
              else issues ++ [bounds_issue "2.3.5.2.3" hn
                                ["bounds.xsize must be 30, got "; py_repr xsize; "."]] in
            let issues :=
              if ((10 <=? zsize_i) && (zsize_i <=? 16))%bool then issues
              else issues ++ [bounds_issue "2.3.5.2.3" hn
                                ["bounds.zsize must be integer in [10,16], got ";
                                 py_repr zsize; "."]] in
            (* Extents *)
            let issues :=
              if PrimFloat.ltb (PrimFloat.add 70%float EPS) (PrimFloat.add x_f xsize_f)
              then issues ++ [bounds_issue "2.3.5.2.4" hn
                                ["bounds.x + xsize = ";
                                 float_str (PrimFloat.add x_f xsize_f); " exceeds 70."]]
              else issues in
            zsize_f <- float_of_Z zsize_i ;;
            let issues :=
              if PrimFloat.ltb (PrimFloat.add 200%float EPS) (PrimFloat.add z_f zsize_f)
              then issues ++ [bounds_issue "2.3.5.2.5" hn
                                ["bounds.z + zsize = ";
                                 float_str (PrimFloat.add z_f zsize_f); " exceeds 200."]]
              else issues in
            (* Side constraints (even vs odd) *)
            let '(requirement, parity, x_expected, x_text) :=
              if Z.even hn then ("2.3.6.3.1", "even", 0%float, "0")
              else ("2.3.6.3.2", "odd", 40%float, "40") in
            let issues :=
              if approx_equal x_f x_expected then issues
              else issues ++ [side_x_issue requirement parity hn "x" x_text x] in
            let issues :=
              if approx_equal xsize_f 30%float then issues
              else issues ++ [side_x_issue requirement parity hn "xsize" "30" xsize] in
            Ok issues
      end
  | _ => Ok [bounds_issue "2.3.5.1" hn ["missing/invalid bounds object."]]
  end.

(* ------------------------------------------------------------------------- *)
(** ** validate_street_geometry *)

Definition houses_index : Type := idict pydict.

(** [list(range(0, 30, 2))] and [list(range(1, 30, 2))] *)
Definition even_expected : list Z := map (fun k => 2 * Z.of_nat k) (seq 0 15).
Definition odd_expected : list Z := map (fun k => 2 * Z.of_nat k + 1) (seq 0 15).

Fixpoint list_Z_eqb (a b : list Z) : bool :=
  match a, b with
  | [], [] => true
  | x :: a', y :: b' => (Z.eqb x y && list_Z_eqb a' b')%bool
  | _, _ => false
  end.

Definition gap_issue `{PyRuntime} (side_label : string) (hn : Z) (z_f expected_z : float)
  : Issue :=
  mkIssue ERROR "2.3.6.4.3"
    (fmt [side_label; ": house "; str_Z hn; " bounds.z="; float_str z_f;
          " but expected "; float_str expected_z; " (gap/overlap)."]).

Definition sum_issue `{PyRuntime} (side_label : string) (expected_z : float) : Issue :=
  mkIssue ERROR "2.3.6.5"
    (fmt [side_label; ": z-lengths sum/end at "; float_str expected_z; ", expected 200."]).

(** The state of [side_check]'s loop: [expected_z], [zsizes] and the issues of
    the enclosing function. *)
Definition side_state : Type := (float * list Z * list Issue)%type.

(** One iteration of the loop of [side_check]. *)
Definition side_step `{PyRuntime} (houses_by_number : houses_index) (side_label : string)
  (st : side_state) (hn : Z) : result side_state :=
  let '(expected_z, zsizes, issues) := st in
  let h := match idict_get houses_by_number hn with Some h => h | None => [] end in
  match dict_get h "bounds" with
  | PDict b =>
      let z := dict_get b "z" in
      let zsize := dict_get b "zsize" in
      if (negb (is_number z) || negb (is_int zsize))%bool then Ok st
      else
        z_f <- py_float z ;;
        let zsize_i := match zsize with PInt n => n | _ => 0 end in
        let '(issues, expected_z) :=
          if approx_equal z_f expected_z then (issues, expected_z)
          else (issues ++ [gap_issue side_label hn z_f expected_z], z_f) in
        d <- float_of_Z zsize_i ;;
        Ok (PrimFloat.add expected_z d, zsizes ++ [zsize_i], issues)
  | _ => Ok st
  end.

(** [side_check]: returns [zsizes] and the enclosing function's issues. *)
Definition side_check `{PyRuntime} (houses_by_number : houses_index)
  (side_hns : list Z) (side_label : string) (issues : list Issue)
  : result (list Z * list Issue) :=
  '(expected_z, zsizes, issues) <-
     for_each (side_step houses_by_number side_label) side_hns (0%float, [], issues) ;;
  let issues :=
    if approx_equal expected_z 200%float then issues
    else issues ++ [sum_issue side_label expected_z] in
  Ok (zsizes, issues).

Definition side_missing (houses_by_number : houses_index) (expected : list Z)
  (req side_name : string) (issues : list Issue) : list Issue :=
  let present := filter (idict_has houses_by_number) expected in
  if list_Z_eqb present expected then issues
  else
    let missing := filter (fun hn => negb (idict_has houses_by_number hn)) expected in
    match missing with
    | [] => issues
    | _ => issues ++ [mkIssue ERROR req
                        (fmt [side_name; " side missing houseNumber(s): ";
                              repr_ints missing; "."])]
    end.

Definition side_walk `{PyRuntime} (houses_by_number : houses_index) (expected : list Z)
  (side_label side_name : string) (issues : list Issue) : result (list Issue) :=
  if forallb (idict_has houses_by_number) expected then
    '(zsizes, issues) <- side_check houses_by_number expected side_label issues ;;
    match zsizes with
    | first :: _ =>
        if Nat.eqb (List.length (set_of_list zsizes)) 1 then
          Ok (issues ++ [mkIssue WARN "3.4"
                           (fmt [side_name; " side: all house zsize values are identical (";
                                 str_Z first;
                                 "). Requirement 3.4 suggests some variance."])])
        else Ok issues
    | [] => Ok issues
    end
  else Ok issues.

Definition validate_street_geometry `{PyRuntime} (houses_by_number : houses_index)
  : result (list Issue) :=
  let issues := side_missing houses_by_number even_expected "2.3.6.4.1" "Even" [] in
  let issues := side_missing houses_by_number odd_expected "2.3.6.4.2" "Odd" issues in
  issues <- side_walk houses_by_number even_expected "Even side (2.3.6.4.1)" "Even" issues ;;
  side_walk houses_by_number odd_expected "Odd side (2.3.6.4.2)" "Odd" issues.

(** *** The walk as the specification words it

    The houses of a side with usable bounds, in the order given, each with its
    [z] and its [zsize] as floats. *)
Fixpoint side_spans (houses_by_number : houses_index) (side_hns : list Z)
  : result (list (Z * float * float)) :=
  match side_hns with
  | [] => Ok []
  | hn :: rest =>
      let h := match idict_get houses_by_number hn with Some h => h | None => [] end in
      match dict_get h "bounds" with
      | PDict b =>
          match dict_get b "z", dict_get b "zsize" with
          | PInt z, PInt n =>
              z_f <- float_of_Z z ;; d <- float_of_Z n ;;
              spans <- side_spans houses_by_number rest ;;
              Ok ((hn, z_f, d) :: spans)
          | PFloat z_f, PInt n =>
              d <- float_of_Z n ;;
              spans <- side_spans houses_by_number rest ;;
              Ok ((hn, z_f, d) :: spans)
          | _, _ => side_spans houses_by_number rest
          end
      | _ => side_spans houses_by_number rest
      end
  end.

(** The running expected-z after the houses of [spans], started at [running]:
    a house whose [z] is off the running value resynchronizes it to [z] before
    its [zsize] is added. *)
Fixpoint walk_running (running : float) (spans : list (Z * float * float)) : float :=
  match spans with
  | [] => running
  | (_, z, d) :: rest =>
      walk_running (PrimFloat.add (if approx_equal z running then running else z) d) rest
  end.

(** The gap/overlap errors of the walk: one for each house whose [z] is off the
    running value, naming the expected and the actual value. *)
Fixpoint walk_gaps `{PyRuntime} (side_label : string) (running : float)
  (spans : list (Z * float * float)) : list Issue :=
  match spans with
  | [] => []
  | (hn, z, d) :: rest =>
      (if approx_equal z running then [] else [gap_issue side_label hn z running])
      ++ walk_gaps side_label
           (PrimFloat.add (if approx_equal z running then running else z) d) rest
  end.

(* ------------------------------------------------------------------------- *)
(** ** validate_houses *)

(** The state of the loop over the entries: [by_number], [seen_numbers] and
    [issues]. *)
Definition houses_state : Type := (houses_index * pyset * list Issue)%type.

Definition house_issue (level : Level) (requirement : string) (hn : Z)
  (detail : list string) : Issue :=
  mkIssue level requirement (fmt (["houses.json: house "; str_Z hn; " "] ++ detail)).

(** The surname rules of a house: house 7 has none and holds the player only. *)
Definition house_surname_issues `{PyRuntime} (hn : Z) (h : pydict) (occupants : list PyVal)
  (issues : list Issue) : list Issue :=
  if hn =? 7 then
    let issues :=
      if dict_has h "surname"
      then issues ++ [mkIssue ERROR "2.3.2.1" "houses.json: house 7 must not define 'surname'."]
      else issues in
    if py_eq (PList occupants) (PList [PInt 0]) then issues
    else issues ++ [mkIssue ERROR "2.4"
                      (fmt ["houses.json: house 7 occupants must be [0], got ";
                            py_repr (PList occupants); "."])]
  else
    let surname := dict_get h "surname" in
    match nonblank_str surname with
    | None => issues ++ [house_issue ERROR "2.3.2" hn ["missing/invalid surname."]]
    | Some stripped =>
        if NAME_RE_match stripped then issues
        else issues ++ [house_issue WARN "2.3.2" hn
                          ["surname "; py_repr surname; " contains non A-Za-z characters."]]
    end.

(** One iteration of the loop over [enumerate(houses)]. *)
Definition validate_house_entry `{PyRuntime} (st : houses_state) (entry : nat * PyVal)
  : result houses_state :=
  let '(by_number, seen_numbers, issues) := st in
  let '(idx, h) := entry in
  match h with
  | PDict h =>
      match dict_get h "houseNumber" with
      | PInt hn =>
          let issues :=
            if ((hn <? 0) || (29 <? hn))%bool
            then issues ++ [mkIssue ERROR "2.3.1"
                              (fmt ["houses.json: houseNumber "; str_Z hn;
                                    " out of range 0..29."])]
            else issues in
          if set_mem hn seen_numbers then
            Ok (by_number, seen_numbers,
                issues ++ [mkIssue ERROR "2.3.1"
                             (fmt ["houses.json: duplicate houseNumber "; str_Z hn; "."])])
          else
            let seen_numbers := set_add hn seen_numbers in
            match dict_get h "occupants" with
            | PList ((_ :: _) as occupants) =>
                let count := Z.of_nat (List.length occupants) in
                let issues :=
                  if ((1 <=? count) && (count <=? 6))%bool then issues
                  else issues ++ [house_issue ERROR "2.3.4" hn
                                    ["occupants count "; str_Z count; " not in [1, 6]."]] in
                let issues :=
                  fold_left
                    (fun issues occ =>
                       if is_int occ then issues
                       else issues ++ [house_issue ERROR "2.3.3" hn
                                         ["has non-integer occupant id: "; py_repr occ; "."]])
                    occupants issues in
                let issues := house_surname_issues hn h occupants issues in
                bounds_issues <- _validate_bounds_for_house hn h ;;
                Ok (idict_set by_number hn h, seen_numbers, issues ++ bounds_issues)
            | _ =>
                Ok (by_number, seen_numbers,
                    issues ++ [house_issue ERROR "2.3.3/2.3.4" hn
                                 ["missing/invalid occupants list."]])
            end
      | _ =>
          Ok (by_number, seen_numbers,
              issues ++ [mkIssue ERROR "2.3.1"
                           (fmt ["houses.json: entry index "; str_Z (Z.of_nat idx);
                                 " missing/invalid houseNumber."])])
      end
  | _ =>
      Ok (by_number, seen_numbers,
          issues ++ [mkIssue ERROR "2.3"
                       (fmt ["houses.json: entry index "; str_Z (Z.of_nat idx);
                             " is not an object."])])
  end.

(** [enumerate(l)] *)
Definition enumerate {A : Type} (l : list A) : list (nat * A) :=
  combine (seq 0 (List.length l)) l.

(** [Counter(l).items()]: the count of every text, in the order of first
    occurrence. *)
Fixpoint count_up (counts : list (string * Z)) (s : string) : list (string * Z) :=
  match counts with
  | [] => [(s, 1)]
  | (k, n) :: rest =>
      if String.eqb s k then (k, n + 1) :: rest else (k, n) :: count_up rest s
  end.

Definition Counter (l : list string) : list (string * Z) := fold_left count_up l [].

(** The stripped surnames of the houses other than house 7. *)
Definition house_surnames (by_number : houses_index) : list string :=
  flat_map
    (fun entry : Z * pydict =>
       let '(hn, h) := entry in
       if hn =? 7 then []
       else match nonblank_str (dict_get h "surname") with
            | Some s => [s]
            | None => []
            end)
    by_number.

Definition validate_houses `{PyRuntime} (houses : PyVal)
  : result (houses_index * list Issue) :=
  match houses with
  | PList houses =>
      let issues : list Issue := [] in
      (* Must be 30 houses *)
      let issues :=
        if Nat.eqb (List.length houses) 30 then issues
        else issues ++ [mkIssue ERROR "2.3"
                          (fmt ["houses.json: expected 30 houses, found ";
                                str_Z (Z.of_nat (List.length houses)); "."])] in
      '(by_number, seen_numbers, issues) <-
         for_each validate_house_entry (enumerate houses) ([], [], issues) ;;
      (* Ensure all 0..29 present *)
      let missing :=
        filter (fun n => negb (set_mem n seen_numbers)) (map Z.of_nat (seq 0 30)) in
      let issues :=
        match missing with
        | [] => issues
        | _ => issues ++ [mkIssue ERROR "2.3.1"
                            (fmt ["houses.json: missing houseNumber(s): ";
                                  repr_ints missing; "."])]
        end in
      (* house surnames should be unique across houses except house 7 *)
      let dup := filter (fun sc : string * Z => 1 <? snd sc)
                   (Counter (house_surnames by_number)) in
      let issues :=
        match dup with
        | [] => issues
        | _ => issues ++ [mkIssue ERROR "2.5"
                            (fmt ["houses.json: duplicate house surnames detected: ";
                                  py_repr (PDict (map (fun sc : string * Z =>
                                                         (fst sc, PInt (snd sc))) dup));
                                  "."])]
        end in
      geometry_issues <- validate_street_geometry by_number ;;
      Ok (by_number, issues ++ geometry_issues)
  | _ =>
      Ok ([], [mkIssue ERROR "2.3" "houses.json: expected a top-level JSON array."])
  end.

(* ------------------------------------------------------------------------- *)
(** ** validate_characters *)

Definition chars_index : Type := idict pydict.

(** [ACCENT_ENUM], a set of strings. *)
Definition ACCENT_ENUM : list string :=
  ["Canadian"; "SouthAsian"; "Chinese"; "African"; "MiddleEastern"].

(** [v in s] for a set [s] of strings: hashing a list or a dictionary raises. *)
Definition in_str_set (v : PyVal) (s : list string) : result bool :=
  match v with
  | PStr x => Ok (existsb (String.eqb x) s)
  | PList _ | PDict _ => Raise TypeError
  | _ => Ok false
  end.

(** [g in {"M", "F"}] *)
Definition in_MF (g : PyVal) : result bool := in_str_set g ["M"; "F"].

(** [sorted(s)] for a set [s] of strings. *)
Definition sorted_strs `{HashSeed} (s : list string) : list string :=
  py_sorted String.leb (str_set_iter s).

(** [set(l)] for strings, and its size. *)
Definition str_set_of_list (l : list string) : list string :=
  fold_left (fun s x => if existsb (String.eqb x) s then s else s ++ [x]) l [].

(** [s.strip().casefold()] *)
Definition normalize_case `{PyRuntime} (s : string) : string := casefold (str_strip s).

(** [isinstance(v, list) and len(v) == n and all(isinstance(t, str) and
    t.strip() for t in v)]: the texts of such a list. *)
Definition nonblank_strs (v : PyVal) (n : nat) : option (list string) :=
  match v with
  | PList l =>
      if (Nat.eqb (List.length l) n
          && forallb (fun t => match nonblank_str t with Some _ => true | None => false end) l)%bool
      then Some (flat_map (fun t => match t with PStr s => [s] | _ => [] end) l)
      else None
  | _ => None
  end.

(** [is_int(v) and v >= 0] *)
Definition is_count (v : PyVal) : bool :=
  match v with
  | PInt n => 0 <=? n
  | _ => false
  end.

Fixpoint sdict_lookup (d : list (string * Z)) (k : string) : option Z :=
  match d with
  | [] => None
  | (k', v) :: rest => if String.eqb k k' then Some v else sdict_lookup rest k
  end.

Definition npc_issue (level : Level) (requirement : string) (cid : Z)
  (detail : list string) : Issue :=
  mkIssue level requirement (fmt (["NPC id="; str_Z cid; ": "] ++ detail)).

(** The state of the loop over the entries: [by_id], [first_names_ci],
    [handles_ci] and [issues]. *)
Definition chars_state : Type :=
  (chars_index * list (string * Z) * list (string * Z) * list Issue)%type.

(** A list of three texts, [personalityTraits] or [interests]. *)
Definition triple_issues `{PyRuntime} (requirement field : string) (cid : Z) (v : PyVal)
  (issues : list Issue) : list Issue :=
  match nonblank_strs v 3 with
  | None => issues ++ [npc_issue ERROR requirement cid [field; " must be a list of 3 strings."]]
  | Some texts =>
      if Nat.eqb (List.length (str_set_of_list (map normalize_case texts))) 3 then issues
      else issues ++ [npc_issue WARN requirement cid
                        [field; " contains duplicates: "; py_str v]]
  end.

(** The checks of the [socialMedia] object. *)
Definition social_media_issues `{PyRuntime} (cid : Z) (sm : PyVal)
  (handles_ci : list (string * Z)) (issues : list Issue)
  : list (string * Z) * list Issue :=
  match sm with
  | PDict sm =>
      let handle := dict_get sm "handle" in
      let bio := dict_get sm "bio" in
      let followers := dict_get sm "followers" in
      let following := dict_get sm "following" in
      let '(handles_ci, issues) :=
        match handle, nonblank_str handle with
        | PStr text, Some _ =>
            let issues :=
              if existsb (Ascii.eqb "@") (list_ascii_of_string text)
              then issues ++ [npc_issue ERROR "2.2.12.1" cid
                                ["socialMedia.handle must not include '@': ";
                                 py_repr handle; "."]]
              else issues in
            let hkey := normalize_case text in
            match sdict_lookup handles_ci hkey with
            | Some other =>
                (handles_ci,
                 issues ++ [npc_issue ERROR "2.7" cid
                              ["socialMedia.handle "; py_repr handle;
                               " duplicates NPC id="; str_Z other; " ";
                               "(case-insensitive)."]])
            | None => (handles_ci ++ [(hkey, cid)], issues)
            end
        | _, _ =>
            (handles_ci,
             issues ++ [npc_issue ERROR "2.2.12.1" cid ["socialMedia.handle missing/invalid."]])
        end in
      let issues :=
        match nonblank_str bio with
        | Some _ => issues
        | None => issues ++ [npc_issue ERROR "2.2.12.2" cid ["socialMedia.bio missing/invalid."]]
        end in
      let issues :=
        if is_count followers then issues
        else issues ++ [npc_issue ERROR "2.2.12.3" cid
                          ["socialMedia.followers must be int >=0."]] in
      let issues :=
        if is_count following then issues
        else issues ++ [npc_issue ERROR "2.2.12.4" cid
                          ["socialMedia.following must be int >=0."]] in
      (handles_ci, issues)
  | _ =>
      (handles_ci,
       issues ++ [npc_issue ERROR "2.2.12" cid ["missing/invalid socialMedia object."]])
  end.

(** The checks of the [family] object. *)
Definition family_issues `{PyRuntime} `{HashSeed} (cid : Z) (fam : PyVal)
  (issues : list Issue) : list Issue :=
  match fam with
  | PDict fam =>
      (* Only marriage, parent/child, siblings (we model spouse + children) *)
      let extra_keys :=
        filter (fun k => negb (String.eqb k "spouse" || String.eqb k "children")%bool)
          (str_set_of_list (map fst fam)) in
      let issues :=
        match extra_keys with
        | [] => issues
        | _ => issues ++ [npc_issue ERROR "2.2.8.1" cid
                            ["family has unsupported keys ";
                             repr_list repr_str (sorted_strs extra_keys);
                             " (allowed: spouse, children)."]]
        end in
      let spouse := dict_get fam "spouse" in
      let children := dict_get fam "children" in
      let issues :=
        if is_int spouse then issues
        else issues ++ [npc_issue ERROR "2.2.8" cid
                          ["family.spouse must be an int (or -1)."]] in
      let issues :=
        if py_eq spouse (PInt cid)
        then issues ++ [npc_issue ERROR "2.2.8" cid ["family.spouse cannot be self."]]
        else issues in
      let issues :=
        if is_int_eq spouse 0
        then issues ++ [npc_issue ERROR "2.4.1" cid
                          ["family.spouse references player id=0."]]
        else issues in
      match children with
      | PList l =>
          if forallb is_int l then
            let issues :=
              if set_mem 0 (int_items l)
              then issues ++ [npc_issue ERROR "2.4.1" cid
                                ["family.children references player id=0."]]
              else issues in
            if set_mem cid (int_items l)
            then issues ++ [npc_issue ERROR "2.2.8" cid
                              ["family.children cannot contain self."]]
            else issues
          else issues ++ [npc_issue ERROR "2.2.8" cid
                            ["family.children must be a list of integer ids."]]
      | _ => issues ++ [npc_issue ERROR "2.2.8" cid
                          ["family.children must be a list of integer ids."]]
      end
  | _ => issues ++ [npc_issue ERROR "2.2.8" cid ["missing/invalid family object."]]
  end.

(** The checks of [firstName]: its form, and its uniqueness up to case. *)
Definition first_name_issues `{PyRuntime} (cid : Z) (fn : PyVal)
  (first_names_ci : list (string * Z)) (issues : list Issue)
  : list (string * Z) * list Issue :=
  match fn, nonblank_str fn with
  | PStr text, Some stripped =>
      let issues :=
        if NAME_RE_match stripped then issues
        else issues ++ [npc_issue ERROR "2.2.2" cid
                          ["firstName "; py_repr fn; " has non A-Za-z characters."]] in
      let key := normalize_case text in
      match sdict_lookup first_names_ci key with
      | Some other =>
          (first_names_ci,
           issues ++ [npc_issue ERROR "2.6" cid
                        ["firstName "; py_repr fn; " duplicates NPC id="; str_Z other;
                         " (case-insensitive)."]])
      | None => (first_names_ci ++ [(key, cid)], issues)
      end
  | _, _ =>
      (first_names_ci,
       issues ++ [npc_issue ERROR "2.2.2" cid ["missing/invalid firstName."]])
  end.

(** The checks of one record whose id is new. *)
Definition validate_character_fields `{PyRuntime} `{HashSeed} (cid : Z) (c : pydict)
  (first_names_ci handles_ci : list (string * Z)) (issues : list Issue)
  : result (list (string * Z) * list (string * Z) * list Issue) :=
  let fn := dict_get c "firstName" in
  let ln := dict_get c "lastName" in
  let '(first_names_ci, issues) := first_name_issues cid fn first_names_ci issues in
  let issues :=
    match nonblank_str ln with
    | Some stripped =>
        if NAME_RE_match stripped then issues
        else issues ++ [npc_issue ERROR "2.2.2" cid
                          ["lastName "; py_repr ln; " has non A-Za-z characters."]]
    | None => issues ++ [npc_issue ERROR "2.2.2" cid ["missing/invalid lastName."]]
    end in
  let gender := dict_get c "gender" in
  known <- in_MF gender ;;
  let issues :=
    if known then issues
    else issues ++ [npc_issue ERROR "2.2.3" cid
                      ["gender must be 'M' or 'F', got "; py_repr gender; "."]] in
  let age := dict_get c "age" in
  let issues :=
    match age with
    | PInt n =>
        if n <=? 5
        then issues ++ [npc_issue ERROR "2.2.4.2" cid
                          ["age="; str_Z n; " is not allowed (must be >= 6)."]]
        else issues
    | _ => issues ++ [npc_issue ERROR "2.2.4" cid
                        ["age must be an integer, got "; py_repr age; "."]]
    end in
  let accent := dict_get c "accentLanguage" in
  known <- in_str_set accent ACCENT_ENUM ;;
  let issues :=
    if known then issues
    else issues ++ [npc_issue ERROR "2.2.5" cid
                      ["accentLanguage must be one of ";
                       repr_list repr_str (sorted_strs ACCENT_ENUM);
                       ", got "; py_repr accent; "."]] in
  let issues :=
    match nonblank_str (dict_get c "career") with
    | Some _ => issues
    | None => issues ++ [npc_issue ERROR "2.2.6" cid ["missing/invalid career."]]
    end in
  let religion := dict_get c "religion" in
  let issues :=
    match nonblank_str religion with
    | Some stripped =>
        if RELIGION_RE_match stripped then issues
        else issues ++ [npc_issue ERROR "2.2.7" cid
                          ["religion must be a single word, got "; py_repr religion; "."]]
    | None => issues ++ [npc_issue ERROR "2.2.7" cid
                           ["religion must be a single word, got "; py_repr religion; "."]]
    end in
  (* Personality traits *)
  let issues := triple_issues "2.2.9" "personalityTraits" cid
                  (dict_get c "personalityTraits") issues in
  (* Interests *)
  let issues := triple_issues "2.2.10" "interests" cid (dict_get c "interests") issues in
  (* About facts *)
  let issues :=
    match nonblank_strs (dict_get c "about") 5 with
    | Some _ => issues
    | None => issues ++ [npc_issue ERROR "2.2.11" cid
                           ["about must be a list of exactly 5 non-empty strings."]]
    end in
  (* Social media *)
  let '(handles_ci, issues) :=
    social_media_issues cid (dict_get c "socialMedia") handles_ci issues in
  (* Family info (required) *)
  let issues := family_issues cid (dict_get c "family") issues in
  Ok (first_names_ci, handles_ci, issues).

(** One iteration of the loop over [enumerate(characters)]. *)
Definition validate_character_entry `{PyRuntime} `{HashSeed} (st : chars_state)
  (entry : nat * PyVal) : result chars_state :=
  let '(by_id, first_names_ci, handles_ci, issues) := st in
  let '(idx, c) := entry in
  match c with
  | PDict c =>
      match dict_get c "id" with
      | PInt cid =>
          let issues :=
            if cid =? 0
            then issues ++ [mkIssue ERROR "2.4.1"
                              "characters.json: player id=0 must NOT appear in characters.json."]
            else issues in
          if idict_has by_id cid then
            Ok (by_id, first_names_ci, handles_ci,
                issues ++ [mkIssue ERROR "2.2.1"
                             (fmt ["characters.json: duplicate NPC id="; str_Z cid; "."])])
          else
            let by_id := idict_set by_id cid c in
            '(first_names_ci, handles_ci, issues) <-
               validate_character_fields cid c first_names_ci handles_ci issues ;;
            Ok (by_id, first_names_ci, handles_ci, issues)
      | _ =>
          Ok (by_id, first_names_ci, handles_ci,
              issues ++ [mkIssue ERROR "2.2.1"
                           (fmt ["characters.json: entry index "; str_Z (Z.of_nat idx);
                                 " missing/invalid integer id."])])
      end
  | _ =>
      Ok (by_id, first_names_ci, handles_ci,
          issues ++ [mkIssue ERROR "2.2"
                       (fmt ["characters.json: entry index "; str_Z (Z.of_nat idx);
                             " is not an object."])])
  end.

Definition validate_characters `{PyRuntime} `{HashSeed} (characters : PyVal)
  : result (chars_index * list Issue) :=
  match characters with
  | PList characters =>
      let issues : list Issue := [] in
      (* 70 to 80 NPCs plus player (player not included in NPC list) *)
      let npc_count := Z.of_nat (List.length characters) in
      let issues :=
        if ((70 <=? npc_count) && (npc_count <=? 80))%bool then issues
        else issues ++ [mkIssue ERROR "2.1/2.4.1"
                          (fmt ["characters.json: expected 70..80 NPC entries, found ";
                                str_Z npc_count; "."])] in
      '(by_id, _, _, issues) <-
         for_each validate_character_entry (enumerate characters) ([], [], [], issues) ;;
      Ok (by_id, issues)
  | _ =>
      Ok ([], [mkIssue ERROR "2.2" "characters.json: expected a top-level JSON array."])
  end.

(* ------------------------------------------------------------------------- *)
(** ** build_relationship_indexes *)

(** [c.get("family", {}).get("spouse")] and the like. *)
Definition family_field (c : pydict) (k : string) : result PyVal :=
  attr_get (dict_get_or c "family" (PDict [])) k.

Definition rel_links : Type := (idict Z * idict pyset * idict pyset)%type.

(** The children of one character: [children_of_parent[cid].add(ch)] and
    [parents_of_child[ch].add(cid)] for every integer [ch]. *)
Definition collect_children (cid : Z) (children : PyVal)
  (cp pc : idict pyset) : idict pyset * idict pyset :=
  match children with
  | PList l =>
      fold_left
        (fun (acc : idict pyset * idict pyset) ch =>
           match ch with
           | PInt c => (dd_add (fst acc) cid c, dd_add (snd acc) c cid)
           | _ => acc
           end)
        l (cp, pc)
  | _ => (cp, pc)
  end.

(** One iteration of the loop that collects the spouse and children links;
    the state is [(spouse_of, children_of_parent, parents_of_child)]. *)
Definition collect_links_step (st : rel_links) (entry : Z * pydict) : result rel_links :=
  let '(spouse_of, children_of_parent, parents_of_child) := st in
  let '(cid, c) := entry in
  spouse <- family_field c "spouse" ;;
  let spouse_of :=
    match spouse with
    | PInt s => if s =? -1 then spouse_of else idict_set spouse_of cid s
    | _ => spouse_of
    end in
  children <- family_field c "children" ;;
  let '(children_of_parent, parents_of_child) :=
    collect_children cid children children_of_parent parents_of_child in
  Ok (spouse_of, children_of_parent, parents_of_child).

Definition collect_links (chars_by_id : chars_index) : result rel_links :=
  for_each collect_links_step chars_by_id ([], [], []).

(** [reverse_spouse[b].append(a)] for every [a, b] of [spouse_of]. *)
Definition reverse_spouse (spouse_of : idict Z) : idict (list Z) :=
  fold_left (fun rs (ab : Z * Z) => dl_append rs (snd ab) (fst ab)) spouse_of [].

Definition multiple_spouses_issue (b : Z) (partners : list Z) : Issue :=
  mkIssue ERROR "2.2.8.3"
    (fmt ["NPC id="; str_Z b; ": multiple spouses reference this NPC: ";
          repr_ints (sorted_ints partners); "."]).

Definition multiple_spouses_check (issues : list Issue) (entry : Z * list Z) : list Issue :=
  let '(b, partners) := entry in
  if (1 <? Z.of_nat (List.length partners)) then issues ++ [multiple_spouses_issue b partners]
  else issues.

Definition spouse_missing_issue (a b : Z) : Issue :=
  mkIssue ERROR "2.2.8"
    (fmt ["NPC id="; str_Z a; ": spouse id="; str_Z b;
          " does not exist in characters.json."]).

Definition spouse_asymmetric_issue `{PyRuntime} (a b : Z) (b_spouse : PyVal) : Issue :=
  mkIssue ERROR "2.2.8"
    (fmt ["NPC id="; str_Z a; ": spouse id="; str_Z b;
          " is not symmetric (NPC id="; str_Z b; " has family.spouse=";
          py_repr b_spouse; ")."]).

Definition marriage_gender_issue `{PyRuntime} (a b : Z) (a_gender b_gender : PyVal) : Issue :=
  mkIssue ERROR "2.2.8.2"
    (fmt ["Marriage gender violation: NPC id="; str_Z a; " gender="; py_str a_gender;
          " married to NPC id="; str_Z b; " gender="; py_str b_gender; "."]).

Definition married_minor_issue `{PyRuntime} (a : Z) (a_age : PyVal) : Issue :=
  mkIssue ERROR "2.2.8.4"
    (fmt ["NPC id="; str_Z a; ": married but age="; py_str a_age; " (<18)."]).

(** One iteration of the loop over [spouse_of.items()]. *)
Definition spouse_check `{PyRuntime} (chars_by_id : chars_index)
  (issues : list Issue) (ab : Z * Z) : result (list Issue) :=
  let '(a, b) := ab in
  match idict_get chars_by_id b with
  | None => Ok (issues ++ [spouse_missing_issue a b])
  | Some cb =>
      b_spouse <- family_field cb "spouse" ;;
      let issues :=
        if is_int_eq b_spouse a then issues
        else issues ++ [spouse_asymmetric_issue a b b_spouse] in
      ca <- idict_item chars_by_id a ;;
      let a_gender := dict_get ca "gender" in
      let b_gender := dict_get cb "gender" in
      a_known <- in_MF a_gender ;;
      same <- (if a_known then
                 b_known <- in_MF b_gender ;;
                 Ok (b_known && py_eq a_gender b_gender)%bool
               else Ok false) ;;
      let issues :=
        if same then issues ++ [marriage_gender_issue a b a_gender b_gender]
        else issues in
      let a_age := dict_get ca "age" in
      let b_age := dict_get cb "age" in
      let issues :=
        if int_below a_age 18 then issues ++ [married_minor_issue a a_age] else issues in
      let issues :=
        if int_below b_age 18 then issues ++ [married_minor_issue b b_age] else issues in
      Ok issues
  end.

Definition young_parent_issue `{PyRuntime} (p : Z) (p_age : PyVal) : Issue :=
  mkIssue ERROR "2.2.8.5"
    (fmt ["NPC id="; str_Z p; ": has children but age="; py_str p_age; " (<18)."]).

Definition child_missing_issue (p ch : Z) : Issue :=
  mkIssue ERROR "2.2.8"
    (fmt ["NPC id="; str_Z p; ": references non-existent child id="; str_Z ch; "."]).

Definition age_gap_issue (p p_age ch ch_age : Z) : Issue :=
  mkIssue ERROR "2.2.8.6"
    (fmt ["Parent/child age gap violation: parent id="; str_Z p; " age="; str_Z p_age;
          ", child id="; str_Z ch; " age="; str_Z ch_age;
          " (must be >= 18 years older)."]).

(** [chars_by_id.get(p, {}).get("age")] *)
Definition age_of (chars_by_id : chars_index) (p : Z) : PyVal :=
  match idict_get chars_by_id p with
  | Some c => dict_get c "age"
  | None => PNone
  end.

(** The body of the inner loop [for ch in kids]. *)
Definition child_check (chars_by_id : chars_index) (p : Z) (p_age : PyVal)
  (issues : list Issue) (ch : Z) : list Issue :=
  match idict_get chars_by_id ch with
  | None => issues ++ [child_missing_issue p ch]
  | Some c =>
      match p_age, dict_get c "age" with
      | PInt pa, PInt ca =>
          if pa - ca <? 18 then issues ++ [age_gap_issue p pa ch ca] else issues
      | _, _ => issues
      end
  end.

(** One iteration of the loop over [children_of_parent.items()]. *)
Definition parent_check `{PyRuntime} (chars_by_id : chars_index)
  (issues : list Issue) (entry : Z * pyset) : list Issue :=
  let '(p, kids) := entry in
  let p_age := age_of chars_by_id p in
  let issues :=
    if int_below p_age 18 then issues ++ [young_parent_issue p p_age] else issues in
  fold_left (child_check chars_by_id p p_age) (set_iter kids) issues.

Definition too_many_parents_issue (ch : Z) (ps : pyset) : Issue :=
  mkIssue ERROR "2.2.8.1"
    (fmt ["Child id="; str_Z ch; ": has "; str_Z (Z.of_nat (List.length ps));
          " parents listed: "; repr_ints (sorted_ints ps); " (max 2)."]).

Definition same_gender_parents_issue `{PyRuntime} (ch p1 p2 : Z) (g1 g2 : PyVal) : Issue :=
  mkIssue ERROR "2.2.8.2"
    (fmt ["Child id="; str_Z ch; ": two parents share same gender: parent "; str_Z p1;
          " gender="; py_str g1; ", parent "; str_Z p2; " gender="; py_str g2; "."]).

Definition parents_not_spouses_issue `{PyRuntime} (ch p1 p2 : Z) (p1_sp p2_sp : PyVal)
  : Issue :=
  mkIssue WARN "2.2.8.1"
    (fmt ["Child id="; str_Z ch; ": two parents "; str_Z p1; " and "; str_Z p2;
          " are not mutually spouses (p1.spouse="; py_repr p1_sp; ", p2.spouse=";
          py_repr p2_sp; ")."]).

(** One iteration of the loop over [parents_of_child.items()]. *)
Definition parents_check `{PyRuntime} (chars_by_id : chars_index)
  (issues : list Issue) (entry : Z * pyset) : result (list Issue) :=
  let '(ch, ps) := entry in
  let issues :=
    if (2 <? Z.of_nat (List.length ps)) then issues ++ [too_many_parents_issue ch ps]
    else issues in
  match sorted_ints ps with
  | [p1; p2] =>
      c1 <- idict_item chars_by_id p1 ;;
      let g1 := dict_get c1 "gender" in
      c2 <- idict_item chars_by_id p2 ;;
      let g2 := dict_get c2 "gender" in
      same <- (if py_eq g1 g2 then in_MF g1 else Ok false) ;;
      let issues :=
        if same then issues ++ [same_gender_parents_issue ch p1 p2 g1 g2] else issues in
      p1_sp <- family_field c1 "spouse" ;;
      p2_sp <- family_field c2 "spouse" ;;
      if (is_int_eq p1_sp p2 && is_int_eq p2_sp p1)%bool then Ok issues
      else Ok (issues ++ [parents_not_spouses_issue ch p1 p2 p1_sp p2_sp])
  | _ => Ok issues
  end.

(** The validation loops of [build_relationship_indexes], over the collected
    links. *)
Definition relationship_issues `{PyRuntime} (chars_by_id : chars_index) (links : rel_links)
  : result (list Issue) :=
  let '(spouse_of, children_of_parent, parents_of_child) := links in
  let issues := fold_left multiple_spouses_check (reverse_spouse spouse_of) [] in
  issues <- for_each (spouse_check chars_by_id) spouse_of issues ;;
  let issues := fold_left (parent_check chars_by_id) children_of_parent issues in
  for_each (parents_check chars_by_id) parents_of_child issues.

(** Returns [(spouse_of, parents_of_child, children_of_parent, issues)]. *)
Definition build_relationship_indexes `{PyRuntime} (chars_by_id : chars_index)
  : result (idict Z * idict pyset * idict pyset * list Issue) :=
  links <- collect_links chars_by_id ;;
  issues <- relationship_issues chars_by_id links ;;
  let '(spouse_of, children_of_parent, parents_of_child) := links in
  Ok (spouse_of, parents_of_child, children_of_parent, issues).

(* ------------------------------------------------------------------------- *)
(** ** build_house_index *)

(** One house of the loop of [build_house_index]: [h.get("occupants", [])]. *)
Definition house_index_step (occ_to_house : idict Z) (entry : Z * pydict) : idict Z :=
  let '(hn, h) := entry in
  match dict_get_or h "occupants" (PList []) with
  | PList occupants =>
      fold_left
        (fun acc occ => if idict_has acc occ then acc else idict_set acc occ hn)
        (int_items occupants) occ_to_house
  | _ => occ_to_house
  end.

(** occupant_id -> houseNumber (first occurrence). *)
Definition build_house_index (houses_by_number : houses_index) : idict Z :=
  fold_left house_index_step houses_by_number [].

(** The first house, in the order of [houses_by_number], whose occupants list
    holds the integer [occ]. *)
Fixpoint first_house_of (houses_by_number : houses_index) (occ : Z) : option Z :=
  match houses_by_number with
  | [] => None
  | (hn, h) :: rest =>
      match dict_get_or h "occupants" (PList []) with
      | PList occupants =>
          if set_mem occ (int_items occupants) then Some hn
          else first_house_of rest occ
      | _ => first_house_of rest occ
      end
  end.

(* ------------------------------------------------------------------------- *)
(** ** validate_cross_file_consistency *)

(** [seen_occurrences[occ].append(hn)] over every house. *)
Definition seen_occurrences_step (seen : idict (list Z)) (entry : Z * pydict)
  : idict (list Z) :=
  let '(hn, h) := entry in
  match dict_get h "occupants" with
  | PList occs => fold_left (fun acc occ => dl_append acc occ hn) (int_items occs) seen
  | _ => seen
  end.

Definition seen_occurrences (houses_by_number : houses_index) : idict (list Z) :=
  fold_left seen_occurrences_step houses_by_number [].

Definition player_present_issue : Issue :=
  mkIssue ERROR "2.4.1" "Player id=0 must not be present in characters.json.".

Definition occupant_unknown_issue (occ : Z) (hns : list Z) : Issue :=
  mkIssue ERROR "2.3.3/2.8"
    (fmt ["houses.json: occupant id="; str_Z occ; " appears in house(s) ";
          repr_ints (sorted_ints hns); " but is missing in characters.json."]).

Definition occupant_multi_issue (occ : Z) (hns : list Z) : Issue :=
  mkIssue ERROR "2.8"
    (fmt ["NPC id="; str_Z occ; " appears in multiple houses: ";
          repr_ints (sorted_ints (set_of_list hns)); " (must be exactly one)."]).

Definition occupant_check (chars_by_id : chars_index) (issues : list Issue)
  (entry : Z * list Z) : list Issue :=
  let '(occ, hns) := entry in
  if occ =? 0 then issues
  else
    let issues :=
      if idict_has chars_by_id occ then issues
      else issues ++ [occupant_unknown_issue occ hns] in
    if Nat.eqb (List.length (set_of_list hns)) 1 then issues
    else issues ++ [occupant_multi_issue occ hns].

Definition homeless_issue (cid : Z) : Issue :=
  mkIssue ERROR "2.8"
    (fmt ["NPC id="; str_Z cid; " does not appear in any house occupants list."]).

Definition npc_multi_issue (cid : Z) (hns : pyset) : Issue :=
  mkIssue ERROR "2.8"
    (fmt ["NPC id="; str_Z cid; " appears in multiple houses ";
          repr_ints (sorted_ints hns); " (must be 1)."]).

Definition residency_check (seen : idict (list Z)) (issues : list Issue)
  (entry : Z * pydict) : list Issue :=
  let cid := fst entry in
  if cid =? 0 then issues
  else
    match idict_get seen cid with
    | None => issues ++ [homeless_issue cid]
    | Some hns =>
        let hns := set_of_list hns in
        if Nat.eqb (List.length hns) 1 then issues
        else issues ++ [npc_multi_issue cid hns]
    end.

(** *** related_edges *)

Definition graph : Type := idict pyset.

(** [g[a].add(b); g[b].add(a)] *)
Definition add_edge (g : graph) (a b : Z) : graph := dd_add (dd_add g a b) b a.

(** [{o: set() for o in occupants}] *)
Definition empty_graph (occupants : list Z) : graph :=
  fold_left (fun g o => idict_set g o []) occupants [].

Definition spouse_edges (spouse_of : idict Z) (occupants : list Z) (occ_set : pyset)
  (g : graph) : graph :=
  fold_left
    (fun g a =>
       match idict_get spouse_of a with
       | Some b => if set_mem b occ_set then add_edge g a b else g
       | None => g
       end)
    occupants g.

Definition child_edges `{PyRuntime} (children_of_parent : idict pyset)
  (occupants : list Z) (occ_set : pyset) (g : graph) : graph :=
  fold_left
    (fun g p =>
       fold_left (fun g ch => if set_mem ch occ_set then add_edge g p ch else g)
         (set_iter (dd_get children_of_parent p)) g)
    occupants g.

(** [parents_map[a] and parents_map[b] and parents_map[a].intersection(parents_map[b])] *)
Definition share_parent (parents_of_child : idict pyset) (a b : Z) : bool :=
  let pa := dd_get parents_of_child a in
  let pb := dd_get parents_of_child b in
  match pa, pb with
  | [], _ | _, [] => false
  | _, _ => existsb (fun p => set_mem p pb) pa
  end.

(** The pairs [i < j] of positions, row by row. *)
Fixpoint sibling_edges (parents_of_child : idict pyset) (occupants : list Z) (g : graph)
  : graph :=
  match occupants with
  | [] => g
  | a :: rest =>
      sibling_edges parents_of_child rest
        (fold_left
           (fun g b => if share_parent parents_of_child a b then add_edge g a b else g)
           rest g)
  end.

Definition related_edges `{PyRuntime} (spouse_of : idict Z)
  (parents_of_child children_of_parent : idict pyset) (occupants : list Z) : graph :=
  let g := empty_graph occupants in
  let occ_set := set_of_list occupants in
  let g := spouse_edges spouse_of occupants occ_set g in
  let g := child_edges children_of_parent occupants occ_set g in
  sibling_edges parents_of_child occupants g.

(** *** Breadth-first loops *)

(** The number of iterations a breadth-first loop over [g] is given: every
    iteration removes an entry from the queue, and entries are only added for
    the neighbours of a node seen for the first time. *)
Definition bfs_weight (g : graph) (seen : pyset) : nat :=
  list_sum (map (fun e : Z * pyset =>
                   if set_mem (fst e) seen then O else List.length (snd e)) g).

Definition bfs_fuel (g : graph) : nat := S (S (bfs_weight g [])).

(** [while dq: u = dq.popleft(); ...], returning [seen]. *)
Fixpoint bfs_loop `{PyRuntime} (fuel : nat) (g : graph) (seen : pyset) (dq : list Z)
  : result pyset :=
  match fuel with
  | O => Raise FuelExhausted
  | S fuel =>
      match dq with
      | [] => Ok seen
      | u :: dq =>
          if set_mem u seen then bfs_loop fuel g seen dq
          else
            let seen := set_add u seen in
            bfs_loop fuel g seen
              (dq ++ filter (fun v => negb (set_mem v seen)) (set_iter (dd_get g u)))
      end
  end.

Definition bfs `{PyRuntime} (g : graph) (start : Z) : result pyset :=
  bfs_loop (bfs_fuel g) g [] [start].

Definition is_connected `{PyRuntime} (g : graph) (nodes : list Z) : result bool :=
  match nodes with
  | [] => Ok true
  | start :: _ =>
      seen <- bfs g start ;;
      Ok (Nat.eqb (List.length seen) (List.length nodes))
  end.

(** [while unseen: start = next(iter(unseen)); ...; unseen -= comp]: the first
    element of the iteration of [unseen] starts each component. *)
Fixpoint components_loop `{PyRuntime} (fuel : nat) (g : graph) (unseen : pyset)
  (components : list (list Z)) : result (list (list Z)) :=
  match fuel with
  | O => Raise FuelExhausted
  | S fuel =>
      match set_iter unseen with
      | [] => Ok components
      | start :: _ =>
          comp <- bfs g start ;;
          components_loop fuel g
            (filter (fun v => negb (set_mem v comp)) unseen)
            (components ++ [sorted_ints comp])
      end
  end.

(** [is_int(age) and age >= 18] *)
Definition is_adult (chars_by_id : chars_index) (u : Z) : result bool :=
  c <- idict_item chars_by_id u ;;
  Ok (match dict_get c "age" with
      | PInt n => 18 <=? n
      | _ => false
      end).

(** The search for a reachable adult: the loop stops at the first dequeued
    node other than [cid] whose age is an integer of 18 or more. *)
Fixpoint adult_search `{PyRuntime} (fuel : nat) (chars_by_id : chars_index) (g : graph)
  (cid : Z) (seen : pyset) (dq : list Z) : result bool :=
  match fuel with
  | O => Raise FuelExhausted
  | S fuel =>
      match dq with
      | [] => Ok false
      | u :: dq =>
          if set_mem u seen then adult_search fuel chars_by_id g cid seen dq
          else
            let seen := set_add u seen in
            adult <- is_adult chars_by_id u ;;
            if (adult && negb (u =? cid))%bool then Ok true
            else
              adult_search fuel chars_by_id g cid seen
                (dq ++ filter (fun v => negb (set_mem v seen)) (set_iter (dd_get g u)))
      end
  end.

(** *** Surnames across houses *)

Fixpoint sdict_get (d : list (string * pyset)) (k : string) : pyset :=
  match d with
  | [] => []
  | (k', s) :: rest => if String.eqb k k' then s else sdict_get rest k
  end.

Fixpoint sdict_set (d : list (string * pyset)) (k : string) (s : pyset)
  : list (string * pyset) :=
  match d with
  | [] => [(k, s)]
  | (k', s') :: rest =>
      if String.eqb k k' then (k', s) :: rest else (k', s') :: sdict_set rest k s
  end.

(** [surname_to_houses[ln.strip()].add(hn)] for every non-player character
    that [occ_to_house] places in a house. *)
Definition surname_step (occ_to_house : idict Z) (acc : list (string * pyset))
  (entry : Z * pydict) : list (string * pyset) :=
  let '(cid, c) := entry in
  if cid =? 0 then acc
  else
    match idict_get occ_to_house cid with
    | None => acc
    | Some hn =>
        match nonblank_str (dict_get c "lastName") with
        | Some ln => sdict_set acc ln (set_add hn (sdict_get acc ln))
        | None => acc
        end
    end.

Definition surname_to_houses (chars_by_id : chars_index) (occ_to_house : idict Z)
  : list (string * pyset) :=
  fold_left (surname_step occ_to_house) chars_by_id [].

Definition surname_span_issue `{PyRuntime} (ln : string) (hset : pyset) : Issue :=
  mkIssue ERROR "2.5"
    (fmt ["Surname "; repr_str ln; " appears across multiple houses ";
          repr_ints (sorted_ints hset); " (must be unique per house)."]).

Definition surname_span_check `{PyRuntime} (issues : list Issue) (entry : string * pyset)
  : list Issue :=
  let '(ln, hset) := entry in
  if (1 <? Z.of_nat (List.length hset)) then issues ++ [surname_span_issue ln hset]
  else issues.

Definition surname_span_issues `{PyRuntime} (chars_by_id : chars_index)
  (occ_to_house : idict Z) (issues : list Issue) : list Issue :=
  fold_left surname_span_check
    (py_sorted (fun a b : string * pyset => String.leb (fst a) (fst b))
       (surname_to_houses chars_by_id occ_to_house))
    issues.

(** *** The loop over the houses *)

Definition house7_issue `{PyRuntime} (occs_any : PyVal) : Issue :=
  mkIssue ERROR "2.4" (fmt ["house 7 must be [0], got "; py_repr occs_any]).

Definition player_elsewhere_issue (hn : Z) : Issue :=
  mkIssue ERROR "2.4"
    (fmt ["house "; str_Z hn; ": player id=0 must not live in houses other than 7."]).

Definition surname_mismatch_issue `{PyRuntime} (hn occ : Z) (ln house_surname : string)
  : Issue :=
  mkIssue ERROR "2.3.2/2.9"
    (fmt ["house "; str_Z hn; ": occupant id="; str_Z occ; " lastName="; repr_str ln;
          " != house surname "; repr_str house_surname; "."]).

Definition unrelated_issue (hn : Z) (components : list (list Z)) : Issue :=
  mkIssue ERROR "2.9"
    (fmt ["house "; str_Z hn;
          ": occupants are not all related under allowed relationships. ";
          "Disconnected components: "; repr_list repr_ints components]).

(** The body of [for occ in occs] in the surname match. *)
Definition occupant_surname_check `{PyRuntime} (chars_by_id : chars_index) (hn : Z)
  (house_surname : string) (issues : list Issue) (occ : Z) : list Issue :=
  if occ =? 0 then issues ++ [player_elsewhere_issue hn]
  else
    match idict_get chars_by_id occ with
    | Some ((_ :: _) as c) =>
        match nonblank_str (dict_get c "lastName") with
        | Some ln =>
            if String.eqb ln house_surname then issues
            else issues ++ [surname_mismatch_issue hn occ ln house_surname]
        | None => issues
        end
    | _ => issues
    end.

(** One iteration of the loop over [houses_by_number.items()]. *)
Definition house_check `{PyRuntime} (chars_by_id : chars_index) (spouse_of : idict Z)
  (parents_of_child children_of_parent : idict pyset)
  (issues : list Issue) (entry : Z * pydict) : result (list Issue) :=
  let '(hn, h) := entry in
  match dict_get_or h "occupants" (PList []) with
  | PList occs_any =>
      let occs := int_items occs_any in
      if hn =? 7 then
        if list_Z_eqb occs [0] then Ok issues
        else Ok (issues ++ [house7_issue (PList occs_any)])
      else
        match nonblank_str (dict_get h "surname") with
        | None => Ok issues
        | Some house_surname =>
            let issues :=
              fold_left (occupant_surname_check chars_by_id hn house_surname) occs issues in
            let occs_no_player :=
              filter (fun o => negb (o =? 0) && idict_has chars_by_id o)%bool occs in
            if (2 <=? Z.of_nat (List.length occs_no_player)) then
              let g := related_edges spouse_of parents_of_child children_of_parent
                         occs_no_player in
              connected <- is_connected g occs_no_player ;;
              if connected then Ok issues
              else
                let unseen := set_of_list occs_no_player in
                components <- components_loop (S (List.length unseen)) g unseen [] ;;
                Ok (issues ++ [unrelated_issue hn components])
            else Ok issues
        end
  | _ => Ok issues
  end.

(** *** Minors *)

Definition minor_issue (cid age hn : Z) (adults_in_house : list Z) : Issue :=
  mkIssue ERROR "2.2.4.1"
    (fmt ["Minor NPC id="; str_Z cid; " age="; str_Z age; " in house "; str_Z hn;
          " does not live with a related adult family member. ";
          "Adult occupants present: "; repr_ints (sorted_ints adults_in_house)]).

(** [[o for o in occs_house if is_int(age of o) and age of o >= 18]] *)
Fixpoint adults_among (chars_by_id : chars_index) (occs_house : list Z)
  : result (list Z) :=
  match occs_house with
  | [] => Ok []
  | o :: rest =>
      adult <- is_adult chars_by_id o ;;
      adults <- adults_among chars_by_id rest ;;
      Ok (if adult then o :: adults else adults)
  end.

(** [has_adult_family] for the minor [cid] among [occs_house]. *)
Definition has_adult_family `{PyRuntime} (chars_by_id : chars_index) (spouse_of : idict Z)
  (parents_of_child children_of_parent : idict pyset) (occs_house : list Z) (cid : Z)
  : result bool :=
  if (2 <=? Z.of_nat (List.length occs_house)) then
    let g := related_edges spouse_of parents_of_child children_of_parent occs_house in
    match g with
    | [] => Ok false
    | _ =>
        if idict_has g cid then adult_search (bfs_fuel g) chars_by_id g cid [] [cid]
        else Ok false
    end
  else Ok false.

(** One iteration of the loop for requirement 2.2.4.1. *)
Definition minor_check `{PyRuntime} (chars_by_id : chars_index)
  (houses_by_number : houses_index) (spouse_of : idict Z)
  (parents_of_child children_of_parent : idict pyset) (occ_to_house : idict Z)
  (issues : list Issue) (entry : Z * pydict) : result (list Issue) :=
  let '(cid, c) := entry in
  if cid =? 0 then Ok issues
  else
    match dict_get c "age" with
    | PInt age =>
        if age <=? 17 then
          match idict_get occ_to_house cid with
          | None => Ok issues
          | Some hn =>
              let h := match idict_get houses_by_number hn with
                       | Some h => h
                       | None => []
                       end in
              match dict_get_or h "occupants" (PList []) with
              | PList occs =>
                  let occs_house := filter (idict_has chars_by_id) (int_items occs) in
                  found <- has_adult_family chars_by_id spouse_of parents_of_child
                             children_of_parent occs_house cid ;;
                  if found then Ok issues
                  else
                    adults_in_house <- adults_among chars_by_id occs_house ;;
                    Ok (issues ++ [minor_issue cid age hn adults_in_house])
              | _ => Ok issues
              end
          end
        else Ok issues
    | _ => Ok issues
    end.

Definition minor_married_issue `{PyRuntime} (cid age : Z) (spouse : PyVal) : Issue :=
  mkIssue ERROR "2.2.8.4"
    (fmt ["NPC id="; str_Z cid; " age="; str_Z age; " is married (spouse=";
          py_str spouse; ")."]).

Definition minor_parent_issue `{PyRuntime} (cid age : Z) (children : PyVal) : Issue :=
  mkIssue ERROR "2.2.8.5"
    (fmt ["NPC id="; str_Z cid; " age="; str_Z age; " has children listed: ";
          py_str children; "."]).

(** One iteration of the loop "minors cannot be married or have children". *)
Definition minor_family_check `{PyRuntime} (issues : list Issue) (entry : Z * pydict)
  : result (list Issue) :=
  let '(cid, c) := entry in
  match dict_get c "age" with
  | PInt age =>
      spouse <- family_field c "spouse" ;;
      children <- family_field c "children" ;;
      if age <? 18 then
        let issues :=
          match spouse with
          | PInt s => if s =? -1 then issues
                      else issues ++ [minor_married_issue cid age spouse]
          | _ => issues
          end in
        match children with
        | PList (_ :: _) => Ok (issues ++ [minor_parent_issue cid age children])
        | _ => Ok issues
        end
      else Ok issues
  | _ => Ok issues
  end.

Definition validate_cross_file_consistency `{PyRuntime} (chars_by_id : chars_index)
  (houses_by_number : houses_index) (spouse_of : idict Z)
  (parents_of_child children_of_parent : idict pyset) : result (list Issue) :=
  let seen := seen_occurrences houses_by_number in
  let issues := if idict_has chars_by_id 0 then [player_present_issue] else [] in
  let issues := fold_left (occupant_check chars_by_id) seen issues in
  let issues := fold_left (residency_check seen) chars_by_id issues in
  let occ_to_house := build_house_index houses_by_number in
  let issues := surname_span_issues chars_by_id occ_to_house issues in
  issues <- for_each (house_check chars_by_id spouse_of parents_of_child children_of_parent)
              houses_by_number issues ;;
  issues <- for_each (minor_check chars_by_id houses_by_number spouse_of parents_of_child
                        children_of_parent occ_to_house)
              chars_by_id issues ;;
  for_each minor_family_check chars_by_id issues.

(* ------------------------------------------------------------------------- *)
(** ** Reading and scanning the files *)

(** U+2018, U+2019, U+201C, U+201D, U+2032, U+2033 and U+00B4. *)
Definition DISALLOWED_QUOTE_CHARS : list string :=
  map bytes
    [ [226; 128; 152]; [226; 128; 153]; [226; 128; 156]; [226; 128; 157];
      [226; 128; 178]; [226; 128; 179]; [194; 180] ]%N.

(** [text.rfind("\n", 0, idx)] over the characters before [idx]: the last
    position of a newline, or -1. *)
Fixpoint rfind_newline (prefix : list string) (pos : Z) (last : Z) : Z :=
  match prefix with
  | [] => last
  | ch :: rest =>
      rfind_newline rest (pos + 1) (if String.eqb ch newline then pos else last)
  end.

(** 1-based line and column of the character at index [idx]. *)
Definition _line_col_from_index (text : list string) (idx : nat) : Z * Z :=
  let prefix := firstn idx text in
  let line := Z.of_nat (List.length (filter (String.eqb newline) prefix)) + 1 in
  let last_nl := rfind_newline prefix 0 (-1) in
  let col := Z.of_nat idx - (last_nl + 1) + 1 in
  (line, col).

Definition quote_issue `{PyRuntime} (path : string) (ch : string) (line col : Z) : Issue :=
  mkIssue ERROR "1.4.2"
    (fmt [path; ": disallowed quote/apostrophe character "; repr_str ch; " at line ";
          str_Z line; ", col "; str_Z col; ". "; "Use ASCII ' and "; double_quote;
          " only."]).

Definition scan_for_disallowed_quotes `{PyRuntime} (path : string) (raw_text : string)
  : list Issue :=
  let text := utf8_chars raw_text in
  flat_map
    (fun ich : nat * string =>
       let '(i, ch) := ich in
       if existsb (String.eqb ch) DISALLOWED_QUOTE_CHARS then
         let '(line, col) := _line_col_from_index text i in
         [quote_issue path ch line col]
       else [])
    (combine (seq 0 (List.length text)) text).

(** What [path.read_text(encoding="utf-8", errors="strict")] does: the decoded
    text, a [UnicodeDecodeError] with its text, [FileNotFoundError], or another
    [OSError], which [load_utf8_text] does not catch. *)
Inductive ReadOutcome : Type :=
| FileText (raw : string)
| UnicodeDecodeError (e : string)
| FileNotFoundError
| OtherOSError.

Definition FileSystem : Type := string -> ReadOutcome.

(** A printed line: an issue, rendered by [issue_line], or plain text. *)
Inductive Line : Type :=
| IssueLine (i : Issue)
| TextLine (s : string).

Definition line_text (l : Line) : string :=
  match l with
  | IssueLine i => issue_line i
  | TextLine s => s
  end.

(** The effects of a run: the paths read, in order, and the lines printed. *)
Record Console : Type := mkConsole {
  reads : list string;
  printed : list Line
}.

(** The text on standard output, and the issues among the printed lines. *)
Definition stdout (w : Console) : list string := map line_text (printed w).

Definition printed_issues (w : Console) : list Issue :=
  flat_map (fun l => match l with IssueLine i => [i] | TextLine _ => [] end) (printed w).

Definition IO (A : Type) : Type := Console -> result A * Console.

Definition ret {A : Type} (a : A) : IO A := fun w => (Ok a, w).

Definition io_bind {A B : Type} (m : IO A) (k : A -> IO B) : IO B :=
  fun w =>
    match m w with
    | (Ok a, w') => k a w'
    | (Raise e, w') => (Raise e, w')
    end.

Notation "x <~ m ;; k" := (io_bind m (fun x => k))
  (at level 61, m at next level, right associativity).
Notation "' p <~ m ;; k" := (io_bind m (fun p => k))
  (at level 61, p pattern, m at next level, right associativity).

(** A pure computation that may raise. *)
Definition lift {A : Type} (r : result A) : IO A := fun w => (r, w).

Definition print_line (l : Line) : IO unit :=
  fun w => (Ok tt, mkConsole (reads w) (printed w ++ [l])).

Definition print (text : string) : IO unit := print_line (TextLine text).

(** [for iss in issues: print(f"{iss.level} [Req {iss.requirement}] {iss.message}")] *)
Fixpoint print_issues (issues : list Issue) : IO unit :=
  match issues with
  | [] => ret tt
  | iss :: rest => _ <~ print_line (IssueLine iss) ;; print_issues rest
  end.

Definition read_text (fs : FileSystem) (path : string) : IO ReadOutcome :=
  fun w => (Ok (fs path), mkConsole (reads w ++ [path]) (printed w)).

Definition load_utf8_text (fs : FileSystem) (path : string)
  : IO (option string * list Issue) :=
  r <~ read_text fs path ;;
  match r with
  | FileText raw => ret (Some raw, [])
  | UnicodeDecodeError e =>
      ret (None,
           [mkIssue ERROR "1.4.1"
              (fmt [path; ": file is not valid UTF-8 (UnicodeDecodeError: "; e; ")."])])
  | FileNotFoundError =>
      ret (None, [mkIssue ERROR "1.1/2.x" (fmt [path; ": file not found."])])
  | OtherOSError => lift (Raise OSError)
  end.

(** [load_json]: the decoded value, or [None] with an issue. *)
Definition load_json `{PyRuntime} (path : string) (raw_text : string)
  : PyVal * list Issue :=
  match json_loads raw_text with
  | JsonValue v => (v, [])
  | JSONDecodeError lineno colno msg =>
      (PNone,
       [mkIssue ERROR "1.2"
          (fmt [path; ": invalid JSON (line "; str_Z lineno; ", col "; str_Z colno;
                "): "; msg])])
  end.

(** [x is None] *)
Definition is_None (x : PyVal) : bool :=
  match x with
  | PNone => true
  | _ => false
  end.

(* ------------------------------------------------------------------------- *)
(** ** main *)

Definition count_level (l : Level) (issues : list Issue) : Z :=
  Z.of_nat (List.length
              (filter (fun i => match level i, l with
                                | ERROR, ERROR | WARN, WARN => true
                                | _, _ => false
                                end) issues)).

Definition main `{PyRuntime} `{HashSeed} (fs : FileSystem)
  (char_path house_path : string) : IO Z :=
  let all_issues : list Issue := [] in
  (* Read & scan raw files *)
  '(char_raw, issues) <~ load_utf8_text fs char_path ;;
  let all_issues := all_issues ++ issues in
  match char_raw with
  | None => _ <~ print_issues all_issues ;; ret 2
  | Some char_raw =>
  let all_issues := all_issues ++ scan_for_disallowed_quotes char_path char_raw in
  '(house_raw, issues) <~ load_utf8_text fs house_path ;;
  let all_issues := all_issues ++ issues in
  match house_raw with
  | None => _ <~ print_issues all_issues ;; ret 2
  | Some house_raw =>
  let all_issues := all_issues ++ scan_for_disallowed_quotes house_path house_raw in
  (* Parse JSON *)
  let '(characters, issues) := load_json char_path char_raw in
  let all_issues := all_issues ++ issues in
  let '(houses, issues) := load_json house_path house_raw in
  let all_issues := all_issues ++ issues in
  if (is_None characters || is_None houses)%bool then
    _ <~ print_issues all_issues ;; ret 2
  else
  (* Validate houses & characters independently *)
  '(houses_by_number, issues) <~ lift (validate_houses houses) ;;
  let all_issues := all_issues ++ issues in
  '(chars_by_id, issues) <~ lift (validate_characters characters) ;;
  let all_issues := all_issues ++ issues in
  (* Relationship validations *)
  '(spouse_of, parents_of_child, children_of_parent, rel_issues) <~
     lift (build_relationship_indexes chars_by_id) ;;
  let all_issues := all_issues ++ rel_issues in
  (* Cross-file validations *)
  cross_issues <~
     lift (validate_cross_file_consistency chars_by_id houses_by_number spouse_of
             parents_of_child children_of_parent) ;;
  let all_issues := all_issues ++ cross_issues in
  (* Print issues (sorted for stable output) *)
  let all_issues_sorted := sort_issues all_issues in
  _ <~ print_issues all_issues_sorted ;;
  (* Summary *)
  let err_count := count_level ERROR all_issues in
  let warn_count := count_level WARN all_issues in
  _ <~ print "" ;;
  _ <~ print "Summary:" ;;
  _ <~ print (fmt ["- Errors: "; str_Z err_count]) ;;
  _ <~ print (fmt ["- Warnings: "; str_Z warn_count]) ;;
  _ <~ print "" ;;
  _ <~ print "Not automatically validated (subjective / non-objective requirements):" ;;
  _ <~ print "- 3.1 recurring themes across many NPCs" ;;
  _ <~ print "- 3.2 cultural voice corresponds to accent language" ;;
  _ <~ print "- 3.3 / 3.3.1 no aggression / no passive aggressiveness" ;;
  ret (if err_count =? 0 then 0 else 1)
  end
  end.

(** A run from an empty console. *)
Definition run `{PyRuntime} `{HashSeed} (fs : FileSystem)
  (char_path house_path : string) : result Z * Console :=
  main fs char_path house_path (mkConsole [] []).

(** The [zsize] values of the houses of a side with usable bounds. *)
Fixpoint side_zsizes (houses_by_number : houses_index) (side_hns : list Z) : list Z :=
  match side_hns with
  | [] => []
  | hn :: rest =>
      let h := match idict_get houses_by_number hn with Some h => h | None => [] end in
      match dict_get h "bounds" with
      | PDict b =>
          match dict_get b "z", dict_get b "zsize" with
          | PInt _, PInt n | PFloat _, PInt n => n :: side_zsizes houses_by_number rest
          | _, _ => side_zsizes houses_by_number rest
          end
      | _ => side_zsizes houses_by_number rest
      end
  end.

(** The error that closes the walk of a side: the running value is off 200. *)
Definition walk_closing `{PyRuntime} (side_label : string) (running : float) : list Issue :=
  if approx_equal running 200%float then [] else [sum_issue side_label running].

(* ------------------------------------------------------------------------- *)
(** ** Orders and relations used by the statements *)

(** Lexicographic order of strings, as [<] and [<=] compare them. *)
Definition str_lt (a b : string) : Prop := String.compare a b = Lt.
Definition str_le (a b : string) : Prop := String.compare a b <> Gt.

(** The three-level report order: ERROR before WARN, then the requirement
    identifier, then the message. *)
Definition report_le (a b : Issue) : Prop :=
  (level a = ERROR /\ level b = WARN)
  \/ (level a = level b
      /\ (str_lt (requirement a) (requirement b)
          \/ (requirement a = requirement b /\ str_le (message a) (message b)))).

(** A run that aborted with status 2. *)
Definition aborted (r : result Z * Console) : Prop := fst r = Ok 2.

(* ------------------------------------------------------------------------- *)
(** ** A runtime for the examples *)

(** [repr] of a string of printable characters with no quote or backslash. *)
Definition plain_repr_str (s : string) : string := fmt ["'"; s; "'"].

(** [str] of a float with an integer value below 10^16, the only floats the
    examples print. *)
Definition integral_float_str (f : float) : string :=
  match Prim2SF f with
  | S754_zero s => if s then "-0.0" else "0.0"
  | S754_finite s m e =>
      let v := match e with
               | Z.neg p => Z.pos m / 2 ^ Z.pos p
               | _ => Z.pos m * 2 ^ e
               end in
      fmt [str_Z (if s then - v else v); ".0"]
  | S754_infinity s => if s then "-inf" else "inf"
  | S754_nan => "nan"
  end.

(** Equality of decoded values of the same shape. *)
Fixpoint pyval_eqb (a b : PyVal) : bool :=
  match a, b with
  | PNone, PNone => true
  | PBool x, PBool y => Bool.eqb x y
  | PInt x, PInt y => x =? y
  | PFloat x, PFloat y => PrimFloat.eqb x y
  | PStr x, PStr y => String.eqb x y
  | PList x, PList y =>
      (fix all2 (x y : list PyVal) : bool :=
         match x, y with
         | [], [] => true
         | u :: x', v :: y' => (pyval_eqb u v && all2 x' y')%bool
         | _, _ => false
         end) x y
  | PDict x, PDict y =>
      (fix all2 (x y : list (string * PyVal)) : bool :=
         match x, y with
         | [], [] => true
         | (j, u) :: x', (k, v) :: y' => (String.eqb j k && pyval_eqb u v && all2 x' y')%bool
         | _, _ => false
         end) x y
  | _, _ => false
  end.

(** A roster of one record, id 1, whose [family] is [null]. *)
Definition null_family_text : string :=
  fmt ["[{"; double_quote; "id"; double_quote; ": 1, ";
       double_quote; "family"; double_quote; ": null}]"].

Definition null_family_roster : PyVal :=
  PList [PDict [("id", PInt 1); ("family", PNone)]].

(** [json.loads] on the texts of the examples: [null], the empty array and
    [null_family_text] are decoded, anything else is refused at its first
    character. *)
Definition example_json_loads (text : string) : JsonOutcome :=
  if String.eqb text "null" then JsonValue PNone
  else if String.eqb text "[]" then JsonValue (PList [])
  else if String.eqb text null_family_text then JsonValue null_family_roster
  else JSONDecodeError 1 1 "Expecting value".

(** [str.casefold] on ASCII text: the capital letters are lowered. *)
Definition ascii_lower (c : ascii) : ascii :=
  let n := N_of_ascii c in
  if (N.leb 65 n && N.leb n 90)%bool then ascii_of_N (n + 32) else c.

Fixpoint ascii_casefold (s : string) : string :=
  match s with
  | EmptyString => EmptyString
  | String c rest => String (ascii_lower c) (ascii_casefold rest)
  end.

#[export] Instance example_runtime : PyRuntime := {|
  repr_str := plain_repr_str;
  float_str := integral_float_str;
  py_eq := pyval_eqb;
  casefold := ascii_casefold;
  set_iter := fun s => s;
  set_iter_perm := fun s => Permutation_refl s;
  json_loads := example_json_loads
|}.

(** Two processes: one iterates a set of strings in insertion order, the
    other in the reverse order. *)
#[export] Instance insertion_seed : HashSeed := {|
  str_set_iter := fun s => s;
  str_set_iter_perm := fun s => Permutation_refl s
|}.

Definition reversed_seed : HashSeed := {|
  str_set_iter := fun s => rev s;
  str_set_iter_perm := fun s => Permutation_sym (Permutation_rev s)
|}.

(* ------------------------------------------------------------------------- *)
(** ** The phases of main, named for the statements *)

(** The issues of lines 1058-1077 of [main]: both validators, the relationship
    indexes and the cross-file checks, in the order they are merged. *)
Definition validation_phase `{PyRuntime} `{HashSeed} (characters houses : PyVal)
  : result (list Issue) :=
  '(houses_by_number, house_issues) <- validate_houses houses ;;
  '(chars_by_id, char_issues) <- validate_characters characters ;;
  '(spouse_of, parents_of_child, children_of_parent, rel_issues) <-
     build_relationship_indexes chars_by_id ;;
  cross_issues <-
     validate_cross_file_consistency chars_by_id houses_by_number spouse_of
       parents_of_child children_of_parent ;;
  Ok (house_issues ++ char_issues ++ rel_issues ++ cross_issues).

(** The issues accumulated when both files have been read, scanned and handed
    to [load_json]. *)
Definition parse_phase `{PyRuntime} (char_path house_path craw hraw : string)
  : list Issue :=
  scan_for_disallowed_quotes char_path craw
  ++ scan_for_disallowed_quotes house_path hraw
  ++ snd (load_json char_path craw)
  ++ snd (load_json house_path hraw).

(** The summary block that follows the sorted issues. *)
Definition summary_lines (issues : list Issue) : list Line :=
  map TextLine
    [ ""; "Summary:";
      fmt ["- Errors: "; str_Z (count_level ERROR issues)];
      fmt ["- Warnings: "; str_Z (count_level WARN issues)];
      "";
      "Not automatically validated (subjective / non-objective requirements):";
      "- 3.1 recurring themes across many NPCs";
      "- 3.2 cultural voice corresponds to accent language";
      "- 3.3 / 3.3.1 no aggression / no passive aggressiveness" ].

Definition decode_issue (path e : string) : Issue :=
  mkIssue ERROR "1.4.1"
    (fmt [path; ": file is not valid UTF-8 (UnicodeDecodeError: "; e; ")."]).

Definition not_found_issue (path : string) : Issue :=
  mkIssue ERROR "1.1/2.x" (fmt [path; ": file not found."]).

(** *** Inputs of the examples *)

(** One right single quotation mark, U+2019. *)
Definition curly_apostrophe : string := bytes [226; 128; 153]%N.

(** [characters.json] is not UTF-8; [houses.json] holds a curly apostrophe. *)
Definition undecodable_characters_fs : FileSystem :=
  fun path =>
    if String.eqb path "config/characters.json"
    then UnicodeDecodeError "'utf-8' codec can't decode byte 0xff in position 0: invalid start byte"
    else FileText curly_apostrophe.

(** [characters.json] holds a curly apostrophe and nothing else; [houses.json]
    is the empty array. *)
Definition curly_characters_fs : FileSystem :=
  fun path =>
    if String.eqb path "config/characters.json" then FileText curly_apostrophe
    else FileText "[]".

(** [characters.json] is the JSON text [null]; [houses.json] is the empty
    array. *)
Definition null_characters_fs : FileSystem :=
  fun path =>
    if String.eqb path "config/characters.json" then FileText "null"
    else FileText "[]".

(** [characters.json] is [null_family_text]; [houses.json] is the empty
    array. *)
Definition null_family_fs : FileSystem :=
  fun path =>
    if String.eqb path "config/characters.json" then FileText null_family_text
    else FileText "[]".

(** Both files are the empty array. *)
Definition empty_rosters_fs : FileSystem := fun _ => FileText "[]".

(** The two rosters are the empty array and no other file exists. *)
Definition only_rosters_fs : FileSystem :=
  fun path =>
    if (String.eqb path "config/characters.json" || String.eqb path "config/houses.json")%bool
    then FileText "[]"
    else FileNotFoundError.

(** Scenario 4: on the odd side house 1 ends at z = 35, house 3 starts at
    z = 20 with zsize 12, and house 5 starts at z = 32. *)
Definition bounds_of (x z xsize zsize : Z) : PyVal :=
  PDict [("x", PInt x); ("z", PInt z); ("xsize", PInt xsize); ("zsize", PInt zsize)].

Definition scenario4_houses : houses_index :=
  [ (1, [("houseNumber", PInt 1); ("bounds", bounds_of 40 0 30 35)]);
    (3, [("houseNumber", PInt 3); ("bounds", bounds_of 40 20 30 12)]);
    (5, [("houseNumber", PInt 5); ("bounds", bounds_of 40 32 30 10)]) ].

(* ------------------------------------------------------------------------- *)
(** ** Reading identifiers back from messages *)

(** The characters of a printed integer: the digits and the minus sign. *)
Definition number_char (c : ascii) : bool :=
  let n := N_of_ascii c in ((N.leb 48 n && N.leb n 57) || N.eqb n 45)%bool.

Fixpoint number_text (s : string) : bool :=
  match s with
  | EmptyString => true
  | String c rest => (number_char c && number_text rest)%bool
  end.

(** The text after a printed integer: empty, or starting with a character
    that cannot continue the integer. *)
Definition ends_number (rest : string) : Prop :=
  match rest with
  | EmptyString => True
  | String c _ => number_char c = false
  end.

(* ------------------------------------------------------------------------- *)
(** ** Family ties inside a house *)

(** [a] and [b] are distinct occupants tied as spouses, as parent and child,
    or as siblings with a common parent id. *)
Definition kin (spouse_of : idict Z) (parents_of_child children_of_parent : idict pyset)
  (occupants : list Z) (a b : Z) : Prop :=
  In a occupants /\ In b occupants /\ a <> b
  /\ (idict_get spouse_of a = Some b \/ idict_get spouse_of b = Some a
      \/ In b (dd_get children_of_parent a) \/ In a (dd_get children_of_parent b)
      \/ exists p, In p (dd_get parents_of_child a) /\ In p (dd_get parents_of_child b)).

(** An edge of an adjacency map, and its reflexive-transitive closure. *)
Definition edge (g : graph) (a b : Z) : Prop := In b (dd_get g a).

Definition reach (g : graph) : Z -> Z -> Prop := clos_refl_trans Z (edge g).

(** The character [u] is in the roster with an integer age of 18 or more. *)
Definition adult (chars_by_id : chars_index) (u : Z) : Prop :=
  exists c n, idict_get chars_by_id u = Some c /\ dict_get c "age" = PInt n /\ 18 <= n.

(** A roster record whose [family], when present, is an object. *)
Definition family_is_object (c : pydict) : Prop :=
  match dict_lookup c "family" with
  | Some (PDict _) | None => True
  | Some _ => False
  end.

(** Every record with an integer age has an object for its family: the
    rosters on which [validate_cross_file_consistency] raises nothing. *)
Definition families_are_objects (chars_by_id : chars_index) : Prop :=
  forall cid c n, In (cid, c) chars_by_id -> dict_get c "age" = PInt n ->
                  family_is_object c.

(** A value that a set can hold: not a list and not a dictionary. *)
Definition hashable (v : PyVal) : Prop :=
  match v with
  | PList _ | PDict _ => False
  | _ => True
  end.

(** The rosters on which [build_relationship_indexes] raises nothing: every
    [family] is an object or absent, and every [gender] can be hashed. *)
Definition records_well_formed (chars_by_id : chars_index) : Prop :=
  forall cid c, In (cid, c) chars_by_id ->
                family_is_object c /\ hashable (dict_get c "gender").

(** The house [h] lists the integer [occ] among its occupants. *)
Definition lists_occupant (h : pydict) (occ : Z) : Prop :=
  exists occs, dict_get h "occupants" = PList occs /\ In (PInt occ) occs.

(** The requirement identifiers of the cross-file issues other than the
    guardianship error 2.2.4.1. *)
Definition cross_file_other_requirements : list string :=
  ["2.4.1"; "2.3.3/2.8"; "2.8"; "2.5"; "2.4"; "2.3.2/2.9"; "2.9"; "2.2.8.4"; "2.2.8.5"].

Definition requirement_among (reqs : list string) (i : Issue) : Prop :=
  In (requirement i) reqs.

(** Scenario 5: a 7-year-old, id 5, alone in house 3. *)
Definition scenario5_chars : chars_index :=
  [ (5, [ ("id", PInt 5); ("lastName", PStr "Smith"); ("age", PInt 7);
          ("family", PDict [("spouse", PInt (-1)); ("children", PList [])]) ]) ].

Definition scenario5_houses : houses_index :=
  [ (3, [ ("houseNumber", PInt 3); ("surname", PStr "Smith");
          ("occupants", PList [PInt 5]) ]) ].

(** The same child when the only house lists somebody else. *)
Definition other_occupant_houses : houses_index :=
  [ (3, [ ("houseNumber", PInt 3); ("surname", PStr "Smith");
          ("occupants", PList [PInt 9]) ]) ].

(** A child, id 5, listed in house 3 and again in house 4, where the adult
    of the same family, id 6, lives. *)
Definition doubly_listed_chars : chars_index :=
  [ (5, [ ("id", PInt 5); ("lastName", PStr "Smith"); ("age", PInt 7);
          ("family", PDict [("spouse", PInt (-1)); ("children", PList [])]) ]);
    (6, [ ("id", PInt 6); ("lastName", PStr "Smith"); ("age", PInt 40);
          ("family", PDict [("spouse", PInt (-1)); ("children", PList [PInt 5])]) ]) ].

Definition doubly_listed_houses : houses_index :=
  [ (3, [ ("houseNumber", PInt 3); ("surname", PStr "Smith");
          ("occupants", PList [PInt 5]) ]);
    (4, [ ("houseNumber", PInt 4); ("surname", PStr "Smith");
          ("occupants", PList [PInt 6; PInt 5]) ]) ].

(** A family: 5 and 9 are married to each other, 6 also names 5 as spouse;
    5 lists the children 7, who is 20, and 8, who is not in the roster. *)
Definition person (id : Z) (gender : string) (age spouse : Z) (children : list Z)
  : Z * pydict :=
  (id, [ ("id", PInt id); ("gender", PStr gender); ("age", PInt age);
         ("family", PDict [("spouse", PInt spouse);
                           ("children", PList (map PInt children))]) ]).

Definition family_chars : chars_index :=
  [ person 5 "F" 30 9 [7; 8];
    person 9 "M" 41 5 [];
    person 6 "M" 50 5 [];
    person 7 "F" 20 (-1) [] ].

(* ------------------------------------------------------------------------- *)
(** ** Further inputs and notions for the statements *)

(** [characters.json] is the empty array; no other file exists. *)
Definition houses_missing_fs : FileSystem :=
  fun path =>
    if String.eqb path "config/characters.json" then FileText "[]"
    else FileNotFoundError.

(** [characters.json] holds a curly apostrophe; any other path is a
    directory. *)
Definition houses_unreadable_fs : FileSystem :=
  fun path =>
    if String.eqb path "config/characters.json" then FileText curly_apostrophe
    else OtherOSError.

(** A character that requirement 1.4.2 rules out. *)
Definition is_disallowed (ch : string) : bool :=
  existsb (String.eqb ch) DISALLOWED_QUOTE_CHARS.

(** A text of ASCII characters: every byte is below 128. *)
Fixpoint is_ascii_text (s : string) : bool :=
  match s with
  | EmptyString => true
  | String c rest => (N.ltb (N_of_ascii c) 128 && is_ascii_text rest)%bool
  end.

(** The number of newlines among the first [idx] characters. *)
Definition newlines_before (text : list string) (idx : nat) : Z :=
  Z.of_nat (List.length (filter (String.eqb newline) (firstn idx text))).

(** Three characters on two lines, then a curly apostrophe at index 3. *)
Definition two_line_text : list string := ["a"; newline; "b"; curly_apostrophe].

(** A list of issues without an ERROR. *)
Definition no_error (issues : list Issue) : Prop := count_level ERROR issues = 0.

(** What the loop of [validate_houses] keeps, for the entries [l]: the index
    holds each number once, each indexed house is an entry of [l] with that
    number and a non-empty occupants list, every indexed number was seen, and
    as long as no ERROR was raised every number seen is indexed and lies in
    0..29. *)
Definition houses_invariant (l : list PyVal) (st : houses_state) : Prop :=
  let '(by_number, seen_numbers, issues) := st in
  NoDup (map fst by_number)
  /\ (forall hn h, In (hn, h) by_number ->
        In (PDict h) l /\ dict_get h "houseNumber" = PInt hn
        /\ exists o os, dict_get h "occupants" = PList (o :: os))
  /\ (forall hn, idict_has by_number hn = true -> In hn seen_numbers)
  /\ (no_error issues ->
        forall hn, In hn seen_numbers -> idict_has by_number hn = true /\ 0 <= hn <= 29).

(* ------------------------------------------------------------------------- *)
(** ** A street that meets the requirements *)

(** Two letters for a number below 676: [Aa], [Ab], ... *)
Definition two_letters (i : nat) : string :=
  String (ascii_of_nat (65 + i / 26)) (String (ascii_of_nat (97 + i mod 26)) EmptyString).

(** The house of family [j], 0 to 28: the numbers 0 to 29 without 7. *)
Definition family_house (j : nat) : Z :=
  if (j <? 7)%nat then Z.of_nat j else Z.of_nat j + 1.

Definition family_surname (j : nat) : string := ("S" ++ two_letters j)%string.

(** Families 0 to 11 have a child; every family has a husband and a wife. *)
Definition family_ids (j : nat) : list Z :=
  let base := 3 * Z.of_nat j in
  if (j <? 12)%nat then [base + 1; base + 2; base + 3] else [base + 1; base + 2].

(** The fifteen houses of a side are 13 deep, the last five 14 deep, which
    adds up to 200. *)
Definition street_zsize (k : Z) : Z := if k <? 10 then 13 else 14.
Definition street_z (k : Z) : Z := if k <? 10 then 13 * k else 130 + 14 * (k - 10).

Definition street_house (hn : Z) (surname : list (string * PyVal)) (occupants : list Z)
  : PyVal :=
  PDict ([("houseNumber", PInt hn)] ++ surname
         ++ [("occupants", PList (map PInt occupants));
             ("bounds", bounds_of (if Z.even hn then 0 else 40) (street_z (hn / 2)) 30
                          (street_zsize (hn / 2)))]).

Definition street_houses : PyVal :=
  PList (street_house 7 [] [0]
         :: map (fun j => street_house (family_house j)
                            [("surname", PStr (family_surname j))] (family_ids j))
              (seq 0 29)).

Definition npc (id : Z) (first last gender : string) (age spouse : Z) (children : list Z)
  : PyVal :=
  PDict [ ("id", PInt id); ("firstName", PStr first); ("lastName", PStr last);
          ("gender", PStr gender); ("age", PInt age);
          ("accentLanguage", PStr "Canadian"); ("career", PStr "Baker");
          ("religion", PStr "Agnostic");
          ("personalityTraits", PList [PStr "kind"; PStr "calm"; PStr "curious"]);
          ("interests", PList [PStr "chess"; PStr "gardening"; PStr "cycling"]);
          ("about", PList [PStr "Bakes bread."; PStr "Rides to work."; PStr "Plays chess.";
                           PStr "Grows tomatoes."; PStr "Reads at night."]);
          ("socialMedia",
           PDict [ ("handle", PStr ("h" ++ first)%string); ("bio", PStr "Hello.");
                   ("followers", PInt 10); ("following", PInt 12) ]);
          ("family", PDict [("spouse", PInt spouse);
                            ("children", PList (map PInt children))]) ].

Definition street_family (j : nat) : list PyVal :=
  let base := 3 * Z.of_nat j in
  let last := family_surname j in
  let kids := if (j <? 12)%nat then [base + 3] else [] in
  [ npc (base + 1) (two_letters (3 * j)) last "M" 44 (base + 2) kids;
    npc (base + 2) (two_letters (3 * j + 1)) last "F" 42 (base + 1) kids ]
  ++ (if (j <? 12)%nat
      then [npc (base + 3) (two_letters (3 * j + 2)) last "F" 9 (-1) []]
      else []).

Definition street_characters : PyVal := PList (flat_map street_family (seq 0 29)).

(** The fields of a record that the later phases rely on: a gender of "M" or
    "F", an integer age of 6 or more, and a family object with an integer
    spouse and a list of integer children. *)
Definition record_fields_sound (c : pydict) : Prop :=
  (dict_get c "gender" = PStr "M" \/ dict_get c "gender" = PStr "F")
  /\ (exists age, dict_get c "age" = PInt age /\ 6 <= age)
  /\ exists fam spouse kids,
       dict_get c "family" = PDict fam
       /\ dict_get fam "spouse" = PInt spouse
       /\ dict_get fam "children" = PList kids
       /\ forallb is_int kids = true.

(** What the loop of [validate_characters] keeps, for the entries [l]: the
    index holds each id once, each indexed record is an entry of [l] with that
    id whose gender and accent can be hashed, and as long as no ERROR was
    raised every indexed record has sound fields and an id other than 0. *)
Definition chars_invariant (l : list PyVal) (st : chars_state) : Prop :=
  let '(by_id, _, _, issues) := st in
  NoDup (map fst by_id)
  /\ (forall cid c, In (cid, c) by_id ->
        In (PDict c) l /\ dict_get c "id" = PInt cid
        /\ hashable (dict_get c "gender") /\ hashable (dict_get c "accentLanguage"))
  /\ (no_error issues ->
        forall cid c, In (cid, c) by_id -> cid <> 0 /\ record_fields_sound c).

(** The record of [p] lists the integer [ch] among its children. *)
Definition lists_child (chars_by_id : chars_index) (p ch : Z) : Prop :=
  exists c kids, In (p, c) chars_by_id
                 /\ family_field c "children" = Ok (PList kids) /\ In (PInt ch) kids.

(** The record of [a] names the integer [b], other than -1, as its spouse. *)
Definition names_spouse (chars_by_id : chars_index) (a b : Z) : Prop :=
  exists c, In (a, c) chars_by_id /\ family_field c "spouse" = Ok (PInt b) /\ b <> -1.

(** The houses that list the integer [occ], in the order of the index, a
    house once for each time it lists it. *)
Definition listings (houses_by_number : houses_index) (occ : Z) : list Z :=
  flat_map
    (fun entry : Z * pydict =>
       match dict_get (snd entry) "occupants" with
       | PList occs => map (fun _ => fst entry) (filter (Z.eqb occ) (int_items occs))
       | _ => []
       end)
    houses_by_number.

(** A couple of the roster, 5 and 6; 5 is listed in houses 3 and 4, and
    house 4 also lists 9, whom the roster does not hold. *)
Definition two_homes_chars : chars_index :=
  [ person 5 "F" 30 6 []; person 6 "M" 31 5 [] ].

Definition two_homes_houses : houses_index :=
  [ (3, [("houseNumber", PInt 3); ("occupants", PList [PInt 5; PInt 6])]);
    (4, [("houseNumber", PInt 4); ("occupants", PList [PInt 5; PInt 9])]) ].

(** Both genders are among "M" and "F" and compare equal. *)
Definition same_known_gender `{PyRuntime} (g1 g2 : PyVal) : Prop :=
  in_MF g1 = Ok true /\ in_MF g2 = Ok true /\ py_eq g1 g2 = true.

(** The marriage of [a] to [b] as the spouse loop wants it: both are in the
    roster, [b] names [a] back, they are not of one known gender, and neither
    has an integer age under 18. *)
Definition lawful_marriage `{PyRuntime} (chars_by_id : chars_index) (a b : Z) : Prop :=
  exists ca cb,
    idict_get chars_by_id a = Some ca /\ idict_get chars_by_id b = Some cb
    /\ family_field cb "spouse" = Ok (PInt a)
    /\ ~ same_known_gender (dict_get ca "gender") (dict_get cb "gender")
    /\ int_below (dict_get ca "age") 18 = false
    /\ int_below (dict_get cb "age") 18 = false.

(** The child [ch] of [p] as the children loop wants it: the parent has no
    integer age under 18, the child is in the roster, and two integer ages are
    at least 18 years apart. *)
Definition lawful_parenthood (chars_by_id : chars_index) (p ch : Z) : Prop :=
  int_below (age_of chars_by_id p) 18 = false
  /\ exists c, idict_get chars_by_id ch = Some c
       /\ forall pa ca, age_of chars_by_id p = PInt pa -> dict_get c "age" = PInt ca ->
                        18 <= pa - ca.

(** The parents [ps] of a child as the parents loop wants them: at most two,
    and two parents are in the roster and not of one known gender. *)
Definition lawful_parents `{PyRuntime} (chars_by_id : chars_index) (ps : pyset) : Prop :=
  (List.length ps <= 2)%nat
  /\ forall p1 p2, sorted_ints ps = [p1; p2] ->
       exists c1 c2,
         idict_get chars_by_id p1 = Some c1 /\ idict_get chars_by_id p2 = Some c2
         /\ ~ same_known_gender (dict_get c1 "gender") (dict_get c2 "gender").

(** A couple and their child. *)
Definition lawful_chars : chars_index :=
  [ person 1 "M" 44 2 [3]; person 2 "F" 42 1 [3]; person 3 "F" 9 (-1) [] ].

(** The street of [lawful_chars]: the family in house 3, the player in
    house 7. *)
Definition lawful_houses : houses_index :=
  [ (3, [("houseNumber", PInt 3); ("surname", PStr "Reed");
         ("occupants", PList [PInt 1; PInt 2; PInt 3])]);
    (7, [("houseNumber", PInt 7); ("occupants", PList [PInt 0])]) ].

(* ------------------------------------------------------------------------- *)
(** ** Facts about sorted() *)

Lemma insert_sorted_perm {A : Type} (leb : A -> A -> bool) (x : A) (l : list A) :
  Permutation (insert_sorted leb x l) (x :: l).
Proof.
  induction l as [|y l IH]; simpl.
  - apply Permutation_refl.
  - destruct (leb x y).
    + apply Permutation_refl.
    + eapply Permutation_trans.
      * apply perm_skip. exact IH.
      * apply perm_swap.
Qed.

Lemma py_sorted_perm {A : Type} (leb : A -> A -> bool) (l : list A) :
  Permutation (py_sorted leb l) l.
Proof.
  induction l as [|x l IH]; simpl.
  - apply Permutation_refl.
  - eapply Permutation_trans.
    + apply insert_sorted_perm.
    + apply perm_skip. exact IH.
Qed.

(** *** The order of strings *)

Lemma ascii_compare_trans (a b c : ascii) :
  Ascii.compare a b = Lt -> Ascii.compare b c = Lt -> Ascii.compare a c = Lt.
Proof.
  unfold Ascii.compare. rewrite !N.compare_lt_iff. apply N.lt_trans.
Qed.

Lemma ascii_compare_refl (a : ascii) : Ascii.compare a a = Eq.
Proof. unfold Ascii.compare. apply N.compare_refl. Qed.

Lemma string_compare_refl (s : string) : String.compare s s = Eq.
Proof.
  induction s as [|c s IH]; simpl.
  - reflexivity.
  - rewrite ascii_compare_refl. exact IH.
Qed.

Lemma string_compare_trans (a b c : string) :
  String.compare a b = Lt -> String.compare b c = Lt -> String.compare a c = Lt.
Proof.
  revert b c. induction a as [|x a IH]; intros [|y b] [|z c]; simpl; try congruence.
  destruct (Ascii.compare x y) eqn:Exy; try discriminate.
  - apply Ascii.compare_eq_iff in Exy. subst y.
    destruct (Ascii.compare x z) eqn:Exz; try congruence.
    intros Hab Hbc. eapply IH; eassumption.
  - intros _.
    destruct (Ascii.compare y z) eqn:Eyz; try discriminate.
    + apply Ascii.compare_eq_iff in Eyz. subst z. rewrite Exy. reflexivity.
    + intros _. rewrite (ascii_compare_trans _ _ _ Exy Eyz). reflexivity.
Qed.

(** *** The order of sort keys *)

Lemma key_compare_refl (k : Z * string * string) : key_compare k k = Eq.
Proof.
  destruct k as [[r q] m]. simpl.
  rewrite Z.compare_refl, string_compare_refl. apply string_compare_refl.
Qed.

Lemma key_compare_eq (a b : Z * string * string) : key_compare a b = Eq -> a = b.
Proof.
  destruct a as [[ra qa] ma], b as [[rb qb] mb]. simpl.
  destruct (Z.compare ra rb) eqn:Er; try discriminate.
  apply Z.compare_eq in Er.
  destruct (String.compare qa qb) eqn:Eq1; try discriminate.
  apply String.compare_eq_iff in Eq1.
  intros Em. apply String.compare_eq_iff in Em. congruence.
Qed.

Lemma key_compare_antisym (a b : Z * string * string) :
  key_compare a b = CompOpp (key_compare b a).
Proof.
  destruct a as [[ra qa] ma], b as [[rb qb] mb]. simpl.
  rewrite (Z.compare_antisym ra rb).
  destruct (Z.compare ra rb); simpl; try reflexivity.
  rewrite (String.compare_antisym qb qa).
  destruct (String.compare qa qb); simpl; try reflexivity.
  rewrite (String.compare_antisym mb ma).
  destruct (String.compare ma mb); reflexivity.
Qed.

Lemma key_compare_trans (a b c : Z * string * string) :
  key_compare a b = Lt -> key_compare b c = Lt -> key_compare a c = Lt.
Proof.
  destruct a as [[ra qa] ma], b as [[rb qb] mb], c as [[rc qc] mc]. simpl.
  destruct (Z.compare ra rb) eqn:Eab; try discriminate.
  - apply Z.compare_eq in Eab. subst rb.
    destruct (Z.compare ra rc) eqn:Eac; try congruence.
    destruct (String.compare qa qb) eqn:Sab; try discriminate.
    + apply String.compare_eq_iff in Sab. subst qb.
      destruct (String.compare qa qc) eqn:Sac; try congruence.
      apply string_compare_trans.
    + intros _.
      destruct (String.compare qb qc) eqn:Sbc; try discriminate.
      * apply String.compare_eq_iff in Sbc. subst qc. rewrite Sab. reflexivity.
      * intros _. rewrite (string_compare_trans _ _ _ Sab Sbc). reflexivity.
  - intros _.
    destruct (Z.compare rb rc) eqn:Ebc; try discriminate.
    + apply Z.compare_eq in Ebc. subst rc. rewrite Eab. reflexivity.
    + intros _.
      rewrite Z.compare_lt_iff in Eab, Ebc.
      assert (Hlt : Z.compare ra rc = Lt) by (rewrite Z.compare_lt_iff; lia).
      rewrite Hlt. reflexivity.
Qed.

Lemma key_leb_total (a b : Issue) : key_leb a b = false -> key_leb b a = true.
Proof.
  unfold key_leb. rewrite (key_compare_antisym (sort_key b) (sort_key a)).
  destruct (key_compare (sort_key a) (sort_key b)); simpl; congruence.
Qed.

Lemma key_leb_trans (a b c : Issue) :
  key_leb a b = true -> key_leb b c = true -> key_leb a c = true.
Proof.
  unfold key_leb.
  destruct (key_compare (sort_key a) (sort_key b)) eqn:Eab; try discriminate;
    destruct (key_compare (sort_key b) (sort_key c)) eqn:Ebc; try discriminate;
    intros _ _.
  - apply key_compare_eq in Eab. rewrite Eab, Ebc. reflexivity.
  - apply key_compare_eq in Eab. rewrite Eab, Ebc. reflexivity.
  - apply key_compare_eq in Ebc. rewrite <- Ebc, Eab. reflexivity.
  - rewrite (key_compare_trans _ _ _ Eab Ebc). reflexivity.
Qed.

Lemma sort_key_inj (a b : Issue) : sort_key a = sort_key b -> a = b.
Proof.
  destruct a as [la qa ma], b as [lb qb mb]. unfold sort_key, level_rank. simpl.
  intros E. injection E as El Eq1 Em. subst.
  destruct la, lb; try discriminate; reflexivity.
Qed.

Lemma key_leb_antisym (a b : Issue) :
  key_leb a b = true -> key_leb b a = true -> a = b.
Proof.
  unfold key_leb. rewrite (key_compare_antisym (sort_key b) (sort_key a)).
  destruct (key_compare (sort_key a) (sort_key b)) eqn:E; simpl; try discriminate.
  intros _ _. apply sort_key_inj. apply key_compare_eq. exact E.
Qed.

(** The boolean order of [sort_key] is the three-level report order. *)
Lemma key_leb_report_le (a b : Issue) : key_leb a b = true -> report_le a b.
Proof.
  unfold key_leb, report_le, sort_key, level_rank, key_compare, str_lt, str_le.
  destruct a as [la qa ma], b as [lb qb mb]; simpl.
  destruct la, lb; simpl; try discriminate.
  - destruct (String.compare qa qb) eqn:Eq1; try discriminate; intros H.
    + apply String.compare_eq_iff in Eq1. right. split; [reflexivity|].
      right. split; [exact Eq1|]. destruct (String.compare ma mb); congruence.
    + right. split; [reflexivity|]. left. reflexivity.
  - intros _. left. split; reflexivity.
  - destruct (String.compare qa qb) eqn:Eq1; try discriminate; intros H.
    + apply String.compare_eq_iff in Eq1. right. split; [reflexivity|].
      right. split; [exact Eq1|]. destruct (String.compare ma mb); congruence.
    + right. split; [reflexivity|]. left. reflexivity.
Qed.

Lemma report_le_key_leb (a b : Issue) : report_le a b -> key_leb a b = true.
Proof.
  unfold key_leb, report_le, sort_key, level_rank, key_compare, str_lt, str_le.
  destruct a as [la qa ma], b as [lb qb mb]; simpl.
  intros [[Ha Hb] | [Hl [Hq | [Hq Hm]]]]; subst; simpl.
  - reflexivity.
  - destruct lb; simpl; rewrite Hq; reflexivity.
  - destruct lb; simpl; rewrite string_compare_refl;
      destruct (String.compare ma mb); congruence.
Qed.

(** *** sorted() sorts *)

Lemma insert_sorted_In {A : Type} (leb : A -> A -> bool) (x y : A) (l : list A) :
  In y (insert_sorted leb x l) -> y = x \/ In y l.
Proof.
  intros H. apply (Permutation_in _ (insert_sorted_perm leb x l)) in H.
  destruct H as [H | H]; [left; symmetry; exact H | right; exact H].
Qed.

(** For an order that is total, transitive and antisymmetric, [sorted]
    returns the one sorted arrangement of its argument. *)
Section Sorting.
Context {A : Type} (leb : A -> A -> bool).
Hypothesis leb_total : forall a b, leb a b = false -> leb b a = true.
Hypothesis leb_trans : forall a b c, leb a b = true -> leb b c = true -> leb a c = true.
Hypothesis leb_antisym : forall a b, leb a b = true -> leb b a = true -> a = b.

Lemma insert_sorted_sorted (x : A) (l : list A) :
  StronglySorted (fun a b => leb a b = true) l ->
  StronglySorted (fun a b => leb a b = true) (insert_sorted leb x l).
Proof.
  induction 1 as [|y l Hl IH Hy]; simpl.
  - constructor; constructor.
  - destruct (leb x y) eqn:Exy.
    + constructor.
      * constructor; assumption.
      * constructor; [exact Exy|].
        rewrite Forall_forall in *. intros z Hz.
        eapply leb_trans; [exact Exy | apply Hy; exact Hz].
    + constructor; [exact IH|].
      rewrite Forall_forall in *. intros z Hz.
      apply insert_sorted_In in Hz. destruct Hz as [-> | Hz].
      * apply leb_total. exact Exy.
      * apply Hy. exact Hz.
Qed.

Lemma py_sorted_sorted (l : list A) :
  StronglySorted (fun a b => leb a b = true) (py_sorted leb l).
Proof.
  induction l as [|x l IH]; simpl.
  - constructor.
  - apply insert_sorted_sorted. exact IH.
Qed.

(** Two sorted lists with the same elements are the same list. *)
Lemma sorted_perm_eq (l1 l2 : list A) :
  StronglySorted (fun a b => leb a b = true) l1 ->
  StronglySorted (fun a b => leb a b = true) l2 ->
  Permutation l1 l2 -> l1 = l2.
Proof.
  intros H1. revert l2. induction H1 as [|x l1 Hs1 IH Hx]; intros l2 H2 HP.
  - apply Permutation_nil in HP. symmetry. exact HP.
  - destruct H2 as [|y l2 Hs2 Hy].
    + apply Permutation_sym, Permutation_nil in HP. discriminate.
    + assert (Exy : x = y).
      { rewrite Forall_forall in Hx, Hy.
        assert (Hxin : In x (y :: l2)) by (eapply Permutation_in; [exact HP | left; reflexivity]).
        assert (Hyin : In y (x :: l1))
          by (eapply Permutation_in; [apply Permutation_sym; exact HP | left; reflexivity]).
        destruct Hxin as [-> | Hxin]; [reflexivity|].
        destruct Hyin as [-> | Hyin]; [reflexivity|].
        apply leb_antisym; [apply Hx; exact Hyin | apply Hy; exact Hxin]. }
      subst y. f_equal. apply IH; [exact Hs2|].
      eapply Permutation_cons_inv. exact HP.
Qed.

Lemma py_sorted_of_perm (l1 l2 : list A) :
  Permutation l1 l2 -> py_sorted leb l1 = py_sorted leb l2.
Proof.
  intros HP. apply sorted_perm_eq; try apply py_sorted_sorted.
  eapply Permutation_trans; [apply py_sorted_perm|].
  eapply Permutation_trans; [exact HP|].
  apply Permutation_sym, py_sorted_perm.
Qed.

End Sorting.

Lemma sort_issues_strongly (l : list Issue) :
  StronglySorted (fun a b => key_leb a b = true) (sort_issues l).
Proof. apply py_sorted_sorted; [exact key_leb_total | exact key_leb_trans]. Qed.

Lemma sort_issues_perm (l : list Issue) : Permutation (sort_issues l) l.
Proof. apply py_sorted_perm. Qed.

Lemma sort_issues_of_perm (l1 l2 : list Issue) :
  Permutation l1 l2 -> sort_issues l1 = sort_issues l2.
Proof.
  apply py_sorted_of_perm;
    [exact key_leb_total | exact key_leb_trans | exact key_leb_antisym].
Qed.

(** *** Sets of strings, sorted *)

Lemma string_leb_total (a b : string) : String.leb a b = false -> String.leb b a = true.
Proof.
  unfold String.leb. rewrite (String.compare_antisym b a).
  destruct (String.compare a b); simpl; congruence.
Qed.

Lemma string_leb_trans (a b c : string) :
  String.leb a b = true -> String.leb b c = true -> String.leb a c = true.
Proof.
  unfold String.leb.
  destruct (String.compare a b) eqn:Eab; try discriminate;
    destruct (String.compare b c) eqn:Ebc; try discriminate; intros _ _.
  - apply String.compare_eq_iff in Eab. rewrite Eab, Ebc. reflexivity.
  - apply String.compare_eq_iff in Eab. rewrite Eab, Ebc. reflexivity.
  - apply String.compare_eq_iff in Ebc. rewrite <- Ebc, Eab. reflexivity.
  - rewrite (string_compare_trans _ _ _ Eab Ebc). reflexivity.
Qed.

Lemma string_leb_antisym (a b : string) :
  String.leb a b = true -> String.leb b a = true -> a = b.
Proof.
  unfold String.leb. rewrite (String.compare_antisym b a).
  destruct (String.compare a b) eqn:E; simpl; try discriminate.
  intros _ _. apply String.compare_eq_iff. exact E.
Qed.

(** [sorted] of a set of strings does not depend on the order in which the
    process iterates the set. *)
Lemma sorted_strs_seed (seed1 seed2 : HashSeed) (s : list string) :
  @sorted_strs seed1 s = @sorted_strs seed2 s.
Proof.
  unfold sorted_strs.
  apply py_sorted_of_perm;
    [exact string_leb_total | exact string_leb_trans | exact string_leb_antisym |].
  eapply Permutation_trans; [apply str_set_iter_perm|].
  apply Permutation_sym, str_set_iter_perm.
Qed.

(* ------------------------------------------------------------------------- *)
(** ** The control flow of main *)

Lemma print_issues_spec (issues : list Issue) (w : Console) :
  print_issues issues w
  = (Ok tt, mkConsole (reads w) (printed w ++ map IssueLine issues)).
Proof.
  revert w. induction issues as [|i issues IH]; intros w; simpl.
  - unfold ret. rewrite app_nil_r. destruct w; reflexivity.
  - unfold io_bind, print_line. rewrite IH. simpl. rewrite <- app_assoc. reflexivity.
Qed.

Lemma printed_issues_of_issue_lines (l : list Issue) (rest : list string) :
  flat_map (fun l => match l with IssueLine i => [i] | TextLine _ => [] end)
    (map IssueLine l ++ map TextLine rest) = l.
Proof.
  induction l as [|i l IH]; simpl.
  - induction rest as [|t rest IHr]; simpl; [reflexivity | exact IHr].
  - rewrite IH. reflexivity.
Qed.

Ltac run_unfold :=
  unfold run, main, load_utf8_text, read_text, io_bind, ret, lift, print, print_line;
  simpl.

(** A read failure of the first file ends the run before the second file is
    opened. *)
Lemma run_characters_undecodable `{PyRuntime} `{HashSeed} (fs : FileSystem)
  (cp hp e : string) :
  fs cp = UnicodeDecodeError e ->
  run fs cp hp = (Ok 2, mkConsole [cp] [IssueLine (decode_issue cp e)]).
Proof.
  intros Hc. run_unfold. rewrite Hc. simpl. reflexivity.
Qed.

Lemma run_characters_not_found `{PyRuntime} `{HashSeed} (fs : FileSystem)
  (cp hp : string) :
  fs cp = FileNotFoundError ->
  run fs cp hp = (Ok 2, mkConsole [cp] [IssueLine (not_found_issue cp)]).
Proof.
  intros Hc. run_unfold. rewrite Hc. simpl. reflexivity.
Qed.

Lemma run_characters_oserror `{PyRuntime} `{HashSeed} (fs : FileSystem)
  (cp hp : string) :
  fs cp = OtherOSError ->
  run fs cp hp = (Raise OSError, mkConsole [cp] []).
Proof.
  intros Hc. run_unfold. rewrite Hc. simpl. reflexivity.
Qed.

Lemma run_houses_undecodable `{PyRuntime} `{HashSeed} (fs : FileSystem)
  (cp hp craw e : string) :
  fs cp = FileText craw -> fs hp = UnicodeDecodeError e ->
  run fs cp hp
  = (Ok 2, mkConsole [cp; hp]
             (map IssueLine (scan_for_disallowed_quotes cp craw ++ [decode_issue hp e]))).
Proof.
  intros Hc Hh. run_unfold. rewrite Hc. simpl. rewrite Hh. simpl.
  rewrite print_issues_spec. reflexivity.
Qed.

Lemma run_houses_not_found `{PyRuntime} `{HashSeed} (fs : FileSystem)
  (cp hp craw : string) :
  fs cp = FileText craw -> fs hp = FileNotFoundError ->
  run fs cp hp
  = (Ok 2, mkConsole [cp; hp]
             (map IssueLine (scan_for_disallowed_quotes cp craw ++ [not_found_issue hp]))).
Proof.
  intros Hc Hh. run_unfold. rewrite Hc. simpl. rewrite Hh. simpl.
  rewrite print_issues_spec. reflexivity.
Qed.

Lemma run_houses_oserror `{PyRuntime} `{HashSeed} (fs : FileSystem)
  (cp hp craw : string) :
  fs cp = FileText craw -> fs hp = OtherOSError ->
  run fs cp hp = (Raise OSError, mkConsole [cp; hp] []).
Proof.
  intros Hc Hh. run_unfold. rewrite Hc. simpl. rewrite Hh. simpl. reflexivity.
Qed.

(** Both files read: [load_json] runs on both before the [None] test. *)
Lemma run_parse_none `{PyRuntime} `{HashSeed} (fs : FileSystem)
  (cp hp craw hraw : string) :
  fs cp = FileText craw -> fs hp = FileText hraw ->
  (is_None (fst (load_json cp craw)) || is_None (fst (load_json hp hraw)))%bool = true ->
  run fs cp hp
  = (Ok 2, mkConsole [cp; hp] (map IssueLine (parse_phase cp hp craw hraw))).
Proof.
  intros Hc Hh Hn. run_unfold. rewrite Hc. simpl. rewrite Hh. simpl.
  unfold parse_phase.
  destruct (load_json cp craw) as [characters ci] eqn:Ec.
  destruct (load_json hp hraw) as [houses hi] eqn:Eh.
  simpl in Hn. rewrite Hn. rewrite print_issues_spec. simpl.
  rewrite <- ?app_assoc. reflexivity.
Qed.

Lemma run_validation `{PyRuntime} `{HashSeed} (fs : FileSystem)
  (cp hp craw hraw : string) :
  fs cp = FileText craw -> fs hp = FileText hraw ->
  (is_None (fst (load_json cp craw)) || is_None (fst (load_json hp hraw)))%bool = false ->
  run fs cp hp
  = match validation_phase (fst (load_json cp craw)) (fst (load_json hp hraw)) with
    | Raise e => (Raise e, mkConsole [cp; hp] [])
    | Ok found =>
        let all_issues := parse_phase cp hp craw hraw ++ found in
        (Ok (if count_level ERROR all_issues =? 0 then 0 else 1),
         mkConsole [cp; hp]
           (map IssueLine (sort_issues all_issues) ++ summary_lines all_issues))
    end.
Proof.
  intros Hc Hh Hn. run_unfold. rewrite Hc. simpl. rewrite Hh. simpl.
  unfold parse_phase, validation_phase.
  destruct (load_json cp craw) as [characters ci] eqn:Ec.
  destruct (load_json hp hraw) as [houses hi] eqn:Eh.
  simpl in Hn. rewrite Hn. simpl.
  destruct (validate_houses houses) as [[hbn hiss]|e]; simpl; [|reflexivity].
  destruct (validate_characters characters) as [[cbi ciss]|e]; simpl; [|reflexivity].
  destruct (build_relationship_indexes cbi) as [[[[so pc] cpar] riss]|e]; simpl;
    [|reflexivity].
  destruct (validate_cross_file_consistency cbi hbn so pc cpar) as [xiss|e]; simpl;
    [|reflexivity].
  rewrite print_issues_spec. simpl.
  rewrite <- ?app_assoc. simpl. rewrite <- ?app_assoc. reflexivity.
Qed.

(* ------------------------------------------------------------------------- *)
(** ** The hash seed does not show *)

Lemma for_each_ext {A S : Type} (f g : S -> A -> result S) (xs : list A) (s : S) :
  (forall s x, f s x = g s x) -> for_each f xs s = for_each g xs s.
Proof.
  intros Hfg. revert s. induction xs as [|x xs IH]; intros s; simpl.
  - reflexivity.
  - rewrite Hfg. destruct (g s x) as [s'|e]; simpl; [apply IH | reflexivity].
Qed.

Lemma family_issues_seed `{PyRuntime} (seed1 seed2 : HashSeed) (cid : Z) (fam : PyVal)
  (issues : list Issue) :
  @family_issues _ seed1 cid fam issues = @family_issues _ seed2 cid fam issues.
Proof.
  unfold family_issues. destruct fam; try reflexivity.
  cbv zeta. rewrite (sorted_strs_seed seed1 seed2). reflexivity.
Qed.

Lemma validate_character_fields_seed `{PyRuntime} (seed1 seed2 : HashSeed) (cid : Z)
  (c : pydict) (first_names_ci handles_ci : list (string * Z)) (issues : list Issue) :
  @validate_character_fields _ seed1 cid c first_names_ci handles_ci issues
  = @validate_character_fields _ seed2 cid c first_names_ci handles_ci issues.
Proof.
  unfold validate_character_fields. cbv zeta.
  destruct (first_name_issues _ _ _ _) as [names found].
  destruct (in_MF _) as [known|e]; cbn [bind]; [|reflexivity].
  destruct (in_str_set _ _) as [listed|e]; cbn [bind]; [|reflexivity].
  rewrite (sorted_strs_seed seed1 seed2 ACCENT_ENUM).
  destruct (social_media_issues _ _ _ _) as [handles found'].
  rewrite (family_issues_seed seed1 seed2). reflexivity.
Qed.

Lemma validate_character_entry_seed `{PyRuntime} (seed1 seed2 : HashSeed)
  (st : chars_state) (entry : nat * PyVal) :
  @validate_character_entry _ seed1 st entry = @validate_character_entry _ seed2 st entry.
Proof.
  unfold validate_character_entry.
  destruct st as [[[by_id names] handles] issues], entry as [idx c].
  destruct c; try reflexivity.
  destruct (dict_get d "id"); try reflexivity.
  destruct (idict_has by_id z); [reflexivity|].
  rewrite (validate_character_fields_seed seed1 seed2). reflexivity.
Qed.

(** [validate_characters] sorts every set of strings it prints, so its result
    is the same in every process. *)
Lemma validate_characters_seed `{PyRuntime} (seed1 seed2 : HashSeed) (characters : PyVal) :
  @validate_characters _ seed1 characters = @validate_characters _ seed2 characters.
Proof.
  unfold validate_characters. destruct characters; try reflexivity.
  cbv zeta.
  rewrite (for_each_ext _ _ _ _ (validate_character_entry_seed seed1 seed2)).
  reflexivity.
Qed.

Lemma validation_phase_seed `{PyRuntime} (seed1 seed2 : HashSeed) (characters houses : PyVal) :
  @validation_phase _ seed1 characters houses = @validation_phase _ seed2 characters houses.
Proof.
  unfold validation_phase.
  rewrite (validate_characters_seed seed1 seed2). reflexivity.
Qed.

(* ------------------------------------------------------------------------- *)
(** ** The exit status and the report *)

(** Every way a run can end: an abort with status 2 after printing what was
    accumulated, an uncaught exception with nothing printed, or a completed
    report. *)
Lemma run_outcomes `{PyRuntime} `{HashSeed} (fs : FileSystem) (cp hp : string) :
  (fst (run fs cp hp) = Ok 2)
  \/ (exists e, fst (run fs cp hp) = Raise e /\ printed (snd (run fs cp hp)) = [])
  \/ (exists all_issues,
        fst (run fs cp hp) = Ok (if count_level ERROR all_issues =? 0 then 0 else 1)
        /\ printed (snd (run fs cp hp))
           = map IssueLine (sort_issues all_issues) ++ summary_lines all_issues).
Proof.
  destruct (fs cp) as [craw|e| |] eqn:Hc.
  - destruct (fs hp) as [hraw|e| |] eqn:Hh.
    + destruct (is_None (fst (load_json cp craw)) || is_None (fst (load_json hp hraw)))%bool
        eqn:Hn.
      * left. rewrite (run_parse_none fs cp hp craw hraw Hc Hh Hn). reflexivity.
      * right. rewrite (run_validation fs cp hp craw hraw Hc Hh Hn).
        destruct (validation_phase _ _) as [found|e].
        -- right. eexists. split; reflexivity.
        -- left. exists e. split; reflexivity.
    + left. rewrite (run_houses_undecodable fs cp hp craw e Hc Hh). reflexivity.
    + left. rewrite (run_houses_not_found fs cp hp craw Hc Hh). reflexivity.
    + right. left. exists OSError.
      rewrite (run_houses_oserror fs cp hp craw Hc Hh). split; reflexivity.
  - left. rewrite (run_characters_undecodable fs cp hp e Hc). reflexivity.
  - left. rewrite (run_characters_not_found fs cp hp Hc). reflexivity.
  - right. left. exists OSError.
    rewrite (run_characters_oserror fs cp hp Hc). split; reflexivity.
Qed.

Lemma strongly_sorted_report (l : list Issue) :
  StronglySorted report_le (sort_issues l).
Proof.
  generalize (sort_issues_strongly l). generalize (sort_issues l).
  induction 1 as [|x s Hs IH Hx]; constructor.
  - exact IH.
  - rewrite Forall_forall in *. intros y Hy. apply key_leb_report_le, Hx, Hy.
Qed.

(** C1 (the code at the failing input): a characters file whose text is the
    JSON value null is read and parsed, yet [main] returns 2, printing only
    what the scans found and no summary. *)
Theorem null_roster_aborts_with_status_2 `{PyRuntime} `{HashSeed} (fs : FileSystem)
  (cp hp craw hraw : string) :
  fs cp = FileText craw -> fs hp = FileText hraw ->
  json_loads craw = JsonValue PNone ->
  run fs cp hp
  = (Ok 2, mkConsole [cp; hp] (map IssueLine (parse_phase cp hp craw hraw))).
Proof.
  intros Hc Hh Hj. apply run_parse_none; try assumption.
  unfold load_json. rewrite Hj. reflexivity.
Qed.

Lemma null_roster_aborts_witness :
  null_characters_fs "config/characters.json" = FileText "null"
  /\ null_characters_fs "config/houses.json" = FileText "[]"
  /\ json_loads "null" = JsonValue PNone
  /\ run null_characters_fs
       "config/characters.json" "config/houses.json"
     = (Ok 2, mkConsole ["config/characters.json"; "config/houses.json"] []).
Proof.
  split; [reflexivity|]. split; [reflexivity|]. split; [reflexivity|].
  exact (null_roster_aborts_with_status_2 null_characters_fs
           "config/characters.json" "config/houses.json" "null" "[]"
           eq_refl eq_refl eq_refl).
Defined.

(** The exit contract where it does hold: when both files are read, neither
    parses to [None] and validation raises nothing, [main] returns 0 exactly
    when no ERROR was accumulated, and 1 otherwise. *)
Lemma exit_status_of_completed_run `{PyRuntime} `{HashSeed} (fs : FileSystem)
  (cp hp craw hraw : string) (found : list Issue) :
  fs cp = FileText craw -> fs hp = FileText hraw ->
  is_None (fst (load_json cp craw)) = false ->
  is_None (fst (load_json hp hraw)) = false ->
  validation_phase (fst (load_json cp craw)) (fst (load_json hp hraw)) = Ok found ->
  fst (run fs cp hp)
  = Ok (if count_level ERROR (parse_phase cp hp craw hraw ++ found) =? 0 then 0 else 1).
Proof.
  intros Hc Hh Hn1 Hn2 Hv.
  rewrite (run_validation fs cp hp craw hraw Hc Hh).
  - rewrite Hv. reflexivity.
  - rewrite Hn1, Hn2. reflexivity.
Qed.

(** A JSON syntax error in either file gives status 2, and the accumulated
    issues, the parse errors of both files among them, are printed first. *)
Lemma exit_status_of_syntax_error `{PyRuntime} `{HashSeed} (fs : FileSystem)
  (cp hp craw hraw : string) :
  fs cp = FileText craw -> fs hp = FileText hraw ->
  (exists l c m, json_loads craw = JSONDecodeError l c m)
  \/ (exists l c m, json_loads hraw = JSONDecodeError l c m) ->
  run fs cp hp
  = (Ok 2, mkConsole [cp; hp] (map IssueLine (parse_phase cp hp craw hraw))).
Proof.
  intros Hc Hh Hj. apply run_parse_none; try assumption.
  unfold load_json.
  destruct Hj as [(l & c & m & Hj) | (l & c & m & Hj)]; rewrite Hj; simpl.
  - reflexivity.
  - apply orb_true_r.
Qed.

(** C2 (as amended): a characters file that is not UTF-8 ends the run at
    once with status 2: the only path read is the characters path, and the
    only line printed is its 1.4.1 issue.  The houses file is not attempted. *)
Theorem decode_failure_ends_run_before_houses `{PyRuntime} `{HashSeed}
  (fs : FileSystem) (cp hp e : string) :
  fs cp = UnicodeDecodeError e ->
  run fs cp hp = (Ok 2, mkConsole [cp] [IssueLine (decode_issue cp e)]).
Proof. apply run_characters_undecodable. Qed.

Lemma decode_failure_ends_run_witness :
  undecodable_characters_fs "config/characters.json"
  = UnicodeDecodeError
      "'utf-8' codec can't decode byte 0xff in position 0: invalid start byte"
  /\ run undecodable_characters_fs
       "config/characters.json" "config/houses.json"
     = (Ok 2,
        mkConsole ["config/characters.json"]
          [IssueLine
             (decode_issue "config/characters.json"
                "'utf-8' codec can't decode byte 0xff in position 0: invalid start byte")]).
Proof.
  split; [reflexivity|].
  exact (decode_failure_ends_run_before_houses
           undecodable_characters_fs "config/characters.json" "config/houses.json" _
           eq_refl).
Defined.

(** C2 (counterexample): the characters file fails to decode and the houses
    file holds a curly apostrophe; the run never reads the houses path and
    prints no issue for it. *)
Lemma decode_failure_houses_not_attempted :
  undecodable_characters_fs "config/characters.json"
  = UnicodeDecodeError
      "'utf-8' codec can't decode byte 0xff in position 0: invalid start byte"
  /\ undecodable_characters_fs "config/houses.json" = FileText curly_apostrophe
  /\ scan_for_disallowed_quotes "config/houses.json" curly_apostrophe <> []
  /\ fst (run undecodable_characters_fs
            "config/characters.json" "config/houses.json") = Ok 2
  /\ ~ In "config/houses.json"
         (reads (snd (run undecodable_characters_fs
                        "config/characters.json" "config/houses.json")))
  /\ List.length
       (printed (snd (run undecodable_characters_fs
                        "config/characters.json" "config/houses.json"))) = 1%nat.
Proof.
  split; [reflexivity|]. split; [reflexivity|]. split; [vm_compute; discriminate|].
  rewrite (run_characters_undecodable undecodable_characters_fs
             "config/characters.json" "config/houses.json" _ eq_refl).
  simpl. split; [reflexivity|]. split; [|reflexivity].
  intros [Hin | []]. discriminate Hin.
Qed.



(** The report of the two empty rosters, by requirement identifier. *)
Example empty_rosters_report :
  map (fun i => (level i, requirement i))
    (printed_issues
       (snd (run empty_rosters_fs
               "config/characters.json" "config/houses.json")))
  = [ (ERROR, "2.1/2.4.1"); (ERROR, "2.3"); (ERROR, "2.3.1");
      (ERROR, "2.3.6.4.1"); (ERROR, "2.3.6.4.2") ]
  /\ fst (run empty_rosters_fs
            "config/characters.json" "config/houses.json") = Ok 1.
Proof. vm_compute. split; reflexivity. Qed.


(** C8: the run is a function of the two texts: two processes, whatever the
    salt of their string hashes, given file systems with the same outcome for
    the two paths, end with the same exit status, the same reads and the same
    printed lines; and the printed order of a completed run depends only on
    the multiset of accumulated issues. *)
Theorem validation_is_deterministic `{PyRuntime} (seed1 seed2 : HashSeed)
  (fs1 fs2 : FileSystem) (cp hp : string) :
  fs1 cp = fs2 cp -> fs1 hp = fs2 hp ->
  @run _ seed1 fs1 cp hp = @run _ seed2 fs2 cp hp
  /\ (forall issues1 issues2,
        Permutation issues1 issues2 -> sort_issues issues1 = sort_issues issues2).
Proof.
  intros Hc Hh. split; [|apply sort_issues_of_perm].
  destruct (fs2 cp) as [craw|e| |] eqn:Hc2.
  - destruct (fs2 hp) as [hraw|e| |] eqn:Hh2.
    + destruct (is_None (fst (load_json cp craw)) || is_None (fst (load_json hp hraw)))%bool
        eqn:Hn.
      * rewrite (@run_parse_none _ seed1 fs1 cp hp craw hraw Hc Hh Hn).
        rewrite (@run_parse_none _ seed2 fs2 cp hp craw hraw Hc2 Hh2 Hn). reflexivity.
      * rewrite (@run_validation _ seed1 fs1 cp hp craw hraw Hc Hh Hn).
        rewrite (@run_validation _ seed2 fs2 cp hp craw hraw Hc2 Hh2 Hn).
        rewrite (validation_phase_seed seed1 seed2). reflexivity.
    + rewrite (@run_houses_undecodable _ seed1 fs1 cp hp craw e Hc Hh).
      rewrite (@run_houses_undecodable _ seed2 fs2 cp hp craw e Hc2 Hh2). reflexivity.
    + rewrite (@run_houses_not_found _ seed1 fs1 cp hp craw Hc Hh).
      rewrite (@run_houses_not_found _ seed2 fs2 cp hp craw Hc2 Hh2). reflexivity.
    + rewrite (@run_houses_oserror _ seed1 fs1 cp hp craw Hc Hh).
      rewrite (@run_houses_oserror _ seed2 fs2 cp hp craw Hc2 Hh2). reflexivity.
  - rewrite (@run_characters_undecodable _ seed1 fs1 cp hp e Hc).
    rewrite (@run_characters_undecodable _ seed2 fs2 cp hp e Hc2). reflexivity.
  - rewrite (@run_characters_not_found _ seed1 fs1 cp hp Hc).
    rewrite (@run_characters_not_found _ seed2 fs2 cp hp Hc2). reflexivity.
  - rewrite (@run_characters_oserror _ seed1 fs1 cp hp Hc).
    rewrite (@run_characters_oserror _ seed2 fs2 cp hp Hc2). reflexivity.
Qed.

Lemma validation_is_deterministic_witness :
  empty_rosters_fs "config/characters.json" = only_rosters_fs "config/characters.json"
  /\ empty_rosters_fs "config/houses.json" = only_rosters_fs "config/houses.json"
  /\ empty_rosters_fs "README.md" <> only_rosters_fs "README.md"
  /\ @str_set_iter insertion_seed ["b"; "a"] <> @str_set_iter reversed_seed ["b"; "a"]
  /\ @run _ insertion_seed empty_rosters_fs
       "config/characters.json" "config/houses.json"
     = @run _ reversed_seed only_rosters_fs
         "config/characters.json" "config/houses.json".
Proof.
  split; [reflexivity|]. split; [reflexivity|]. split; [discriminate|].
  split; [discriminate|].
  exact (proj1 (validation_is_deterministic insertion_seed reversed_seed
                  empty_rosters_fs only_rosters_fs
                  "config/characters.json" "config/houses.json" eq_refl eq_refl)).
Defined.

(* ------------------------------------------------------------------------- *)
(** ** The contiguity walk *)

Lemma bind_ok {A B : Type} (a : A) (k : A -> result B) : bind (Ok a) k = k a.
Proof. reflexivity. Qed.

(** The loop of [side_check] from any state: the running value, the sizes and
    the issues it ends with are those of the walk over the usable houses. *)
Lemma side_loop_walk `{PyRuntime} (houses_by_number : houses_index) (side_label : string)
  (side_hns : list Z) (running : float) (zsizes : list Z) (issues : list Issue) :
  for_each (side_step houses_by_number side_label) side_hns (running, zsizes, issues)
  = spans <- side_spans houses_by_number side_hns ;;
    Ok (walk_running running spans,
        zsizes ++ side_zsizes houses_by_number side_hns,
        issues ++ walk_gaps side_label running spans).
Proof.
  revert running zsizes issues.
  induction side_hns as [|hn rest IH]; intros running zsizes issues.
  - simpl. rewrite !app_nil_r. reflexivity.
  - cbn [for_each side_spans side_zsizes]. unfold side_step at 1.
    destruct (dict_get
                match idict_get houses_by_number hn with Some h => h | None => [] end
                "bounds") as [| | | | | |b];
      try (rewrite bind_ok; apply IH).
    destruct (dict_get b "z") as [| |z|zf| | |] eqn:Ez;
      destruct (dict_get b "zsize") as [| |n| | | |] eqn:En; cbn [is_number is_int negb orb];
      try (rewrite bind_ok; apply IH).
    + (* integer z *)
      cbn [py_float].
      destruct (float_of_Z z) as [z_f|e]; [|reflexivity]. rewrite !bind_ok.
      destruct (float_of_Z n) as [d|e].
      * destruct (approx_equal z_f running) eqn:Ea; rewrite !bind_ok; rewrite IH;
          destruct (side_spans houses_by_number rest) as [spans|e]; try reflexivity;
          rewrite !bind_ok; cbn [walk_running walk_gaps]; rewrite Ea;
          rewrite <- ?app_assoc; reflexivity.
      * destruct (approx_equal z_f running); reflexivity.
    + (* float z *)
      cbn [py_float]. rewrite !bind_ok.
      destruct (float_of_Z n) as [d|e].
      * destruct (approx_equal zf running) eqn:Ea; rewrite !bind_ok; rewrite IH;
          destruct (side_spans houses_by_number rest) as [spans|e]; try reflexivity;
          rewrite !bind_ok; cbn [walk_running walk_gaps]; rewrite Ea;
          rewrite <- ?app_assoc; reflexivity.
      * destruct (approx_equal zf running); reflexivity.
Qed.


(** Scenario 4: house 3 is reported once, expected 35 and got 20; the walk
    resumes from 20, so house 5 at z = 32 is in place; the side ends at 42. *)
Example scenario4_walk :
  side_check scenario4_houses [1; 3; 5] "Odd side (2.3.6.4.2)" []
  = Ok ([35; 12; 10],
        [ mkIssue ERROR "2.3.6.4.3"
            "Odd side (2.3.6.4.2): house 3 bounds.z=20.0 but expected 35.0 (gap/overlap).";
          mkIssue ERROR "2.3.6.5"
            "Odd side (2.3.6.4.2): z-lengths sum/end at 42.0, expected 200." ]).
Proof. vm_compute. reflexivity. Qed.

(* ------------------------------------------------------------------------- *)
(** ** Dictionaries, sets and loops *)

Lemma idict_get_set {V : Type} (d : idict V) (k k' : Z) (v : V) :
  idict_get (idict_set d k v) k' = if k' =? k then Some v else idict_get d k'.
Proof.
  induction d as [|[k0 v0] d IH]; simpl.
  - destruct (k' =? k); reflexivity.
  - destruct (k =? k0) eqn:E; simpl.
    + apply Z.eqb_eq in E. subst k0. destruct (k' =? k); reflexivity.
    + rewrite IH. destruct (k' =? k0) eqn:E'; [|reflexivity].
      apply Z.eqb_eq in E'. subst k0.
      destruct (k' =? k) eqn:E''; [|reflexivity].
      apply Z.eqb_eq in E''. subst k'. rewrite Z.eqb_refl in E. discriminate.
Qed.

Lemma idict_get_In {V : Type} (d : idict V) (k : Z) (v : V) :
  idict_get d k = Some v -> In (k, v) d.
Proof.
  induction d as [|[k0 v0] d IH]; simpl; [discriminate|].
  destruct (k =? k0) eqn:E.
  - apply Z.eqb_eq in E. subst. intros [= ->]. left. reflexivity.
  - intros H. right. apply IH, H.
Qed.

Lemma idict_In_has {V : Type} (d : idict V) (k : Z) (v : V) :
  In (k, v) d -> idict_has d k = true.
Proof.
  unfold idict_has. induction d as [|[k0 v0] d IH]; simpl; [intros []|].
  intros [E | H].
  - injection E as -> ->. rewrite Z.eqb_refl. reflexivity.
  - destruct (k =? k0); [reflexivity | apply IH, H].
Qed.

Lemma idict_get_unique {V : Type} (d : idict V) (k : Z) (v : V) :
  NoDup (map fst d) -> In (k, v) d -> idict_get d k = Some v.
Proof.
  induction d as [|[k0 v0] d IH]; simpl; [intros _ []|].
  intros Hnd [E | H].
  - injection E as -> ->. rewrite Z.eqb_refl. reflexivity.
  - inversion Hnd as [|? ? Hnotin Hnd']; subst.
    destruct (k =? k0) eqn:E.
    + apply Z.eqb_eq in E. subst k0. exfalso. apply Hnotin.
      apply (in_map fst) in H. exact H.
    + apply IH; assumption.
Qed.

Lemma set_mem_In (x : Z) (s : pyset) : set_mem x s = true <-> In x s.
Proof.
  unfold set_mem. rewrite existsb_exists. split.
  - intros (y & Hy & E). apply Z.eqb_eq in E. subst. exact Hy.
  - intros H. exists x. split; [exact H | apply Z.eqb_refl].
Qed.

Lemma set_mem_false (x : Z) (s : pyset) : set_mem x s = false <-> ~ In x s.
Proof.
  rewrite <- set_mem_In. destruct (set_mem x s); split; congruence.
Qed.

Lemma set_add_In (x y : Z) (s : pyset) : In y (set_add x s) <-> y = x \/ In y s.
Proof.
  unfold set_add. destruct (set_mem x s) eqn:E.
  - apply set_mem_In in E. split; [auto|]. intros [-> | H]; assumption.
  - rewrite in_app_iff. simpl. split.
    + intros [H | [H | []]]; auto.
    + intros [-> | H]; auto.
Qed.

Lemma set_add_NoDup (x : Z) (s : pyset) : NoDup s -> NoDup (set_add x s).
Proof.
  unfold set_add. destruct (set_mem x s) eqn:E; [auto|].
  apply set_mem_false in E. intros Hs.
  apply NoDup_rev in Hs. rewrite <- (rev_involutive (s ++ [x])).
  apply NoDup_rev. rewrite rev_app_distr. simpl. constructor; [|exact Hs].
  rewrite <- in_rev. exact E.
Qed.

Lemma set_of_list_acc_In (xs : list Z) (acc : pyset) (y : Z) :
  In y (fold_left (fun s x => set_add x s) xs acc) <-> In y acc \/ In y xs.
Proof.
  revert acc. induction xs as [|x xs IH]; intros acc; simpl.
  - tauto.
  - rewrite IH, set_add_In. split.
    + intros [[-> | H] | H]; auto.
    + intros [H | [-> | H]]; auto.
Qed.

Lemma set_of_list_In (xs : list Z) (y : Z) : In y (set_of_list xs) <-> In y xs.
Proof. unfold set_of_list. rewrite set_of_list_acc_In. simpl. tauto. Qed.

Lemma set_of_list_acc_NoDup (xs : list Z) (acc : pyset) :
  NoDup acc -> NoDup (fold_left (fun s x => set_add x s) xs acc).
Proof.
  revert acc. induction xs as [|x xs IH]; intros acc H; simpl; [exact H|].
  apply IH, set_add_NoDup, H.
Qed.

Lemma set_of_list_NoDup (xs : list Z) : NoDup (set_of_list xs).
Proof. apply set_of_list_acc_NoDup. constructor. Qed.

Lemma set_iter_In `{PyRuntime} (s : pyset) (x : Z) : In x (set_iter s) <-> In x s.
Proof.
  split; apply Permutation_in; [|apply Permutation_sym]; apply set_iter_perm.
Qed.

Lemma set_iter_length `{PyRuntime} (s : pyset) :
  List.length (set_iter s) = List.length s.
Proof. apply Permutation_length, set_iter_perm. Qed.

Lemma dd_get_add (d : idict pyset) (k x k' : Z) :
  dd_get (dd_add d k x) k' = if k' =? k then set_add x (dd_get d k) else dd_get d k'.
Proof.
  unfold dd_add, dd_get at 1. rewrite idict_get_set.
  destruct (k' =? k); reflexivity.
Qed.

Lemma int_items_In (l : list PyVal) (n : Z) : In n (int_items l) <-> In (PInt n) l.
Proof.
  unfold int_items. rewrite in_flat_map. split.
  - intros (o & Ho & Hn). destruct o; simpl in Hn; try contradiction.
    destruct Hn as [-> | []]. exact Ho.
  - intros H. exists (PInt n). split; [exact H | left; reflexivity].
Qed.

(** A loop whose body only appends to the issues appends the bodies' issues,
    one entry after the other. *)
Lemma fold_left_appends {A : Type} (f : list Issue -> A -> list Issue) (xs : list A)
  (issues : list Issue) :
  (forall s x, f s x = s ++ f [] x) ->
  fold_left f xs issues = issues ++ flat_map (f []) xs.
Proof.
  intros Hf. revert issues. induction xs as [|x xs IH]; intros issues; simpl.
  - rewrite app_nil_r. reflexivity.
  - rewrite IH, (Hf issues x), <- app_assoc. reflexivity.
Qed.

Lemma for_each_appends {A : Type} (body : list Issue -> A -> result (list Issue))
  (xs : list A) (issues out : list Issue) :
  (forall s x, body s x = l <- body [] x ;; Ok (s ++ l)) ->
  for_each body xs issues = Ok out ->
  exists parts,
    Forall2 (fun x l => body [] x = Ok l) xs parts /\ out = issues ++ List.concat parts.
Proof.
  intros Hb. revert issues out. induction xs as [|x xs IH]; intros issues out; simpl.
  - intros [= <-]. exists []. split; [constructor | rewrite app_nil_r; reflexivity].
  - rewrite (Hb issues x). destruct (body [] x) as [l|e] eqn:El; simpl; [|discriminate].
    intros Hrest. destruct (IH _ _ Hrest) as (parts & Hparts & ->).
    exists (l :: parts). split; [constructor; [exact El | exact Hparts]|].
    simpl. rewrite <- app_assoc. reflexivity.
Qed.

Lemma for_each_appends_total {A : Type} (body : list Issue -> A -> result (list Issue))
  (xs : list A) (issues : list Issue) :
  (forall s x, body s x = l <- body [] x ;; Ok (s ++ l)) ->
  (forall x, In x xs -> exists l, body [] x = Ok l) ->
  exists out, for_each body xs issues = Ok out.
Proof.
  intros Hb. revert issues. induction xs as [|x xs IH]; intros issues Hok; simpl.
  - eexists. reflexivity.
  - rewrite (Hb issues x). destruct (Hok x (or_introl eq_refl)) as (l & ->). simpl.
    apply IH. intros y Hy. apply Hok. right. exact Hy.
Qed.

Lemma Forall2_In_l {A B : Type} (R : A -> B -> Prop) (xs : list A) (ys : list B) (x : A) :
  Forall2 R xs ys -> In x xs -> exists y, In y ys /\ R x y.
Proof.
  induction 1 as [|a b xs ys Hab _ IH]; simpl; [intros []|].
  intros [-> | H].
  - exists b. split; [left; reflexivity | exact Hab].
  - destruct (IH H) as (y & Hy & Hr). exists y. split; [right; exact Hy | exact Hr].
Qed.

Lemma Forall2_In_r {A B : Type} (R : A -> B -> Prop) (xs : list A) (ys : list B) (y : B) :
  Forall2 R xs ys -> In y ys -> exists x, In x xs /\ R x y.
Proof.
  induction 1 as [|a b xs ys Hab _ IH]; simpl; [intros []|].
  intros [-> | H].
  - exists a. split; [left; reflexivity | exact Hab].
  - destruct (IH H) as (x & Hx & Hr). exists x. split; [right; exact Hx | exact Hr].
Qed.

(* ------------------------------------------------------------------------- *)
(** ** Messages name their identifiers unambiguously *)

Lemma fmt_cons (p : string) (rest : list string) : fmt (p :: rest) = (p ++ fmt rest)%string.
Proof.
  unfold fmt. destruct rest as [|q rest].
  - simpl. induction p as [|c p IH]; simpl; [reflexivity | rewrite <- IH; reflexivity].
  - reflexivity.
Qed.

Lemma fmt_nil : fmt [] = "".
Proof. reflexivity. Qed.

Lemma append_inj_l (p s1 s2 : string) : (p ++ s1)%string = (p ++ s2)%string -> s1 = s2.
Proof.
  induction p as [|c p IH]; simpl; [auto|]. intros [= H]. apply IH, H.
Qed.

Lemma uint_number_text (d : Decimal.uint) : number_text (NilEmpty.string_of_uint d) = true.
Proof. induction d; simpl; try reflexivity; exact IHd. Qed.

Lemma str_Z_number_text (z : Z) : number_text (str_Z z) = true.
Proof.
  unfold str_Z, NilZero.string_of_int, NilZero.string_of_uint.
  destruct (Z.to_int z) as [d|d]; destruct d; try reflexivity;
    simpl; apply uint_number_text.
Qed.

Lemma str_Z_inj (a b : Z) : str_Z a = str_Z b -> a = b.
Proof.
  unfold str_Z. intros E. apply to_int_inj.
  assert (Hnn : forall z, Z.to_int z <> Decimal.Pos Decimal.Nil
                          /\ Z.to_int z <> Decimal.Neg Decimal.Nil).
  { intros [|p|p]; simpl; split; try discriminate;
      intros [= Hp]; exact (Unsigned.to_uint_nonnil p Hp). }
  assert (Ha := NilZero.isi (Z.to_int a) (proj1 (Hnn a)) (proj2 (Hnn a))).
  assert (Hb := NilZero.isi (Z.to_int b) (proj1 (Hnn b)) (proj2 (Hnn b))).
  rewrite E in Ha. rewrite Ha in Hb. injection Hb as Hb. exact Hb.
Qed.

(** A printed integer followed by other text is read back in one way only. *)
Lemma number_prefix_inj (s1 s2 r1 r2 : string) :
  number_text s1 = true -> number_text s2 = true ->
  ends_number r1 -> ends_number r2 ->
  (s1 ++ r1)%string = (s2 ++ r2)%string -> s1 = s2 /\ r1 = r2.
Proof.
  revert s2. induction s1 as [|c s1 IH]; intros [|d s2]; simpl.
  - auto.
  - intros _ Hd Hr1 _ E. subst r1. simpl in Hr1.
    apply andb_prop in Hd. destruct Hd as [Hd _]. congruence.
  - intros Hc _ Hr1 Hr2 E. subst r2. simpl in Hr2.
    apply andb_prop in Hc. destruct Hc as [Hc _]. congruence.
  - intros Hc Hd Hr1 Hr2 [= -> E].
    apply andb_prop in Hc. destruct Hc as [_ Hc].
    apply andb_prop in Hd. destruct Hd as [_ Hd].
    destruct (IH s2 Hc Hd Hr1 Hr2 E) as [-> ->]. split; reflexivity.
Qed.

Lemma str_Z_app_inj (a b : Z) (r1 r2 : string) :
  ends_number r1 -> ends_number r2 ->
  (str_Z a ++ r1)%string = (str_Z b ++ r2)%string -> a = b /\ r1 = r2.
Proof.
  intros H1 H2 E.
  destruct (number_prefix_inj _ _ _ _ (str_Z_number_text a) (str_Z_number_text b) H1 H2 E)
    as [Es Er].
  split; [apply str_Z_inj, Es | exact Er].
Qed.

(** Peels equal literal pieces and printed integers off an equation between
    two messages; the integers come out as equations. *)
Ltac peel_message H :=
  repeat rewrite fmt_cons in H;
  repeat first
    [ apply append_inj_l in H
    | let E := fresh "Eid" in
      apply str_Z_app_inj in H; [destruct H as [E H] | exact I || reflexivity ..]
    | injection H as H ].

Example peel_message_example (a b a' b' : Z) :
  spouse_missing_issue a b = spouse_missing_issue a' b' -> a = a' /\ b = b'.
Proof.
  unfold spouse_missing_issue. intros [= H]. peel_message H. split; assumption.
Qed.

(* ------------------------------------------------------------------------- *)
(** ** The relationship graph of a house *)

Lemma dd_add_edge (g : graph) (k v x y : Z) :
  edge (dd_add g k v) x y <-> edge g x y \/ (x = k /\ y = v).
Proof.
  unfold edge. rewrite dd_get_add. destruct (x =? k) eqn:E.
  - apply Z.eqb_eq in E. subst x. rewrite set_add_In. intuition congruence.
  - apply Z.eqb_neq in E. intuition congruence.
Qed.

Lemma add_edge_spec (g : graph) (a b x y : Z) :
  edge (add_edge g a b) x y <-> edge g x y \/ (x = a /\ y = b) \/ (x = b /\ y = a).
Proof. unfold add_edge. rewrite !dd_add_edge. tauto. Qed.

Lemma fold_edges {A : Type} (step : graph -> A -> graph) (adds : A -> Z -> Z -> Prop) :
  (forall g a x y, edge (step g a) x y <-> edge g x y \/ adds a x y) ->
  forall l g x y,
    edge (fold_left step l g) x y <-> edge g x y \/ exists a, In a l /\ adds a x y.
Proof.
  intros Hstep. induction l as [|a l IH]; intros g x y; simpl.
  - split; [auto | intros [H | (a & [] & _)]; exact H].
  - rewrite IH, Hstep. split.
    + intros [[H | H] | (a' & Hin & H)]; eauto.
    + intros [H | (a' & [-> | Hin] & H)]; eauto.
Qed.

Lemma empty_graph_no_edge (occupants : list Z) (x y : Z) :
  ~ edge (empty_graph occupants) x y.
Proof.
  unfold empty_graph, edge.
  assert (Hgen : forall l g, (forall k, dd_get g k = []) ->
                 forall k, dd_get (fold_left (fun g o => idict_set g o []) l g) k = []).
  { induction l as [|o l IH]; intros g Hg k; simpl; [apply Hg|].
    apply IH. intros k'. unfold dd_get. rewrite idict_get_set.
    destruct (k' =? o); [reflexivity | apply Hg]. }
  rewrite (Hgen occupants [] (fun _ => eq_refl)). intros [].
Qed.

Lemma spouse_edges_spec (spouse_of : idict Z) (occupants : list Z) (occ_set : pyset)
  (g : graph) (x y : Z) :
  edge (spouse_edges spouse_of occupants occ_set g) x y
  <-> edge g x y
      \/ exists a b, In a occupants /\ idict_get spouse_of a = Some b /\ In b occ_set
                     /\ ((x = a /\ y = b) \/ (x = b /\ y = a)).
Proof.
  unfold spouse_edges.
  rewrite (fold_edges _
             (fun a x y => exists b, idict_get spouse_of a = Some b /\ In b occ_set
                                     /\ ((x = a /\ y = b) \/ (x = b /\ y = a)))).
  - split; (intros [H | H]; [left; exact H | right]).
    + destruct H as (a & Ha & b & H). exists a, b. tauto.
    + destruct H as (a & b & Ha & H). exists a. split; [exact Ha|]. exists b. exact H.
  - intros g0 a x0 y0. destruct (idict_get spouse_of a) as [b|].
    + destruct (set_mem b occ_set) eqn:Eb.
      * rewrite add_edge_spec. apply set_mem_In in Eb. split.
        -- intros [H | H]; [left; exact H | right; exists b; tauto].
        -- intros [H | (b' & [= <-] & _ & H)]; tauto.
      * apply set_mem_false in Eb. split; [auto|].
        intros [H | (b' & [= <-] & Hin & _)]; [exact H | contradiction].
    + split; [auto|]. intros [H | (b' & Hb & _)]; [exact H | discriminate].
Qed.

Lemma child_edges_spec `{PyRuntime} (children_of_parent : idict pyset)
  (occupants : list Z) (occ_set : pyset) (g : graph) (x y : Z) :
  edge (child_edges children_of_parent occupants occ_set g) x y
  <-> edge g x y
      \/ exists p ch, In p occupants /\ In ch (dd_get children_of_parent p)
                      /\ In ch occ_set /\ ((x = p /\ y = ch) \/ (x = ch /\ y = p)).
Proof.
  unfold child_edges.
  rewrite (fold_edges _
             (fun p x y => exists ch, In ch (dd_get children_of_parent p) /\ In ch occ_set
                                      /\ ((x = p /\ y = ch) \/ (x = ch /\ y = p)))).
  - split; (intros [H0 | H0]; [left; exact H0 | right]).
    + destruct H0 as (p & Hp & ch & H0). exists p, ch. tauto.
    + destruct H0 as (p & ch & Hp & H0). exists p. split; [exact Hp|]. exists ch. exact H0.
  - intros g0 p x0 y0.
    rewrite (fold_edges _
               (fun ch x y => In ch occ_set /\ ((x = p /\ y = ch) \/ (x = ch /\ y = p)))).
    + split; (intros [H0 | H0]; [left; exact H0 | right]).
      * destruct H0 as (ch & Hch & H0). apply (proj1 (set_iter_In _ _)) in Hch.
        exists ch. split; [exact Hch | exact H0].
      * destruct H0 as (ch & Hch & H0). exists ch.
        split; [apply (proj2 (set_iter_In _ _)); exact Hch | exact H0].
    + intros g1 ch x1 y1. destruct (set_mem ch occ_set) eqn:Ech.
      * rewrite add_edge_spec. apply set_mem_In in Ech. tauto.
      * apply set_mem_false in Ech. tauto.
Qed.

Lemma share_parent_spec (parents_of_child : idict pyset) (a b : Z) :
  share_parent parents_of_child a b = true
  <-> exists p, In p (dd_get parents_of_child a) /\ In p (dd_get parents_of_child b).
Proof.
  unfold share_parent.
  destruct (dd_get parents_of_child a) as [|pa0 pa] eqn:Ea.
  - split; [discriminate | intros (p & [] & _)].
  - destruct (dd_get parents_of_child b) as [|pb0 pb] eqn:Eb.
    + split; [discriminate | intros (p & _ & [])].
    + rewrite existsb_exists. split.
      * intros (p & Hp & Hm). apply set_mem_In in Hm. exists p. tauto.
      * intros (p & Hp & Hm). exists p. rewrite set_mem_In. tauto.
Qed.

Lemma sibling_edges_spec (parents_of_child : idict pyset) (occupants : list Z)
  (g : graph) (x y : Z) :
  edge (sibling_edges parents_of_child occupants g) x y
  <-> edge g x y
      \/ exists before a after b,
           occupants = before ++ a :: after /\ In b after
           /\ share_parent parents_of_child a b = true
           /\ ((x = a /\ y = b) \/ (x = b /\ y = a)).
Proof.
  revert g. induction occupants as [|a rest IH]; intros g; simpl.
  - split; [auto|]. intros [H | (before & a & after & b & E & _)]; [exact H|].
    destruct before; discriminate.
  - rewrite IH.
    rewrite (fold_edges _
               (fun b x y => share_parent parents_of_child a b = true
                             /\ ((x = a /\ y = b) \/ (x = b /\ y = a)))).
    + split.
      * intros [[H | (b & Hb & Hs & Hxy)] | (before & a' & after & b & E & Hb & Hs & Hxy)].
        -- left. exact H.
        -- right. exists [], a, rest, b. simpl. tauto.
        -- right. exists (a :: before), a', after, b. simpl. rewrite E. tauto.
      * intros [H | (before & a' & after & b & E & Hb & Hs & Hxy)]; [left; left; exact H|].
        destruct before as [|a0 before]; simpl in E; injection E as -> ->.
        -- left. right. exists b. tauto.
        -- right. exists before, a', after, b. tauto.
    + intros g0 b x0 y0. destruct (share_parent parents_of_child a b) eqn:Es.
      * rewrite add_edge_spec. tauto.
      * split; [auto|]. intros [H | [Hf _]]; [exact H | discriminate].
Qed.

(** Two distinct members of a list: one of them has an occurrence before an
    occurrence of the other. *)
Lemma two_members_split (l : list Z) (x y : Z) :
  In x l -> In y l -> x <> y ->
  exists before a after b,
    l = before ++ a :: after /\ In b after /\ ((x = a /\ y = b) \/ (x = b /\ y = a)).
Proof.
  induction l as [|z l IH]; simpl; [intros []|].
  intros [-> | Hx] [-> | Hy] Hne.
  - congruence.
  - exists [], x, l, y. simpl. tauto.
  - exists [], y, l, x. simpl. tauto.
  - destruct (IH Hx Hy Hne) as (before & a & after & b & -> & Hb & Hxy).
    exists (z :: before), a, after, b. simpl. tauto.
Qed.

Lemma share_parent_sym (parents_of_child : idict pyset) (a b : Z) :
  share_parent parents_of_child a b = share_parent parents_of_child b a.
Proof.
  destruct (share_parent parents_of_child a b) eqn:E1;
    destruct (share_parent parents_of_child b a) eqn:E2; try reflexivity.
  - apply share_parent_spec in E1. destruct E1 as (p & Ha & Hb).
    assert (E : share_parent parents_of_child b a = true)
      by (apply share_parent_spec; exists p; tauto).
    congruence.
  - apply share_parent_spec in E2. destruct E2 as (p & Ha & Hb).
    assert (E : share_parent parents_of_child a b = true)
      by (apply share_parent_spec; exists p; tauto).
    congruence.
Qed.

(** The edges of [related_edges] join occupants only. *)
Lemma related_edges_within `{PyRuntime} (spouse_of : idict Z)
  (parents_of_child children_of_parent : idict pyset) (occupants : list Z) (x y : Z) :
  edge (related_edges spouse_of parents_of_child children_of_parent occupants) x y ->
  In x occupants /\ In y occupants.
Proof.
  unfold related_edges. rewrite sibling_edges_spec, child_edges_spec, spouse_edges_spec.
  intros [[[H0 | H0] | H0] | H0].
  - exfalso. exact (empty_graph_no_edge _ _ _ H0).
  - destruct H0 as (a & b & Ha & _ & Hb & Hxy). apply (proj1 (set_of_list_In _ _)) in Hb.
    destruct Hxy as [[-> ->] | [-> ->]]; tauto.
  - destruct H0 as (p & ch & Hp & _ & Hch & Hxy). apply (proj1 (set_of_list_In _ _)) in Hch.
    destruct Hxy as [[-> ->] | [-> ->]]; tauto.
  - destruct H0 as (before & a & after & b & E & Hb & _ & Hxy).
    assert (Ha : In a occupants) by (rewrite E; apply in_elt).
    assert (Hb' : In b occupants)
      by (rewrite E; apply in_or_app; right; right; exact Hb).
    destruct Hxy as [[-> ->] | [-> ->]]; tauto.
Qed.

(** Between distinct characters, the edges of [related_edges] are the ties of
    [kin]. *)
Lemma related_edges_kin `{PyRuntime} (spouse_of : idict Z)
  (parents_of_child children_of_parent : idict pyset) (occupants : list Z) (x y : Z) :
  x <> y ->
  (edge (related_edges spouse_of parents_of_child children_of_parent occupants) x y
   <-> kin spouse_of parents_of_child children_of_parent occupants x y).
Proof.
  intros Hne. split.
  - intros He. destruct (related_edges_within _ _ _ _ _ _ He) as [Hx Hy].
    unfold kin. split; [exact Hx|]. split; [exact Hy|]. split; [exact Hne|].
    revert He. unfold related_edges.
    rewrite sibling_edges_spec, child_edges_spec, spouse_edges_spec.
    intros [[[H0 | H0] | H0] | H0].
    + exfalso. exact (empty_graph_no_edge _ _ _ H0).
    + destruct H0 as (a & b & _ & Hs & _ & [[-> ->] | [-> ->]]); tauto.
    + destruct H0 as (p & ch & _ & Hc & _ & [[-> ->] | [-> ->]]); tauto.
    + destruct H0 as (before & a & after & b & _ & _ & Hs & Hxy).
      right. right. right. right.
      destruct Hxy as [[-> ->] | [-> ->]].
      * apply share_parent_spec. exact Hs.
      * apply share_parent_spec. rewrite share_parent_sym. exact Hs.
  - intros (Hx & Hy & _ & Hk). unfold related_edges.
    rewrite sibling_edges_spec, child_edges_spec, spouse_edges_spec.
    destruct Hk as [Hs | [Hs | [Hc | [Hc | Hp]]]].
    + left. left. right. exists x, y. rewrite set_of_list_In. tauto.
    + left. left. right. exists y, x. rewrite set_of_list_In. tauto.
    + left. right. exists x, y. rewrite set_of_list_In. tauto.
    + left. right. exists y, x. rewrite set_of_list_In. tauto.
    + right. destruct (two_members_split occupants x y Hx Hy Hne)
        as (before & a & after & b & E & Hb & Hxy).
      exists before, a, after, b. split; [exact E|]. split; [exact Hb|].
      split; [|exact Hxy].
      destruct Hxy as [[-> ->] | [-> ->]].
      * apply share_parent_spec. exact Hp.
      * rewrite share_parent_sym. apply share_parent_spec. exact Hp.
Qed.

(** Reachability in the graph is reachability along the ties of [kin]. *)
Lemma reach_kin `{PyRuntime} (spouse_of : idict Z)
  (parents_of_child children_of_parent : idict pyset) (occupants : list Z) (x y : Z) :
  reach (related_edges spouse_of parents_of_child children_of_parent occupants) x y
  <-> clos_refl_trans Z (kin spouse_of parents_of_child children_of_parent occupants) x y.
Proof.
  unfold reach. split; induction 1 as [a b Hab | a | a b c _ IH1 _ IH2].
  - destruct (Z.eq_dec a b) as [-> | Hne]; [apply rt_refl|].
    apply rt_step. apply related_edges_kin; assumption.
  - apply rt_refl.
  - eapply rt_trans; eassumption.
  - apply rt_step. destruct Hab as (Ha & Hb & Hne & Hk).
    apply related_edges_kin; [exact Hne|]. unfold kin. tauto.
  - apply rt_refl.
  - eapply rt_trans; eassumption.
Qed.

(* ------------------------------------------------------------------------- *)
(** ** The breadth-first loops end within their step bound *)

Lemma bfs_weight_mono (g : graph) (seen : pyset) (u : Z) :
  (bfs_weight g (set_add u seen) <= bfs_weight g seen)%nat.
Proof.
  unfold bfs_weight. induction g as [|[k s] g IH]; simpl; [lia|].
  destruct (set_mem k seen) eqn:Ek.
  - assert (E : set_mem k (set_add u seen) = true).
    { apply set_mem_In, set_add_In. right. apply set_mem_In, Ek. }
    rewrite E. simpl. exact IH.
  - destruct (set_mem k (set_add u seen)); simpl; lia.
Qed.

Lemma bfs_weight_step (g : graph) (seen : pyset) (u : Z) :
  ~ In u seen ->
  (bfs_weight g (set_add u seen) + List.length (dd_get g u) <= bfs_weight g seen)%nat.
Proof.
  intros Hu. induction g as [|[k s] g IH].
  - simpl. unfold bfs_weight. simpl. lia.
  - unfold dd_get. simpl idict_get. destruct (u =? k) eqn:Euk.
    + apply Z.eqb_eq in Euk. subst k.
      assert (Hmono := bfs_weight_mono g seen u).
      unfold bfs_weight in *. simpl.
      assert (E1 : set_mem u (set_add u seen) = true).
      { apply set_mem_In, set_add_In. left. reflexivity. }
      assert (E2 : set_mem u seen = false) by (apply set_mem_false; exact Hu).
      rewrite E1, E2. simpl. lia.
    + fold (dd_get g u). unfold bfs_weight in *. simpl.
      assert (E : set_mem k (set_add u seen) = set_mem k seen).
      { destruct (set_mem k seen) eqn:Ek.
        - apply set_mem_In, set_add_In. right. apply set_mem_In, Ek.
        - apply set_mem_false. rewrite set_add_In. intros [-> | Hin].
          + rewrite Z.eqb_refl in Euk. discriminate.
          + apply set_mem_false in Ek. contradiction. }
      rewrite E. lia.
Qed.

Lemma queue_growth `{PyRuntime} (g : graph) (seen : pyset) (u : Z) (dq : list Z) :
  (List.length (dq ++ filter (fun v => negb (set_mem v seen)) (set_iter (dd_get g u)))
   <= List.length dq + List.length (dd_get g u))%nat.
Proof.
  rewrite length_app.
  assert (Hf := filter_length_le (fun v => negb (set_mem v seen)) (set_iter (dd_get g u))).
  rewrite set_iter_length in Hf. lia.
Qed.

Lemma bfs_loop_terminates `{PyRuntime} (g : graph) (fuel : nat) (seen : pyset)
  (dq : list Z) :
  (List.length dq + bfs_weight g seen < fuel)%nat ->
  exists r, bfs_loop fuel g seen dq = Ok r.
Proof.
  revert seen dq. induction fuel as [|fuel IH]; intros seen dq Hf; [lia|].
  destruct dq as [|u dq]; simpl.
  - eexists. reflexivity.
  - destruct (set_mem u seen) eqn:Eu.
    + apply IH. simpl in Hf. lia.
    + apply IH. apply set_mem_false in Eu.
      assert (H1 := bfs_weight_step g seen u Eu).
      assert (H2 := queue_growth g (set_add u seen) u dq).
      simpl in Hf. lia.
Qed.

(** [bfs] always returns: the bound of [bfs_fuel] is never reached. *)
Lemma bfs_terminates `{PyRuntime} (g : graph) (start : Z) :
  exists seen, bfs g start = Ok seen.
Proof. unfold bfs, bfs_fuel. apply bfs_loop_terminates. simpl. lia. Qed.

Lemma bfs_loop_keeps `{PyRuntime} (g : graph) (fuel : nat) (seen : pyset) (dq : list Z)
  (r : pyset) :
  bfs_loop fuel g seen dq = Ok r ->
  forall x, In x seen \/ In x dq -> In x r.
Proof.
  revert seen dq. induction fuel as [|fuel IH]; intros seen dq; simpl; [discriminate|].
  destruct dq as [|u dq].
  - intros [= <-] x [Hx | []]. exact Hx.
  - destruct (set_mem u seen) eqn:Eu; intros Hr x Hx.
    + apply (IH _ _ Hr). destruct Hx as [Hx | [<- | Hx]]; auto.
      left. apply set_mem_In, Eu.
    + apply (IH _ _ Hr). rewrite set_add_In, in_app_iff.
      destruct Hx as [Hx | [<- | Hx]]; auto.
Qed.

Lemma bfs_contains_start `{PyRuntime} (g : graph) (start : Z) (seen : pyset) :
  bfs g start = Ok seen -> In start seen.
Proof.
  intros Hb. apply (bfs_loop_keeps _ _ _ _ _ Hb). right. left. reflexivity.
Qed.

Lemma filter_drops {A : Type} (f : A -> bool) (l : list A) (x : A) :
  In x l -> f x = false -> (List.length (filter f l) < List.length l)%nat.
Proof.
  induction l as [|y l IH]; intros Hin Hf; [destruct Hin|].
  simpl. destruct Hin as [<-|Hin].
  - rewrite Hf. assert (Hl := filter_length_le f l). lia.
  - specialize (IH Hin Hf). destruct (f y); simpl; lia.
Qed.

Lemma components_loop_terminates `{PyRuntime} (g : graph) (fuel : nat)
  (unseen : list Z) (components : list (list Z)) :
  (List.length unseen < fuel)%nat ->
  exists r, components_loop fuel g unseen components = Ok r.
Proof.
  revert unseen components. induction fuel as [|fuel IH]; intros unseen components Hf;
    [lia|].
  cbn [components_loop]. destruct (set_iter unseen) as [|start rest] eqn:Eit.
  - eexists. reflexivity.
  - destruct (bfs_terminates g start) as (comp & Hcomp). rewrite Hcomp. cbn [bind].
    assert (Hin : set_mem start comp = true)
      by (apply set_mem_In, (bfs_contains_start _ _ _ Hcomp)).
    assert (Hu : In start unseen).
    { apply (Permutation_in _ (set_iter_perm unseen)). rewrite Eit. left. reflexivity. }
    apply IH.
    assert (Hl : (List.length (filter (fun v => negb (set_mem v comp)) unseen)
                  < List.length unseen)%nat).
    { apply (filter_drops _ unseen start Hu). rewrite Hin. reflexivity. }
    lia.
Qed.

Lemma is_connected_total `{PyRuntime} (g : graph) (nodes : list Z) :
  exists b, is_connected g nodes = Ok b.
Proof.
  unfold is_connected. destruct nodes as [|start rest]; [eexists; reflexivity|].
  destruct (bfs_terminates g start) as (seen & ->). simpl. eexists. reflexivity.
Qed.

(** *** The search for a related adult *)

Lemma is_adult_true (chars_by_id : chars_index) (u : Z) :
  is_adult chars_by_id u = Ok true <-> adult chars_by_id u.
Proof.
  unfold is_adult, idict_item, adult. destruct (idict_get chars_by_id u) as [c|]; simpl.
  - split.
    + intros [= Hage]. exists c. destruct (dict_get c "age"); try discriminate.
      exists z. apply Z.leb_le in Hage. auto.
    + intros (c' & n & [= <-] & Hage & Hn). rewrite Hage.
      f_equal. apply Z.leb_le, Hn.
  - split; [discriminate | intros (c & n & Hc & _); discriminate].
Qed.

Lemma is_adult_total (chars_by_id : chars_index) (u : Z) :
  idict_has chars_by_id u = true -> exists b, is_adult chars_by_id u = Ok b.
Proof.
  unfold is_adult, idict_item, idict_has.
  destruct (idict_get chars_by_id u); [|discriminate].
  intros _. simpl. eexists. reflexivity.
Qed.

Lemma adult_search_terminates `{PyRuntime} (chars_by_id : chars_index) (g : graph)
  (cid : Z) (fuel : nat) (seen : pyset) (dq : list Z) :
  (forall x, In x dq -> idict_has chars_by_id x = true) ->
  (forall x y, edge g x y -> idict_has chars_by_id y = true) ->
  (List.length dq + bfs_weight g seen < fuel)%nat ->
  exists b, adult_search fuel chars_by_id g cid seen dq = Ok b.
Proof.
  intros Hdq Hedges. revert seen dq Hdq.
  induction fuel as [|fuel IH]; intros seen dq Hdq Hf; [lia|].
  destruct dq as [|u dq]; simpl.
  - eexists. reflexivity.
  - destruct (set_mem u seen) eqn:Eu.
    + apply IH; [intros x Hx; apply Hdq; right; exact Hx | simpl in Hf; lia].
    + destruct (is_adult_total chars_by_id u (Hdq u (or_introl eq_refl))) as (a & ->).
      simpl. destruct (a && negb (u =? cid))%bool; [eexists; reflexivity|].
      apply IH.
      * intros x Hx. apply in_app_iff in Hx. destruct Hx as [Hx | Hx].
        -- apply Hdq. right. exact Hx.
        -- apply filter_In in Hx. destruct Hx as [Hx _].
           apply (proj1 (set_iter_In _ _)) in Hx. apply (Hedges u x Hx).
      * apply set_mem_false in Eu.
        assert (H1 := bfs_weight_step g seen u Eu).
        assert (H2 := queue_growth g (set_add u seen) u dq).
        simpl in Hf. lia.
Qed.

(** The search answers whether an adult other than [cid] is reachable. *)
Lemma adult_search_sound `{PyRuntime} (chars_by_id : chars_index) (g : graph)
  (cid : Z) (fuel : nat) (seen : pyset) (dq : list Z) (b : bool) :
  (forall x, In x seen \/ In x dq -> reach g cid x) ->
  (forall x y, In x seen -> edge g x y -> In y seen \/ In y dq) ->
  (forall x, In x seen -> ~ (adult chars_by_id x /\ x <> cid)) ->
  (In cid seen \/ In cid dq) ->
  adult_search fuel chars_by_id g cid seen dq = Ok b ->
  (b = true <-> exists u, reach g cid u /\ u <> cid /\ adult chars_by_id u).
Proof.
  revert seen dq. induction fuel as [|fuel IH]; intros seen dq Hreach Hclosed Hnone Hstart;
    simpl; [discriminate|].
  destruct dq as [|u dq].
  - intros [= <-]. split; [discriminate|]. intros (v & Hv & Hne & Ha). exfalso.
    assert (Hall : forall x, reach g cid x -> In x seen).
    { intros x Hx. apply clos_rt_rtn1 in Hx. induction Hx as [|y z Hyz _ IHx].
      - destruct Hstart as [Hs | []]. exact Hs.
      - destruct (Hclosed y z IHx Hyz) as [Hz | []]. exact Hz. }
    apply (Hnone v (Hall v Hv)). split; assumption.
  - destruct (set_mem u seen) eqn:Eu.
    + apply set_mem_In in Eu. apply IH.
      * intros x [Hx | Hx]; apply Hreach; [left | right; right]; exact Hx.
      * intros x y Hx Hxy. destruct (Hclosed x y Hx Hxy) as [Hy | [<- | Hy]]; auto.
      * exact Hnone.
      * destruct Hstart as [Hs | [<- | Hs]]; auto.
    + apply set_mem_false in Eu.
      destruct (is_adult chars_by_id u) as [a|e] eqn:Ea; simpl; [|discriminate].
      destruct (a && negb (u =? cid))%bool eqn:Eg.
      * intros [= <-]. split; [|reflexivity]. intros _.
        apply andb_prop in Eg. destruct Eg as [-> Hne].
        exists u. split; [apply Hreach; right; left; reflexivity|].
        split; [|apply is_adult_true; exact Ea].
        apply negb_true_iff, Z.eqb_neq in Hne. exact Hne.
      * apply IH.
        -- intros x [Hx | Hx].
           ++ apply set_add_In in Hx. destruct Hx as [-> | Hx].
              ** apply Hreach. right. left. reflexivity.
              ** apply Hreach. left. exact Hx.
           ++ apply in_app_iff in Hx. destruct Hx as [Hx | Hx].
              ** apply Hreach. right. right. exact Hx.
              ** apply filter_In in Hx. destruct Hx as [Hx _].
                 apply (proj1 (set_iter_In _ _)) in Hx.
                 eapply rt_trans; [apply Hreach; right; left; reflexivity|].
                 apply rt_step. exact Hx.
        -- intros x y Hx Hxy.
           destruct (set_mem y (set_add u seen)) eqn:Ey.
           ++ left. apply set_mem_In. exact Ey.
           ++ apply set_add_In in Hx. destruct Hx as [-> | Hx].
              ** right. apply in_app_iff. right. apply filter_In.
                 split; [apply set_iter_In; exact Hxy|].
                 rewrite Ey. reflexivity.
              ** destruct (Hclosed x y Hx Hxy) as [Hy | [<- | Hy]].
                 --- left. apply set_add_In. right. exact Hy.
                 --- left. apply set_add_In. left. reflexivity.
                 --- right. apply in_app_iff. left. exact Hy.
        -- intros x Hx. apply set_add_In in Hx. destruct Hx as [-> | Hx].
           ++ intros [Had Hne]. apply is_adult_true in Had. rewrite Had in Ea.
              injection Ea as <-. simpl in Eg.
              apply negb_false_iff, Z.eqb_eq in Eg. contradiction.
           ++ apply Hnone. exact Hx.
        -- rewrite set_add_In. destruct Hstart as [Hs | [<- | Hs]]; auto.
           right. apply in_app_iff. left. exact Hs.
Qed.

(* ------------------------------------------------------------------------- *)
(** ** The parts of validate_cross_file_consistency *)

Ltac break_match :=
  match goal with
  | |- context [match ?x with _ => _ end] => destruct x eqn:?
  | |- context [if ?x then _ else _] => destruct x eqn:?
  end.

Ltac appends :=
  intros; simpl; repeat break_match; simpl;
  rewrite ?app_nil_r, <- ?app_assoc; try reflexivity.

Lemma occupant_check_appends (chars_by_id : chars_index) (s : list Issue)
  (x : Z * list Z) :
  occupant_check chars_by_id s x = s ++ occupant_check chars_by_id [] x.
Proof. unfold occupant_check. appends. Qed.

Lemma residency_check_appends (seen : idict (list Z)) (s : list Issue) (x : Z * pydict) :
  residency_check seen s x = s ++ residency_check seen [] x.
Proof. unfold residency_check. appends. Qed.

Lemma surname_span_check_appends `{PyRuntime} (s : list Issue) (x : string * pyset) :
  surname_span_check s x = s ++ surname_span_check [] x.
Proof. unfold surname_span_check. appends. Qed.

Lemma occupant_surname_check_appends `{PyRuntime} (chars_by_id : chars_index) (hn : Z)
  (house_surname : string) (s : list Issue) (occ : Z) :
  occupant_surname_check chars_by_id hn house_surname s occ
  = s ++ occupant_surname_check chars_by_id hn house_surname [] occ.
Proof. unfold occupant_surname_check. appends. Qed.

Lemma house_check_appends `{PyRuntime} (chars_by_id : chars_index) (spouse_of : idict Z)
  (parents_of_child children_of_parent : idict pyset) (s : list Issue) (x : Z * pydict) :
  house_check chars_by_id spouse_of parents_of_child children_of_parent s x
  = l <- house_check chars_by_id spouse_of parents_of_child children_of_parent [] x ;;
    Ok (s ++ l).
Proof.
  unfold house_check. destruct x as [hn h].
  destruct (dict_get_or h "occupants" (PList [])) as [| | | | |occs_any|];
    try (simpl; rewrite app_nil_r; reflexivity).
  destruct (hn =? 7).
  - destruct (list_Z_eqb (int_items occs_any) [0]); simpl;
      rewrite ?app_nil_r; reflexivity.
  - destruct (nonblank_str (dict_get h "surname")) as [house_surname|];
      [|simpl; rewrite app_nil_r; reflexivity].
    rewrite (fold_left_appends _ _ s (occupant_surname_check_appends _ _ _)).
    rewrite (fold_left_appends _ _ [] (occupant_surname_check_appends _ _ _)).
    cbn [app].
    destruct (2 <=? Z.of_nat (List.length _)); [|reflexivity].
    destruct (is_connected _ _) as [connected|e]; cbn [bind]; [|reflexivity].
    destruct connected; cbn [bind]; [reflexivity|].
    destruct (components_loop _ _ _ _) as [components|e]; cbn [bind]; [|reflexivity].
    rewrite <- app_assoc. reflexivity.
Qed.

Lemma minor_check_appends `{PyRuntime} (chars_by_id : chars_index)
  (houses_by_number : houses_index) (spouse_of : idict Z)
  (parents_of_child children_of_parent : idict pyset) (occ_to_house : idict Z)
  (s : list Issue) (x : Z * pydict) :
  minor_check chars_by_id houses_by_number spouse_of parents_of_child children_of_parent
    occ_to_house s x
  = l <- minor_check chars_by_id houses_by_number spouse_of parents_of_child
           children_of_parent occ_to_house [] x ;;
    Ok (s ++ l).
Proof.
  unfold minor_check. destruct x as [cid c].
  destruct (cid =? 0); [simpl; rewrite app_nil_r; reflexivity|].
  destruct (dict_get c "age") as [| |age| | | |];
    try (simpl; rewrite app_nil_r; reflexivity).
  destruct (age <=? 17); [|simpl; rewrite app_nil_r; reflexivity].
  destruct (idict_get occ_to_house cid) as [hn|];
    [|simpl; rewrite app_nil_r; reflexivity].
  destruct (dict_get_or _ "occupants" (PList [])) as [| | | | |occs|];
    try (simpl; rewrite app_nil_r; reflexivity).
  destruct (has_adult_family _ _ _ _ _ _) as [found|e]; simpl; [|reflexivity].
  destruct found; simpl; [rewrite app_nil_r; reflexivity|].
  destruct (adults_among _ _) as [adults|e]; simpl; reflexivity.
Qed.

Lemma minor_family_check_appends `{PyRuntime} (s : list Issue) (x : Z * pydict) :
  minor_family_check s x = l <- minor_family_check [] x ;; Ok (s ++ l).
Proof.
  unfold minor_family_check. destruct x as [cid c].
  destruct (dict_get c "age") as [| |age| | | |];
    try (simpl; rewrite app_nil_r; reflexivity).
  destruct (family_field c "spouse") as [spouse|e]; simpl; [|reflexivity].
  destruct (family_field c "children") as [children|e]; simpl; [|reflexivity].
  destruct (age <? 18); [|simpl; rewrite app_nil_r; reflexivity].
  destruct spouse as [| |sp| | | |]; try (destruct (sp =? -1));
    destruct children as [| | | | |[|ch0 chs]|]; simpl;
    rewrite ?app_nil_r, <- ?app_assoc; reflexivity.
Qed.

(** The issues of [validate_cross_file_consistency], part by part: the player
    rule, the occupants, the residency of every character, the surnames across
    houses, then one batch for each house, for each character's guardianship
    and for each character's own family. *)
Lemma cross_file_parts `{PyRuntime} (chars_by_id : chars_index)
  (houses_by_number : houses_index) (spouse_of : idict Z)
  (parents_of_child children_of_parent : idict pyset) (issues : list Issue) :
  validate_cross_file_consistency chars_by_id houses_by_number spouse_of
    parents_of_child children_of_parent = Ok issues ->
  exists house_parts minor_parts family_parts,
    Forall2 (fun x l => house_check chars_by_id spouse_of parents_of_child
                          children_of_parent [] x = Ok l)
      houses_by_number house_parts
    /\ Forall2 (fun x l => minor_check chars_by_id houses_by_number spouse_of
                             parents_of_child children_of_parent
                             (build_house_index houses_by_number) [] x = Ok l)
         chars_by_id minor_parts
    /\ Forall2 (fun x l => minor_family_check [] x = Ok l) chars_by_id family_parts
    /\ issues
       = (if idict_has chars_by_id 0 then [player_present_issue] else [])
         ++ flat_map (occupant_check chars_by_id []) (seen_occurrences houses_by_number)
         ++ flat_map (residency_check (seen_occurrences houses_by_number) []) chars_by_id
         ++ surname_span_issues chars_by_id (build_house_index houses_by_number) []
         ++ List.concat house_parts
         ++ List.concat minor_parts
         ++ List.concat family_parts.
Proof.
  unfold validate_cross_file_consistency. intros Hv.
  destruct (for_each (house_check _ _ _ _) houses_by_number _) as [i1|e] eqn:E1;
    simpl in Hv; [|discriminate].
  destruct (for_each (minor_check _ _ _ _ _ _) chars_by_id i1) as [i2|e] eqn:E2;
    simpl in Hv; [|discriminate].
  destruct (for_each_appends _ _ _ _ (house_check_appends _ _ _ _) E1)
    as (house_parts & Hh & ->).
  destruct (for_each_appends _ _ _ _ (minor_check_appends _ _ _ _ _ _) E2)
    as (minor_parts & Hm & ->).
  destruct (for_each_appends _ _ _ _ minor_family_check_appends Hv)
    as (family_parts & Hf & ->).
  exists house_parts, minor_parts, family_parts.
  split; [exact Hh|]. split; [exact Hm|]. split; [exact Hf|].
  unfold surname_span_issues.
  rewrite (fold_left_appends _ _ _ surname_span_check_appends).
  rewrite (fold_left_appends _ _ _ (residency_check_appends _)).
  rewrite (fold_left_appends _ _ _ (occupant_check_appends _)).
  rewrite (fold_left_appends _ _ [] surname_span_check_appends).
  rewrite <- !app_assoc. simpl. reflexivity.
Qed.

(* ------------------------------------------------------------------------- *)
(** ** Which requirement each part reports *)

Lemma Forall_flat_map {A B : Type} (P : B -> Prop) (f : A -> list B) (l : list A) :
  (forall x, In x l -> Forall P (f x)) -> Forall P (flat_map f l).
Proof.
  intros Hf. apply Forall_forall. intros y Hy. apply in_flat_map in Hy.
  destruct Hy as (x & Hx & Hy). exact (proj1 (Forall_forall _ _) (Hf x Hx) y Hy).
Qed.

Lemma Forall_concat_parts {A : Type} (P : Issue -> Prop)
  (body : A -> result (list Issue)) (xs : list A) (parts : list (list Issue)) :
  (forall x l, body x = Ok l -> Forall P l) ->
  Forall2 (fun x l => body x = Ok l) xs parts ->
  Forall P (List.concat parts).
Proof.
  intros Hb HF. induction HF as [|x l xs parts Hx _ IH]; simpl.
  - constructor.
  - apply Forall_app. split; [exact (Hb x l Hx) | exact IH].
Qed.

Ltac requirement_list :=
  repeat first
    [ apply Forall_nil
    | apply Forall_cons; [unfold requirement_among; simpl; tauto|] ].

Ltac requirement_cases := repeat break_match; requirement_list.

Lemma occupant_check_requirements (chars_by_id : chars_index) (x : Z * list Z) :
  Forall (requirement_among ["2.3.3/2.8"; "2.8"]) (occupant_check chars_by_id [] x).
Proof. unfold occupant_check. destruct x. simpl. requirement_cases. Qed.

Lemma residency_check_requirements (seen : idict (list Z)) (x : Z * pydict) :
  Forall (requirement_among ["2.8"]) (residency_check seen [] x).
Proof. unfold residency_check. simpl. requirement_cases. Qed.

Lemma surname_span_requirements `{PyRuntime} (chars_by_id : chars_index)
  (occ_to_house : idict Z) :
  Forall (requirement_among ["2.5"]) (surname_span_issues chars_by_id occ_to_house []).
Proof.
  unfold surname_span_issues.
  rewrite (fold_left_appends _ _ [] surname_span_check_appends). simpl.
  apply Forall_flat_map. intros [ln hset] _. unfold surname_span_check. simpl.
  requirement_cases.
Qed.

Lemma occupant_surname_requirements `{PyRuntime} (chars_by_id : chars_index) (hn : Z)
  (house_surname : string) (occ : Z) :
  Forall (requirement_among ["2.4"; "2.3.2/2.9"; "2.9"])
    (occupant_surname_check chars_by_id hn house_surname [] occ).
Proof. unfold occupant_surname_check. simpl. requirement_cases. Qed.

Lemma house_check_requirements `{PyRuntime} (chars_by_id : chars_index)
  (spouse_of : idict Z) (parents_of_child children_of_parent : idict pyset)
  (x : Z * pydict) (l : list Issue) :
  house_check chars_by_id spouse_of parents_of_child children_of_parent [] x = Ok l ->
  Forall (requirement_among ["2.4"; "2.3.2/2.9"; "2.9"]) l.
Proof.
  unfold house_check. destruct x as [hn h].
  destruct (dict_get_or h "occupants" (PList [])) as [| | | | |occs_any|];
    try (intros [= <-]; constructor).
  destruct (hn =? 7).
  - destruct (list_Z_eqb (int_items occs_any) [0]); intros [= <-];
      requirement_list.
  - destruct (nonblank_str (dict_get h "surname")) as [house_surname|];
      [|intros [= <-]; constructor].
    rewrite (fold_left_appends _ _ [] (occupant_surname_check_appends _ _ _)).
    cbn [app].
    assert (Hs : Forall (requirement_among ["2.4"; "2.3.2/2.9"; "2.9"])
                   (flat_map (occupant_surname_check chars_by_id hn house_surname [])
                      (int_items occs_any))).
    { apply Forall_flat_map. intros occ _. apply occupant_surname_requirements. }
    destruct (2 <=? Z.of_nat (List.length _)); [|intros [= <-]; exact Hs].
    destruct (is_connected _ _) as [connected|e]; cbn [bind]; [|discriminate].
    destruct connected; cbn [bind]; [intros [= <-]; exact Hs|].
    destruct (components_loop _ _ _ _) as [components|e]; cbn [bind]; [|discriminate].
    intros [= <-]. apply Forall_app. split; [exact Hs|].
    requirement_list.
Qed.

Lemma minor_family_requirements `{PyRuntime} (x : Z * pydict) (l : list Issue) :
  minor_family_check [] x = Ok l ->
  Forall (requirement_among ["2.2.8.4"; "2.2.8.5"]) l.
Proof.
  unfold minor_family_check. destruct x as [cid c].
  destruct (dict_get c "age") as [| |age| | | |]; try (intros [= <-]; constructor).
  destruct (family_field c "spouse") as [spouse|e]; cbn [bind]; [|discriminate].
  destruct (family_field c "children") as [children|e]; cbn [bind]; [|discriminate].
  destruct (age <? 18); [|intros [= <-]; constructor].
  destruct spouse as [| |sp| | | |]; try (destruct (sp =? -1));
    destruct children as [| | | | |[|ch0 chs]|]; intros [= <-];
    requirement_list.
Qed.

(** What one character adds for requirement 2.2.4.1: nothing, or the one
    error of a minor mapped to a house with no related adult found. *)
Lemma minor_check_issue `{PyRuntime} (chars_by_id : chars_index)
  (houses_by_number : houses_index) (spouse_of : idict Z)
  (parents_of_child children_of_parent : idict pyset) (occ_to_house : idict Z)
  (cid : Z) (c : pydict) (l : list Issue) (i : Issue) :
  minor_check chars_by_id houses_by_number spouse_of parents_of_child children_of_parent
    occ_to_house [] (cid, c) = Ok l ->
  In i l ->
  exists age hn occs adults,
    cid <> 0 /\ dict_get c "age" = PInt age /\ age <= 17
    /\ idict_get occ_to_house cid = Some hn
    /\ dict_get_or (match idict_get houses_by_number hn with Some h => h | None => [] end)
         "occupants" (PList []) = PList occs
    /\ has_adult_family chars_by_id spouse_of parents_of_child children_of_parent
         (filter (idict_has chars_by_id) (int_items occs)) cid = Ok false
    /\ adults_among chars_by_id (filter (idict_has chars_by_id) (int_items occs))
       = Ok adults
    /\ i = minor_issue cid age hn adults.
Proof.
  unfold minor_check.
  destruct (cid =? 0) eqn:E0; [intros [= <-] []|]. apply Z.eqb_neq in E0.
  destruct (dict_get c "age") as [| |age| | | |]; try (intros [= <-] []).
  destruct (age <=? 17) eqn:Eage; [|intros [= <-] []]. apply Z.leb_le in Eage.
  destruct (idict_get occ_to_house cid) as [hn|]; [|intros [= <-] []].
  destruct (dict_get_or _ "occupants" (PList [])) as [| | | | |occs|] eqn:Eoccs;
    try (intros [= <-] []).
  destruct (has_adult_family _ _ _ _ _ _) as [found|e] eqn:Efound; cbn [bind];
    [|discriminate].
  destruct found; [intros [= <-] []|].
  destruct (adults_among _ _) as [adults|e] eqn:Eadults; cbn [bind]; [|discriminate].
  intros [= <-] [<- | []].
  exists age, hn, occs, adults. repeat split; try assumption; reflexivity.
Qed.

Lemma minor_check_requirements `{PyRuntime} (chars_by_id : chars_index)
  (houses_by_number : houses_index) (spouse_of : idict Z)
  (parents_of_child children_of_parent : idict pyset) (occ_to_house : idict Z)
  (x : Z * pydict) (l : list Issue) :
  minor_check chars_by_id houses_by_number spouse_of parents_of_child children_of_parent
    occ_to_house [] x = Ok l ->
  Forall (requirement_among ["2.2.4.1"]) l.
Proof.
  intros Hl. apply Forall_forall. intros i Hi. destruct x as [cid c].
  destruct (minor_check_issue _ _ _ _ _ _ _ _ _ _ Hl Hi)
    as (age & hn & occs & adults & _ & _ & _ & _ & _ & _ & _ & ->).
  unfold requirement_among. simpl. tauto.
Qed.

Lemma In_concat_parts {A : Type} (body : A -> result (list Issue)) (xs : list A)
  (parts : list (list Issue)) (i : Issue) :
  Forall2 (fun x l => body x = Ok l) xs parts ->
  In i (List.concat parts) ->
  exists x l, In x xs /\ body x = Ok l /\ In i l.
Proof.
  intros HF Hi. apply in_concat in Hi. destruct Hi as (l & Hl & Hi).
  destruct (Forall2_In_r _ _ _ _ HF Hl) as (x & Hx & Hb).
  exists x, l. auto.
Qed.

Lemma concat_parts_In {A : Type} (body : A -> result (list Issue)) (xs : list A)
  (parts : list (list Issue)) (x : A) (l : list Issue) (i : Issue) :
  Forall2 (fun x l => body x = Ok l) xs parts ->
  In x xs -> body x = Ok l -> In i l -> In i (List.concat parts).
Proof.
  intros HF Hx Hb Hi. destruct (Forall2_In_l _ _ _ _ HF Hx) as (l' & Hl' & Hb').
  rewrite Hb in Hb'. injection Hb' as <-.
  apply in_concat. exists l. auto.
Qed.

(* ------------------------------------------------------------------------- *)
(** ** The occupancy index *)

Lemma listed_by_default (h : pydict) (occ : Z) :
  (exists occs, dict_get_or h "occupants" (PList []) = PList occs
                /\ set_mem occ (int_items occs) = true)
  <-> lists_occupant h occ.
Proof.
  unfold lists_occupant, dict_get_or, dict_get.
  destruct (dict_lookup h "occupants") as [v|].
  - split; intros (occs & Hv & Hin); exists occs; (split; [exact Hv|]).
    + apply int_items_In, set_mem_In, Hin.
    + apply set_mem_In, int_items_In, Hin.
  - split.
    + intros (occs & [= <-] & Hin). discriminate Hin.
    + intros (occs & Hv & _). discriminate Hv.
Qed.

Lemma house_index_fold (hn : Z) (l : list Z) (acc : idict Z) (k : Z) :
  idict_get
    (fold_left (fun acc occ => if idict_has acc occ then acc else idict_set acc occ hn)
       l acc) k
  = match idict_get acc k with
    | Some h => Some h
    | None => if set_mem k l then Some hn else None
    end.
Proof.
  revert acc. induction l as [|x l IH]; intros acc; simpl.
  - destruct (idict_get acc k); reflexivity.
  - rewrite IH. unfold idict_has.
    destruct (idict_get acc x) as [hx|] eqn:Ex.
    + destruct (idict_get acc k) as [hk|] eqn:Ek; [reflexivity|].
      destruct (k =? x) eqn:Ekx; [|reflexivity].
      apply Z.eqb_eq in Ekx. subst x. congruence.
    + rewrite idict_get_set.
      destruct (k =? x) eqn:Ekx.
      * apply Z.eqb_eq in Ekx. subst x. rewrite Ex. reflexivity.
      * destruct (idict_get acc k); reflexivity.
Qed.

Lemma house_index_acc (houses_by_number : houses_index) (acc : idict Z) (k : Z) :
  idict_get (fold_left house_index_step houses_by_number acc) k
  = match idict_get acc k with
    | Some h => Some h
    | None => first_house_of houses_by_number k
    end.
Proof.
  revert acc. induction houses_by_number as [|[hn h] rest IH]; intros acc; simpl.
  - destruct (idict_get acc k); reflexivity.
  - rewrite IH. unfold house_index_step.
    destruct (dict_get_or h "occupants" (PList [])) as [| | | | |occs|];
      try reflexivity.
    rewrite house_index_fold.
    destruct (idict_get acc k); [reflexivity|].
    destruct (set_mem k (int_items occs)); reflexivity.
Qed.

Lemma build_house_index_first (houses_by_number : houses_index) (occ : Z) :
  idict_get (build_house_index houses_by_number) occ
  = first_house_of houses_by_number occ.
Proof. unfold build_house_index. rewrite house_index_acc. reflexivity. Qed.

Lemma first_house_cons (hn : Z) (h : pydict) (rest : houses_index) (occ : Z) :
  (lists_occupant h occ /\ first_house_of ((hn, h) :: rest) occ = Some hn)
  \/ (~ lists_occupant h occ
      /\ first_house_of ((hn, h) :: rest) occ = first_house_of rest occ).
Proof.
  simpl.
  destruct (dict_get_or h "occupants" (PList [])) as [| | | | |occs|] eqn:Eo.
  6: destruct (set_mem occ (int_items occs)) eqn:Em.
  6: { left. split; [|reflexivity]. apply listed_by_default. exists occs. auto. }
  all: right; split; [|reflexivity]; intros Hl; apply listed_by_default in Hl;
    destruct Hl as (occs' & Eo' & Hm'); rewrite Eo in Eo'; try discriminate;
    injection Eo' as <-; congruence.
Qed.

Lemma first_house_some (houses_by_number : houses_index) (occ hn : Z) :
  first_house_of houses_by_number occ = Some hn
  <-> exists before h after,
        houses_by_number = before ++ (hn, h) :: after
        /\ lists_occupant h occ
        /\ forall hn' h', In (hn', h') before -> ~ lists_occupant h' occ.
Proof.
  induction houses_by_number as [|[hn0 h0] rest IH].
  - simpl. split; [discriminate|]. intros (before & h & after & E & _).
    destruct before; discriminate.
  - destruct (first_house_cons hn0 h0 rest occ) as [[Hl ->] | [Hl ->]].
    + split.
      * intros [= <-]. exists [], h0, rest. simpl. split; [reflexivity|].
        split; [exact Hl | intros ? ? []].
      * intros (before & h & after & E & _ & Hb).
        destruct before as [|[hn1 h1] before]; simpl in E.
        -- congruence.
        -- exfalso. injection E as E1 E2 _. subst hn1 h1.
           apply (Hb hn0 h0 (or_introl eq_refl)). exact Hl.
    + rewrite IH. split.
      * intros (before & h & after & -> & Hl' & Hb).
        exists ((hn0, h0) :: before), h, after. simpl.
        split; [reflexivity|]. split; [exact Hl'|].
        intros hn' h' [E | Hin]; [|exact (Hb _ _ Hin)].
        injection E as <- <-. exact Hl.
      * intros (before & h & after & E & Hl' & Hb).
        destruct before as [|[hn1 h1] before]; simpl in E.
        -- exfalso. injection E as _ E2 _. subst h0. contradiction.
        -- injection E as _ _ E3. subst rest.
           exists before, h, after. split; [reflexivity|]. split; [exact Hl'|].
           intros hn' h' Hin. apply (Hb hn' h'). right. exact Hin.
Qed.

Lemma first_house_none (houses_by_number : houses_index) (occ : Z) :
  first_house_of houses_by_number occ = None
  <-> forall hn h, In (hn, h) houses_by_number -> ~ lists_occupant h occ.
Proof.
  induction houses_by_number as [|[hn0 h0] rest IH].
  - simpl. split; [intros _ ? ? [] | reflexivity].
  - destruct (first_house_cons hn0 h0 rest occ) as [[Hl ->] | [Hl ->]].
    + split; [discriminate|]. intros Hno. exfalso.
      exact (Hno hn0 h0 (or_introl eq_refl) Hl).
    + rewrite IH. split.
      * intros Hr hn h [E | Hin]; [injection E as <- <-; exact Hl | exact (Hr _ _ Hin)].
      * intros Hr hn h Hin. apply (Hr hn h). right. exact Hin.
Qed.

(** With distinct house numbers, the house an occupant is mapped to is the
    record found under that number, and it lists the occupant. *)
Lemma first_house_record (houses_by_number : houses_index) (occ hn : Z) :
  NoDup (map fst houses_by_number) ->
  first_house_of houses_by_number occ = Some hn ->
  exists h, idict_get houses_by_number hn = Some h /\ lists_occupant h occ.
Proof.
  intros Hnd Hf. apply first_house_some in Hf.
  destruct Hf as (before & h & after & E & Hl & _).
  exists h. split; [|exact Hl].
  apply idict_get_unique; [exact Hnd|]. rewrite E. apply in_elt.
Qed.

Lemma dl_get_append (d : idict (list Z)) (k x k' : Z) :
  idict_get (dl_append d k x) k'
  = if k' =? k then Some (dl_get d k ++ [x]) else idict_get d k'.
Proof. unfold dl_append. apply idict_get_set. Qed.

Lemma seen_fold_none (hn : Z) (l : list Z) (acc : idict (list Z)) (k : Z) :
  idict_get (fold_left (fun acc occ => dl_append acc occ hn) l acc) k = None
  <-> idict_get acc k = None /\ ~ In k l.
Proof.
  revert acc. induction l as [|x l IH]; intros acc; simpl.
  - tauto.
  - rewrite IH, dl_get_append. destruct (k =? x) eqn:E.
    + apply Z.eqb_eq in E. subst x. split; [intros [Hd _]; discriminate|].
      intros [_ Hn]. exfalso. apply Hn. left. reflexivity.
    + apply Z.eqb_neq in E. split.
      * intros [Ha Hn]. split; [exact Ha|]. intros [Hx | Hx]; [congruence | tauto].
      * intros [Ha Hn]. split; [exact Ha|]. tauto.
Qed.

Lemma seen_occurrences_none (houses_by_number : houses_index) (occ : Z) :
  idict_get (seen_occurrences houses_by_number) occ = None
  <-> forall hn h, In (hn, h) houses_by_number -> ~ lists_occupant h occ.
Proof.
  unfold seen_occurrences.
  assert (Hgen : forall acc,
            idict_get (fold_left seen_occurrences_step houses_by_number acc) occ = None
            <-> idict_get acc occ = None
                /\ forall hn h, In (hn, h) houses_by_number -> ~ lists_occupant h occ).
  { induction houses_by_number as [|[hn0 h0] rest IH]; intros acc; simpl.
    - split; [intros Ha; split; [exact Ha | intros ? ? []] | tauto].
    - rewrite IH. unfold seen_occurrences_step, lists_occupant.
      destruct (dict_get h0 "occupants") as [| | | | |occs|] eqn:Eo.
      6: { rewrite seen_fold_none. rewrite int_items_In. split.
           - intros [[Ha Hn] Hr]. split; [exact Ha|].
             intros hn h [[= <- <-] | Hin].
             + rewrite Eo. intros (occs' & [= <-] & Hin'). contradiction.
             + apply (Hr hn h). exact Hin.
           - intros [Ha Hr]. split; [split; [exact Ha|]|].
             + intros Hin. apply (Hr hn0 h0 (or_introl eq_refl)).
               exists occs. rewrite Eo. auto.
             + intros hn h Hin. apply (Hr hn h). right. exact Hin. }
      all: split;
        [ intros [Ha Hr]; split; [exact Ha|];
          intros hn h [[= <- <-] | Hin];
          [ rewrite Eo; intros (occs' & Hd & _); discriminate
          | apply (Hr hn h); exact Hin ]
        | intros [Ha Hr]; split; [exact Ha|];
          intros hn h Hin; apply (Hr hn h); right; exact Hin ]. }
  rewrite Hgen. simpl. tauto.
Qed.

(* ------------------------------------------------------------------------- *)
(** ** has_adult_family *)

Lemma reach_without_first_step (g : graph) (cid u : Z) :
  (forall y, ~ edge g cid y) -> reach g cid u -> u = cid.
Proof.
  intros Hno Hr. apply clos_rt_rt1n in Hr.
  destruct Hr as [|y z Hy _]; [reflexivity|]. exfalso. exact (Hno y Hy).
Qed.

Lemma reach_through_loops (g : graph) (a u : Z) :
  (forall x y, edge g x y -> x = y) -> reach g a u -> u = a.
Proof.
  intros Hl Hr. induction Hr as [x y Hxy | x | x y z _ IH1 _ IH2].
  - symmetry. apply Hl, Hxy.
  - reflexivity.
  - congruence.
Qed.

Lemma no_key_no_edge (g : graph) (cid y : Z) :
  idict_has g cid = false -> ~ edge g cid y.
Proof.
  unfold idict_has, edge, dd_get. destruct (idict_get g cid); [discriminate|].
  intros _ [].
Qed.

(** [has_adult_family] answers whether an adult other than the minor is
    reachable from the minor in the graph of the occupants. *)
Lemma has_adult_family_spec `{PyRuntime} (chars_by_id : chars_index) (spouse_of : idict Z)
  (parents_of_child children_of_parent : idict pyset) (occs_house : list Z) (cid : Z)
  (b : bool) :
  has_adult_family chars_by_id spouse_of parents_of_child children_of_parent
    occs_house cid = Ok b ->
  (b = true
   <-> exists u,
         reach (related_edges spouse_of parents_of_child children_of_parent occs_house)
           cid u
         /\ u <> cid /\ adult chars_by_id u).
Proof.
  unfold has_adult_family.
  set (g := related_edges spouse_of parents_of_child children_of_parent occs_house).
  assert (Hnone : forall P : Prop,
             (forall u, reach g cid u -> u = cid) ->
             (false = true <-> exists u, reach g cid u /\ u <> cid /\ P)).
  { intros P Hu. split; [discriminate|]. intros (u & Hr & Hne & _).
    exfalso. apply Hne, Hu, Hr. }
  destruct (2 <=? Z.of_nat (List.length occs_house)) eqn:Elen.
  - destruct g as [|e0 g'] eqn:Eg.
    + intros [= <-]. split; [discriminate|]. intros (u & Hr & Hne & _).
      exfalso. apply Hne. apply (reach_without_first_step [] cid u); [|exact Hr].
      intros y []. 
    + rewrite <- Eg. destruct (idict_has g cid) eqn:Ekey.
      * intros Hs. eapply adult_search_sound; [| | | |exact Hs].
        -- intros x [[] | [<- | []]]. apply rt_refl.
        -- intros x y [].
        -- intros x [].
        -- right. left. reflexivity.
      * intros [= <-]. split; [discriminate|]. intros (u & Hr & Hne & _).
        exfalso. apply Hne. apply (reach_without_first_step g cid u); [|exact Hr].
        intros y. apply no_key_no_edge. exact Ekey.
  - intros [= <-]. split; [discriminate|]. intros (u & Hr & Hne & _).
    exfalso. apply Hne. apply (reach_through_loops g cid u); [|exact Hr].
    intros x y Hxy. apply related_edges_within in Hxy. destruct Hxy as [Hx Hy].
    apply Z.leb_gt in Elen.
    destruct occs_house as [|o [|o' rest]]; simpl in *; lia.
Qed.

Lemma has_adult_family_total `{PyRuntime} (chars_by_id : chars_index)
  (spouse_of : idict Z) (parents_of_child children_of_parent : idict pyset)
  (occs_house : list Z) (cid : Z) :
  (forall x, In x occs_house -> idict_has chars_by_id x = true) ->
  idict_has chars_by_id cid = true ->
  exists b, has_adult_family chars_by_id spouse_of parents_of_child children_of_parent
              occs_house cid = Ok b.
Proof.
  intros Hocc Hcid. unfold has_adult_family.
  destruct (2 <=? Z.of_nat (List.length occs_house)); [|eexists; reflexivity].
  destruct (related_edges _ _ _ occs_house) as [|e0 g'] eqn:Eg; [eexists; reflexivity|].
  rewrite <- Eg.
  destruct (idict_has (related_edges spouse_of parents_of_child children_of_parent
                         occs_house) cid);
    [|eexists; reflexivity].
  apply adult_search_terminates.
  - intros x [<- | []]. exact Hcid.
  - intros x y Hxy. apply related_edges_within in Hxy. apply Hocc. tauto.
  - unfold bfs_fuel. simpl. lia.
Qed.

Lemma adults_among_spec (chars_by_id : chars_index) (occs_house adults : list Z) :
  adults_among chars_by_id occs_house = Ok adults ->
  forall o, In o adults <-> In o occs_house /\ adult chars_by_id o.
Proof.
  revert adults. induction occs_house as [|x rest IH]; intros adults; simpl.
  - intros [= <-] o. simpl. tauto.
  - destruct (is_adult chars_by_id x) as [a|e] eqn:Ea; cbn [bind]; [|discriminate].
    destruct (adults_among chars_by_id rest) as [adults'|e]; cbn [bind]; [|discriminate].
    intros [= <-] o. specialize (IH adults' eq_refl o).
    destruct a.
    + simpl. rewrite IH. apply is_adult_true in Ea. split.
      * intros [<- | [Hin Had]]; auto.
      * intros [[<- | Hin] Had]; auto.
    + rewrite IH. split.
      * intros [Hin Had]. auto.
      * intros [[<- | Hin] Had]; [|auto].
        apply is_adult_true in Had. congruence.
Qed.

Lemma adults_among_total (chars_by_id : chars_index) (occs_house : list Z) :
  (forall x, In x occs_house -> idict_has chars_by_id x = true) ->
  exists adults, adults_among chars_by_id occs_house = Ok adults.
Proof.
  induction occs_house as [|x rest IH]; intros Hocc; simpl.
  - eexists. reflexivity.
  - destruct (is_adult_total chars_by_id x (Hocc x (or_introl eq_refl))) as (a & ->).
    destruct IH as (adults & ->); [intros y Hy; apply Hocc; right; exact Hy|].
    simpl. eexists. reflexivity.
Qed.

Lemma housemates_known (chars_by_id : chars_index) (l : list Z) (x : Z) :
  In x (filter (idict_has chars_by_id) l) -> idict_has chars_by_id x = true.
Proof. intros Hx. apply filter_In in Hx. tauto. Qed.

(* ------------------------------------------------------------------------- *)
(** ** validate_cross_file_consistency returns on every well-formed roster *)

Lemma family_field_total (c : pydict) (k : string) :
  family_is_object c -> exists v, family_field c k = Ok v.
Proof.
  unfold family_is_object, family_field, dict_get_or, attr_get.
  destruct (dict_lookup c "family") as [[| | | | | |d]|]; try contradiction;
    intros _; eexists; reflexivity.
Qed.

Lemma house_check_total `{PyRuntime} (chars_by_id : chars_index) (spouse_of : idict Z)
  (parents_of_child children_of_parent : idict pyset) (x : Z * pydict) :
  exists l, house_check chars_by_id spouse_of parents_of_child children_of_parent [] x
            = Ok l.
Proof.
  unfold house_check. destruct x as [hn h].
  destruct (dict_get_or h "occupants" (PList [])) as [| | | | |occs_any|];
    try (eexists; reflexivity).
  destruct (hn =? 7).
  - destruct (list_Z_eqb _ _); eexists; reflexivity.
  - destruct (nonblank_str _); [|eexists; reflexivity].
    destruct (2 <=? Z.of_nat (List.length _)); [|eexists; reflexivity].
    match goal with
    | |- context [is_connected ?g ?n] => destruct (is_connected_total g n) as (b & ->)
    end.
    cbn [bind]. destruct b; [eexists; reflexivity|].
    match goal with
    | |- context [components_loop ?f ?g ?u ?c] =>
        destruct (components_loop_terminates g f u c) as (r & ->); [lia|]
    end.
    cbn [bind]. eexists. reflexivity.
Qed.

Lemma minor_check_total `{PyRuntime} (chars_by_id : chars_index)
  (houses_by_number : houses_index) (spouse_of : idict Z)
  (parents_of_child children_of_parent : idict pyset) (occ_to_house : idict Z)
  (cid : Z) (c : pydict) :
  In (cid, c) chars_by_id ->
  exists l, minor_check chars_by_id houses_by_number spouse_of parents_of_child
              children_of_parent occ_to_house [] (cid, c) = Ok l.
Proof.
  intros Hin. unfold minor_check.
  destruct (cid =? 0); [eexists; reflexivity|].
  destruct (dict_get c "age") as [| |age| | | |]; try (eexists; reflexivity).
  destruct (age <=? 17); [|eexists; reflexivity].
  destruct (idict_get occ_to_house cid) as [hn|]; [|eexists; reflexivity].
  destruct (dict_get_or _ "occupants" (PList [])) as [| | | | |occs|];
    try (eexists; reflexivity).
  destruct (has_adult_family_total chars_by_id spouse_of parents_of_child
              children_of_parent (filter (idict_has chars_by_id) (int_items occs)) cid
              (housemates_known chars_by_id (int_items occs))
              (idict_In_has _ _ _ Hin)) as (b & ->).
  cbn [bind]. destruct b; [eexists; reflexivity|].
  destruct (adults_among_total chars_by_id _
              (housemates_known chars_by_id (int_items occs))) as (adults & ->).
  cbn [bind]. eexists. reflexivity.
Qed.

Lemma minor_family_check_total `{PyRuntime} (cid : Z) (c : pydict) :
  (forall n, dict_get c "age" = PInt n -> family_is_object c) ->
  exists l, minor_family_check [] (cid, c) = Ok l.
Proof.
  intros Hfam. unfold minor_family_check.
  destruct (dict_get c "age") as [| |age| | | |]; try (eexists; reflexivity).
  destruct (family_field_total c "spouse" (Hfam age eq_refl)) as (sp & ->).
  destruct (family_field_total c "children" (Hfam age eq_refl)) as (ch & ->).
  cbn [bind]. destruct (age <? 18); [|eexists; reflexivity].
  destruct sp as [| |s| | | |]; try (destruct (s =? -1));
    destruct ch as [| | | | |[|ch0 chs]|]; eexists; reflexivity.
Qed.

Lemma cross_file_total `{PyRuntime} (chars_by_id : chars_index)
  (houses_by_number : houses_index) (spouse_of : idict Z)
  (parents_of_child children_of_parent : idict pyset) :
  families_are_objects chars_by_id ->
  exists issues,
    validate_cross_file_consistency chars_by_id houses_by_number spouse_of
      parents_of_child children_of_parent = Ok issues.
Proof.
  intros Hfam. unfold validate_cross_file_consistency.
  match goal with
  | |- context [for_each (house_check ?a ?b ?c ?d) ?xs ?s] =>
      destruct (for_each_appends_total (house_check a b c d) xs s
                  (house_check_appends a b c d)) as (i1 & ->)
  end.
  { intros x _. apply house_check_total. }
  cbn [bind].
  match goal with
  | |- context [for_each (minor_check ?a ?b ?c ?d ?e ?f) ?xs ?s] =>
      destruct (for_each_appends_total (minor_check a b c d e f) xs s
                  (minor_check_appends a b c d e f)) as (i2 & ->)
  end.
  { intros [cid c] Hin. apply minor_check_total. exact Hin. }
  cbn [bind].
  apply for_each_appends_total; [apply minor_family_check_appends|].
  intros [cid c] Hin. apply minor_family_check_total.
  intros n Hn. exact (Hfam cid c n Hin Hn).
Qed.

(* ------------------------------------------------------------------------- *)
(** ** Where the cross-file issues come from *)

Lemma minor_issue_names (cid age hn cid' age' hn' : Z) (adults adults' : list Z) :
  minor_issue cid age hn adults = minor_issue cid' age' hn' adults' ->
  cid = cid' /\ age = age' /\ hn = hn'.
Proof.
  unfold minor_issue. intros [= E]. peel_message E. auto.
Qed.

Ltac wrong_requirement HF Hin Hreq :=
  exfalso;
  let Hr := fresh "Hr" in
  assert (Hr := proj1 (Forall_forall _ _) HF _ Hin);
  unfold requirement_among in Hr; rewrite Hreq in Hr; simpl in Hr;
  repeat (destruct Hr as [Hr | Hr]; [discriminate Hr|]); exact Hr.

(** An issue of requirement 2.2.4.1 comes from the guardianship check of some
    character of the roster. *)
Lemma guardianship_issue_origin `{PyRuntime} (chars_by_id : chars_index)
  (houses_by_number : houses_index) (spouse_of : idict Z)
  (parents_of_child children_of_parent : idict pyset) (issues : list Issue) (i : Issue) :
  validate_cross_file_consistency chars_by_id houses_by_number spouse_of
    parents_of_child children_of_parent = Ok issues ->
  In i issues -> requirement i = "2.2.4.1" ->
  exists cid c l,
    In (cid, c) chars_by_id
    /\ minor_check chars_by_id houses_by_number spouse_of parents_of_child
         children_of_parent (build_house_index houses_by_number) [] (cid, c) = Ok l
    /\ In i l.
Proof.
  intros Hv Hi Hreq.
  destruct (cross_file_parts _ _ _ _ _ _ Hv)
    as (house_parts & minor_parts & family_parts & Hh & Hm & Hf & ->).
  repeat (apply in_app_or in Hi; destruct Hi as [Hi | Hi]).
  - destruct (idict_has chars_by_id 0); [|destruct Hi].
    destruct Hi as [<- | []]. discriminate Hreq.
  - wrong_requirement
      (Forall_flat_map _ _ (seen_occurrences houses_by_number)
         (fun x _ => occupant_check_requirements chars_by_id x)) Hi Hreq.
  - wrong_requirement
      (Forall_flat_map _ _ chars_by_id
         (fun x _ => residency_check_requirements (seen_occurrences houses_by_number) x))
      Hi Hreq.
  - wrong_requirement
      (surname_span_requirements chars_by_id (build_house_index houses_by_number))
      Hi Hreq.
  - wrong_requirement
      (Forall_concat_parts _ _ _ _
         (house_check_requirements chars_by_id spouse_of parents_of_child
            children_of_parent) Hh) Hi Hreq.
  - destruct (In_concat_parts _ _ _ _ Hm Hi) as ([cid c] & l & Hx & Hl & Hil).
    exists cid, c, l. auto.
  - wrong_requirement
      (Forall_concat_parts _ _ _ _ minor_family_requirements Hf) Hi Hreq.
Qed.

(** What the guardianship check of one character returns. *)
Lemma minor_check_verdict `{PyRuntime} (chars_by_id : chars_index)
  (houses_by_number : houses_index) (spouse_of : idict Z)
  (parents_of_child children_of_parent : idict pyset) (occ_to_house : idict Z)
  (cid : Z) (c h : pydict) (age hn : Z) (occs : list PyVal) (found : bool)
  (adults : list Z) :
  cid <> 0 -> dict_get c "age" = PInt age -> age <= 17 ->
  idict_get occ_to_house cid = Some hn ->
  idict_get houses_by_number hn = Some h ->
  dict_get h "occupants" = PList occs ->
  has_adult_family chars_by_id spouse_of parents_of_child children_of_parent
    (filter (idict_has chars_by_id) (int_items occs)) cid = Ok found ->
  adults_among chars_by_id (filter (idict_has chars_by_id) (int_items occs)) = Ok adults ->
  minor_check chars_by_id houses_by_number spouse_of parents_of_child children_of_parent
    occ_to_house [] (cid, c)
  = Ok (if found then [] else [minor_issue cid age hn adults]).
Proof.
  intros Hcid Hage Hle Hhn Hh Hoccs Hfound Hadults. unfold minor_check.
  apply Z.eqb_neq in Hcid. rewrite Hcid, Hage.
  apply Z.leb_le in Hle. rewrite Hle, Hhn, Hh.
  assert (Ho : dict_get_or h "occupants" (PList []) = PList occs).
  { unfold dict_get_or. unfold dict_get in Hoccs.
    destruct (dict_lookup h "occupants"); [exact Hoccs | discriminate]. }
  rewrite Ho, Hfound. cbn [bind]. destruct found; [reflexivity|].
  rewrite Hadults. reflexivity.
Qed.


Lemma scenario5_families : families_are_objects scenario5_chars.
Proof.
  intros cid c n [E | []] _. injection E as <- <-. exact I.
Defined.

Lemma scenario5_distinct_houses : NoDup (map fst scenario5_houses).
Proof. simpl. constructor; [intros [] | constructor]. Defined.


(** Scenario 5: the one issue of the cross-file check. *)
Example scenario5_alone :
  validate_cross_file_consistency scenario5_chars scenario5_houses [] [] []
  = Ok [ mkIssue ERROR "2.2.4.1"
           (String.append
              "Minor NPC id=5 age=7 in house 3 does not live with a related adult family member. "
              "Adult occupants present: []") ].
Proof. vm_compute. reflexivity. Qed.



(** The report for the unhoused child: the occupant 9 is unknown, the child
    5 lives nowhere, and no guardianship error is raised. *)
Example unhoused_minor_report :
  option_map (map requirement)
    (match validate_cross_file_consistency scenario5_chars other_occupant_houses
             [] [] [] with
     | Ok issues => Some issues
     | Raise _ => None
     end)
  = Some ["2.3.3/2.8"; "2.8"].
Proof. vm_compute. reflexivity. Qed.

(* ------------------------------------------------------------------------- *)
(** ** The surnames across houses *)

Lemma sdict_get_set (d : list (string * pyset)) (k k' : string) (s : pyset) :
  sdict_get (sdict_set d k s) k' = if String.eqb k' k then s else sdict_get d k'.
Proof.
  induction d as [|[k0 s0] d IH]; simpl.
  - destruct (String.eqb k' k); reflexivity.
  - destruct (String.eqb k k0) eqn:E; simpl.
    + apply String.eqb_eq in E. subst k0. destruct (String.eqb k' k); reflexivity.
    + rewrite IH. destruct (String.eqb k' k0) eqn:E'; [|reflexivity].
      apply String.eqb_eq in E'. subst k0.
      destruct (String.eqb k' k) eqn:E''; [|reflexivity].
      apply String.eqb_eq in E''. subst k'. rewrite String.eqb_refl in E. discriminate.
Qed.

Lemma sdict_set_keys (d : list (string * pyset)) (k : string) (s : pyset) :
  NoDup (map fst d) ->
  NoDup (map fst (sdict_set d k s))
  /\ forall k', In k' (map fst (sdict_set d k s)) -> k' = k \/ In k' (map fst d).
Proof.
  induction d as [|[k0 s0] d IH]; simpl; intros Hnd.
  - split; [constructor; [intros [] | constructor] | intros k' [<- | []]; auto].
  - inversion Hnd as [|? ? Hnotin Hnd']; subst.
    destruct (String.eqb k k0) eqn:E; simpl.
    + split; [exact Hnd | intros k' Hk'; right; exact Hk'].
    + destruct (IH Hnd') as [IH1 IH2]. split.
      * constructor; [|exact IH1]. intros Hin.
        destruct (IH2 k0 Hin) as [-> | Hin']; [|contradiction].
        rewrite String.eqb_refl in E. discriminate.
      * intros k' [<- | Hk']; [right; left; reflexivity|].
        destruct (IH2 k' Hk'); auto.
Qed.

Lemma surname_to_houses_keys (chars_by_id : chars_index) (occ_to_house : idict Z) :
  NoDup (map fst (surname_to_houses chars_by_id occ_to_house)).
Proof.
  unfold surname_to_houses.
  assert (Hgen : forall acc, NoDup (map fst acc) ->
                 NoDup (map fst (fold_left (surname_step occ_to_house) chars_by_id acc))).
  { induction chars_by_id as [|[cid c] rest IH]; intros acc Hacc; simpl; [exact Hacc|].
    apply IH. unfold surname_step. destruct (cid =? 0); [exact Hacc|].
    destruct (idict_get occ_to_house cid); [|exact Hacc].
    destruct (nonblank_str _); [|exact Hacc].
    apply sdict_set_keys. exact Hacc. }
  apply Hgen. constructor.
Qed.

Lemma sdict_get_unique (d : list (string * pyset)) (k : string) (s : pyset) :
  NoDup (map fst d) -> In (k, s) d -> sdict_get d k = s.
Proof.
  induction d as [|[k0 s0] d IH]; simpl; [intros _ []|].
  intros Hnd [E | Hin].
  - injection E as -> ->. rewrite String.eqb_refl. reflexivity.
  - inversion Hnd as [|? ? Hnotin Hnd']; subst.
    destruct (String.eqb k k0) eqn:E.
    + apply String.eqb_eq in E. subst k0. exfalso. apply Hnotin.
      apply (in_map fst) in Hin. exact Hin.
    + apply IH; assumption.
Qed.

(** The houses recorded for a surname are the houses the occupancy index
    gives to the non-player characters of that surname. *)
Lemma surname_to_houses_spec (chars_by_id : chars_index) (occ_to_house : idict Z)
  (ln : string) (hn : Z) :
  In hn (sdict_get (surname_to_houses chars_by_id occ_to_house) ln)
  <-> exists cid c,
        In (cid, c) chars_by_id /\ cid <> 0
        /\ nonblank_str (dict_get c "lastName") = Some ln
        /\ idict_get occ_to_house cid = Some hn.
Proof.
  unfold surname_to_houses.
  assert (Hgen : forall acc,
            In hn (sdict_get (fold_left (surname_step occ_to_house) chars_by_id acc) ln)
            <-> In hn (sdict_get acc ln)
                \/ exists cid c,
                     In (cid, c) chars_by_id /\ cid <> 0
                     /\ nonblank_str (dict_get c "lastName") = Some ln
                     /\ idict_get occ_to_house cid = Some hn).
  { induction chars_by_id as [|[cid c] rest IH]; intros acc; simpl.
    - split; [auto | intros [Ha | (cid & c & [] & _)]; exact Ha].
    - rewrite IH. clear IH.
      assert (Hstep :
                In hn (sdict_get (surname_step occ_to_house acc (cid, c)) ln)
                <-> In hn (sdict_get acc ln)
                    \/ (cid <> 0 /\ nonblank_str (dict_get c "lastName") = Some ln
                        /\ idict_get occ_to_house cid = Some hn)).
      { unfold surname_step. destruct (cid =? 0) eqn:E0.
        - apply Z.eqb_eq in E0. tauto.
        - apply Z.eqb_neq in E0.
          destruct (idict_get occ_to_house cid) as [hn0|].
          + destruct (nonblank_str (dict_get c "lastName")) as [ln0|].
            * rewrite sdict_get_set. destruct (String.eqb ln ln0) eqn:El.
              -- apply String.eqb_eq in El. subst ln0. rewrite set_add_In. split.
                 ++ intros [-> | Hin]; auto.
                 ++ intros [Hin | (_ & _ & [= ->])]; auto.
              -- split; [auto|]. intros [Hin | (_ & [= ->] & _)]; [exact Hin|].
                 rewrite String.eqb_refl in El. discriminate.
            * split; [auto|]. intros [Hin | (_ & Hd & _)]; [exact Hin | discriminate].
          + split; [auto|]. intros [Hin | (_ & _ & Hd)]; [exact Hin | discriminate]. }
      rewrite Hstep. split.
      + intros [[Ha | (H0 & Hl & Hh)] | (cid' & c' & Hin & Hrest)].
        * left. exact Ha.
        * right. exists cid, c. auto.
        * right. exists cid', c'. auto.
      + intros [Ha | (cid' & c' & [E | Hin] & H0 & Hl & Hh)].
        * left. left. exact Ha.
        * injection E as <- <-. left. right. auto.
        * right. exists cid', c'. auto. }
  rewrite Hgen. simpl. tauto.
Qed.

Lemma surname_span_issue_origin `{PyRuntime} (chars_by_id : chars_index)
  (occ_to_house : idict Z) (i : Issue) :
  In i (surname_span_issues chars_by_id occ_to_house []) ->
  exists ln,
    i = surname_span_issue ln (sdict_get (surname_to_houses chars_by_id occ_to_house) ln).
Proof.
  unfold surname_span_issues.
  rewrite (fold_left_appends _ _ [] surname_span_check_appends). simpl.
  intros Hi. apply in_flat_map in Hi. destruct Hi as ([ln hset] & Hin & Hi).
  apply (Permutation_in _ (py_sorted_perm _ _)) in Hin.
  unfold surname_span_check in Hi. simpl in Hi.
  destruct (1 <? Z.of_nat (List.length hset)); [|destruct Hi].
  destruct Hi as [<- | []]. exists ln.
  rewrite (sdict_get_unique _ ln hset (surname_to_houses_keys _ _) Hin). reflexivity.
Qed.

(** An issue of requirement 2.5 of the cross-file check comes from the
    surnames-across-houses check. *)
Lemma surname_issue_origin `{PyRuntime} (chars_by_id : chars_index)
  (houses_by_number : houses_index) (spouse_of : idict Z)
  (parents_of_child children_of_parent : idict pyset) (issues : list Issue) (i : Issue) :
  validate_cross_file_consistency chars_by_id houses_by_number spouse_of
    parents_of_child children_of_parent = Ok issues ->
  In i issues -> requirement i = "2.5" ->
  In i (surname_span_issues chars_by_id (build_house_index houses_by_number) []).
Proof.
  intros Hv Hi Hreq.
  destruct (cross_file_parts _ _ _ _ _ _ Hv)
    as (house_parts & minor_parts & family_parts & Hh & Hm & Hf & ->).
  repeat (apply in_app_or in Hi; destruct Hi as [Hi | Hi]).
  - destruct (idict_has chars_by_id 0); [|destruct Hi].
    destruct Hi as [<- | []]. discriminate Hreq.
  - wrong_requirement
      (Forall_flat_map _ _ (seen_occurrences houses_by_number)
         (fun x _ => occupant_check_requirements chars_by_id x)) Hi Hreq.
  - wrong_requirement
      (Forall_flat_map _ _ chars_by_id
         (fun x _ => residency_check_requirements (seen_occurrences houses_by_number) x))
      Hi Hreq.
  - exact Hi.
  - wrong_requirement
      (Forall_concat_parts _ _ _ _
         (house_check_requirements chars_by_id spouse_of parents_of_child
            children_of_parent) Hh) Hi Hreq.
  - wrong_requirement
      (Forall_concat_parts _ _ _ _
         (minor_check_requirements chars_by_id houses_by_number spouse_of
            parents_of_child children_of_parent (build_house_index houses_by_number))
         Hm) Hi Hreq.
  - wrong_requirement
      (Forall_concat_parts _ _ _ _ minor_family_requirements Hf) Hi Hreq.
Qed.

(** C9: [build_house_index] maps an integer occupant id to the number of
    the first house, in the order of [houses_by_number], whose occupants list
    holds it.  Consequently the surnames-across-houses check records, for a
    surname, only the first house of each character of that surname, and every
    2.5 error reports such a set; and every 2.2.4.1 error names the first house
    of its minor and lists adults among the occupants found under that house
    number. *)
Theorem house_index_first_occurrence `{PyRuntime} (houses_by_number : houses_index) :
  (forall occ hn,
     idict_get (build_house_index houses_by_number) occ = Some hn
     <-> exists before h after,
           houses_by_number = before ++ (hn, h) :: after
           /\ lists_occupant h occ
           /\ forall hn' h', In (hn', h') before -> ~ lists_occupant h' occ)
  /\ (forall chars_by_id ln hn,
        In hn (sdict_get (surname_to_houses chars_by_id
                            (build_house_index houses_by_number)) ln)
        <-> exists cid c,
              In (cid, c) chars_by_id /\ cid <> 0
              /\ nonblank_str (dict_get c "lastName") = Some ln
              /\ idict_get (build_house_index houses_by_number) cid = Some hn)
  /\ (forall chars_by_id spouse_of parents_of_child children_of_parent issues i,
        validate_cross_file_consistency chars_by_id houses_by_number spouse_of
          parents_of_child children_of_parent = Ok issues ->
        In i issues ->
        (requirement i = "2.5" ->
         exists ln,
           i = surname_span_issue ln
                 (sdict_get (surname_to_houses chars_by_id
                               (build_house_index houses_by_number)) ln))
        /\ (requirement i = "2.2.4.1" ->
            exists cid c age hn occs adults,
              In (cid, c) chars_by_id
              /\ idict_get (build_house_index houses_by_number) cid = Some hn
              /\ dict_get_or
                   (match idict_get houses_by_number hn with
                    | Some h => h
                    | None => []
                    end) "occupants" (PList []) = PList occs
              /\ adults_among chars_by_id
                   (filter (idict_has chars_by_id) (int_items occs)) = Ok adults
              /\ i = minor_issue cid age hn adults)).
Proof.
  split; [|split].
  - intros occ hn. rewrite build_house_index_first. apply first_house_some.
  - intros chars_by_id ln hn. apply surname_to_houses_spec.
  - intros chars_by_id spouse_of parents_of_child children_of_parent issues i Hv Hi.
    split; intros Hreq.
    + apply surname_span_issue_origin.
      eapply surname_issue_origin; eassumption.
    + destruct (guardianship_issue_origin _ _ _ _ _ _ _ Hv Hi Hreq)
        as (cid & c & l & Hin & Hl & Hil).
      destruct (minor_check_issue _ _ _ _ _ _ _ _ _ _ Hl Hil)
        as (age & hn & occs & adults & _ & _ & _ & Hhn & Hoccs & _ & Hadults & ->).
      exists cid, c, age, hn, occs, adults. auto.
Qed.

(** An occupant listed twice: the index keeps house 3 for the child 5, so
    the guardianship error names house 3 although the parent lives in house 4,
    where the child is listed again; and the surname Smith spans the houses 3
    and 4 through the first houses of 5 and 6. *)
Example doubly_listed_occupant :
  build_house_index doubly_listed_houses = [(5, 3); (6, 4)]
  /\ match validate_cross_file_consistency doubly_listed_chars doubly_listed_houses
             [] [(5, [6])] [(6, [5])] with
     | Ok issues =>
         In (minor_issue 5 7 3 []) issues
         /\ In (surname_span_issue "Smith" [3; 4]) issues
     | Raise _ => False
     end.
Proof. vm_compute. intuition. Qed.

(* ------------------------------------------------------------------------- *)
(** ** The parts of build_relationship_indexes *)

Lemma multiple_spouses_check_appends (s : list Issue) (x : Z * list Z) :
  multiple_spouses_check s x = s ++ multiple_spouses_check [] x.
Proof. unfold multiple_spouses_check. appends. Qed.

Lemma child_check_appends (chars_by_id : chars_index) (p : Z) (p_age : PyVal)
  (s : list Issue) (ch : Z) :
  child_check chars_by_id p p_age s ch = s ++ child_check chars_by_id p p_age [] ch.
Proof. unfold child_check. appends. Qed.

Lemma parent_check_appends `{PyRuntime} (chars_by_id : chars_index) (s : list Issue)
  (x : Z * pyset) :
  parent_check chars_by_id s x = s ++ parent_check chars_by_id [] x.
Proof.
  unfold parent_check. destruct x as [p kids].
  rewrite (fold_left_appends _ _ _ (child_check_appends _ _ _)).
  rewrite (fold_left_appends _ _ (if int_below _ 18 then [] ++ _ else [])
             (child_check_appends _ _ _)).
  destruct (int_below (age_of chars_by_id p) 18); simpl;
    rewrite <- ?app_assoc; reflexivity.
Qed.

Lemma spouse_check_appends `{PyRuntime} (chars_by_id : chars_index) (s : list Issue)
  (x : Z * Z) :
  spouse_check chars_by_id s x = l <- spouse_check chars_by_id [] x ;; Ok (s ++ l).
Proof.
  unfold spouse_check. destruct x as [a b].
  destruct (idict_get chars_by_id b) as [cb|]; [|reflexivity].
  destruct (family_field cb "spouse") as [b_spouse|e]; cbn [bind]; [|reflexivity].
  destruct (idict_item chars_by_id a) as [ca|e]; cbn [bind]; [|reflexivity].
  destruct (in_MF (dict_get ca "gender")) as [a_known|e]; cbn [bind]; [|reflexivity].
  destruct a_known.
  - destruct (in_MF (dict_get cb "gender")) as [b_known|e]; cbn [bind]; [|reflexivity].
    repeat break_match; simpl; rewrite ?app_nil_r, <- ?app_assoc; reflexivity.
  - cbn [bind].
    repeat break_match; simpl; rewrite ?app_nil_r, <- ?app_assoc; reflexivity.
Qed.

Lemma parents_check_appends `{PyRuntime} (chars_by_id : chars_index) (s : list Issue)
  (x : Z * pyset) :
  parents_check chars_by_id s x = l <- parents_check chars_by_id [] x ;; Ok (s ++ l).
Proof.
  unfold parents_check. destruct x as [ch ps].
  destruct (sorted_ints ps) as [|p1 [|p2 [|p3 rest]]];
    try (destruct (2 <? Z.of_nat (List.length ps)); simpl;
         rewrite ?app_nil_r; reflexivity).
  destruct (idict_item chars_by_id p1) as [c1|e]; cbn [bind]; [|reflexivity].
  destruct (idict_item chars_by_id p2) as [c2|e]; cbn [bind]; [|reflexivity].
  destruct (if py_eq (dict_get c1 "gender") (dict_get c2 "gender")
            then in_MF (dict_get c1 "gender") else Ok false) as [same|e];
    cbn [bind]; [|reflexivity].
  destruct (family_field c1 "spouse") as [p1_sp|e]; cbn [bind]; [|reflexivity].
  destruct (family_field c2 "spouse") as [p2_sp|e]; cbn [bind]; [|reflexivity].
  repeat break_match; simpl; rewrite ?app_nil_r, <- ?app_assoc; reflexivity.
Qed.

(** The issues of [build_relationship_indexes], loop by loop. *)
Lemma relationship_parts `{PyRuntime} (chars_by_id : chars_index)
  (spouse_of : idict Z) (parents_of_child children_of_parent : idict pyset)
  (issues : list Issue) :
  build_relationship_indexes chars_by_id
  = Ok (spouse_of, parents_of_child, children_of_parent, issues) ->
  collect_links chars_by_id = Ok (spouse_of, children_of_parent, parents_of_child)
  /\ exists spouse_parts parents_parts,
       Forall2 (fun x l => spouse_check chars_by_id [] x = Ok l) spouse_of spouse_parts
       /\ Forall2 (fun x l => parents_check chars_by_id [] x = Ok l)
            parents_of_child parents_parts
       /\ issues
          = flat_map (multiple_spouses_check []) (reverse_spouse spouse_of)
            ++ List.concat spouse_parts
            ++ flat_map (parent_check chars_by_id []) children_of_parent
            ++ List.concat parents_parts.
Proof.
  unfold build_relationship_indexes.
  destruct (collect_links chars_by_id) as [[[so cp] pc]|e]; cbn [bind]; [|discriminate].
  destruct (relationship_issues chars_by_id (so, cp, pc)) as [found|e] eqn:Er;
    cbn [bind]; [|discriminate].
  intros [= <- <- <- <-]. split; [reflexivity|].
  unfold relationship_issues in Er.
  destruct (for_each (spouse_check chars_by_id) so _) as [i1|e] eqn:E1;
    cbn [bind] in Er; [|discriminate].
  destruct (for_each_appends _ _ _ _ (spouse_check_appends chars_by_id) E1)
    as (spouse_parts & Hs & ->).
  destruct (for_each_appends _ _ _ _ (parents_check_appends chars_by_id) Er)
    as (parents_parts & Hp & ->).
  exists spouse_parts, parents_parts. split; [exact Hs|]. split; [exact Hp|].
  rewrite (fold_left_appends _ _ _ (parent_check_appends chars_by_id)).
  rewrite (fold_left_appends _ _ [] multiple_spouses_check_appends).
  rewrite <- !app_assoc. reflexivity.
Qed.

(** *** What each loop can report *)

Lemma multiple_spouses_requirements (x : Z * list Z) :
  Forall (requirement_among ["2.2.8.3"]) (multiple_spouses_check [] x).
Proof. unfold multiple_spouses_check. destruct x. simpl. requirement_cases. Qed.

Lemma parents_check_requirements `{PyRuntime} (chars_by_id : chars_index)
  (x : Z * pyset) (l : list Issue) :
  parents_check chars_by_id [] x = Ok l ->
  Forall (requirement_among ["2.2.8.1"; "2.2.8.2"]) l.
Proof.
  unfold parents_check. destruct x as [ch ps].
  destruct (sorted_ints ps) as [|p1 [|p2 [|p3 rest]]];
    try (destruct (2 <? Z.of_nat (List.length ps)); intros [= <-]; requirement_list).
  destruct (idict_item chars_by_id p1) as [c1|e]; cbn [bind]; [|discriminate].
  destruct (idict_item chars_by_id p2) as [c2|e]; cbn [bind]; [|discriminate].
  destruct (if py_eq (dict_get c1 "gender") (dict_get c2 "gender")
            then in_MF (dict_get c1 "gender") else Ok false) as [same|e];
    cbn [bind]; [|discriminate].
  destruct (family_field c1 "spouse") as [p1_sp|e]; cbn [bind]; [|discriminate].
  destruct (family_field c2 "spouse") as [p2_sp|e]; cbn [bind]; [|discriminate].
  destruct (2 <? Z.of_nat (List.length ps)); destruct same;
    destruct (is_int_eq p1_sp p2 && is_int_eq p2_sp p1)%bool;
    intros [= <-]; simpl; requirement_list.
Qed.

(** What the check of one spouse link reports: that the spouse is missing;
    or, for a spouse in the roster, the asymmetry when the spouse's own
    [family.spouse] is not the integer [a], and errors of the requirements
    2.2.8.2 and 2.2.8.4. *)
Lemma spouse_check_issues `{PyRuntime} (chars_by_id : chars_index) (a b : Z)
  (l : list Issue) :
  spouse_check chars_by_id [] (a, b) = Ok l ->
  (idict_get chars_by_id b = None /\ l = [spouse_missing_issue a b])
  \/ exists cb b_spouse rest,
       idict_get chars_by_id b = Some cb
       /\ family_field cb "spouse" = Ok b_spouse
       /\ l = (if is_int_eq b_spouse a then []
               else [spouse_asymmetric_issue a b b_spouse]) ++ rest
       /\ Forall (requirement_among ["2.2.8.2"; "2.2.8.4"]) rest.
Proof.
  unfold spouse_check.
  destruct (idict_get chars_by_id b) as [cb|]; [|intros [= <-]; left; auto].
  destruct (family_field cb "spouse") as [b_spouse|e] eqn:Ef; cbn [bind];
    [|discriminate].
  destruct (idict_item chars_by_id a) as [ca|e]; cbn [bind]; [|discriminate].
  destruct (in_MF (dict_get ca "gender")) as [a_known|e]; cbn [bind]; [|discriminate].
  intros Hl. right. exists cb, b_spouse.
  assert (Hsame : exists same : bool,
            Ok (let issues := if is_int_eq b_spouse a then []
                              else [] ++ [spouse_asymmetric_issue a b b_spouse] in
                let issues := if same
                              then issues ++ [marriage_gender_issue a b
                                                (dict_get ca "gender")
                                                (dict_get cb "gender")]
                              else issues in
                let issues := if int_below (dict_get ca "age") 18
                              then issues ++ [married_minor_issue a (dict_get ca "age")]
                              else issues in
                if int_below (dict_get cb "age") 18
                then issues ++ [married_minor_issue b (dict_get cb "age")]
                else issues) = Ok l).
  { destruct a_known.
    - destruct (in_MF (dict_get cb "gender")) as [b_known|e]; cbn [bind] in Hl;
        [|discriminate].
      eexists. exact Hl.
    - exists false. exact Hl. }
  clear Hl. destruct Hsame as (same & Hl). cbv zeta in Hl. injection Hl as <-.
  destruct (is_int_eq b_spouse a); destruct same;
    destruct (int_below (dict_get ca "age") 18);
    destruct (int_below (dict_get cb "age") 18);
    eexists; (split; [reflexivity|]); (split; [exact Ef|]);
    (split; [simpl; reflexivity | requirement_list]).
Qed.

(** What the check of one child of a parent reports. *)
Lemma child_check_issues (chars_by_id : chars_index) (p ch : Z) (p_age : PyVal) :
  (idict_get chars_by_id ch = None
   /\ child_check chars_by_id p p_age [] ch = [child_missing_issue p ch])
  \/ (exists c, idict_get chars_by_id ch = Some c
      /\ ((exists pa ca, p_age = PInt pa /\ dict_get c "age" = PInt ca
                         /\ pa - ca < 18
                         /\ child_check chars_by_id p p_age [] ch
                            = [age_gap_issue p pa ch ca])
          \/ ((forall pa ca, p_age = PInt pa -> dict_get c "age" = PInt ca
                             -> 18 <= pa - ca)
              /\ child_check chars_by_id p p_age [] ch = []))).
Proof.
  unfold child_check. destruct (idict_get chars_by_id ch) as [c|]; [|left; auto].
  right. exists c. split; [reflexivity|].
  destruct p_age as [| |pa| | | |]; try (right; split; [intros; discriminate | reflexivity]).
  destruct (dict_get c "age") as [| |ca| | | |];
    try (right; split; [intros; discriminate | reflexivity]).
  destruct (pa - ca <? 18) eqn:E.
  - left. exists pa, ca. apply Z.ltb_lt in E. auto.
  - right. apply Z.ltb_ge in E. split; [|reflexivity].
    intros pa' ca' [= <-] [= <-]. exact E.
Qed.

Lemma parent_check_issues `{PyRuntime} (chars_by_id : chars_index) (p : Z)
  (kids : pyset) :
  parent_check chars_by_id [] (p, kids)
  = (if int_below (age_of chars_by_id p) 18
     then [young_parent_issue p (age_of chars_by_id p)] else [])
    ++ flat_map (child_check chars_by_id p (age_of chars_by_id p) []) (set_iter kids).
Proof.
  unfold parent_check.
  rewrite (fold_left_appends _ _ _ (child_check_appends _ _ _)).
  destruct (int_below (age_of chars_by_id p) 18); reflexivity.
Qed.

(* ------------------------------------------------------------------------- *)
(** ** Where the relationship issues come from *)

Lemma asymmetric_issue_names `{PyRuntime} (a b a' b' : Z) (v v' : PyVal) :
  spouse_asymmetric_issue a b v = spouse_asymmetric_issue a' b' v' ->
  a = a' /\ b = b'.
Proof. unfold spouse_asymmetric_issue. intros [= E]. peel_message E. auto. Qed.

Lemma missing_issue_names (a b a' b' : Z) :
  spouse_missing_issue a b = spouse_missing_issue a' b' -> a = a' /\ b = b'.
Proof. unfold spouse_missing_issue. intros [= E]. peel_message E. auto. Qed.

Lemma child_missing_issue_names (p ch p' ch' : Z) :
  child_missing_issue p ch = child_missing_issue p' ch' -> p = p' /\ ch = ch'.
Proof. unfold child_missing_issue. intros [= E]. peel_message E. auto. Qed.

Lemma age_gap_issue_names (p pa ch ca p' pa' ch' ca' : Z) :
  age_gap_issue p pa ch ca = age_gap_issue p' pa' ch' ca' ->
  p = p' /\ pa = pa' /\ ch = ch' /\ ca = ca'.
Proof. unfold age_gap_issue. intros [= E]. peel_message E. auto. Qed.

Lemma asymmetric_is_not_missing `{PyRuntime} (a b a' b' : Z) (v : PyVal) :
  spouse_asymmetric_issue a b v <> spouse_missing_issue a' b'.
Proof.
  unfold spouse_asymmetric_issue, spouse_missing_issue. intros [= E].
  peel_message E. discriminate E.
Qed.

Lemma asymmetric_is_not_child_missing `{PyRuntime} (a b p ch : Z) (v : PyVal) :
  spouse_asymmetric_issue a b v <> child_missing_issue p ch.
Proof.
  unfold spouse_asymmetric_issue, child_missing_issue. intros [= E].
  peel_message E. discriminate E.
Qed.

Lemma missing_is_not_child_missing (a b p ch : Z) :
  spouse_missing_issue a b <> child_missing_issue p ch.
Proof.
  unfold spouse_missing_issue, child_missing_issue. intros [= E].
  peel_message E. discriminate E.
Qed.

Lemma is_int_eq_true (v : PyVal) (n : Z) : is_int_eq v n = true <-> v = PInt n.
Proof.
  destruct v; simpl; try (split; [discriminate | intros; discriminate]).
  rewrite Z.eqb_eq. split; [intros ->; reflexivity | intros [= ->]; reflexivity].
Qed.

(** An issue of requirement 2.2.8 is a missing spouse, an asymmetric spouse
    link or a missing child, each from its own loop entry. *)
Lemma family_link_issue_origin `{PyRuntime} (chars_by_id : chars_index)
  (spouse_of : idict Z) (parents_of_child children_of_parent : idict pyset)
  (issues : list Issue) (i : Issue) :
  build_relationship_indexes chars_by_id
  = Ok (spouse_of, parents_of_child, children_of_parent, issues) ->
  In i issues -> requirement i = "2.2.8" ->
  (exists a b, In (a, b) spouse_of /\ idict_get chars_by_id b = None
               /\ i = spouse_missing_issue a b)
  \/ (exists a b cb v,
        In (a, b) spouse_of /\ idict_get chars_by_id b = Some cb
        /\ family_field cb "spouse" = Ok v /\ is_int_eq v a = false
        /\ i = spouse_asymmetric_issue a b v)
  \/ (exists p kids ch,
        In (p, kids) children_of_parent /\ In ch kids
        /\ idict_get chars_by_id ch = None /\ i = child_missing_issue p ch).
Proof.
  intros Hb Hi Hreq.
  destruct (relationship_parts _ _ _ _ _ Hb)
    as (_ & spouse_parts & parents_parts & Hs & Hp & ->).
  repeat (apply in_app_or in Hi; destruct Hi as [Hi | Hi]).
  - wrong_requirement
      (Forall_flat_map _ _ (reverse_spouse spouse_of)
         (fun x _ => multiple_spouses_requirements x)) Hi Hreq.
  - destruct (In_concat_parts _ _ _ _ Hs Hi) as ([a b] & l & Hx & Hl & Hil).
    destruct (spouse_check_issues _ _ _ _ Hl)
      as [[Hnone ->] | (cb & v & rest & Hcb & Hv & -> & Hrest)].
    + destruct Hil as [<- | []]. left. exists a, b. auto.
    + apply in_app_or in Hil. destruct Hil as [Hil | Hil].
      * destruct (is_int_eq v a) eqn:Ev; [destruct Hil|].
        destruct Hil as [<- | []]. right. left. exists a, b, cb, v. auto.
      * wrong_requirement Hrest Hil Hreq.
  - apply in_flat_map in Hi. destruct Hi as ([p kids] & Hx & Hi).
    rewrite parent_check_issues in Hi. apply in_app_or in Hi.
    destruct Hi as [Hi | Hi].
    + destruct (int_below (age_of chars_by_id p) 18); [|destruct Hi].
      destruct Hi as [<- | []]. discriminate Hreq.
    + apply in_flat_map in Hi. destruct Hi as (ch & Hch & Hi).
      apply (proj1 (set_iter_In _ _)) in Hch.
      destruct (child_check_issues chars_by_id p ch (age_of chars_by_id p))
        as [[Hnone Hcc] | (c & Hc & [(pa & ca & _ & _ & _ & Hcc) | [_ Hcc]])];
        rewrite Hcc in Hi.
      * destruct Hi as [<- | []]. right. right. exists p, kids, ch. auto.
      * destruct Hi as [<- | []]. discriminate Hreq.
      * destruct Hi.
  - wrong_requirement
      (Forall_concat_parts _ _ _ _ (parents_check_requirements chars_by_id) Hp)
      Hi Hreq.
Qed.

(** An issue of requirement 2.2.8.6 comes from a child in the roster whose
    parent is less than 18 years older. *)
Lemma age_gap_issue_origin `{PyRuntime} (chars_by_id : chars_index)
  (spouse_of : idict Z) (parents_of_child children_of_parent : idict pyset)
  (issues : list Issue) (i : Issue) :
  build_relationship_indexes chars_by_id
  = Ok (spouse_of, parents_of_child, children_of_parent, issues) ->
  In i issues -> requirement i = "2.2.8.6" ->
  exists p kids ch c pa ca,
    In (p, kids) children_of_parent /\ In ch kids
    /\ idict_get chars_by_id ch = Some c
    /\ age_of chars_by_id p = PInt pa /\ dict_get c "age" = PInt ca
    /\ pa - ca < 18 /\ i = age_gap_issue p pa ch ca.
Proof.
  intros Hb Hi Hreq.
  destruct (relationship_parts _ _ _ _ _ Hb)
    as (_ & spouse_parts & parents_parts & Hs & Hp & ->).
  repeat (apply in_app_or in Hi; destruct Hi as [Hi | Hi]).
  - wrong_requirement
      (Forall_flat_map _ _ (reverse_spouse spouse_of)
         (fun x _ => multiple_spouses_requirements x)) Hi Hreq.
  - destruct (In_concat_parts _ _ _ _ Hs Hi) as ([a b] & l & Hx & Hl & Hil).
    destruct (spouse_check_issues _ _ _ _ Hl)
      as [[Hnone ->] | (cb & v & rest & Hcb & Hv & -> & Hrest)].
    + destruct Hil as [<- | []]. discriminate Hreq.
    + apply in_app_or in Hil. destruct Hil as [Hil | Hil].
      * destruct (is_int_eq v a); [destruct Hil|].
        destruct Hil as [<- | []]. discriminate Hreq.
      * wrong_requirement Hrest Hil Hreq.
  - apply in_flat_map in Hi. destruct Hi as ([p kids] & Hx & Hi).
    rewrite parent_check_issues in Hi. apply in_app_or in Hi.
    destruct Hi as [Hi | Hi].
    + destruct (int_below (age_of chars_by_id p) 18); [|destruct Hi].
      destruct Hi as [<- | []]. discriminate Hreq.
    + apply in_flat_map in Hi. destruct Hi as (ch & Hch & Hi).
      apply (proj1 (set_iter_In _ _)) in Hch.
      destruct (child_check_issues chars_by_id p ch (age_of chars_by_id p))
        as [[Hnone Hcc] | (c & Hc & [(pa & ca & Hpa & Hca & Hgap & Hcc) | [_ Hcc]])];
        rewrite Hcc in Hi.
      * destruct Hi as [<- | []]. discriminate Hreq.
      * destruct Hi as [<- | []]. exists p, kids, ch, c, pa, ca. auto 10.
      * destruct Hi.
  - wrong_requirement
      (Forall_concat_parts _ _ _ _ (parents_check_requirements chars_by_id) Hp)
      Hi Hreq.
Qed.

Lemma spouse_part_emitted `{PyRuntime} (chars_by_id : chars_index)
  (spouse_of : idict Z) (parents_of_child children_of_parent : idict pyset)
  (issues : list Issue) (a b : Z) :
  build_relationship_indexes chars_by_id
  = Ok (spouse_of, parents_of_child, children_of_parent, issues) ->
  In (a, b) spouse_of ->
  exists l, spouse_check chars_by_id [] (a, b) = Ok l
            /\ forall i, In i l -> In i issues.
Proof.
  intros Hb Hin.
  destruct (relationship_parts _ _ _ _ _ Hb)
    as (_ & spouse_parts & parents_parts & Hs & Hp & ->).
  destruct (Forall2_In_l _ _ _ _ Hs Hin) as (l & Hl & Hc).
  exists l. split; [exact Hc|]. intros i Hi.
  apply in_or_app. right. apply in_or_app. left.
  apply in_concat. exists l. auto.
Qed.

Lemma child_part_emitted `{PyRuntime} (chars_by_id : chars_index)
  (spouse_of : idict Z) (parents_of_child children_of_parent : idict pyset)
  (issues : list Issue) (p ch : Z) (kids : pyset) (i : Issue) :
  build_relationship_indexes chars_by_id
  = Ok (spouse_of, parents_of_child, children_of_parent, issues) ->
  In (p, kids) children_of_parent -> In ch kids ->
  In i (child_check chars_by_id p (age_of chars_by_id p) [] ch) ->
  In i issues.
Proof.
  intros Hb Hin Hch Hi.
  destruct (relationship_parts _ _ _ _ _ Hb)
    as (_ & spouse_parts & parents_parts & Hs & Hp & ->).
  do 2 (apply in_or_app; right). apply in_or_app. left.
  apply in_flat_map. exists (p, kids). split; [exact Hin|].
  rewrite parent_check_issues. apply in_or_app. right.
  apply in_flat_map. exists ch. split; [apply set_iter_In; exact Hch | exact Hi].
Qed.



(** The indexes and the issues of the example family. *)
Example family_indexes :
  match build_relationship_indexes family_chars with
  | Ok (spouse_of, parents_of_child, children_of_parent, issues) =>
      spouse_of = [(5, 9); (9, 5); (6, 5)]
      /\ parents_of_child = [(7, [5]); (8, [5])]
      /\ children_of_parent = [(5, [7; 8])]
      /\ map requirement issues = ["2.2.8.3"; "2.2.8"; "2.2.8.6"; "2.2.8"]
  | Raise _ => False
  end.
Proof. vm_compute. repeat split. Qed.



(* ------------------------------------------------------------------------- *)
(** ** Exceptions that main does not catch *)

Lemma family_field_raises (c : pydict) (k : string) (v : PyVal) :
  dict_lookup c "family" = Some v -> (forall d, v <> PDict d) ->
  family_field c k = Raise AttributeError.
Proof.
  intros Hv Hd. unfold family_field, dict_get_or. rewrite Hv.
  destruct v; try reflexivity. destruct (Hd d eq_refl).
Qed.

Lemma family_field_exception (c : pydict) (k : string) (e : PyExn) :
  family_field c k = Raise e -> e = AttributeError.
Proof.
  unfold family_field, attr_get.
  destruct (dict_get_or c "family" (PDict [])); intros [= <-]; reflexivity.
Qed.

Lemma collect_links_step_exception (st : rel_links) (entry : Z * pydict) (e : PyExn) :
  collect_links_step st entry = Raise e -> e = AttributeError.
Proof.
  unfold collect_links_step. destruct st as [[spouse_of cp] pc], entry as [cid c].
  destruct (family_field c "spouse") as [spouse|e1] eqn:Es; cbn [bind].
  - destruct (family_field c "children") as [children|e2] eqn:Ec; cbn [bind].
    + destruct (collect_children _ _ _ _). discriminate.
    + intros [= <-]. exact (family_field_exception _ _ _ Ec).
  - intros [= <-]. exact (family_field_exception _ _ _ Es).
Qed.

(** A record whose [family] is present and is not an object makes
    [build_relationship_indexes] raise [AttributeError], wherever the record
    stands in the roster. *)
Lemma non_object_family_raises `{PyRuntime} (chars_by_id : chars_index) (cid : Z)
  (c : pydict) (v : PyVal) :
  In (cid, c) chars_by_id ->
  dict_lookup c "family" = Some v -> (forall d, v <> PDict d) ->
  build_relationship_indexes chars_by_id = Raise AttributeError.
Proof.
  intros Hin Hv Hd. unfold build_relationship_indexes, collect_links.
  assert (Hloop : forall st, for_each collect_links_step chars_by_id st
                             = Raise AttributeError).
  { induction chars_by_id as [|entry rest IH]; intros st; [destruct Hin|].
    cbn [for_each].
    destruct (collect_links_step st entry) as [st'|e] eqn:Estep; cbn [bind].
    - destruct Hin as [-> | Hin]; [|apply IH; exact Hin].
      unfold collect_links_step in Estep. destruct st as [[spouse_of cp] pc].
      rewrite (family_field_raises c "spouse" v Hv Hd) in Estep. discriminate Estep.
    - f_equal. exact (collect_links_step_exception _ _ _ Estep). }
  rewrite Hloop. reflexivity.
Qed.

(** The record survives [validate_characters], which reports its family with
    an ERROR and keeps it in the index; the run then ends in the exception,
    with no exit status and nothing printed. *)
Example null_family_crashes :
  (exists issues,
     validate_characters null_family_roster
     = Ok ([(1, [("id", PInt 1); ("family", PNone)])], issues)
     /\ In (mkIssue ERROR "2.2.8" "NPC id=1: missing/invalid family object.") issues)
  /\ run null_family_fs "config/characters.json" "config/houses.json"
     = (Raise AttributeError,
        mkConsole ["config/characters.json"; "config/houses.json"] []).
Proof.
  split.
  - eexists. split; [vm_compute; reflexivity|]. simpl. tauto.
  - vm_compute. reflexivity.
Qed.

(** A [gender] that is a list cannot be hashed: [validate_characters] itself
    raises [TypeError]. *)
Example unhashable_gender_crashes :
  validate_characters (PList [PDict [("id", PInt 1); ("gender", PList [])]])
  = Raise TypeError.
Proof. vm_compute. reflexivity. Qed.

(* ------------------------------------------------------------------------- *)
(** ** What the earlier phases hand to the cross-file checks *)

Lemma for_each_invariant {A S : Type} (P : S -> Prop) (body : S -> A -> result S)
  (xs : list A) (s s' : S) :
  (forall s x s', P s -> body s x = Ok s' -> P s') ->
  P s -> for_each body xs s = Ok s' -> P s'.
Proof.
  intros Hstep. revert s. induction xs as [|x xs IH]; intros s Hs; simpl.
  - intros [= <-]. exact Hs.
  - destruct (body s x) as [s1|e] eqn:Eb; simpl; [|discriminate].
    apply IH. exact (Hstep s x s1 Hs Eb).
Qed.

Lemma for_each_steps {A S : Type} (body : S -> A -> result S) (xs : list A) (s s' : S)
  (x : A) :
  for_each body xs s = Ok s' -> In x xs -> exists s0 s1, body s0 x = Ok s1.
Proof.
  revert s. induction xs as [|y xs IH]; intros s Hrun Hin; [destruct Hin|].
  simpl in Hrun. destruct (body s y) as [s1|e] eqn:Eb; simpl in Hrun; [|discriminate].
  destruct Hin as [-> | Hin].
  - exists s, s1. exact Eb.
  - exact (IH s1 Hrun Hin).
Qed.

Lemma idict_set_keys {V : Type} (d : idict V) (k : Z) (v : V) :
  map fst (idict_set d k v)
  = if idict_has d k then map fst d else map fst d ++ [k].
Proof.
  unfold idict_has. induction d as [|[k' v'] d IH]; simpl; [reflexivity|].
  destruct (Z.eqb k k') eqn:Ek; simpl; [reflexivity|].
  rewrite IH. destruct (idict_get d k); reflexivity.
Qed.

Lemma idict_has_key {V : Type} (d : idict V) (k : Z) :
  idict_has d k = true <-> In k (map fst d).
Proof.
  unfold idict_has. induction d as [|[k' v'] d IH]; simpl.
  - split; [discriminate | intros []].
  - destruct (Z.eqb k k') eqn:Ek.
    + apply Z.eqb_eq in Ek. subst. split; [left; reflexivity | reflexivity].
    + apply Z.eqb_neq in Ek. rewrite IH. split; [right; assumption|].
      intros [E | Hin]; [congruence | exact Hin].
Qed.

Lemma idict_set_distinct {V : Type} (d : idict V) (k : Z) (v : V) :
  NoDup (map fst d) -> NoDup (map fst (idict_set d k v)).
Proof.
  intros Hnd. rewrite idict_set_keys. destruct (idict_has d k) eqn:Eh; [exact Hnd|].
  apply NoDup_app; [exact Hnd | repeat constructor; intros [] |].
  intros x Hx [<- | []]. apply idict_has_key in Hx. congruence.
Qed.

Lemma house_entry_distinct `{PyRuntime} (st st' : houses_state) (entry : nat * PyVal) :
  NoDup (map fst (fst (fst st))) -> validate_house_entry st entry = Ok st' ->
  NoDup (map fst (fst (fst st'))).
Proof.
  destruct st as [[by_number seen] issues], entry as [idx h]. simpl. intros Hnd.
  destruct h; try (intros [= <-]; exact Hnd).
  destruct (dict_get d "houseNumber"); try (intros [= <-]; exact Hnd).
  destruct (set_mem z seen); [intros [= <-]; exact Hnd|].
  destruct (dict_get d "occupants") as [| | | | |[|o l]|]; try (intros [= <-]; exact Hnd).
  destruct (_validate_bounds_for_house z d); cbn [bind]; [|discriminate].
  intros [= <-]. simpl. apply idict_set_distinct. exact Hnd.
Qed.

(** The index of [validate_houses] holds every house number once. *)
Lemma validate_houses_distinct `{PyRuntime} (houses : PyVal)
  (houses_by_number : houses_index) (issues : list Issue) :
  validate_houses houses = Ok (houses_by_number, issues) ->
  NoDup (map fst houses_by_number).
Proof.
  unfold validate_houses.
  destruct houses as [| | | | |l|];
    try (match goal with |- Ok _ = Ok _ -> _ => intros [= <- _]; constructor end).
  cbv zeta.
  destruct (for_each validate_house_entry _ _) as [[[by_number seen] found]|e] eqn:Eloop;
    cbn [bind]; [|discriminate].
  destruct (validate_street_geometry by_number); cbn [bind]; [|discriminate].
  intros Heq.
  apply (f_equal (fun r : result (houses_index * list Issue) =>
                    match r with Ok (b, _) => b | Raise _ => [] end)) in Heq.
  cbv beta iota in Heq. subst houses_by_number.
  apply (for_each_invariant
           (fun st : houses_state => NoDup (map fst (fst (fst st)))) _ _ _ _
           (fun s x s' => house_entry_distinct s s' x)) in Eloop;
    [exact Eloop | apply NoDup_nil].
Qed.

(** When [build_relationship_indexes] returns, every record has an object
    for its family, or none. *)
Lemma indexed_families_are_objects `{PyRuntime} (chars_by_id : chars_index)
  (r : idict Z * idict pyset * idict pyset * list Issue) :
  build_relationship_indexes chars_by_id = Ok r ->
  forall cid c, In (cid, c) chars_by_id -> family_is_object c.
Proof.
  unfold build_relationship_indexes, collect_links. intros Hr cid c Hin.
  destruct (for_each collect_links_step chars_by_id _) as [links|e] eqn:Eloop;
    cbn [bind] in Hr; [|discriminate].
  destruct (for_each_steps _ _ _ _ _ Eloop Hin) as (s0 & s1 & Hstep).
  unfold collect_links_step in Hstep. destruct s0 as [[spouse_of cp] pc].
  unfold family_field, dict_get_or, family_is_object in *.
  destruct (dict_lookup c "family") as [v|]; [|exact I].
  destruct v; try discriminate Hstep. exact I.
Qed.

(** The conditions under which the guardianship check is characterised hold
    for whatever [main] hands to [validate_cross_file_consistency]. *)
Lemma cross_file_inputs_well_formed `{PyRuntime} `{HashSeed} (houses characters : PyVal)
  (houses_by_number : houses_index) (chars_by_id : chars_index)
  (house_issues char_issues : list Issue)
  (r : idict Z * idict pyset * idict pyset * list Issue) :
  validate_houses houses = Ok (houses_by_number, house_issues) ->
  validate_characters characters = Ok (chars_by_id, char_issues) ->
  build_relationship_indexes chars_by_id = Ok r ->
  NoDup (map fst houses_by_number) /\ families_are_objects chars_by_id.
Proof.
  intros Hh _ Hr. split.
  - exact (validate_houses_distinct _ _ _ Hh).
  - intros cid c n Hin _. exact (indexed_families_are_objects _ _ Hr cid c Hin).
Qed.

(* ------------------------------------------------------------------------- *)
(** ** build_relationship_indexes returns on every well-formed roster *)

Lemma for_each_total_invariant {A S : Type} (P : S -> Prop) (body : S -> A -> result S)
  (xs : list A) (s : S) :
  P s ->
  (forall s x, In x xs -> P s -> exists s', body s x = Ok s' /\ P s') ->
  exists s', for_each body xs s = Ok s' /\ P s'.
Proof.
  revert s. induction xs as [|x xs IH]; intros s Hs Hstep; simpl.
  - exists s. split; [reflexivity | exact Hs].
  - destruct (Hstep s x (or_introl eq_refl) Hs) as (s1 & -> & Hs1). simpl.
    apply IH; [exact Hs1|]. intros s2 y Hy. apply Hstep. right. exact Hy.
Qed.

Lemma idict_set_In {V : Type} (d : idict V) (k k' : Z) (v v' : V) :
  In (k', v') (idict_set d k v) -> (k' = k /\ v' = v) \/ In (k', v') d.
Proof.
  induction d as [|[k0 v0] d IH]; simpl.
  - intros [[= <- <-] | []]. left. split; reflexivity.
  - destruct (Z.eqb k k0) eqn:Ek; simpl.
    + apply Z.eqb_eq in Ek. subst k0.
      intros [[= <- <-] | Hin]; [left; split; reflexivity | right; right; exact Hin].
    + intros [E | Hin]; [right; left; exact E|].
      destruct (IH Hin) as [Hl | Hr]; [left; exact Hl | right; right; exact Hr].
Qed.

Lemma dd_add_members (d : idict pyset) (k x k' p : Z) (ps : pyset) :
  In (k', ps) (dd_add d k x) -> In p ps ->
  p = x \/ exists ps0, In (k', ps0) d /\ In p ps0.
Proof.
  unfold dd_add. intros Hin Hp. apply idict_set_In in Hin.
  destruct Hin as [[-> ->] | Hin].
  - apply set_add_In in Hp. destruct Hp as [-> | Hp]; [left; reflexivity|].
    right. unfold dd_get in Hp. destruct (idict_get d k) as [s|] eqn:Eg; [|destruct Hp].
    exists s. split; [apply idict_get_In; exact Eg | exact Hp].
  - right. exists ps. split; assumption.
Qed.

Lemma collect_children_parents (cid : Z) (children : PyVal) (cp pc cp' pc' : idict pyset)
  (ch p : Z) (ps : pyset) :
  collect_children cid children cp pc = (cp', pc') ->
  In (ch, ps) pc' -> In p ps ->
  p = cid \/ exists ps0, In (ch, ps0) pc /\ In p ps0.
Proof.
  unfold collect_children.
  destruct children as [| | | | |l|];
    try (intros [= <- <-] Hin Hp; right; exists ps; split; assumption).
  intros Hfold Hin Hp.
  change pc with (snd (cp, pc)). change pc' with (snd (cp', pc')) in Hin.
  revert Hfold Hin. generalize (cp', pc'). generalize (cp, pc). clear cp pc cp' pc'.
  induction l as [|o l IH]; intros acc acc'; simpl.
  - intros <- Hin. right. exists ps. split; assumption.
  - intros Hfold Hin.
    destruct (IH _ _ Hfold Hin) as [-> | (ps0 & Hin0 & Hp0)]; [left; reflexivity|].
    destruct o; simpl in Hin0; try (right; exists ps0; split; assumption).
    exact (dd_add_members _ _ _ _ _ _ Hin0 Hp0).
Qed.

(** After the collecting loop, whoever has a spouse link and whoever is named
    as a parent is a record of the roster. *)
Lemma collect_links_total (chars_by_id : chars_index) :
  (forall cid c, In (cid, c) chars_by_id -> family_is_object c) ->
  exists spouse_of children_of_parent parents_of_child,
    collect_links chars_by_id = Ok (spouse_of, children_of_parent, parents_of_child)
    /\ (forall a b, In (a, b) spouse_of -> idict_has chars_by_id a = true)
    /\ (forall ch ps p, In (ch, ps) parents_of_child -> In p ps ->
                        idict_has chars_by_id p = true).
Proof.
  intros Hfam. unfold collect_links.
  destruct (for_each_total_invariant
              (fun st : rel_links =>
                 (forall a b, In (a, b) (fst (fst st)) -> idict_has chars_by_id a = true)
                 /\ (forall ch ps p, In (ch, ps) (snd st) -> In p ps ->
                                     idict_has chars_by_id p = true))
              collect_links_step chars_by_id ([], [], []))
    as ([[spouse_of cp] pc] & Hrun & Hs & Hp).
  - split; [intros a b [] | intros ch ps p []].
  - intros [[spouse_of cp] pc] [cid c] Hin [Hs Hp]. simpl in Hs, Hp.
    assert (Hcid : idict_has chars_by_id cid = true) by exact (idict_In_has _ _ _ Hin).
    unfold collect_links_step.
    destruct (family_field_total c "spouse" (Hfam cid c Hin)) as (spouse & ->).
    destruct (family_field_total c "children" (Hfam cid c Hin)) as (children & ->).
    cbn [bind].
    destruct (collect_children cid children cp pc) as [cp' pc'] eqn:Ecc.
    eexists. split; [reflexivity|]. simpl. split.
    + intros a b Hab.
      destruct spouse; try exact (Hs a b Hab).
      destruct (z =? -1); [exact (Hs a b Hab)|].
      apply idict_set_In in Hab. destruct Hab as [[-> _] | Hab];
        [exact Hcid | exact (Hs a b Hab)].
    + intros ch ps p Hch Hpp.
      destruct (collect_children_parents _ _ _ _ _ _ _ _ _ Ecc Hch Hpp)
        as [-> | (ps0 & Hin0 & Hp0)]; [exact Hcid | exact (Hp ch ps0 p Hin0 Hp0)].
  - exists spouse_of, cp, pc. split; [exact Hrun|]. split; assumption.
Qed.

Lemma in_MF_total (g : PyVal) : hashable g -> exists known, in_MF g = Ok known.
Proof.
  destruct g; simpl; try contradiction; intros _; eexists; reflexivity.
Qed.

Lemma idict_item_total {V : Type} (d : idict V) (k : Z) :
  idict_has d k = true -> exists v, idict_item d k = Ok v /\ In (k, v) d.
Proof.
  unfold idict_has, idict_item. destruct (idict_get d k) as [v|] eqn:Eg; [|discriminate].
  intros _. exists v. split; [reflexivity | apply idict_get_In; exact Eg].
Qed.

Lemma spouse_check_total `{PyRuntime} (chars_by_id : chars_index) (a b : Z) :
  records_well_formed chars_by_id -> idict_has chars_by_id a = true ->
  exists l, spouse_check chars_by_id [] (a, b) = Ok l.
Proof.
  intros Hwf Ha. unfold spouse_check.
  destruct (idict_get chars_by_id b) as [cb|] eqn:Eb; [|eexists; reflexivity].
  apply idict_get_In in Eb. destruct (Hwf b cb Eb) as [Hfb Hgb].
  destruct (family_field_total cb "spouse" Hfb) as (b_spouse & ->). cbn [bind].
  destruct (idict_item_total _ _ Ha) as (ca & -> & Hca). cbn [bind].
  destruct (Hwf a ca Hca) as [_ Hga].
  destruct (in_MF_total _ Hga) as (a_known & ->). cbn [bind].
  destruct (in_MF_total _ Hgb) as (b_known & ->).
  destruct a_known; cbn [bind]; eexists; reflexivity.
Qed.

Lemma sorted_ints_In (l : list Z) (x : Z) : In x (sorted_ints l) <-> In x l.
Proof.
  unfold sorted_ints. split; intros Hx.
  - exact (Permutation_in _ (py_sorted_perm Z.leb l) Hx).
  - exact (Permutation_in _ (Permutation_sym (py_sorted_perm Z.leb l)) Hx).
Qed.

Lemma parents_check_total `{PyRuntime} (chars_by_id : chars_index) (ch : Z) (ps : pyset) :
  records_well_formed chars_by_id ->
  (forall p, In p ps -> idict_has chars_by_id p = true) ->
  exists l, parents_check chars_by_id [] (ch, ps) = Ok l.
Proof.
  intros Hwf Hps. unfold parents_check.
  destruct (sorted_ints ps) as [|p1 [|p2 [|p3 rest]]] eqn:Es; try (eexists; reflexivity).
  assert (H1 : idict_has chars_by_id p1 = true).
  { apply Hps, sorted_ints_In. rewrite Es. left. reflexivity. }
  assert (H2 : idict_has chars_by_id p2 = true).
  { apply Hps, sorted_ints_In. rewrite Es. right. left. reflexivity. }
  destruct (idict_item_total _ _ H1) as (c1 & -> & Hc1). cbn [bind].
  destruct (idict_item_total _ _ H2) as (c2 & -> & Hc2). cbn [bind].
  destruct (Hwf p1 c1 Hc1) as [Hf1 Hg1]. destruct (Hwf p2 c2 Hc2) as [Hf2 _].
  destruct (in_MF_total _ Hg1) as (known & ->).
  destruct (family_field_total c1 "spouse" Hf1) as (p1_sp & ->).
  destruct (family_field_total c2 "spouse" Hf2) as (p2_sp & ->).
  destruct (py_eq _ _); cbn [bind];
    destruct (is_int_eq p1_sp p2 && is_int_eq p2_sp p1)%bool; eexists; reflexivity.
Qed.

(** [build_relationship_indexes] returns on every roster whose families are
    objects and whose genders can be hashed. *)
Lemma relationship_indexes_total `{PyRuntime} (chars_by_id : chars_index) :
  records_well_formed chars_by_id ->
  exists r, build_relationship_indexes chars_by_id = Ok r.
Proof.
  intros Hwf. unfold build_relationship_indexes.
  destruct (collect_links_total chars_by_id (fun cid c Hin => proj1 (Hwf cid c Hin)))
    as (spouse_of & cp & pc & -> & Hs & Hp).
  cbn [bind]. unfold relationship_issues.
  destruct (for_each_appends_total (spouse_check chars_by_id) spouse_of
              (fold_left multiple_spouses_check (reverse_spouse spouse_of) [])
              (spouse_check_appends chars_by_id)) as (found & ->).
  { intros [a b] Hab. exact (spouse_check_total _ a b Hwf (Hs a b Hab)). }
  cbn [bind].
  destruct (for_each_appends_total (parents_check chars_by_id) pc
              (fold_left (parent_check chars_by_id) cp found)
              (parents_check_appends chars_by_id)) as (out & ->).
  { intros [ch ps] Hch. exact (parents_check_total _ ch ps Hwf (fun p => Hp ch ps p Hch)). }
  cbn [bind]. eexists. reflexivity.
Qed.

(* ------------------------------------------------------------------------- *)
(** ** main: exit status, report and summary *)

Lemma count_level_perm (lv : Level) (l1 l2 : list Issue) :
  Permutation l1 l2 -> count_level lv l1 = count_level lv l2.
Proof.
  intros HP. unfold count_level. f_equal.
  induction HP as [|x l1 l2 _ IH|x y l|l1 l2 l3 _ IH1 _ IH2]; simpl.
  - reflexivity.
  - destruct (match level x, lv with ERROR, ERROR | WARN, WARN => true | _, _ => false end);
      simpl; congruence.
  - destruct (match level x, lv with ERROR, ERROR | WARN, WARN => true | _, _ => false end),
             (match level y, lv with ERROR, ERROR | WARN, WARN => true | _, _ => false end);
      reflexivity.
  - congruence.
Qed.

Lemma printed_issues_of_report (reads : list string) (l all : list Issue) :
  printed_issues (mkConsole reads (map IssueLine l ++ summary_lines all)) = l.
Proof.
  unfold printed_issues, summary_lines. cbn [printed].
  apply printed_issues_of_issue_lines.
Qed.

(** X1: main returns no status other than 0, 1 and 2. *)
Theorem exit_status_is_0_1_or_2 `{PyRuntime} `{HashSeed} (fs : FileSystem)
  (cp hp : string) (n : Z) :
  fst (run fs cp hp) = Ok n -> n = 0 \/ n = 1 \/ n = 2.
Proof.
  intros Hn.
  destruct (run_outcomes fs cp hp) as [Ha | [(e & He & _) | (l & Hl & _)]].
  - rewrite Ha in Hn. injection Hn as <-. auto.
  - rewrite He in Hn. discriminate Hn.
  - rewrite Hl in Hn. injection Hn as <-. destruct (_ =? 0); auto.
Qed.

Lemma exit_status_is_0_1_or_2_witness :
  fst (run empty_rosters_fs "config/characters.json" "config/houses.json") = Ok 1
  /\ (1 = 0 \/ 1 = 1 \/ 1 = 2).
Proof.
  assert (Hrun : fst (run empty_rosters_fs "config/characters.json" "config/houses.json")
                 = Ok 1) by (vm_compute; reflexivity).
  split; [exact Hrun|].
  exact (exit_status_is_0_1_or_2 empty_rosters_fs
           "config/characters.json" "config/houses.json" 1 Hrun).
Defined.

(** X2: A run that ends with status 0 or 1 has printed a report that agrees with
    its status and its summary: the status is 0 exactly when no ERROR line
    was printed, and the two counts of the summary are the numbers of ERROR
    and WARN lines printed. *)
Theorem summary_counts_printed_issues `{PyRuntime} `{HashSeed} (fs : FileSystem)
  (cp hp : string) (n : Z) :
  fst (run fs cp hp) = Ok n -> n <> 2 ->
  (n = 0 <-> count_level ERROR (printed_issues (snd (run fs cp hp))) = 0)
  /\ In (TextLine (fmt ["- Errors: ";
                        str_Z (count_level ERROR (printed_issues (snd (run fs cp hp))))]))
       (printed (snd (run fs cp hp)))
  /\ In (TextLine (fmt ["- Warnings: ";
                        str_Z (count_level WARN (printed_issues (snd (run fs cp hp))))]))
       (printed (snd (run fs cp hp))).
Proof.
  intros Hn Hne.
  destruct (run_outcomes fs cp hp) as [Ha | [(e & He & _) | (l & Hl & Hp)]].
  - rewrite Ha in Hn. injection Hn as <-. contradiction.
  - rewrite He in Hn. discriminate Hn.
  - destruct (run fs cp hp) as [r w]. simpl in *. destruct w as [rd pr]. simpl in Hp.
    subst pr. rewrite printed_issues_of_report.
    rewrite !(count_level_perm _ _ _ (sort_issues_perm l)).
    rewrite Hl in Hn. injection Hn as <-. split; [|split].
    + destruct (count_level ERROR l =? 0) eqn:E.
      * apply Z.eqb_eq in E. tauto.
      * apply Z.eqb_neq in E. split; [discriminate | contradiction].
    + simpl. apply in_or_app. right. unfold summary_lines. simpl. tauto.
    + simpl. apply in_or_app. right. unfold summary_lines. simpl. tauto.
Qed.

Lemma summary_counts_printed_issues_witness :
  fst (run empty_rosters_fs "config/characters.json" "config/houses.json") = Ok 1
  /\ 1 <> 2
  /\ In (TextLine "- Errors: 5")
       (printed (snd (run empty_rosters_fs "config/characters.json" "config/houses.json")))
  /\ In (TextLine "- Warnings: 0")
       (printed (snd (run empty_rosters_fs "config/characters.json" "config/houses.json"))).
Proof.
  assert (Hrun : fst (run empty_rosters_fs "config/characters.json" "config/houses.json")
                 = Ok 1) by (vm_compute; reflexivity).
  assert (Hne : 1 <> 2) by discriminate.
  split; [exact Hrun|]. split; [exact Hne|].
  exact (proj2 (summary_counts_printed_issues empty_rosters_fs
                  "config/characters.json" "config/houses.json" 1 Hrun Hne)).
Defined.

(** X3: When both files are read, neither parses to [None] and the validation
    raises nothing, the run reads the two paths once each, prints every
    accumulated issue exactly once (the scans' first findings included), and
    returns 0 when none of them is an ERROR and 1 otherwise. *)
Theorem completed_run_reports_every_issue `{PyRuntime} `{HashSeed} (fs : FileSystem)
  (cp hp craw hraw : string) (found : list Issue) :
  fs cp = FileText craw -> fs hp = FileText hraw ->
  is_None (fst (load_json cp craw)) = false ->
  is_None (fst (load_json hp hraw)) = false ->
  validation_phase (fst (load_json cp craw)) (fst (load_json hp hraw)) = Ok found ->
  fst (run fs cp hp)
  = Ok (if count_level ERROR (parse_phase cp hp craw hraw ++ found) =? 0 then 0 else 1)
  /\ reads (snd (run fs cp hp)) = [cp; hp]
  /\ Permutation (printed_issues (snd (run fs cp hp)))
       (parse_phase cp hp craw hraw ++ found).
Proof.
  intros Hc Hh Hn1 Hn2 Hv.
  rewrite (run_validation fs cp hp craw hraw Hc Hh).
  - rewrite Hv. cbv zeta. cbn [fst snd reads]. split; [reflexivity|].
    split; [reflexivity|].
    rewrite printed_issues_of_report. apply sort_issues_perm.
  - rewrite Hn1, Hn2. reflexivity.
Qed.

Lemma completed_run_reports_every_issue_witness :
  exists found,
    validation_phase (fst (load_json "config/characters.json" "[]"))
      (fst (load_json "config/houses.json" "[]")) = Ok found
    /\ List.length found = 5%nat
    /\ fst (run empty_rosters_fs "config/characters.json" "config/houses.json") = Ok 1
    /\ Permutation
         (printed_issues
            (snd (run empty_rosters_fs "config/characters.json" "config/houses.json")))
         found.
Proof.
  eexists.
  assert (Hv : validation_phase (fst (load_json "config/characters.json" "[]"))
                 (fst (load_json "config/houses.json" "[]")) = Ok _)
    by (vm_compute; reflexivity).
  assert (Hn1 : is_None (fst (load_json "config/characters.json" "[]")) = false)
    by reflexivity.
  assert (Hn2 : is_None (fst (load_json "config/houses.json" "[]")) = false)
    by reflexivity.
  split; [exact Hv|]. split; [reflexivity|].
  destruct (completed_run_reports_every_issue empty_rosters_fs
              "config/characters.json" "config/houses.json" "[]" "[]" _
              eq_refl eq_refl Hn1 Hn2 Hv) as (Hs & _ & Hp).
  split; [exact Hs | exact Hp].
Defined.



(** X5: A houses file that does not exist ends the run with status 2 once the
    characters file has been read and scanned: what the scan found is printed,
    then the file-not-found error; the characters file is not parsed. *)
Theorem missing_houses_file_aborts `{PyRuntime} `{HashSeed} (fs : FileSystem)
  (cp hp craw : string) :
  fs cp = FileText craw -> fs hp = FileNotFoundError ->
  run fs cp hp
  = (Ok 2,
     mkConsole [cp; hp]
       (map IssueLine
          (scan_for_disallowed_quotes cp craw
           ++ [mkIssue ERROR "1.1/2.x" (fmt [hp; ": file not found."])]))).
Proof. exact (run_houses_not_found fs cp hp craw). Qed.

Lemma missing_houses_file_aborts_witness :
  houses_missing_fs "config/characters.json" = FileText "[]"
  /\ houses_missing_fs "config/houses.json" = FileNotFoundError
  /\ run houses_missing_fs "config/characters.json" "config/houses.json"
     = (Ok 2,
        mkConsole ["config/characters.json"; "config/houses.json"]
          [IssueLine (mkIssue ERROR "1.1/2.x" "config/houses.json: file not found.")]).
Proof.
  split; [reflexivity|]. split; [reflexivity|].
  exact (missing_houses_file_aborts houses_missing_fs
           "config/characters.json" "config/houses.json" "[]" eq_refl eq_refl).
Defined.

(** X6: An error of the file system other than a missing file (a directory, a
    permission) is not caught: the run ends in the exception, with no exit
    status and nothing printed, also when the first file gave issues. *)
Theorem unreadable_file_is_not_caught `{PyRuntime} `{HashSeed} (fs : FileSystem)
  (cp hp craw : string) :
  fs cp = OtherOSError \/ (fs cp = FileText craw /\ fs hp = OtherOSError) ->
  fst (run fs cp hp) = Raise OSError /\ printed (snd (run fs cp hp)) = [].
Proof.
  intros [Hc | [Hc Hh]].
  - rewrite (run_characters_oserror fs cp hp Hc). split; reflexivity.
  - rewrite (run_houses_oserror fs cp hp craw Hc Hh). split; reflexivity.
Qed.

Lemma unreadable_file_is_not_caught_witness :
  houses_unreadable_fs "config/characters.json" = FileText curly_apostrophe
  /\ houses_unreadable_fs "config/houses.json" = OtherOSError
  /\ scan_for_disallowed_quotes "config/characters.json" curly_apostrophe <> []
  /\ fst (run houses_unreadable_fs "config/characters.json" "config/houses.json")
     = Raise OSError
  /\ printed (snd (run houses_unreadable_fs "config/characters.json" "config/houses.json"))
     = [].
Proof.
  split; [reflexivity|]. split; [reflexivity|]. split; [vm_compute; discriminate|].
  exact (unreadable_file_is_not_caught houses_unreadable_fs
           "config/characters.json" "config/houses.json" curly_apostrophe
           (or_intror (conj eq_refl eq_refl))).
Defined.

(* ------------------------------------------------------------------------- *)
(** ** scan_for_disallowed_quotes and _line_col_from_index *)

Lemma scan_from (f : nat * string -> list Issue) (g : string -> bool) (text : list string)
  (k : nat) :
  (forall i ch, g ch = true -> exists x, f (i, ch) = [x]) ->
  (forall i ch, g ch = false -> f (i, ch) = []) ->
  List.length (flat_map f (combine (seq k (List.length text)) text))
  = List.length (filter g text).
Proof.
  intros Hyes Hno. revert k. induction text as [|ch text IH]; intros k; simpl.
  - reflexivity.
  - rewrite length_app, IH. destruct (g ch) eqn:Eg.
    + destruct (Hyes k ch Eg) as (x & ->). reflexivity.
    + rewrite (Hno k ch Eg). reflexivity.
Qed.

Lemma scan_length `{PyRuntime} (path raw_text : string) :
  List.length (scan_for_disallowed_quotes path raw_text)
  = List.length (filter is_disallowed (utf8_chars raw_text)).
Proof.
  unfold scan_for_disallowed_quotes. apply scan_from.
  - intros i ch Hg. unfold is_disallowed in Hg. rewrite Hg.
    destruct (_line_col_from_index (utf8_chars raw_text) i). eexists. reflexivity.
  - intros i ch Hg. unfold is_disallowed in Hg. rewrite Hg. reflexivity.
Qed.

(** X7: The scan gives one issue for every occurrence of a disallowed character,
    each an ERROR of requirement 1.4.2, and nothing else. *)
Theorem scan_reports_each_disallowed_character `{PyRuntime} (path raw_text : string) :
  List.length (scan_for_disallowed_quotes path raw_text)
  = List.length (filter is_disallowed (utf8_chars raw_text))
  /\ Forall (fun i => level i = ERROR /\ requirement i = "1.4.2")
       (scan_for_disallowed_quotes path raw_text).
Proof.
  split; [apply scan_length|].
  unfold scan_for_disallowed_quotes.
  apply Forall_forall. intros x Hx. apply in_flat_map in Hx.
  destruct Hx as ([i ch] & _ & Hx).
  destruct (existsb (String.eqb ch) DISALLOWED_QUOTE_CHARS); [|destruct Hx].
  destruct (_line_col_from_index (utf8_chars raw_text) i).
  destruct Hx as [<- | []]. split; reflexivity.
Qed.

Lemma utf8_split_ascii (s : string) :
  is_ascii_text s = true ->
  utf8_split s = (EmptyString, map (fun c => String c EmptyString) (list_ascii_of_string s)).
Proof.
  induction s as [|c s IH]; simpl; [reflexivity|].
  intros Hs. apply andb_true_iff in Hs. destruct Hs as [Hc Hs].
  rewrite (IH Hs). unfold is_continuation.
  apply N.ltb_lt in Hc.
  assert (E : N.leb 128 (N_of_ascii c) = false) by (apply N.leb_gt; exact Hc).
  rewrite E. reflexivity.
Qed.

Lemma single_byte_allowed (c : ascii) : is_disallowed (String c EmptyString) = false.
Proof.
  unfold is_disallowed, DISALLOWED_QUOTE_CHARS. simpl.
  repeat match goal with |- context [if ?b then _ else _] => destruct b end; reflexivity.
Qed.

(** X8: A text of ASCII characters gives no issue. *)
Theorem ascii_text_has_no_quote_issue `{PyRuntime} (path raw_text : string) :
  is_ascii_text raw_text = true -> scan_for_disallowed_quotes path raw_text = [].
Proof.
  intros Hs. apply length_zero_iff_nil.
  rewrite scan_length.
  unfold utf8_chars. rewrite (utf8_split_ascii _ Hs). simpl.
  induction (list_ascii_of_string raw_text) as [|c l IH]; simpl; [reflexivity|].
  rewrite single_byte_allowed. exact IH.
Qed.

Lemma ascii_text_has_no_quote_issue_witness :
  is_ascii_text "[{'it's': 1}]" = true
  /\ scan_for_disallowed_quotes "config/characters.json" "[{'it's': 1}]" = [].
Proof.
  split; [reflexivity|].
  exact (ascii_text_has_no_quote_issue "config/characters.json" "[{'it's': 1}]" eq_refl).
Defined.

(** *** Lines and columns *)

Lemma rfind_newline_spec (prefix : list string) (pos last : Z) :
  last < pos ->
  let r := rfind_newline prefix pos last in
  (r = last /\ forall j, (j < List.length prefix)%nat -> nth j prefix "" <> newline)
  \/ (exists j, (j < List.length prefix)%nat /\ r = pos + Z.of_nat j
                /\ nth j prefix "" = newline
                /\ forall i, (j < i < List.length prefix)%nat -> nth i prefix "" <> newline).
Proof.
  revert pos last. induction prefix as [|ch prefix IH]; intros pos last Hlt; simpl.
  - left. split; [reflexivity | intros j Hj; lia].
  - destruct (String.eqb ch newline) eqn:Ech.
    + apply String.eqb_eq in Ech. subst ch.
      destruct (IH (pos + 1) pos ltac:(lia)) as [[Hr Hnone] | (j & Hj & Hr & Hn & Hafter)].
      * right. exists O. split; [lia|]. split; [rewrite Hr; lia|].
        split; [reflexivity|]. intros i Hi. destruct i as [|i]; [lia|].
        simpl. apply Hnone. lia.
      * right. exists (S j). split; [lia|]. split; [rewrite Hr; lia|].
        split; [exact Hn|]. intros i Hi. destruct i as [|i]; [lia|].
        simpl. apply Hafter. lia.
    + apply String.eqb_neq in Ech.
      destruct (IH (pos + 1) last ltac:(lia)) as [[Hr Hnone] | (j & Hj & Hr & Hn & Hafter)].
      * left. split; [exact Hr|]. intros j Hj. destruct j as [|j]; [exact Ech|].
        simpl. apply Hnone. lia.
      * right. exists (S j). split; [lia|]. split; [rewrite Hr; lia|].
        split; [exact Hn|]. intros i Hi. destruct i as [|i]; [lia|].
        simpl. apply Hafter. lia.
Qed.

(** X9: The position reported for the character at index [idx] is 1-based: the
    line is one more than the number of newlines before the index, and the
    column counts from the character after the last newline before the index
    (from the start of the text when there is none). *)
Theorem line_col_of_index (text : list string) (idx : nat) :
  (idx <= List.length text)%nat ->
  let '(line, col) := _line_col_from_index text idx in
  line = newlines_before text idx + 1
  /\ 1 <= col <= Z.of_nat idx + 1
  /\ (forall j, Z.of_nat idx - col < Z.of_nat j < Z.of_nat idx -> nth j text "" <> newline)
  /\ (col <= Z.of_nat idx -> nth (Z.to_nat (Z.of_nat idx - col)) text "" = newline).
Proof.
  intros Hidx. unfold _line_col_from_index, newlines_before.
  split; [reflexivity|].
  assert (Hlen : List.length (firstn idx text) = idx) by (apply firstn_length_le; exact Hidx).
  assert (Hnth : forall j, (j < idx)%nat -> nth j (firstn idx text) "" = nth j text "").
  { intros j Hj. rewrite <- (firstn_skipn idx text) at 2.
    rewrite app_nth1; [reflexivity | lia]. }
  destruct (rfind_newline_spec (firstn idx text) 0 (-1) ltac:(lia))
    as [[Hr Hnone] | (j & Hj & Hr & Hn & Hafter)]; rewrite Hr; rewrite Hlen in *.
  - split; [lia|]. split.
    + intros j Hj. rewrite <- Hnth by lia. apply Hnone. lia.
    + intros Hc. lia.
  - split; [lia|]. split.
    + intros i Hi. rewrite <- Hnth by lia. apply Hafter. lia.
    + intros _. replace (Z.to_nat _) with j by lia. rewrite <- Hnth by lia. exact Hn.
Qed.

Lemma line_col_of_index_witness :
  (3 <= List.length two_line_text)%nat
  /\ _line_col_from_index two_line_text 3 = (2, 2)
  /\ nth (Z.to_nat (Z.of_nat 3 - 2)) two_line_text "" = newline.
Proof.
  assert (Hidx : (3 <= List.length two_line_text)%nat) by (simpl; lia).
  split; [exact Hidx|]. split; [reflexivity|].
  assert (T := line_col_of_index two_line_text 3 Hidx).
  change (_line_col_from_index two_line_text 3) with (2, 2) in T.
  cbv beta iota in T. destruct T as (_ & _ & _ & Hnl). apply Hnl. lia.
Defined.

(* ------------------------------------------------------------------------- *)
(** ** validate_houses: what the index holds *)

Lemma count_level_app (lv : Level) (a b : list Issue) :
  count_level lv (a ++ b) = count_level lv a + count_level lv b.
Proof.
  unfold count_level. rewrite filter_app, length_app. lia.
Qed.

Lemma count_level_nonneg (lv : Level) (a : list Issue) : 0 <= count_level lv a.
Proof. unfold count_level. lia. Qed.

Lemma no_error_app (a b : list Issue) : no_error (a ++ b) <-> no_error a /\ no_error b.
Proof.
  unfold no_error. rewrite count_level_app.
  assert (Ha := count_level_nonneg ERROR a). assert (Hb := count_level_nonneg ERROR b).
  lia.
Qed.

Lemma no_error_if (b : bool) (a more : list Issue) :
  no_error (if b then a else a ++ more) -> no_error a.
Proof. destruct b; [tauto|]. intros Hne. apply no_error_app in Hne. tauto. Qed.

Lemma error_is_counted (a : list Issue) (requirement message : string) :
  ~ no_error (a ++ [mkIssue ERROR requirement message]).
Proof.
  intros Hne. apply no_error_app in Hne. destruct Hne as [_ Hne]. discriminate Hne.
Qed.

Lemma for_each_invariant_in {A S : Type} (P : S -> Prop) (body : S -> A -> result S)
  (xs : list A) (s s' : S) :
  (forall s x s', In x xs -> P s -> body s x = Ok s' -> P s') ->
  P s -> for_each body xs s = Ok s' -> P s'.
Proof.
  revert s. induction xs as [|x xs IH]; intros s Hstep Hs; simpl.
  - intros [= <-]. exact Hs.
  - destruct (body s x) as [s1|e] eqn:Eb; simpl; [|discriminate].
    apply IH.
    + intros s2 y s3 Hy. apply Hstep. right. exact Hy.
    + exact (Hstep s x s1 (or_introl eq_refl) Hs Eb).
Qed.

Lemma idict_has_set {V : Type} (d : idict V) (k k' : Z) (v : V) :
  idict_has (idict_set d k v) k' = true <-> k' = k \/ idict_has d k' = true.
Proof.
  unfold idict_has. rewrite idict_get_set. destruct (k' =? k) eqn:E.
  - apply Z.eqb_eq in E. tauto.
  - apply Z.eqb_neq in E. tauto.
Qed.

Lemma enumerate_In {A : Type} (l : list A) (i : nat) (x : A) :
  In (i, x) (enumerate l) -> In x l.
Proof. unfold enumerate. apply in_combine_r. Qed.

Lemma occupant_issues_extend `{PyRuntime} (hn : Z) (occupants : list PyVal)
  (issues : list Issue) :
  exists more,
    fold_left
      (fun issues occ =>
         if is_int occ then issues
         else issues ++ [house_issue ERROR "2.3.3" hn
                           ["has non-integer occupant id: "; py_repr occ; "."]])
      occupants issues = issues ++ more.
Proof.
  revert issues. induction occupants as [|occ occupants IH]; intros issues; simpl.
  - exists []. rewrite app_nil_r. reflexivity.
  - destruct (is_int occ); [apply IH|].
    destruct (IH (issues ++ [house_issue ERROR "2.3.3" hn
                               ["has non-integer occupant id: "; py_repr occ; "."]]))
      as (more & ->).
    eexists. rewrite <- app_assoc. reflexivity.
Qed.

Lemma house_surname_issues_extend `{PyRuntime} (hn : Z) (h : pydict)
  (occupants : list PyVal) (issues : list Issue) :
  exists more, house_surname_issues hn h occupants issues = issues ++ more.
Proof.
  unfold house_surname_issues. destruct (hn =? 7).
  - destruct (dict_has h "surname"), (py_eq (PList occupants) (PList [PInt 0]));
      rewrite <- ?app_assoc; eexists; try reflexivity.
    rewrite app_nil_r. reflexivity.
  - destruct (nonblank_str (dict_get h "surname")) as [stripped|]; [|eexists; reflexivity].
    destruct (NAME_RE_match stripped); eexists; [rewrite app_nil_r|]; reflexivity.
Qed.

Ltac rejected_entry :=
  intros [= <-]; split; [assumption|]; split; [assumption|]; split; [assumption|];
  let Hne := fresh "Hne" in intros Hne; destruct (error_is_counted _ _ _ Hne).

Lemma house_entry_invariant `{PyRuntime} (l : list PyVal) (st st' : houses_state)
  (entry : nat * PyVal) :
  In entry (enumerate l) -> houses_invariant l st ->
  validate_house_entry st entry = Ok st' -> houses_invariant l st'.
Proof.
  destruct st as [[by_number seen] issues], entry as [idx h].
  intros Hin (Hnd & Hrec & Hkeys & Hclean). apply enumerate_In in Hin.
  unfold validate_house_entry.
  destruct h as [| | | | | |d];
    try rejected_entry.
  destruct (dict_get d "houseNumber") as [| |hn| | | |] eqn:Ehn;
    try rejected_entry.
  cbv zeta.
  set (issues1 := if ((hn <? 0) || (29 <? hn))%bool then _ else issues).
  assert (Hrange : no_error issues1 -> no_error issues /\ 0 <= hn <= 29).
  { unfold issues1. destruct (hn <? 0) eqn:E1; simpl.
    - intros Hne. destruct (error_is_counted _ _ _ Hne).
    - destruct (29 <? hn) eqn:E2.
      + intros Hne. destruct (error_is_counted _ _ _ Hne).
      + intros Hne. split; [exact Hne|]. apply Z.ltb_ge in E1, E2. lia. }
  clearbody issues1.
  destruct (set_mem hn seen) eqn:Eseen;
    [rejected_entry|].
  assert (Hkeys' : forall n, idict_has by_number n = true -> In n (set_add hn seen)).
  { intros n Hn. apply set_add_In. right. exact (Hkeys n Hn). }
  destruct (dict_get d "occupants") as [| | | | |[|o os]|] eqn:Eocc;
    try rejected_entry.
  destruct (_validate_bounds_for_house hn d) as [bounds_issues|e]; cbn [bind];
    [|discriminate].
  intros [= <-]. split; [|split; [|split]].
  - apply idict_set_distinct. exact Hnd.
  - intros n h Hnh. apply idict_set_In in Hnh. destruct Hnh as [[-> ->] | Hnh].
    + split; [exact Hin|]. split; [exact Ehn|]. exists o, os. exact Eocc.
    + exact (Hrec n h Hnh).
  - intros n Hn. apply idict_has_set in Hn. apply set_add_In.
    destruct Hn as [-> | Hn]; [left; reflexivity | right; exact (Hkeys n Hn)].
  - intros Hne. apply no_error_app in Hne. destruct Hne as [Hne _].
    match type of Hne with
    | no_error (house_surname_issues ?a ?b ?c ?i) =>
        destruct (house_surname_issues_extend a b c i) as (more1 & Hs)
    end.
    rewrite Hs in Hne. apply no_error_app in Hne. destruct Hne as [Hne _].
    match type of Hne with
    | no_error (fold_left _ ?c ?i) =>
        destruct (occupant_issues_extend hn c i) as (more2 & Ho)
    end.
    rewrite Ho in Hne. apply no_error_app in Hne. destruct Hne as [Hne _].
    assert (Hne1 : no_error issues1).
    { repeat (apply no_error_if in Hne). exact Hne. }
    destruct (Hrange Hne1) as [Hne0 Hhn].
    intros n Hn. apply set_add_In in Hn. rewrite idict_has_set.
    destruct Hn as [-> | Hn]; [split; [left; reflexivity | exact Hhn]|].
    destruct (Hclean Hne0 n Hn) as [Hhas Hr]. split; [right; exact Hhas | exact Hr].
Qed.

Lemma no_error_unless_nil {A : Type} (l : list A) (a : list Issue)
  (requirement message : string) :
  no_error (match l with
            | [] => a
            | _ :: _ => a ++ [mkIssue ERROR requirement message]
            end) ->
  no_error a /\ l = [].
Proof.
  destruct l; [tauto|]. intros Hne. destruct (error_is_counted _ _ _ Hne).
Qed.

Lemma all_numbers_seen (seen : pyset) (hn : Z) :
  filter (fun n => negb (set_mem n seen)) (map Z.of_nat (seq 0 30)) = [] ->
  0 <= hn <= 29 -> In hn seen.
Proof.
  intros Hmissing Hhn. apply set_mem_In.
  destruct (set_mem hn seen) eqn:Es; [reflexivity|].
  assert (Hin : In hn (filter (fun n => negb (set_mem n seen)) (map Z.of_nat (seq 0 30)))).
  { apply filter_In. split; [|rewrite Es; reflexivity].
    apply in_map_iff. exists (Z.to_nat hn). split; [lia|]. apply in_seq. lia. }
  rewrite Hmissing in Hin. destruct Hin.
Qed.

(** X10: The index [validate_houses] returns holds each house number once; every
    indexed house is an entry of the input with that very number and a
    non-empty occupants list; and when no ERROR is reported the index holds
    exactly the numbers 0 to 29. *)
Theorem validate_houses_index `{PyRuntime} (houses : PyVal)
  (houses_by_number : houses_index) (issues : list Issue) :
  validate_houses houses = Ok (houses_by_number, issues) ->
  NoDup (map fst houses_by_number)
  /\ (forall hn h, In (hn, h) houses_by_number ->
        (exists l, houses = PList l /\ In (PDict h) l)
        /\ dict_get h "houseNumber" = PInt hn
        /\ exists o os, dict_get h "occupants" = PList (o :: os))
  /\ (no_error issues ->
        forall hn, idict_has houses_by_number hn = true <-> 0 <= hn <= 29).
Proof.
  unfold validate_houses.
  destruct houses as [| | | | |l|];
    try (match goal with
         | |- Ok _ = Ok _ -> _ =>
             intros [= <- <-]; split; [constructor|]; split; [intros hn h []|];
             intros Hne; discriminate Hne
         end).
  cbv zeta.
  destruct (for_each validate_house_entry _ _) as [[[by_number seen] found]|e] eqn:Eloop;
    cbn [bind]; [|discriminate].
  destruct (validate_street_geometry by_number) as [geometry|e]; cbn [bind];
    [|discriminate].
  intros Heq.
  assert (E1 := f_equal (fun r : result (houses_index * list Issue) =>
                           match r with Ok (b, _) => b | Raise _ => [] end) Heq).
  assert (E2 := f_equal (fun r : result (houses_index * list Issue) =>
                           match r with Ok (_, i) => i | Raise _ => [] end) Heq).
  cbv beta iota in E1, E2. clear Heq. subst houses_by_number issues.
  apply (for_each_invariant_in (houses_invariant l) _ _ _ _
           (fun s x s' => house_entry_invariant l s s' x)) in Eloop.
  - destruct Eloop as (Hnd & Hrec & Hkeys & Hclean).
    split; [exact Hnd|]. split.
    + intros hn h Hin. destruct (Hrec hn h Hin) as (Hl & Hn & Ho).
      split; [exists l; split; [reflexivity | exact Hl]|]. split; assumption.
    + intros Hne. apply no_error_app in Hne. destruct Hne as [Hne _].
      apply no_error_unless_nil in Hne. destruct Hne as [Hne _].
      apply no_error_unless_nil in Hne. destruct Hne as [Hne Hmissing].
      intros hn. split.
      * intros Hhas. exact (proj2 (Hclean Hne hn (Hkeys hn Hhas))).
      * intros Hhn. exact (proj1 (Hclean Hne hn (all_numbers_seen seen hn Hmissing Hhn))).
  - split; [constructor|]. split; [intros hn h []|]. split; [intros hn Hhn; discriminate Hhn|].
    intros _ hn [].
Qed.

Lemma validate_houses_index_witness :
  exists index,
    validate_houses street_houses = Ok (index, [])
    /\ no_error []
    /\ forall hn, idict_has index hn = true <-> 0 <= hn <= 29.
Proof.
  eexists.
  assert (Hv : validate_houses street_houses = Ok (_, [])) by (vm_compute; reflexivity).
  split; [exact Hv|]. split; [reflexivity|].
  exact (proj2 (proj2 (validate_houses_index _ _ _ Hv)) eq_refl).
Defined.

(* ------------------------------------------------------------------------- *)
(** ** validate_characters: what the index holds *)

(** Reads a list of issues without ERROR backwards, through the checks that
    built it: a check that appended an ERROR is ruled out, any other check
    leaves the list it started from. *)
Ltac peel H :=
  repeat (first
    [ solve [destruct (error_is_counted _ _ _ H)]
    | apply no_error_app in H; destruct H as [H _]
    | match type of H with
      | no_error (snd (?a, ?b)) => change (no_error b) in H
      | no_error (snd (if ?b then _ else _)) =>
          let E := fresh "E" in revert H; destruct b eqn:E; intros H
      | no_error (snd (match ?x with _ => _ end)) =>
          let E := fresh "E" in revert H; destruct x eqn:E; intros H
      | no_error (if ?b then _ else _) =>
          let E := fresh "E" in revert H; destruct b eqn:E; intros H
      | no_error (match ?x with _ => _ end) =>
          let E := fresh "E" in revert H; destruct x eqn:E; intros H
      end ]).

Lemma first_name_issues_clean `{PyRuntime} (cid : Z) (fn : PyVal)
  (names : list (string * Z)) (issues : list Issue) :
  no_error (snd (first_name_issues cid fn names issues)) -> no_error issues.
Proof.
  unfold first_name_issues. intros Hne. cbv zeta in Hne. peel Hne; exact Hne.
Qed.

Lemma triple_issues_clean `{PyRuntime} (requirement field : string) (cid : Z) (v : PyVal)
  (issues : list Issue) :
  no_error (triple_issues requirement field cid v issues) -> no_error issues.
Proof. unfold triple_issues. intros Hne. peel Hne; exact Hne. Qed.

Lemma social_media_issues_clean `{PyRuntime} (cid : Z) (sm : PyVal)
  (handles : list (string * Z)) (issues : list Issue) :
  no_error (snd (social_media_issues cid sm handles issues)) -> no_error issues.
Proof.
  unfold social_media_issues. intros Hne. cbv zeta in Hne.
  destruct sm as [| | | | | |d]; try solve [peel Hne].
  match type of Hne with
  | context [match ?p with (a, b) => _ end] => destruct p as [handles' found] eqn:Ep
  end.
  peel Hne.
  assert (Hf : no_error (snd (handles', found))) by exact Hne.
  rewrite <- Ep in Hf. peel Hf; exact Hf.
Qed.

Lemma family_issues_clean `{PyRuntime} `{HashSeed} (cid : Z) (fam : PyVal)
  (issues : list Issue) :
  no_error (family_issues cid fam issues) ->
  no_error issues
  /\ exists d spouse kids,
       fam = PDict d /\ dict_get d "spouse" = PInt spouse
       /\ dict_get d "children" = PList kids /\ forallb is_int kids = true.
Proof.
  unfold family_issues. intros Hne.
  destruct fam as [| | | | | |d]; try solve [peel Hne].
  cbv zeta in Hne.
  destruct (dict_get d "children") as [| | | | |kids|] eqn:Ekids; try solve [peel Hne].
  destruct (forallb is_int kids) eqn:Eints; [|solve [peel Hne]].
  destruct (dict_get d "spouse") as [| |spouse| | | |] eqn:Espouse;
    try solve [simpl in Hne; peel Hne].
  split.
  - simpl in Hne. peel Hne; exact Hne.
  - exists d, spouse, kids. repeat split; assumption.
Qed.

Lemma in_str_set_hashable (v : PyVal) (s : list string) (known : bool) :
  in_str_set v s = Ok known -> hashable v.
Proof. destruct v; simpl; try discriminate; intros _; exact I. Qed.

Lemma in_MF_true (g : PyVal) : in_MF g = Ok true -> g = PStr "M" \/ g = PStr "F".
Proof.
  destruct g; simpl; try discriminate. intros [= Hg].
  rewrite orb_false_r in Hg. apply orb_true_iff in Hg.
  destruct Hg as [Hg | Hg]; apply String.eqb_eq in Hg; subst; auto.
Qed.

Lemma character_fields_clean `{PyRuntime} `{HashSeed} (cid : Z) (c : pydict)
  (names handles names' handles' : list (string * Z)) (issues issues' : list Issue) :
  validate_character_fields cid c names handles issues = Ok (names', handles', issues') ->
  hashable (dict_get c "gender") /\ hashable (dict_get c "accentLanguage")
  /\ (no_error issues' -> no_error issues /\ record_fields_sound c).
Proof.
  unfold validate_character_fields. cbv zeta.
  destruct (first_name_issues _ _ _ _) as [names1 issues1] eqn:Efn.
  destruct (in_MF (dict_get c "gender")) as [known|e] eqn:Eg; cbn [bind]; [|discriminate].
  destruct (in_str_set (dict_get c "accentLanguage") ACCENT_ENUM) as [listed|e] eqn:Ea;
    cbn [bind]; [|discriminate].
  destruct (social_media_issues _ _ _ _) as [handles1 issues2] eqn:Esm.
  intros Heq.
  assert (Ei := f_equal
                  (fun r : result (list (string * Z) * list (string * Z) * list Issue) =>
                     match r with Ok (_, _, i) => i | Raise _ => [] end) Heq).
  cbv beta iota in Ei. clear Heq. subst issues'.
  split; [exact (in_str_set_hashable _ _ _ Eg)|].
  split; [exact (in_str_set_hashable _ _ _ Ea)|].
  intros Hne. apply family_issues_clean in Hne.
  destruct Hne as (Hne & d & spouse & kids & Hfam & Hspouse & Hkids & Hints).
  assert (Hsm : no_error (snd (handles1, issues2))) by exact Hne.
  rewrite <- Esm in Hsm. apply social_media_issues_clean in Hsm. clear Hne.
  repeat first [progress peel Hsm | apply triple_issues_clean in Hsm].
  all: assert (Hfirst : no_error (snd (names1, issues1))) by exact Hsm.
  all: rewrite <- Efn in Hfirst; apply first_name_issues_clean in Hfirst.
  all: split; [exact Hfirst|].
  all: split; [exact (in_MF_true _ Eg)|].
  all: split;
    [match goal with
     | Ha : dict_get _ "age" = PInt ?a, Hy : (?a <=? 5) = false |- _ =>
         exists a; split; [exact Ha | apply Z.leb_gt in Hy; lia]
     end|].
  all: exists d, spouse, kids; repeat split; assumption.
Qed.

(** An entry is either rejected with an ERROR, leaving the index as it was,
    or indexed under an id the index did not hold. *)
Lemma character_entry_cases `{PyRuntime} `{HashSeed} (by_id by_id' : chars_index)
  (names handles names' handles' : list (string * Z)) (issues issues' : list Issue)
  (idx : nat) (x : PyVal) :
  validate_character_entry (by_id, names, handles, issues) (idx, x)
  = Ok (by_id', names', handles', issues') ->
  (by_id' = by_id /\ ~ no_error issues')
  \/ (exists cid c,
        x = PDict c /\ dict_get c "id" = PInt cid /\ idict_has by_id cid = false
        /\ by_id' = idict_set by_id cid c
        /\ hashable (dict_get c "gender") /\ hashable (dict_get c "accentLanguage")
        /\ (no_error issues' -> no_error issues /\ cid <> 0 /\ record_fields_sound c)).
Proof.
  unfold validate_character_entry.
  destruct x as [| | | | | |c];
    try (intros [= <- _ _ <-]; left; split; [reflexivity | apply error_is_counted]).
  destruct (dict_get c "id") as [| |cid| | | |] eqn:Eid;
    try (intros [= <- _ _ <-]; left; split; [reflexivity | apply error_is_counted]).
  cbv zeta.
  destruct (idict_has by_id cid) eqn:Ehas;
    [intros [= <- _ _ <-]; left; split; [reflexivity | apply error_is_counted]|].
  destruct (validate_character_fields cid c names handles _)
    as [[[names1 handles1] issues1]|e] eqn:Ef; cbn [bind]; [|discriminate].
  intros Heq.
  assert (E1 := f_equal (fun r : result chars_state =>
                           match r with Ok (b, _, _, _) => b | Raise _ => [] end) Heq).
  assert (E2 := f_equal (fun r : result chars_state =>
                           match r with Ok (_, _, _, i) => i | Raise _ => [] end) Heq).
  cbv beta iota in E1, E2. clear Heq. subst by_id' issues'.
  right. exists cid, c.
  destruct (character_fields_clean _ _ _ _ _ _ _ _ Ef) as (Hg & Ha & Hclean).
  repeat (split; [first [reflexivity | assumption]|]).
  intros Hne. destruct (Hclean Hne) as [Hne0 Hsound].
  assert (Hcid : cid <> 0 /\ no_error issues).
  { revert Hne0. destruct (cid =? 0) eqn:E0; intros Hne0;
      [destruct (error_is_counted _ _ _ Hne0)|].
    apply Z.eqb_neq in E0. split; assumption. }
  split; [exact (proj2 Hcid)|]. split; [exact (proj1 Hcid) | exact Hsound].
Qed.

Lemma character_entry_invariant `{PyRuntime} `{HashSeed} (l : list PyVal)
  (st st' : chars_state) (entry : nat * PyVal) :
  In entry (enumerate l) -> chars_invariant l st ->
  validate_character_entry st entry = Ok st' -> chars_invariant l st'.
Proof.
  destruct st as [[[by_id names] handles] issues],
           st' as [[[by_id' names'] handles'] issues'], entry as [idx x].
  intros Hin (Hnd & Hrec & Hclean) Hstep. apply enumerate_In in Hin.
  destruct (character_entry_cases _ _ _ _ _ _ _ _ _ _ Hstep)
    as [[-> Hbad] | (cid & c & -> & Hid & Hnew & -> & Hg & Ha & Hsound)].
  - split; [exact Hnd|]. split; [exact Hrec|]. intros Hne. contradiction.
  - split; [apply idict_set_distinct; exact Hnd|]. split.
    + intros n r Hnr. apply idict_set_In in Hnr. destruct Hnr as [[-> ->] | Hnr].
      * repeat split; assumption.
      * exact (Hrec n r Hnr).
    + intros Hne. destruct (Hsound Hne) as (Hne0 & Hcid & Hfields).
      intros n r Hnr. apply idict_set_In in Hnr. destruct Hnr as [[-> ->] | Hnr].
      * split; assumption.
      * exact (Hclean Hne0 n r Hnr).
Qed.

Lemma idict_set_new_length {V : Type} (d : idict V) (k : Z) (v : V) :
  idict_has d k = false -> List.length (idict_set d k v) = S (List.length d).
Proof.
  intros Hk. rewrite <- (length_map fst (idict_set d k v)), idict_set_keys, Hk.
  rewrite length_app, length_map. simpl. lia.
Qed.

(** While no ERROR is raised, every entry is indexed. *)
Lemma characters_loop_count `{PyRuntime} `{HashSeed} (xs : list (nat * PyVal))
  (st st' : chars_state) :
  for_each validate_character_entry xs st = Ok st' ->
  no_error (snd st') ->
  no_error (snd st)
  /\ List.length (fst (fst (fst st')))
     = (List.length (fst (fst (fst st))) + List.length xs)%nat.
Proof.
  revert st. induction xs as [|[idx x] xs IH]; intros st; simpl.
  - intros [= <-] Hne. split; [exact Hne | lia].
  - destruct (validate_character_entry st (idx, x)) as [st1|e] eqn:Estep; simpl;
      [|discriminate].
    intros Hrun Hne. destruct (IH st1 Hrun Hne) as [Hne1 Hlen].
    destruct st as [[[by_id names] handles] issues],
             st1 as [[[by_id1 names1] handles1] issues1].
    simpl in *.
    destruct (character_entry_cases _ _ _ _ _ _ _ _ _ _ Estep)
      as [[-> Hbad] | (cid & c & -> & Hid & Hnew & -> & Hg & Ha & Hsound)].
    + contradiction.
    + destruct (Hsound Hne1) as (Hne0 & _ & _). split; [exact Hne0|].
      rewrite Hlen, (idict_set_new_length _ _ _ Hnew). lia.
Qed.

Lemma validate_characters_records `{PyRuntime} `{HashSeed} (characters : PyVal)
  (chars_by_id : chars_index) (issues : list Issue) :
  validate_characters characters = Ok (chars_by_id, issues) ->
  NoDup (map fst chars_by_id)
  /\ (forall cid c, In (cid, c) chars_by_id ->
        (exists l, characters = PList l /\ In (PDict c) l)
        /\ dict_get c "id" = PInt cid
        /\ hashable (dict_get c "gender") /\ hashable (dict_get c "accentLanguage"))
  /\ (no_error issues ->
        (exists l, characters = PList l /\ List.length chars_by_id = List.length l)
        /\ 70 <= Z.of_nat (List.length chars_by_id) <= 80
        /\ forall cid c, In (cid, c) chars_by_id -> cid <> 0 /\ record_fields_sound c).
Proof.
  unfold validate_characters.
  destruct characters as [| | | | |l|];
    try (match goal with
         | |- Ok _ = Ok _ -> _ =>
             intros [= <- <-]; split; [constructor|]; split; [intros cid c []|];
             intros Hne; discriminate Hne
         end).
  cbv zeta.
  destruct (for_each validate_character_entry _ _)
    as [[[[by_id names] handles] found]|e] eqn:Eloop; cbn [bind]; [|discriminate].
  intros [= <- <-].
  assert (Hinv := Eloop).
  apply (for_each_invariant_in (chars_invariant l) _ _ _ _
           (fun s x s' => character_entry_invariant l s s' x)) in Hinv.
  - destruct Hinv as (Hnd & Hrec & Hclean).
    split; [exact Hnd|]. split.
    + intros cid c Hin. destruct (Hrec cid c Hin) as (Hl & Hid & Hg & Ha).
      split; [exists l; split; [reflexivity | exact Hl]|]. repeat split; assumption.
    + intros Hne. destruct (characters_loop_count _ _ _ Eloop Hne) as [Hne0 Hlen].
      simpl in Hne0, Hlen. unfold enumerate in Hlen.
      rewrite length_combine, length_seq, Nat.min_id in Hlen.
      split; [exists l; split; [reflexivity | exact Hlen]|].
      split; [|exact (Hclean Hne)].
      rewrite Hlen.
      destruct ((70 <=? Z.of_nat (List.length l)) && (Z.of_nat (List.length l) <=? 80))%bool
        eqn:Ecount; [|discriminate Hne0].
      apply andb_true_iff in Ecount. destruct Ecount as [E1 E2].
      apply Z.leb_le in E1, E2. lia.
  - split; [constructor|]. split; [intros cid c []|]. intros _ cid c [].
Qed.

(** X11: The index [validate_characters] returns holds each id once; every indexed
    record is an entry of the input with that very id, and its gender and
    accent can be hashed; and when no ERROR is reported every entry of the
    input is indexed, there are 70 to 80 of them, none has the id 0, and each
    has a gender of "M" or "F", an integer age of at least 6 and a family
    object with an integer spouse and a list of integer children. *)
Theorem validate_characters_index `{PyRuntime} `{HashSeed} (characters : PyVal)
  (chars_by_id : chars_index) (issues : list Issue) :
  validate_characters characters = Ok (chars_by_id, issues) ->
  NoDup (map fst chars_by_id)
  /\ (forall cid c, In (cid, c) chars_by_id ->
        (exists l, characters = PList l /\ In (PDict c) l)
        /\ dict_get c "id" = PInt cid
        /\ hashable (dict_get c "gender") /\ hashable (dict_get c "accentLanguage"))
  /\ (no_error issues ->
        (exists l, characters = PList l /\ List.length chars_by_id = List.length l)
        /\ 70 <= Z.of_nat (List.length chars_by_id) <= 80
        /\ forall cid c, In (cid, c) chars_by_id -> cid <> 0 /\ record_fields_sound c).
Proof. exact (validate_characters_records characters chars_by_id issues). Qed.

Lemma validate_characters_index_witness :
  exists index,
    validate_characters street_characters = Ok (index, [])
    /\ no_error []
    /\ List.length index = 70%nat
    /\ forall cid c, In (cid, c) index -> cid <> 0 /\ record_fields_sound c.
Proof.
  eexists.
  assert (Hv : validate_characters street_characters = Ok (_, []))
    by (vm_compute; reflexivity).
  split; [exact Hv|]. split; [reflexivity|]. split; [reflexivity|].
  exact (proj2 (proj2 (proj2 (proj2 (validate_characters_index _ _ _ Hv)) eq_refl))).
Defined.

(* ------------------------------------------------------------------------- *)
(** ** is_connected over related_edges *)

(** What the breadth-first loop keeps: nothing but reachable nodes, no node
    twice, and every neighbour of a node seen is seen or waiting. *)
Lemma bfs_loop_reach `{PyRuntime} (g : graph) (start : Z) (fuel : nat) (seen : pyset)
  (dq : list Z) (r : pyset) :
  (forall x, In x seen \/ In x dq -> reach g start x) ->
  (forall x y, In x seen -> edge g x y -> In y seen \/ In y dq) ->
  NoDup seen ->
  bfs_loop fuel g seen dq = Ok r ->
  (forall x, In x r -> reach g start x)
  /\ (forall x y, In x r -> edge g x y -> In y r)
  /\ NoDup r.
Proof.
  revert seen dq. induction fuel as [|fuel IH]; intros seen dq Hreach Hclosed Hnd;
    simpl; [discriminate|].
  destruct dq as [|u dq].
  - intros [= <-]. split; [intros x Hx; apply Hreach; left; exact Hx|].
    split; [|exact Hnd].
    intros x y Hx Hxy. destruct (Hclosed x y Hx Hxy) as [Hy | []]. exact Hy.
  - destruct (set_mem u seen) eqn:Eu.
    + apply set_mem_In in Eu. apply IH.
      * intros x [Hx | Hx]; apply Hreach; [left | right; right]; exact Hx.
      * intros x y Hx Hxy. destruct (Hclosed x y Hx Hxy) as [Hy | [<- | Hy]]; auto.
      * exact Hnd.
    + apply IH.
      * intros x [Hx | Hx].
        -- apply set_add_In in Hx. destruct Hx as [-> | Hx];
             apply Hreach; [right; left; reflexivity | left; exact Hx].
        -- apply in_app_iff in Hx. destruct Hx as [Hx | Hx];
             [apply Hreach; right; right; exact Hx|].
           apply filter_In in Hx. destruct Hx as [Hx _].
           apply (proj1 (set_iter_In _ _)) in Hx.
           eapply rt_trans; [apply Hreach; right; left; reflexivity|].
           apply rt_step. exact Hx.
      * intros x y Hx Hxy. apply set_add_In in Hx.
        destruct (set_mem y (set_add u seen)) eqn:Ey;
          [left; apply set_mem_In; exact Ey|].
        destruct Hx as [-> | Hx].
        -- right. apply in_app_iff. right. apply filter_In.
           split; [apply (proj2 (set_iter_In _ _)); exact Hxy | rewrite Ey; reflexivity].
        -- destruct (Hclosed x y Hx Hxy) as [Hy | [<- | Hy]].
           ++ left. apply set_add_In. right. exact Hy.
           ++ left. apply set_add_In. left. reflexivity.
           ++ right. apply in_app_iff. left. exact Hy.
      * apply set_add_NoDup. exact Hnd.
Qed.

(** The breadth-first search returns the nodes reachable from its start,
    each once. *)
Lemma bfs_reach `{PyRuntime} (g : graph) (start : Z) (seen : pyset) :
  bfs g start = Ok seen ->
  NoDup seen /\ forall x, In x seen <-> reach g start x.
Proof.
  intros Hb.
  destruct (bfs_loop_reach g start (bfs_fuel g) [] [start] seen) as (Hs & Hc & Hnd).
  - intros x [[] | [<- | []]]. apply rt_refl.
  - intros x y [].
  - constructor.
  - exact Hb.
  - split; [exact Hnd|]. intros x. split; [apply Hs|].
    intros Hx. apply clos_rt_rtn1 in Hx. induction Hx as [|y z Hyz _ IHx].
    + exact (bfs_contains_start _ _ _ Hb).
    + exact (Hc y z IHx Hyz).
Qed.

Lemma is_connected_related `{PyRuntime} (spouse_of : idict Z)
  (parents_of_child children_of_parent : idict pyset) (first : Z) (others : list Z) :
  exists b,
    is_connected (related_edges spouse_of parents_of_child children_of_parent
                    (first :: others)) (first :: others) = Ok b
    /\ (b = true
        <-> NoDup (first :: others)
            /\ forall v, In v (first :: others) ->
                 clos_refl_trans Z
                   (kin spouse_of parents_of_child children_of_parent (first :: others))
                   first v).
Proof.
  unfold is_connected.
  set (g := related_edges spouse_of parents_of_child children_of_parent (first :: others)).
  destruct (bfs_terminates g first) as (seen & Hb). rewrite Hb. cbn [bind].
  set (occupants := first :: others) in *.
  eexists. split; [reflexivity|].
  destruct (bfs_reach g first seen Hb) as [Hnd Hseen].
  assert (Hincl : incl seen occupants).
  { intros x Hx. apply Hseen in Hx. apply clos_rt_rtn1 in Hx.
    destruct Hx as [|y z Hyz _]; [left; reflexivity|].
    exact (proj2 (related_edges_within _ _ _ _ _ _ Hyz)). }
  rewrite Nat.eqb_eq. split.
  - intros Hlen.
    assert (Hnd' : NoDup occupants).
    { apply (NoDup_incl_NoDup Hnd); [lia | exact Hincl]. }
    split; [exact Hnd'|].
    intros v Hv. apply reach_kin. apply Hseen.
    assert (Hback : incl occupants seen)
      by (apply (NoDup_length_incl Hnd); [lia | exact Hincl]).
    exact (Hback v Hv).
  - intros [Hnd' Hall].
    apply Nat.le_antisymm.
    + apply (NoDup_incl_length Hnd Hincl).
    + apply (NoDup_incl_length Hnd'). intros v Hv. apply Hseen, reach_kin, Hall, Hv.
Qed.

(** X12: The relatedness check of a house: over the graph of its occupants, it
    answers true exactly when no occupant id is listed twice and every
    occupant is tied to the first by a chain of spouse, parent-child or
    sibling ties between occupants.  It always answers. *)
Theorem related_occupants_connected `{PyRuntime} (spouse_of : idict Z)
  (parents_of_child children_of_parent : idict pyset) (first : Z) (others : list Z) :
  exists b,
    is_connected (related_edges spouse_of parents_of_child children_of_parent
                    (first :: others)) (first :: others) = Ok b
    /\ (b = true
        <-> NoDup (first :: others)
            /\ forall v, In v (first :: others) ->
                 clos_refl_trans Z
                   (kin spouse_of parents_of_child children_of_parent (first :: others))
                   first v).
Proof. apply is_connected_related. Qed.


Lemma occupant_surname_not_unrelated `{PyRuntime} (chars_by_id : chars_index) (hn : Z)
  (house_surname : string) (occs : list Z) (hn' : Z) (components : list (list Z)) :
  ~ In (unrelated_issue hn' components)
      (flat_map (occupant_surname_check chars_by_id hn house_surname []) occs).
Proof.
  intros Hin. apply in_flat_map in Hin. destruct Hin as (occ & _ & Hin).
  revert Hin. unfold occupant_surname_check. simpl.
  unfold player_elsewhere_issue, surname_mismatch_issue, unrelated_issue.
  repeat break_match; simpl; intros Hin;
    repeat (destruct Hin as [Hin | Hin]; [discriminate Hin|]); exact Hin.
Qed.

(** X13: The relatedness error of a house other than house 7 with a surname: it
    is emitted exactly when the house lists two or more characters of the
    roster (the player left out) and they are not all tied to the first of
    them by spouse, parent-child or sibling ties, or one of them is listed
    twice. *)
Theorem unrelated_house_is_reported `{PyRuntime} (chars_by_id : chars_index)
  (spouse_of : idict Z) (parents_of_child children_of_parent : idict pyset)
  (hn : Z) (h : pydict) (occs : list PyVal) (surname : string) :
  hn <> 7 ->
  dict_get_or h "occupants" (PList []) = PList occs ->
  nonblank_str (dict_get h "surname") = Some surname ->
  exists issues,
    house_check chars_by_id spouse_of parents_of_child children_of_parent [] (hn, h)
    = Ok issues
    /\ ((exists components, In (unrelated_issue hn components) issues)
        <-> exists first others,
              filter (fun o => negb (o =? 0) && idict_has chars_by_id o)%bool
                (int_items occs) = first :: others
              /\ others <> []
              /\ ~ (NoDup (first :: others)
                    /\ forall v, In v (first :: others) ->
                         clos_refl_trans Z
                           (kin spouse_of parents_of_child children_of_parent
                              (first :: others)) first v)).
Proof.
  intros Hhn Hoccs Hsurname. unfold house_check. rewrite Hoccs.
  apply Z.eqb_neq in Hhn. rewrite Hhn, Hsurname.
  rewrite (fold_left_appends _ _ [] (occupant_surname_check_appends _ _ _)).
  cbn [app].
  set (surname_issues :=
         flat_map (occupant_surname_check chars_by_id hn surname []) (int_items occs)).
  assert (Hnot : forall components, ~ In (unrelated_issue hn components) surname_issues)
    by (intros components; apply occupant_surname_not_unrelated).
  destruct (filter _ (int_items occs)) as [|first [|second rest]] eqn:Enpcs.
  - exists surname_issues. split; [reflexivity|]. split.
    + intros (components & Hin). destruct (Hnot components Hin).
    + intros (f & o & Hf & _). discriminate Hf.
  - exists surname_issues. split; [reflexivity|]. split.
    + intros (components & Hin). destruct (Hnot components Hin).
    + intros (f & o & [= <- <-] & Ho & _). destruct (Ho eq_refl).
  - assert (Hlen : (2 <=? Z.of_nat (List.length (first :: second :: rest))) = true)
      by (apply Z.leb_le; simpl; lia).
    rewrite Hlen.
    destruct (is_connected_related spouse_of parents_of_child children_of_parent
                first (second :: rest)) as (b & -> & Hb).
    cbn [bind]. destruct b.
    + exists surname_issues. split; [reflexivity|]. split.
      * intros (components & Hin). destruct (Hnot components Hin).
      * intros (f & o & [= <- <-] & _ & Hbad). destruct (Hbad (proj1 Hb eq_refl)).
    + match goal with
      | |- context [components_loop ?f ?g ?u ?c] =>
          destruct (components_loop_terminates g f u c) as (components & ->); [lia|]
      end.
      cbn [bind]. eexists. split; [reflexivity|]. split.
      * intros _. exists first, (second :: rest). split; [reflexivity|].
        split; [discriminate|]. intros Hgood. apply Hb in Hgood. discriminate Hgood.
      * intros _. exists components. apply in_or_app. right. left. reflexivity.
Qed.

Lemma unrelated_house_is_reported_witness :
  3 <> 7
  /\ dict_get_or [("surname", PStr "Smith"); ("occupants", PList [PInt 5; PInt 6])]
       "occupants" (PList []) = PList [PInt 5; PInt 6]
  /\ nonblank_str (dict_get [("surname", PStr "Smith"); ("occupants", PList [PInt 5; PInt 6])]
                     "surname") = Some "Smith"
  /\ exists issues,
       house_check [(5, [("lastName", PStr "Smith")]); (6, [("lastName", PStr "Smith")])]
         [] [] [] []
         (3, [("surname", PStr "Smith"); ("occupants", PList [PInt 5; PInt 6])])
       = Ok issues
       /\ In (unrelated_issue 3 [[5]; [6]]) issues.
Proof.
  assert (H3 : 3 <> 7) by discriminate.
  split; [exact H3|]. split; [reflexivity|]. split; [reflexivity|].
  destruct (unrelated_house_is_reported
              [(5, [("lastName", PStr "Smith")]); (6, [("lastName", PStr "Smith")])]
              [] [] [] 3 [("surname", PStr "Smith"); ("occupants", PList [PInt 5; PInt 6])]
              [PInt 5; PInt 6] "Smith" H3 eq_refl eq_refl) as (issues & Hrun & _).
  exists issues. split; [exact Hrun|].
  vm_compute in Hrun. injection Hrun as <-. left. reflexivity.
Defined.
(** An occupant id listed twice makes the check fail, also for a house
    whose occupants are all related: a couple listed as 5, 9, 5. *)
Example repeated_occupant_is_unrelated :
  is_connected (related_edges [(5, 9); (9, 5)] [] [] [5; 9; 5]) [5; 9; 5] = Ok false
  /\ is_connected (related_edges [(5, 9); (9, 5)] [] [] [5; 9]) [5; 9] = Ok true.
Proof. split; vm_compute; reflexivity. Qed.

(* ------------------------------------------------------------------------- *)
(** ** build_relationship_indexes: what the three indexes hold *)

Lemma collect_children_spec (cid : Z) (children : PyVal) (cp pc cp' pc' : idict pyset) :
  collect_children cid children cp pc = (cp', pc') ->
  (forall p ch, In ch (dd_get cp' p)
                <-> In ch (dd_get cp p)
                    \/ (p = cid /\ exists kids, children = PList kids /\ In (PInt ch) kids))
  /\ (forall p ch, In p (dd_get pc' ch)
                   <-> In p (dd_get pc ch)
                       \/ (p = cid /\ exists kids, children = PList kids
                                                   /\ In (PInt ch) kids)).
Proof.
  unfold collect_children.
  destruct children as [| | | | |l|];
    try (intros [= <- <-]; split; intros p ch;
         (split;
          [intros Hin; left; exact Hin
          | intros [Hin | (_ & kids & Hk & _)]; [exact Hin | discriminate Hk]])).
  intros Hfold.
  assert (Hgen : forall acc acc',
             fold_left
               (fun (acc : idict pyset * idict pyset) ch =>
                  match ch with
                  | PInt c => (dd_add (fst acc) cid c, dd_add (snd acc) c cid)
                  | _ => acc
                  end) l acc = acc' ->
             (forall p ch, In ch (dd_get (fst acc') p)
                           <-> In ch (dd_get (fst acc) p) \/ (p = cid /\ In (PInt ch) l))
             /\ (forall p ch, In p (dd_get (snd acc') ch)
                              <-> In p (dd_get (snd acc) ch)
                                  \/ (p = cid /\ In (PInt ch) l))).
  { clear Hfold. induction l as [|o l IH]; intros acc acc'; simpl.
    - intros <-. split; intros p ch; tauto.
    - intros Hfold. destruct (IH _ _ Hfold) as [H1 H2]. split; intros p ch.
      + rewrite H1. destruct o; simpl; try (split; [tauto|];
          intros [Hin | [Hp [Ho | Hin]]]; [tauto | discriminate Ho | tauto]).
        rewrite dd_get_add. destruct (p =? cid) eqn:Ep.
        * apply Z.eqb_eq in Ep. subst p. rewrite set_add_In. split.
          -- intros [[-> | Hin] | [_ Hin]]; auto.
          -- intros [Hin | [_ [[= ->] | Hin]]]; auto.
        * apply Z.eqb_neq in Ep. tauto.
      + rewrite H2. destruct o; simpl; try (split; [tauto|];
          intros [Hin | [Hp [Ho | Hin]]]; [tauto | discriminate Ho | tauto]).
        rewrite dd_get_add. destruct (ch =? z) eqn:Ec.
        * apply Z.eqb_eq in Ec. subst z. rewrite set_add_In. split.
          -- intros [[-> | Hin] | [Hp Hin]]; auto.
          -- intros [Hin | [Hp [_ | Hin]]]; auto.
        * apply Z.eqb_neq in Ec. split.
          -- intros [Hin | [Hp Hin]]; auto.
          -- intros [Hin | [Hp [[= E] | Hin]]]; [auto | congruence | auto]. }
  destruct (Hgen _ _ Hfold) as [H1 H2]. simpl in H1, H2.
  split; intros p ch; [rewrite H1 | rewrite H2]; split;
    (intros [Hin | [Hp Hin]]; [left; exact Hin|right; split; [exact Hp|]]).
  - exists l. split; [reflexivity | exact Hin].
  - destruct Hin as (kids & [= <-] & Hin). exact Hin.
  - exists l. split; [reflexivity | exact Hin].
  - destruct Hin as (kids & [= <-] & Hin). exact Hin.
Qed.

Lemma collect_links_step_spec (spouse_of so1 : idict Z) (cp pc cp1 pc1 : idict pyset)
  (cid : Z) (c : pydict) :
  collect_links_step (spouse_of, cp, pc) (cid, c) = Ok (so1, cp1, pc1) ->
  exists spouse children,
    family_field c "spouse" = Ok spouse /\ family_field c "children" = Ok children
    /\ so1 = match spouse with
             | PInt s => if s =? -1 then spouse_of else idict_set spouse_of cid s
             | _ => spouse_of
             end
    /\ collect_children cid children cp pc = (cp1, pc1).
Proof.
  unfold collect_links_step.
  destruct (family_field c "spouse") as [spouse|e]; cbn [bind]; [|discriminate].
  destruct (family_field c "children") as [children|e]; cbn [bind]; [|discriminate].
  destruct (collect_children cid children cp pc) as [cp2 pc2] eqn:Ecc.
  intros [= <- <- <-]. exists spouse, children.
  split; [reflexivity|]. split; [reflexivity|]. split; [reflexivity | exact Ecc].
Qed.

Lemma collect_links_from (xs : chars_index) (spouse_of so' : idict Z)
  (cp pc cp' pc' : idict pyset) :
  for_each collect_links_step xs (spouse_of, cp, pc) = Ok (so', cp', pc') ->
  (forall p ch, In ch (dd_get cp' p) <-> In ch (dd_get cp p) \/ lists_child xs p ch)
  /\ (forall p ch, In p (dd_get pc' ch) <-> In p (dd_get pc ch) \/ lists_child xs p ch)
  /\ (forall a b, idict_get so' a = Some b ->
                  idict_get spouse_of a = Some b \/ names_spouse xs a b)
  /\ (forall a, ~ In a (map fst xs) -> idict_get so' a = idict_get spouse_of a)
  /\ (NoDup (map fst xs) ->
      forall a b, names_spouse xs a b -> idict_get so' a = Some b).
Proof.
  revert spouse_of cp pc.
  induction xs as [|[cid c] xs IH]; intros spouse_of cp pc; cbn [for_each].
  - intros [= <- <- <-]. unfold lists_child, names_spouse.
    split; [intros p ch; split; [tauto | intros [Hin | (c & kids & [] & _)]; exact Hin]|].
    split; [intros p ch; split; [tauto | intros [Hin | (c & kids & [] & _)]; exact Hin]|].
    split; [tauto|]. split; [reflexivity|]. intros _ a b (c & [] & _).
  - destruct (collect_links_step (spouse_of, cp, pc) (cid, c)) as [[[so1 cp1] pc1]|e]
      eqn:Estep; cbn [bind]; [|discriminate].
    intros Hrest. destruct (IH _ _ _ Hrest) as (HA & HB & HC & HE & HD).
    destruct (collect_links_step_spec _ _ _ _ _ _ _ _ Estep)
      as (spouse & children & Hs & Hc & -> & Hcc).
    destruct (collect_children_spec _ _ _ _ _ _ Hcc) as [H1 H2].
    assert (Hlists : forall p ch,
               lists_child ((cid, c) :: xs) p ch
               <-> (p = cid /\ exists kids, children = PList kids /\ In (PInt ch) kids)
                   \/ lists_child xs p ch).
    { intros p ch. unfold lists_child. split.
      - intros (c0 & kids & [[= <- <-] | Hin] & Hk & Hch).
        + left. split; [reflexivity|]. exists kids. split; [congruence | exact Hch].
        + right. exists c0, kids. repeat split; assumption.
      - intros [(-> & kids & -> & Hch) | (c0 & kids & Hin & Hk & Hch)].
        + exists c, kids. split; [left; reflexivity|]. split; assumption.
        + exists c0, kids. split; [right; exact Hin|]. split; assumption. }
    assert (Hnames : forall a b,
               names_spouse ((cid, c) :: xs) a b
               <-> (a = cid /\ spouse = PInt b /\ b <> -1) \/ names_spouse xs a b).
    { intros a b. unfold names_spouse. split.
      - intros (c0 & [[= <- <-] | Hin] & Hk & Hb).
        + left. split; [reflexivity|]. split; [congruence | exact Hb].
        + right. exists c0. repeat split; assumption.
      - intros [(-> & -> & Hb) | (c0 & Hin & Hk & Hb)].
        + exists c. split; [left; reflexivity|]. split; assumption.
        + exists c0. split; [right; exact Hin|]. split; assumption. }
    assert (Hset : forall a,
               idict_get (match spouse with
                          | PInt s => if s =? -1 then spouse_of else idict_set spouse_of cid s
                          | _ => spouse_of
                          end) a
               = if (a =? cid)
                 then match spouse with
                      | PInt s => if s =? -1 then idict_get spouse_of a else Some s
                      | _ => idict_get spouse_of a
                      end
                 else idict_get spouse_of a).
    { intros a. destruct spouse; try (destruct (a =? cid); reflexivity).
      destruct (z =? -1); [destruct (a =? cid); reflexivity|].
      rewrite idict_get_set. reflexivity. }
    split; [intros p ch; rewrite HA, H1, Hlists; tauto|].
    split; [intros p ch; rewrite HB, H2, Hlists; tauto|].
    split; [|split].
    + intros a b Hab. rewrite Hnames. destruct (HC a b Hab) as [H0 | H0]; [|tauto].
      rewrite Hset in H0. destruct (a =? cid) eqn:Ea; [|tauto].
      apply Z.eqb_eq in Ea. subst a.
      destruct spouse; try tauto. destruct (z =? -1) eqn:Ez; [tauto|].
      apply Z.eqb_neq in Ez. injection H0 as ->. right. left. repeat split; assumption.
    + intros a Ha. simpl in Ha. rewrite HE by tauto. rewrite Hset.
      destruct (a =? cid) eqn:Ea; [|reflexivity].
      apply Z.eqb_eq in Ea. subst a. tauto.
    + intros Hnd a b Hab. inversion Hnd as [|? ? Hnotin Hnd']; subst.
      apply Hnames in Hab. destruct Hab as [(-> & -> & Hb) | Hab].
      * rewrite HE by exact Hnotin. rewrite Hset, Z.eqb_refl.
        apply Z.eqb_neq in Hb. rewrite Hb. reflexivity.
      * exact (HD Hnd' a b Hab).
Qed.

Lemma relationship_indexes_links `{PyRuntime} (chars_by_id : chars_index)
  (spouse_of : idict Z) (parents_of_child children_of_parent : idict pyset)
  (issues : list Issue) :
  build_relationship_indexes chars_by_id
  = Ok (spouse_of, parents_of_child, children_of_parent, issues) ->
  (forall p ch, In ch (dd_get children_of_parent p) <-> lists_child chars_by_id p ch)
  /\ (forall p ch, In p (dd_get parents_of_child ch) <-> lists_child chars_by_id p ch)
  /\ (forall a b, idict_get spouse_of a = Some b -> names_spouse chars_by_id a b)
  /\ (NoDup (map fst chars_by_id) ->
      forall a b, names_spouse chars_by_id a b -> idict_get spouse_of a = Some b).
Proof.
  unfold build_relationship_indexes, collect_links.
  destruct (for_each collect_links_step chars_by_id _) as [[[so cp] pc]|e] eqn:Eloop;
    cbn [bind]; [|discriminate].
  destruct (relationship_issues chars_by_id (so, cp, pc)) as [found|e]; cbn [bind];
    [|discriminate].
  intros [= <- <- <- <-].
  destruct (collect_links_from _ _ _ _ _ _ _ Eloop) as (HA & HB & HC & _ & HD).
  split; [intros p ch; rewrite HA; simpl; tauto|].
  split; [intros p ch; rewrite HB; simpl; tauto|].
  split; [|exact HD].
  intros a b Hab. destruct (HC a b Hab) as [H0 | H0]; [discriminate H0 | exact H0].
Qed.

(** X14: The indexes hold the links of the records and nothing else: a child is
    among the children of a parent, and the parent among the parents of the
    child, exactly when the parent's record lists the child as an integer; and
    with ids that are distinct, a character has a spouse entry exactly for the
    integer other than -1 that its record names. *)
Theorem relationship_indexes_hold_the_links `{PyRuntime} (chars_by_id : chars_index)
  (spouse_of : idict Z) (parents_of_child children_of_parent : idict pyset)
  (issues : list Issue) :
  build_relationship_indexes chars_by_id
  = Ok (spouse_of, parents_of_child, children_of_parent, issues) ->
  NoDup (map fst chars_by_id) ->
  (forall p ch, In ch (dd_get children_of_parent p) <-> lists_child chars_by_id p ch)
  /\ (forall p ch, In p (dd_get parents_of_child ch) <-> In ch (dd_get children_of_parent p))
  /\ (forall a b, idict_get spouse_of a = Some b <-> names_spouse chars_by_id a b).
Proof.
  intros Hb Hnd. destruct (relationship_indexes_links _ _ _ _ _ Hb) as (HA & HB & HC & HD).
  split; [exact HA|]. split; [intros p ch; rewrite HA, HB; tauto|].
  intros a b. split; [apply HC | apply HD; exact Hnd].
Qed.

Lemma relationship_indexes_hold_the_links_witness :
  exists spouse_of parents_of_child children_of_parent issues,
    build_relationship_indexes family_chars
    = Ok (spouse_of, parents_of_child, children_of_parent, issues)
    /\ NoDup (map fst family_chars)
    /\ (idict_get spouse_of 6 = Some 5 <-> names_spouse family_chars 6 5)
    /\ (In 5 (dd_get parents_of_child 8) <-> In 8 (dd_get children_of_parent 5)).
Proof.
  destruct (build_relationship_indexes family_chars)
    as [[[[so pc] cp] issues]|e] eqn:E; [|vm_compute in E; discriminate E].
  assert (Hnd : NoDup (map fst family_chars)).
  { simpl. repeat constructor; simpl; intuition discriminate. }
  exists so, pc, cp, issues. split; [reflexivity|]. split; [exact Hnd|].
  destruct (relationship_indexes_hold_the_links family_chars so pc cp issues E Hnd)
    as (_ & Hm & Hs).
  split; [exact (Hs 6 5) | exact (Hm 5 8)].
Defined.

(* ------------------------------------------------------------------------- *)
(** ** When the validation phase raises *)

Lemma not_object_family (c : pydict) :
  ~ family_is_object c ->
  exists v, dict_lookup c "family" = Some v /\ forall d, v <> PDict d.
Proof.
  unfold family_is_object. intros Hc.
  destruct (dict_lookup c "family") as [v|]; [|destruct (Hc I)].
  exists v. split; [reflexivity|]. intros d ->. exact (Hc I).
Qed.

(** X15: Once the two validators have returned, the rest of the validation
    raises exactly when some indexed record has a [family] that is present and
    is not an object, and then it is [AttributeError]: the breadth-first loops
    end, and no lookup fails.  A roster that [validate_characters] passes
    without ERROR is never in that case. *)
Theorem validation_raises_exactly_on_non_object_family `{PyRuntime} `{HashSeed}
  (houses characters : PyVal) (houses_by_number : houses_index)
  (chars_by_id : chars_index) (house_issues char_issues : list Issue) :
  validate_houses houses = Ok (houses_by_number, house_issues) ->
  validate_characters characters = Ok (chars_by_id, char_issues) ->
  ((forall cid c, In (cid, c) chars_by_id -> family_is_object c) ->
   exists rel_issues cross_issues,
     validation_phase characters houses
     = Ok (house_issues ++ char_issues ++ rel_issues ++ cross_issues))
  /\ ((exists cid c, In (cid, c) chars_by_id /\ ~ family_is_object c) ->
      validation_phase characters houses = Raise AttributeError)
  /\ (no_error char_issues ->
      forall cid c, In (cid, c) chars_by_id -> family_is_object c).
Proof.
  intros Hh Hc. unfold validation_phase. rewrite Hh, Hc. cbn [bind].
  destruct (validate_characters_records _ _ _ Hc) as (_ & Hrec & Hclean).
  split; [|split].
  - intros Hfam.
    destruct (relationship_indexes_total chars_by_id) as ([[[so pc] cp] rel] & ->).
    { intros cid c Hin. split; [exact (Hfam cid c Hin)|].
      exact (proj1 (proj2 (proj2 (Hrec cid c Hin)))). }
    cbn [bind].
    destruct (cross_file_total chars_by_id houses_by_number so pc cp) as (cross & ->).
    { intros cid c n Hin _. exact (Hfam cid c Hin). }
    cbn [bind]. exists rel, cross. reflexivity.
  - intros (cid & c & Hin & Hbad).
    destruct (not_object_family c Hbad) as (v & Hv & Hd).
    rewrite (non_object_family_raises chars_by_id cid c v Hin Hv Hd). reflexivity.
  - intros Hne cid c Hin.
    destruct (proj2 (proj2 (Hclean Hne)) cid c Hin) as (_ & _ & _ & fam & sp & kids & Hf & _).
    unfold family_is_object, dict_get in *.
    destruct (dict_lookup c "family") as [v|]; [|exact I]. subst v. exact I.
Qed.

Lemma validation_raises_witness :
  exists houses_by_number chars_by_id,
    validate_houses street_houses = Ok (houses_by_number, [])
    /\ validate_characters street_characters = Ok (chars_by_id, [])
    /\ (forall cid c, In (cid, c) chars_by_id -> family_is_object c)
    /\ validation_phase street_characters street_houses = Ok [].
Proof.
  eexists. eexists.
  assert (Hh : validate_houses street_houses = Ok (_, [])) by (vm_compute; reflexivity).
  assert (Hc : validate_characters street_characters = Ok (_, []))
    by (vm_compute; reflexivity).
  split; [exact Hh|]. split; [exact Hc|].
  destruct (validation_raises_exactly_on_non_object_family _ _ _ _ _ _ Hh Hc)
    as (_ & _ & Hclean).
  split; [exact (Hclean eq_refl)|]. vm_compute. reflexivity.
Defined.

(* ------------------------------------------------------------------------- *)
(** ** The exceptions of the validation phase *)

Lemma for_each_exception {A S : Type} (P : PyExn -> Prop) (body : S -> A -> result S)
  (xs : list A) (s : S) (e : PyExn) :
  (forall s x e, body s x = Raise e -> P e) ->
  for_each body xs s = Raise e -> P e.
Proof.
  intros Hbody. revert s. induction xs as [|x xs IH]; intros s; simpl; [discriminate|].
  destruct (body s x) as [s1|e1] eqn:Eb; simpl.
  - apply IH.
  - intros [= <-]. exact (Hbody s x e1 Eb).
Qed.

Lemma float_of_Z_exception (z : Z) (e : PyExn) :
  float_of_Z z = Raise e -> e = OverflowError.
Proof.
  unfold float_of_Z. destruct (binary_normalize 53 1024 z 0 false);
    intros [= <-]; reflexivity.
Qed.

Lemma py_float_number_exception (x : PyVal) (e : PyExn) :
  is_number x = true -> py_float x = Raise e -> e = OverflowError.
Proof.
  destruct x; simpl; try discriminate; intros _; apply float_of_Z_exception.
Qed.

Lemma bounds_exception `{PyRuntime} (hn : Z) (h : pydict) (e : PyExn) :
  _validate_bounds_for_house hn h = Raise e -> e = OverflowError.
Proof.
  unfold _validate_bounds_for_house.
  destruct (dict_get h "bounds") as [| | | | | |b]; try discriminate.
  destruct (filter _ _); [|discriminate]. cbv zeta.
  destruct (is_number (dict_get b "x")) eqn:Ex; [|discriminate].
  destruct (is_number (dict_get b "z")) eqn:Ez; [|discriminate].
  destruct (is_number (dict_get b "xsize")) eqn:Es; [|discriminate].
  destruct (is_int (dict_get b "zsize")) eqn:Ei; [|discriminate].
  cbn [negb orb].
  destruct (py_float (dict_get b "x")) as [x_f|e1] eqn:Ex'; cbn [bind];
    [|intros [= <-]; exact (py_float_number_exception _ _ Ex Ex')].
  destruct (py_float (dict_get b "z")) as [z_f|e1] eqn:Ez'; cbn [bind];
    [|intros [= <-]; exact (py_float_number_exception _ _ Ez Ez')].
  destruct (py_float (dict_get b "xsize")) as [s_f|e1] eqn:Es'; cbn [bind];
    [|intros [= <-]; exact (py_float_number_exception _ _ Es Es')].
  destruct (float_of_Z _) as [d|e1] eqn:Ed; cbn [bind];
    [|intros [= <-]; exact (float_of_Z_exception _ _ Ed)].
  destruct (Z.even hn); discriminate.
Qed.

Lemma house_entry_exception `{PyRuntime} (st : houses_state) (entry : nat * PyVal)
  (e : PyExn) :
  validate_house_entry st entry = Raise e -> e = OverflowError.
Proof.
  unfold validate_house_entry. destruct st as [[by_number seen] issues], entry as [idx h].
  destruct h as [| | | | | |d]; try discriminate.
  destruct (dict_get d "houseNumber"); try discriminate. cbv zeta.
  destruct (set_mem z seen); [discriminate|].
  destruct (dict_get d "occupants") as [| | | | |[|o os]|]; try discriminate.
  destruct (_validate_bounds_for_house z d) as [b|e1] eqn:Eb; cbn [bind]; [discriminate|].
  intros [= <-]. exact (bounds_exception _ _ _ Eb).
Qed.

Lemma side_step_exception `{PyRuntime} (houses_by_number : houses_index)
  (side_label : string) (st : side_state) (hn : Z) (e : PyExn) :
  side_step houses_by_number side_label st hn = Raise e -> e = OverflowError.
Proof.
  unfold side_step. destruct st as [[expected_z zsizes] issues].
  destruct (dict_get _ "bounds") as [| | | | | |b]; try discriminate. cbv zeta.
  destruct (is_number (dict_get b "z")) eqn:Ez; [|discriminate].
  destruct (is_int (dict_get b "zsize")) eqn:Ei; [|discriminate].
  cbn [negb orb].
  destruct (py_float (dict_get b "z")) as [z_f|e1] eqn:Ez'; cbn [bind];
    [|intros [= <-]; exact (py_float_number_exception _ _ Ez Ez')].
  destruct (approx_equal z_f expected_z);
    (destruct (float_of_Z _) as [d|e1] eqn:Ed; cbn [bind];
     [discriminate | intros [= <-]; exact (float_of_Z_exception _ _ Ed)]).
Qed.

Lemma side_walk_exception `{PyRuntime} (houses_by_number : houses_index)
  (expected : list Z) (side_label side_name : string) (issues : list Issue) (e : PyExn) :
  side_walk houses_by_number expected side_label side_name issues = Raise e ->
  e = OverflowError.
Proof.
  unfold side_walk, side_check. destruct (forallb _ expected); [|discriminate].
  destruct (for_each _ expected _) as [[[expected_z zsizes] found]|e1] eqn:Eloop;
    cbn [bind].
  - destruct zsizes; [discriminate|]. destruct (Nat.eqb _ 1); discriminate.
  - intros [= <-].
    exact (for_each_exception (fun e => e = OverflowError) _ _ _ _
             (side_step_exception houses_by_number side_label) Eloop).
Qed.

Lemma validate_houses_exception `{PyRuntime} (houses : PyVal) (e : PyExn) :
  validate_houses houses = Raise e -> e = OverflowError.
Proof.
  unfold validate_houses. destruct houses as [| | | | |l|]; try discriminate. cbv zeta.
  destruct (for_each validate_house_entry _ _) as [[[by_number seen] found]|e1] eqn:Eloop;
    cbn [bind].
  - unfold validate_street_geometry. cbv zeta.
    destruct (side_walk by_number even_expected _ _ _) as [i1|e1] eqn:E1; cbn [bind].
    + destruct (side_walk by_number odd_expected _ _ _) as [i2|e2] eqn:E2; cbn [bind];
        [discriminate|].
      intros [= <-]. exact (side_walk_exception _ _ _ _ _ _ E2).
    + intros [= <-]. exact (side_walk_exception _ _ _ _ _ _ E1).
  - intros [= <-].
    exact (for_each_exception (fun e => e = OverflowError) _ _ _ _
             house_entry_exception Eloop).
Qed.

Lemma in_str_set_exception (v : PyVal) (s : list string) (e : PyExn) :
  in_str_set v s = Raise e -> e = TypeError.
Proof. destruct v; simpl; try discriminate; intros [= <-]; reflexivity. Qed.

Lemma character_entry_exception `{PyRuntime} `{HashSeed} (st : chars_state)
  (entry : nat * PyVal) (e : PyExn) :
  validate_character_entry st entry = Raise e -> e = TypeError.
Proof.
  unfold validate_character_entry.
  destruct st as [[[by_id names] handles] issues], entry as [idx c].
  destruct c as [| | | | | |c]; try discriminate.
  destruct (dict_get c "id"); try discriminate. cbv zeta.
  destruct (idict_has by_id z); [discriminate|].
  destruct (validate_character_fields _ _ _ _ _) as [[[n1 h1] i1]|e1] eqn:Ef; cbn [bind];
    [discriminate|].
  intros [= <-]. revert Ef. unfold validate_character_fields. cbv zeta.
  destruct (first_name_issues _ _ _ _) as [names1 issues1].
  destruct (in_MF _) as [known|e2] eqn:Eg; cbn [bind];
    [|intros [= <-]; exact (in_str_set_exception _ _ _ Eg)].
  destruct (in_str_set _ ACCENT_ENUM) as [listed|e2] eqn:Ea; cbn [bind];
    [|intros [= <-]; exact (in_str_set_exception _ _ _ Ea)].
  destruct (social_media_issues _ _ _ _). discriminate.
Qed.

Lemma validate_characters_exception `{PyRuntime} `{HashSeed} (characters : PyVal)
  (e : PyExn) :
  validate_characters characters = Raise e -> e = TypeError.
Proof.
  unfold validate_characters. destruct characters as [| | | | |l|]; try discriminate.
  cbv zeta.
  destruct (for_each validate_character_entry _ _) as [[[[by_id names] handles] found]|e1]
    eqn:Eloop; cbn [bind]; [discriminate|].
  intros [= <-].
  exact (for_each_exception (fun e => e = TypeError) _ _ _ _
           character_entry_exception Eloop).
Qed.

(** X16: The validation phase raises nothing but [OverflowError], from an integer
    in the bounds of a house that no float can hold, [TypeError], from a gender
    or an accent that cannot be hashed, and [AttributeError], from a family
    that is not an object: no lookup raises [KeyError], and the breadth-first
    loops end. *)
Theorem validation_raises_three_exceptions `{PyRuntime} `{HashSeed}
  (characters houses : PyVal) (e : PyExn) :
  validation_phase characters houses = Raise e ->
  (e = OverflowError /\ validate_houses houses = Raise OverflowError)
  \/ (e = TypeError /\ validate_characters characters = Raise TypeError)
  \/ (e = AttributeError
      /\ exists chars_by_id issues cid c,
           validate_characters characters = Ok (chars_by_id, issues)
           /\ In (cid, c) chars_by_id /\ ~ family_is_object c).
Proof.
  unfold validation_phase.
  destruct (validate_houses houses) as [[hbn hiss]|e1] eqn:Eh; cbn [bind].
  - destruct (validate_characters characters) as [[cbi ciss]|e2] eqn:Ec; cbn [bind].
    + intros Hr. right. right.
      destruct (build_relationship_indexes cbi) as [[[[so pc] cp] rel]|e3] eqn:Er;
        cbn [bind] in Hr.
      * exfalso.
        destruct (cross_file_total cbi hbn so pc cp) as (cross & Hx).
        { intros cid c n Hin _. exact (indexed_families_are_objects _ _ Er cid c Hin). }
        rewrite Hx in Hr. cbn [bind] in Hr. discriminate Hr.
      * assert (Hbad : ~ forall cid c, In (cid, c) cbi -> family_is_object c).
        { intros Hfam.
          destruct (relationship_indexes_total cbi) as (r & Hr').
          - intros cid c Hin. split; [exact (Hfam cid c Hin)|].
            destruct (validate_characters_records _ _ _ Ec) as (_ & Hrec & _).
            exact (proj1 (proj2 (proj2 (Hrec cid c Hin)))).
          - rewrite Hr' in Er. discriminate Er. }
        assert (Hex : exists cid c, In (cid, c) cbi /\ ~ family_is_object c).
        { clear - Hbad. induction cbi as [|[cid c] cbi IH].
          - exfalso. apply Hbad. intros cid c [].
          - assert (Hdec : family_is_object c \/ ~ family_is_object c).
            { unfold family_is_object. destruct (dict_lookup c "family") as [[]|]; tauto. }
            destruct Hdec as [Hc | Hc].
            + destruct IH as (cid' & c' & Hin & Hc').
              * intros Hall. apply Hbad. intros n r [E | Hin];
                  [injection E as <- <-; exact Hc | exact (Hall n r Hin)].
              * exists cid', c'. split; [right; exact Hin | exact Hc'].
            + exists cid, c. split; [left; reflexivity | exact Hc]. }
        destruct Hex as (cid & c & Hin & Hc).
        destruct (not_object_family c Hc) as (v & Hv & Hd).
        rewrite (non_object_family_raises cbi cid c v Hin Hv Hd) in Er.
        injection Er as <-. injection Hr as <-.
        split; [reflexivity|]. exists cbi, ciss, cid, c. repeat split; assumption.
    + intros [= <-]. right. left.
      rewrite (validate_characters_exception _ _ Ec). split; reflexivity.
  - intros [= <-]. left.
    rewrite (validate_houses_exception _ _ Eh). split; reflexivity.
Qed.

Lemma validation_raises_three_exceptions_witness :
  validation_phase null_family_roster (PList []) = Raise AttributeError
  /\ exists chars_by_id issues cid c,
       validate_characters null_family_roster = Ok (chars_by_id, issues)
       /\ In (cid, c) chars_by_id /\ ~ family_is_object c.
Proof.
  assert (Hr : validation_phase null_family_roster (PList []) = Raise AttributeError)
    by (vm_compute; reflexivity).
  split; [exact Hr|].
  destruct (validation_raises_three_exceptions _ _ _ Hr)
    as [[He _] | [[He _] | [_ Hex]]]; [discriminate He | discriminate He | exact Hex].
Defined.

(* ------------------------------------------------------------------------- *)
(** ** The occupancy errors of validate_cross_file_consistency *)

Lemma seen_fold_get (hn : Z) (l : list Z) (acc : idict (list Z)) (k : Z) :
  idict_get (fold_left (fun acc occ => dl_append acc occ hn) l acc) k
  = match filter (Z.eqb k) l with
    | [] => idict_get acc k
    | found => Some (dl_get acc k ++ map (fun _ => hn) found)
    end.
Proof.
  revert acc. induction l as [|x l IH]; intros acc; simpl; [reflexivity|].
  rewrite IH. unfold dl_get at 1. rewrite dl_get_append.
  destruct (k =? x) eqn:E.
  - apply Z.eqb_eq in E. subst x.
    destruct (filter (Z.eqb k) l); simpl; [reflexivity|].
    rewrite <- app_assoc. reflexivity.
  - reflexivity.
Qed.

Lemma seen_occurrences_get (houses_by_number : houses_index) (acc : idict (list Z))
  (k : Z) :
  idict_get (fold_left seen_occurrences_step houses_by_number acc) k
  = match listings houses_by_number k with
    | [] => idict_get acc k
    | found => Some (dl_get acc k ++ found)
    end.
Proof.
  revert acc. induction houses_by_number as [|[hn h] rest IH]; intros acc; simpl;
    [reflexivity|].
  rewrite IH. unfold listings. simpl. fold (listings rest k).
  unfold seen_occurrences_step.
  destruct (dict_get h "occupants") as [| | | | |occs|]; try reflexivity.
  unfold dl_get at 1. rewrite seen_fold_get.
  destruct (filter (Z.eqb k) (int_items occs)) as [|o found]; simpl; [reflexivity|].
  destruct (listings rest k); simpl; [rewrite app_nil_r; reflexivity|].
  rewrite <- app_assoc. reflexivity.
Qed.

Lemma seen_occurrences_listed (houses_by_number : houses_index) (occ : Z) :
  listings houses_by_number occ <> [] ->
  In (occ, listings houses_by_number occ) (seen_occurrences houses_by_number).
Proof.
  intros Hl. apply idict_get_In. unfold seen_occurrences.
  rewrite seen_occurrences_get.
  destruct (listings houses_by_number occ); [destruct (Hl eq_refl) | reflexivity].
Qed.



(* ------------------------------------------------------------------------- *)
(** ** build_relationship_indexes: what a check without ERROR guarantees *)

Lemma no_error_concat (parts : list (list Issue)) (l : list Issue) :
  no_error (List.concat parts) -> In l parts -> no_error l.
Proof.
  induction parts as [|x parts IH]; simpl; [intros _ []|].
  intros Hne [-> | Hin]; apply no_error_app in Hne; [tauto|].
  apply IH; tauto.
Qed.

Lemma no_error_flat_map {A : Type} (f : A -> list Issue) (xs : list A) (x : A) :
  no_error (flat_map f xs) -> In x xs -> no_error (f x).
Proof.
  induction xs as [|y xs IH]; simpl; [intros _ []|].
  intros Hne [-> | Hin]; apply no_error_app in Hne; [tauto|].
  apply IH; tauto.
Qed.

Lemma is_int_eq_spec (v : PyVal) (n : Z) : is_int_eq v n = true -> v = PInt n.
Proof.
  destruct v; simpl; try discriminate. intros E. apply Z.eqb_eq in E. subst. reflexivity.
Qed.

Lemma idict_item_get {V : Type} (d : idict V) (k : Z) (v : V) :
  idict_item d k = Ok v -> idict_get d k = Some v.
Proof.
  unfold idict_item. destruct (idict_get d k); [intros [= ->]; reflexivity | discriminate].
Qed.

Lemma no_error_forallb (l : list Issue) :
  no_error l ->
  forallb (fun i => match level i with ERROR => false | WARN => true end) l = true.
Proof.
  induction l as [|i l IH]; [reflexivity|].
  change (i :: l) with ([i] ++ l). intros Hne. apply no_error_app in Hne.
  destruct Hne as [Hi Hl]. simpl. rewrite (IH Hl).
  destruct i as [[] r m]; [discriminate Hi | reflexivity].
Qed.

(** Closes a goal whose hypothesis [H] says that a list holding an ERROR has
    none. *)
Ltac has_error H :=
  exfalso; apply no_error_forallb in H;
  cbn [forallb app level andb] in H; discriminate H.

Ltac step_bind H :=
  match type of H with
  | bind ?m _ = _ =>
      let E := fresh "E" in destruct m eqn:E; cbn [bind] in H; [|discriminate H]
  end.

Lemma spouse_check_clean `{PyRuntime} (chars_by_id : chars_index) (a b : Z)
  (l : list Issue) :
  spouse_check chars_by_id [] (a, b) = Ok l -> no_error l ->
  lawful_marriage chars_by_id a b.
Proof.
  unfold spouse_check, lawful_marriage.
  destruct (idict_get chars_by_id b) as [cb|] eqn:Eb.
  2:{ intros [= <-] Hne. unfold spouse_missing_issue in Hne. has_error Hne. }
  destruct (family_field cb "spouse") as [b_spouse|e] eqn:Ef; cbn [bind]; [|discriminate].
  destruct (idict_item chars_by_id a) as [ca|e] eqn:Ea; cbn [bind]; [|discriminate].
  destruct (in_MF (dict_get ca "gender")) as [a_known|e] eqn:Ega; cbn [bind];
    [|discriminate].
  remember (if a_known
            then b_known <- in_MF (dict_get cb "gender") ;;
                 Ok (b_known && py_eq (dict_get ca "gender") (dict_get cb "gender"))%bool
            else Ok false) as m eqn:Esame.
  destruct m as [same|e]; cbn [bind]; [|discriminate].
  intros [= <-] Hne.
  unfold married_minor_issue, marriage_gender_issue, spouse_asymmetric_issue in Hne.
  destruct (int_below (dict_get cb "age") 18) eqn:Eagb;
    [destruct (error_is_counted _ _ _ Hne)|].
  destruct (int_below (dict_get ca "age") 18) eqn:Eaga;
    [destruct (error_is_counted _ _ _ Hne)|].
  destruct same; [destruct (error_is_counted _ _ _ Hne)|].
  destruct (is_int_eq b_spouse a) eqn:Esym; [|has_error Hne].
  exists ca, cb. split; [exact (idict_item_get _ _ _ Ea)|]. split; [reflexivity|].
  split; [rewrite (is_int_eq_spec _ _ Esym) in Ef; exact Ef|].
  split; [|split; assumption].
  intros (Hga & Hgb & Heq). rewrite Hga in Ega. injection Ega as <-.
  rewrite Hgb in Esame. cbn [bind] in Esame. rewrite Heq in Esame. discriminate Esame.
Qed.

Lemma parent_check_clean `{PyRuntime} (chars_by_id : chars_index) (p ch : Z)
  (kids : pyset) :
  no_error (parent_check chars_by_id [] (p, kids)) -> In ch kids ->
  lawful_parenthood chars_by_id p ch.
Proof.
  rewrite parent_check_issues. intros Hne Hin. apply no_error_app in Hne.
  destruct Hne as [Hyoung Hkids]. unfold lawful_parenthood. split.
  - destruct (int_below (age_of chars_by_id p) 18); [|reflexivity].
    unfold young_parent_issue in Hyoung. has_error Hyoung.
  - apply (no_error_flat_map _ _ ch) in Hkids; [|apply set_iter_In; exact Hin].
    destruct (child_check_issues chars_by_id p ch (age_of chars_by_id p))
      as [[_ E] | (c & Hc & [(pa & ca & _ & _ & _ & E) | [Hgap _]])].
    + rewrite E in Hkids. unfold child_missing_issue in Hkids. has_error Hkids.
    + rewrite E in Hkids. unfold age_gap_issue in Hkids. has_error Hkids.
    + exists c. split; [exact Hc | exact Hgap].
Qed.

Lemma parents_check_clean `{PyRuntime} (chars_by_id : chars_index) (ch : Z)
  (ps : pyset) (l : list Issue) :
  parents_check chars_by_id [] (ch, ps) = Ok l -> no_error l ->
  lawful_parents chars_by_id ps.
Proof.
  unfold parents_check, lawful_parents. intros Hl Hne.
  assert (Hlen : (2 <? Z.of_nat (List.length ps)) = false).
  { destruct (2 <? Z.of_nat (List.length ps)) eqn:E; [exfalso|reflexivity].
    unfold too_many_parents_issue, same_gender_parents_issue in Hl.
    destruct (sorted_ints ps) as [|p1 [|p2 [|p3 rest]]];
      try (injection Hl as <-; has_error Hne).
    repeat step_bind Hl.
    match type of Hl with
    | (if ?c then _ else _) = _ => destruct c
    end; injection Hl as <-;
      match type of Hne with
      | context [if ?s then _ else _] => destruct s
      end; has_error Hne. }
  split; [apply Z.ltb_ge in Hlen; lia|].
  rewrite Hlen in Hl. intros p1 p2 Hs. rewrite Hs in Hl.
  destruct (idict_item chars_by_id p1) as [c1|e] eqn:E1; cbn [bind] in Hl; [|discriminate].
  destruct (idict_item chars_by_id p2) as [c2|e] eqn:E2; cbn [bind] in Hl; [|discriminate].
  exists c1, c2. split; [exact (idict_item_get _ _ _ E1)|].
  split; [exact (idict_item_get _ _ _ E2)|].
  intros (Hg1 & _ & Heq). rewrite Heq, Hg1 in Hl. cbn [bind] in Hl.
  unfold same_gender_parents_issue in Hl.
  repeat step_bind Hl.
  match type of Hl with
  | (if ?c then _ else _) = _ => destruct c
  end; injection Hl as <-; has_error Hne.
Qed.

Lemma relationship_check_lawful `{PyRuntime} (chars_by_id : chars_index)
  (spouse_of : idict Z) (parents_of_child children_of_parent : idict pyset)
  (issues : list Issue) :
  build_relationship_indexes chars_by_id
  = Ok (spouse_of, parents_of_child, children_of_parent, issues) ->
  no_error issues ->
  (forall a b, idict_get spouse_of a = Some b -> lawful_marriage chars_by_id a b)
  /\ (forall p ch, In ch (dd_get children_of_parent p) -> lawful_parenthood chars_by_id p ch)
  /\ (forall ch, lawful_parents chars_by_id (dd_get parents_of_child ch)).
Proof.
  intros Hb Hne.
  destruct (relationship_parts _ _ _ _ _ Hb) as (_ & sparts & pparts & Hs & Hp & ->).
  apply no_error_app in Hne. destruct Hne as [_ Hne].
  apply no_error_app in Hne. destruct Hne as [Hsp Hne].
  apply no_error_app in Hne. destruct Hne as [Hch Hpa].
  split; [|split].
  - intros a b Hab. apply idict_get_In in Hab.
    destruct (Forall2_In_l _ _ _ _ Hs Hab) as (l & Hl & Hcheck).
    exact (spouse_check_clean _ _ _ _ Hcheck (no_error_concat _ _ Hsp Hl)).
  - intros p ch Hin. unfold dd_get in Hin.
    destruct (idict_get children_of_parent p) as [kids|] eqn:Ek; [|destruct Hin].
    apply idict_get_In in Ek.
    exact (parent_check_clean _ _ _ _ (no_error_flat_map _ _ _ Hch Ek) Hin).
  - intros ch. unfold dd_get.
    destruct (idict_get parents_of_child ch) as [ps|] eqn:Ek.
    + apply idict_get_In in Ek.
      destruct (Forall2_In_l _ _ _ _ Hp Ek) as (l & Hl & Hcheck).
      exact (parents_check_clean _ _ _ _ Hcheck (no_error_concat _ _ Hpa Hl)).
    + split; [simpl; lia|]. intros p1 p2 Hs0. discriminate Hs0.
Qed.



(* ------------------------------------------------------------------------- *)
(** ** validate_cross_file_consistency: what a check without ERROR guarantees *)

Lemma list_Z_eqb_eq (a b : list Z) : list_Z_eqb a b = true -> a = b.
Proof.
  revert b. induction a as [|x a IH]; intros [|y b]; simpl; try discriminate;
    [reflexivity|].
  intros E. apply andb_true_iff in E. destruct E as [Exy E].
  apply Z.eqb_eq in Exy. rewrite (IH b E), Exy. reflexivity.
Qed.

Lemma seen_occurrences_lookup (houses_by_number : houses_index) (k : Z) :
  idict_get (seen_occurrences houses_by_number) k
  = match listings houses_by_number k with
    | [] => None
    | found => Some found
    end.
Proof.
  unfold seen_occurrences. rewrite seen_occurrences_get.
  destruct (listings houses_by_number k); reflexivity.
Qed.

Lemma occupant_surname_clean `{PyRuntime} (chars_by_id : chars_index) (hn : Z)
  (house_surname : string) (occ : Z) :
  no_error (occupant_surname_check chars_by_id hn house_surname [] occ) ->
  occ <> 0
  /\ forall c ln, idict_get chars_by_id occ = Some c -> c <> [] ->
                  nonblank_str (dict_get c "lastName") = Some ln -> ln = house_surname.
Proof.
  unfold occupant_surname_check. intros Hne.
  destruct (occ =? 0) eqn:E0;
    [unfold player_elsewhere_issue in Hne; has_error Hne|].
  split; [apply Z.eqb_neq; exact E0|].
  intros c ln Hc Hnonempty Hln. rewrite Hc in Hne.
  destruct c as [|field c]; [destruct (Hnonempty eq_refl)|].
  rewrite Hln in Hne.
  destruct (String.eqb ln house_surname) eqn:Eln; [apply String.eqb_eq; exact Eln|].
  unfold surname_mismatch_issue in Hne. has_error Hne.
Qed.

Lemma house_check_clean `{PyRuntime} (chars_by_id : chars_index) (spouse_of : idict Z)
  (parents_of_child children_of_parent : idict pyset) (hn : Z) (h : pydict)
  (occs : list PyVal) (l : list Issue) :
  house_check chars_by_id spouse_of parents_of_child children_of_parent [] (hn, h) = Ok l ->
  no_error l ->
  dict_get_or h "occupants" (PList []) = PList occs ->
  (hn = 7 -> int_items occs = [0])
  /\ (hn <> 7 -> forall surname, nonblank_str (dict_get h "surname") = Some surname ->
        ~ In 0 (int_items occs)
        /\ (forall occ c ln,
              In occ (int_items occs) -> idict_get chars_by_id occ = Some c -> c <> [] ->
              nonblank_str (dict_get c "lastName") = Some ln -> ln = surname)
        /\ (forall first others,
              filter (fun o => negb (o =? 0) && idict_has chars_by_id o)%bool
                (int_items occs) = first :: others ->
              NoDup (first :: others)
              /\ forall v, In v (first :: others) ->
                   clos_refl_trans Z
                     (kin spouse_of parents_of_child children_of_parent (first :: others))
                     first v)).
Proof.
  unfold house_check. intros Hl Hne Hoccs. rewrite Hoccs in Hl.
  destruct (hn =? 7) eqn:E7.
  - split; [|intros Hn; apply Z.eqb_eq in E7; destruct (Hn E7)].
    intros _. destruct (list_Z_eqb (int_items occs) [0]) eqn:Eo;
      [exact (list_Z_eqb_eq _ _ Eo)|].
    injection Hl as <-. unfold house7_issue in Hne. has_error Hne.
  - split; [intros ->; discriminate E7|].
    intros _ surname Hs. rewrite Hs in Hl.
    rewrite (fold_left_appends _ _ [] (occupant_surname_check_appends _ _ _)) in Hl.
    cbn [app] in Hl.
    assert (Hsur : no_error (flat_map (occupant_surname_check chars_by_id hn surname [])
                               (int_items occs))
                   /\ forall first others,
                        filter (fun o => negb (o =? 0) && idict_has chars_by_id o)%bool
                          (int_items occs) = first :: others ->
                        NoDup (first :: others)
                        /\ forall v, In v (first :: others) ->
                             clos_refl_trans Z
                               (kin spouse_of parents_of_child children_of_parent
                                  (first :: others)) first v).
    { destruct (filter _ (int_items occs)) as [|first [|second rest]] eqn:Enpcs.
      - injection Hl as <-. split; [exact Hne|]. intros f o Hf. discriminate Hf.
      - injection Hl as <-. split; [exact Hne|]. intros f o [= <- <-].
        split; [repeat constructor; intros []|].
        intros v [<- | []]. apply rt_refl.
      - assert (Hlen : (2 <=? Z.of_nat (List.length (first :: second :: rest))) = true)
          by (apply Z.leb_le; simpl; lia).
        rewrite Hlen in Hl.
        destruct (is_connected_related spouse_of parents_of_child children_of_parent
                    first (second :: rest)) as (b & Hb & Hrel).
        rewrite Hb in Hl. cbn [bind] in Hl. destruct b.
        + injection Hl as <-. split; [exact Hne|]. intros f o [= <- <-].
          exact (proj1 Hrel eq_refl).
        + exfalso.
          match type of Hl with
          | context [components_loop ?f ?g ?u ?c] =>
              destruct (components_loop_terminates g f u c) as (components & Hc); [lia|];
              rewrite Hc in Hl
          end.
          cbn [bind] in Hl. injection Hl as <-. unfold unrelated_issue in Hne.
          destruct (error_is_counted _ _ _ Hne). }
    destruct Hsur as [Hsur Hrel].
    split; [|split; [|exact Hrel]].
    + intros H0. apply (no_error_flat_map _ _ _ Hsur) in H0.
      apply occupant_surname_clean in H0. destruct H0 as [H0 _]. exact (H0 eq_refl).
    + intros occ c ln Hin. apply (no_error_flat_map _ _ _ Hsur) in Hin.
      apply occupant_surname_clean in Hin. destruct Hin as [_ Hin]. exact (Hin c ln).
Qed.

(** X19: When the cross-file check returns without an ERROR, the player is
    not in the roster, every occupant id other than 0 that a house lists is in
    the roster, and every character of the roster is listed by some house and
    by houses of one number only. *)
Theorem error_free_occupancy `{PyRuntime} (chars_by_id : chars_index)
  (houses_by_number : houses_index) (spouse_of : idict Z)
  (parents_of_child children_of_parent : idict pyset) (issues : list Issue) :
  validate_cross_file_consistency chars_by_id houses_by_number spouse_of
    parents_of_child children_of_parent = Ok issues ->
  no_error issues ->
  idict_has chars_by_id 0 = false
  /\ (forall occ, occ <> 0 -> listings houses_by_number occ <> [] ->
        idict_has chars_by_id occ = true)
  /\ (forall cid c, In (cid, c) chars_by_id ->
        exists hn, In hn (listings houses_by_number cid)
                   /\ forall hn', In hn' (listings houses_by_number cid) -> hn' = hn).
Proof.
  intros Hv Hne.
  destruct (cross_file_parts _ _ _ _ _ _ Hv) as (hp & mp & fp & _ & _ & _ & ->).
  apply no_error_app in Hne. destruct Hne as [Hplayer Hne].
  apply no_error_app in Hne. destruct Hne as [Hocc Hne].
  apply no_error_app in Hne. destruct Hne as [Hres _].
  assert (H0 : idict_has chars_by_id 0 = false).
  { destruct (idict_has chars_by_id 0); [|reflexivity].
    unfold player_present_issue in Hplayer. has_error Hplayer. }
  split; [exact H0|]. split.
  - intros occ Hnz Hl.
    assert (Hcheck := no_error_flat_map _ _ _ Hocc
                        (seen_occurrences_listed houses_by_number occ Hl)).
    cbv beta in Hcheck.
    unfold occupant_check in Hcheck. apply Z.eqb_neq in Hnz. rewrite Hnz in Hcheck.
    destruct (idict_has chars_by_id occ); [reflexivity|].
    unfold occupant_unknown_issue, occupant_multi_issue in Hcheck.
    match type of Hcheck with
    | context [if ?b then _ else _] => destruct b
    end; has_error Hcheck.
  - intros cid c Hin.
    assert (Hnz : (cid =? 0) = false).
    { destruct (cid =? 0) eqn:E; [|reflexivity]. apply Z.eqb_eq in E. subst cid.
      rewrite (idict_In_has _ _ _ Hin) in H0. discriminate H0. }
    apply (no_error_flat_map _ _ _ Hres) in Hin as Hcheck.
    unfold residency_check in Hcheck. cbn [fst] in Hcheck. rewrite Hnz in Hcheck.
    rewrite seen_occurrences_lookup in Hcheck.
    destruct (listings houses_by_number cid) as [|hn0 more] eqn:El.
    + unfold homeless_issue in Hcheck. has_error Hcheck.
    + cbv zeta in Hcheck.
      destruct (Nat.eqb (List.length (set_of_list (hn0 :: more))) 1) eqn:Elen;
        [|unfold npc_multi_issue in Hcheck; has_error Hcheck].
      apply Nat.eqb_eq in Elen.
      destruct (set_of_list (hn0 :: more)) as [|hn [|x rest]] eqn:Eset;
        try discriminate Elen.
      exists hn. split.
      * apply set_of_list_In. rewrite Eset. left. reflexivity.
      * intros hn' Hin'. apply set_of_list_In in Hin'. rewrite Eset in Hin'.
        destruct Hin' as [<- | []]. reflexivity.
Qed.

Lemma error_free_occupancy_witness :
  validate_cross_file_consistency lawful_chars lawful_houses
    [(1, 2); (2, 1)] [(3, [1; 2])] [(1, [3]); (2, [3])] = Ok []
  /\ no_error []
  /\ exists hn, In hn (listings lawful_houses 3)
                /\ forall hn', In hn' (listings lawful_houses 3) -> hn' = hn.
Proof.
  assert (Hv : validate_cross_file_consistency lawful_chars lawful_houses
                 [(1, 2); (2, 1)] [(3, [1; 2])] [(1, [3]); (2, [3])] = Ok [])
    by (vm_compute; reflexivity).
  assert (Hne : no_error []) by reflexivity.
  split; [exact Hv|]. split; [exact Hne|].
  destruct (error_free_occupancy _ _ _ _ _ _ Hv Hne) as (_ & _ & Hres).
  apply (Hres 3 (snd (person 3 "F" 9 (-1) []))). right. right. left. reflexivity.
Defined.

(** X20: When the cross-file check returns without an ERROR, a house of the
    index whose occupants value is a list (or absent) is in order: house 7
    lists the player alone; any other house with a surname does not list the
    player, every occupant whose record has a last name bears the surname of
    the house, and the occupants that are in the roster are listed once each
    and tied to the first of them by chains of spouse, parent-child or sibling
    ties within the house. *)
Theorem error_free_house `{PyRuntime} (chars_by_id : chars_index)
  (houses_by_number : houses_index) (spouse_of : idict Z)
  (parents_of_child children_of_parent : idict pyset) (issues : list Issue)
  (hn : Z) (h : pydict) (occs : list PyVal) :
  validate_cross_file_consistency chars_by_id houses_by_number spouse_of
    parents_of_child children_of_parent = Ok issues ->
  no_error issues ->
  In (hn, h) houses_by_number ->
  dict_get_or h "occupants" (PList []) = PList occs ->
  (hn = 7 -> int_items occs = [0])
  /\ (hn <> 7 -> forall surname, nonblank_str (dict_get h "surname") = Some surname ->
        ~ In 0 (int_items occs)
        /\ (forall occ c ln,
              In occ (int_items occs) -> idict_get chars_by_id occ = Some c -> c <> [] ->
              nonblank_str (dict_get c "lastName") = Some ln -> ln = surname)
        /\ (forall first others,
              filter (fun o => negb (o =? 0) && idict_has chars_by_id o)%bool
                (int_items occs) = first :: others ->
              NoDup (first :: others)
              /\ forall v, In v (first :: others) ->
                   clos_refl_trans Z
                     (kin spouse_of parents_of_child children_of_parent (first :: others))
                     first v)).
Proof.
  intros Hv Hne Hin Hoccs.
  destruct (cross_file_parts _ _ _ _ _ _ Hv) as (hp & mp & fp & Hh & _ & _ & ->).
  do 4 (apply no_error_app in Hne; destruct Hne as [_ Hne]).
  apply no_error_app in Hne. destruct Hne as [Hne _].
  destruct (Forall2_In_l _ _ _ _ Hh Hin) as (l & Hl & Hcheck).
  exact (house_check_clean _ _ _ _ _ _ _ _ Hcheck (no_error_concat _ _ Hne Hl) Hoccs).
Qed.

Lemma error_free_house_witness :
  validate_cross_file_consistency lawful_chars lawful_houses
    [(1, 2); (2, 1)] [(3, [1; 2])] [(1, [3]); (2, [3])] = Ok []
  /\ no_error []
  /\ clos_refl_trans Z (kin [(1, 2); (2, 1)] [(3, [1; 2])] [(1, [3]); (2, [3])] [1; 2; 3])
       1 3.
Proof.
  assert (Hv : validate_cross_file_consistency lawful_chars lawful_houses
                 [(1, 2); (2, 1)] [(3, [1; 2])] [(1, [3]); (2, [3])] = Ok [])
    by (vm_compute; reflexivity).
  assert (Hne : no_error []) by reflexivity.
  split; [exact Hv|]. split; [exact Hne|].
  assert (Hin : In (3, [("houseNumber", PInt 3); ("surname", PStr "Reed");
                        ("occupants", PList [PInt 1; PInt 2; PInt 3])]) lawful_houses)
    by (left; reflexivity).
  destruct (error_free_house _ _ _ _ _ _ 3 _ _ Hv Hne Hin eq_refl) as [_ Hhouse].
  assert (H3 : 3 <> 7) by discriminate.
  destruct (Hhouse H3 "Reed" eq_refl) as (_ & _ & Hrel).
  destruct (Hrel 1 [2; 3] eq_refl) as [_ Hreach].
  apply Hreach. right. right. left. reflexivity.
Defined.
